(** * Vacation tracker backend (Google Apps Script): a shallow embedding

    The development follows [src/backend.js] function by function and
    keeps its names.

    - Values.  What lives in a sheet cell or a variable is a [value]: a
      string, a number, a date, [null] or [undefined], with the coercions
      the script relies on ([String(x)], [Number(x)], [new Date(x)],
      [x || y], truthiness).  Numbers are integers (day counts, row
      numbers, millisecond time stamps); [NaN] is the missing number
      [None] and the Invalid Date the missing date.  [trim] and
      [toLowerCase] act on the ASCII range.
    - Dates.  A date is its epoch time stamp; the script's time zone is a
      fixed offset, so a calendar day is 86400000 ms long.
    - Sheets.  A sheet is the list of its rows, header first, each cell
      with its note; reads outside the stored cells give blanks, writes
      there grow the sheet, and row or column 0 is refused.  The three
      tabs the script uses are taken to exist.
    - Services.  Sheets, Calendar, Mail, Lock, Cache and the session are
      fields of a [world] record, threaded through a state-and-exception
      monad in which a throw keeps the state reached, as in JavaScript.
      Opening the spreadsheet, waiting for the lock, sending a mail and
      every calendar call may throw: the fault script of the world says
      which of the coming calls do.  Mail bodies are kept by their title
      only, audit details and cache expiry are left out.
    - Objects.  The object literals [usedByEmp] and [uniq], which the
      script uses as dictionaries, are the finite map of the properties
      they own together with the members every object inherits from
      [Object.prototype].
    - The lock.  The world records whether this run holds the script
      lock, and counts, as ghost state, the table accesses made without
      it. *)

From Stdlib Require Import ZArith Lia List Bool Ascii String Sorted.
From stdpp Require Import base option list gmap strings pretty.

Open Scope Z_scope.

(** ** JavaScript values *)

(** A date is its epoch time stamp in milliseconds; [None] is the
    Invalid Date, whose time value is [NaN]. *)
Abbreviation jsdate := (option Z).

(** A number that may be [NaN]. *)
Abbreviation num := (option Z).

Inductive value : Type :=
| VUndef
| VNull
| VStr (s : string)
| VNum (n : Z)
| VDate (t : jsdate).

#[global] Instance value_eq_dec : EqDecision value.
Proof. solve_decision. Defined.

#[global] Instance value_inhabited : Inhabited value := populate VUndef.

(** An empty sheet cell reads as the empty string. *)
Definition blank : value := VStr "".

Definition truthy (v : value) : bool :=
  match v with
  | VUndef | VNull => false
  | VStr s => negb (String.eqb s "")
  | VNum n => negb (n =? 0)
  | VDate _ => true
  end.

(** [a || b] *)
Definition orElse (a b : value) : value := if truthy a then a else b.

(** Relational operators on numbers: every comparison with [NaN] is false. *)
Definition num_lt (a b : num) : bool :=
  match a, b with Some x, Some y => x <? y | _, _ => false end.

Definition num_le (a b : num) : bool :=
  match a, b with Some x, Some y => x <=? y | _, _ => false end.

Definition num_sub (a b : num) : num :=
  match a, b with Some x, Some y => Some (x - y) | _, _ => None end.

(** [n || 0] for a number *)
Definition orZero (n : num) : Z := default 0 n.

(** ** Strings: the ASCII fragment of [trim], [toLowerCase], [includes] *)

Definition is_space (c : ascii) : bool :=
  let n := nat_of_ascii c in
  ((9 <=? n) && (n <=? 13))%nat || (n =? 32)%nat.

Fixpoint trimStart (s : string) : string :=
  match s with
  | String c s' => if is_space c then trimStart s' else s
  | EmptyString => EmptyString
  end.

Fixpoint all_space (s : string) : bool :=
  match s with
  | String c s' => is_space c && all_space s'
  | EmptyString => true
  end.

Fixpoint trimEnd (s : string) : string :=
  match s with
  | String c s' => if all_space s then EmptyString else String c (trimEnd s')
  | EmptyString => EmptyString
  end.

Definition trim (s : string) : string := trimEnd (trimStart s).

Definition lower_ascii (c : ascii) : ascii :=
  let n := nat_of_ascii c in
  if ((65 <=? n) && (n <=? 90))%nat then ascii_of_nat (n + 32) else c.

Fixpoint toLowerCase (s : string) : string :=
  match s with
  | String c s' => String (lower_ascii c) (toLowerCase s')
  | EmptyString => EmptyString
  end.

(** [s.includes(sub)] *)
Fixpoint includes (sub s : string) : bool :=
  String.prefix sub s ||
  match s with
  | String _ s' => includes sub s'
  | EmptyString => false
  end.

(** [s.split(sep)] for a one-character separator *)
Fixpoint split_on (sep : ascii) (s : string) (cur : string) : list string :=
  match s with
  | EmptyString => [cur]
  | String c s' =>
      if Ascii.eqb c sep then cur :: split_on sep s' EmptyString
      else split_on sep s' (cur +:+ String c EmptyString)
  end.

Definition split (sep : ascii) (s : string) : list string :=
  split_on sep s EmptyString.

Definition digit_of (c : ascii) : option Z :=
  let n := nat_of_ascii c in
  if ((48 <=? n) && (n <=? 57))%nat then Some (Z.of_nat n - 48) else None.

Fixpoint digits_prefix (s : string) (acc : num) : num :=
  match s with
  | String c s' =>
      match digit_of c with
      | Some d => digits_prefix s' (Some (10 * orZero acc + d))
      | None => acc
      end
  | EmptyString => acc
  end.

(** [parseInt(s, 10)]: leading blanks, an optional sign, then the longest
    run of decimal digits; [NaN] when there is none. *)
Definition parseInt (s : string) : num :=
  match trimStart s with
  | String "-" s' => Z.opp <$> digits_prefix s' None
  | String "+" s' => digits_prefix s' None
  | s' => digits_prefix s' None
  end.

(** [s.substring(0, n)] *)
Fixpoint substring0 (n : nat) (s : string) : string :=
  match n, s with
  | S n', String c s' => String c (substring0 n' s')
  | _, _ => EmptyString
  end.

(** ** The host: what the JavaScript engine and the Sheets service decide *)

(** String parsing by [Date] and [Number], the printing of a date, the
    script time zone and the collation of [Range.sort] belong to the
    platform, not to the script: the script is verified for every choice
    of them.  So do the text the engine prints for the built-in function
    of a given name, and what [Range.setValues] leaves in a cell when it
    is handed the member of [Object.prototype] of a given name, a
    function or the prototype itself, in place of a number or a text. *)
Class Host : Type := {
  Date_parse : string -> jsdate;
  Date_toString : jsdate -> string;
  StringToNumber : string -> num;
  tzOffsetMs : Z;
  range_sort : nat -> list (list (value * string)) -> list (list (value * string));
  Function_toString : string -> string;
  cellOfBuiltin : string -> value
}.

Definition MS_PER_DAY : Z := 86400000.
Definition MS_PER_HOUR : Z := 3600000.

(** Days from 1970-01-01 to the first day of month [m] (0-based, taken
    modulo 12 with carry into the year) of year [y], as the [Date]
    constructor computes them. *)
Definition days_from_civil (y m d : Z) : Z :=
  let y1 := y + m / 12 in
  let m1 := m mod 12 + 1 in
  let y2 := if m1 <=? 2 then y1 - 1 else y1 in
  let era := y2 / 400 in
  let yoe := y2 - era * 400 in
  let mp := (m1 + 9) mod 12 in
  let doy := (153 * mp + 2) / 5 + d - 1 in
  let doe := yoe * 365 + yoe / 4 - yoe / 100 + doy in
  era * 146097 + doe - 719468.

(** ** Sheets *)

(** A cell holds a value and a note; a sheet is its rows, row 1 first. *)
Abbreviation cell := (value * string)%type.
Definition blankCell : cell := (blank, "").
Abbreviation sheet := (list (list cell)).

Definition rowBlank (r : list cell) : bool :=
  forallb (fun c => bool_decide (c.1 = blank)) r.

(** [sh.getLastRow()]: the last row that has content. *)
Fixpoint getLastRow (sh : sheet) : nat :=
  match sh with
  | [] => 0
  | r :: rest =>
      match getLastRow rest with
      | O => if rowBlank r then O else 1%nat
      | S n => S (S n)
      end
  end.

Fixpoint lastCol (r : list cell) : nat :=
  match r with
  | [] => 0
  | c :: rest =>
      match lastCol rest with
      | O => if bool_decide (c.1 = blank) then O else 1%nat
      | S n => S (S n)
      end
  end.

(** [sh.getLastColumn()] *)
Definition getLastColumn (sh : sheet) : nat :=
  foldr (fun r acc => Nat.max (lastCol r) acc) 0%nat sh.

(** A row cut or padded with blank cells to [n] columns. *)
Definition padRow (n : nat) (r : list cell) : list cell :=
  take n (r ++ replicate n blankCell).

(** [sh.getRange(r0, c0, nrows, ncols).getValues()], 1-based *)
Definition rangeValues (sh : sheet) (r0 c0 nrows ncols : nat) : list (list value) :=
  map (fun r => map fst (take ncols (drop (c0 - 1) (padRow (c0 - 1 + ncols) r))))
      (take nrows (drop (r0 - 1) (sh ++ replicate (r0 - 1 + nrows) []))).

(** [sh.getDataRange().getValues()]; an empty sheet yields one blank cell. *)
Definition dataValues (sh : sheet) : list (list value) :=
  match getLastRow sh with
  | O => [[blank]]
  | n => rangeValues sh 1 1 n (getLastColumn sh)
  end.

(** [vals[r][c]], 0-based; out of range is [undefined]. *)
Definition at2 (vals : list (list value)) (r c : nat) : value :=
  default VUndef (row ← vals !! r; row !! c).

(** [row[c]] *)
Definition at1 (row : list value) (c : nat) : value := default VUndef (row !! c).

Definition getCell (sh : sheet) (r c : nat) : cell :=
  default blankCell (row ← sh !! (r - 1)%nat; row !! (c - 1)%nat).

(** Update of the cell at row [r], column [c] (1-based); the sheet grows
    with blank cells when the position lies outside it. *)
Definition updRow (c : nat) (f : cell -> cell) (r : list cell) : list cell :=
  let r' := r ++ replicate (c - length r) blankCell in
  <[(c - 1)%nat := f (default blankCell (r' !! (c - 1)%nat))]> r'.

Definition updCell (r c : nat) (f : cell -> cell) (sh : sheet) : sheet :=
  let sh' := sh ++ replicate (r - length sh) [] in
  <[(r - 1)%nat := updRow c f (default [] (sh' !! (r - 1)%nat))]> sh'.

(** What a JavaScript value becomes when it is written to a cell. *)
Definition toCell (v : value) : value :=
  match v with
  | VUndef | VNull => blank
  | _ => v
  end.

(** [sh.appendRow(vals)]: the row after the last one that has content. *)
Definition appendRow (vals : list value) (sh : sheet) : sheet :=
  take (getLastRow sh) sh ++ [map (fun v => (toCell v, "")) vals].

(** [sh.getRange(r0, c, n, 1).setValues(col)] *)
Definition setColumn (r0 c : nat) (col : list value) (sh : sheet) : sheet :=
  foldl (fun acc '(i, v) => updCell (r0 + i) c (fun old => (toCell v, old.2)) acc)
        sh (imap (fun i v => (i, v)) col).

(** ** The world: the services the script talks to *)

Record event : Type := Event { ev_title : string; ev_start : Z; ev_end : Z }.

Record mail : Type := Mail {
  m_to : string; m_subject : string; m_title : string; m_cc : string }.

Inductive sheetName : Type := SHEET_SOLICITUDES | SHEET_EMPLEADOS | SHEET_MANAGERS.

Record world : Type := World {
  activeUser : string;            (* Session.getActiveUser().getEmail() *)
  now : Z;                        (* the clock, epoch milliseconds *)
  solicitudes : sheet;
  empleados : sheet;
  managersSheet : sheet;
  auditLog : list (string * string);
  scriptCache : option (list string);   (* the entry 'manager_emails' *)
  userCache : gmap string Z;      (* rate-limit counters *)
  calendar : gmap string event;   (* the calendar 'Team Vacations' *)
  outbox : list mail;
  lockHeld : bool;                (* the script lock, held by this run *)
  unlockedAccesses : nat;         (* ghost: table accesses made without the lock *)
  faults : list bool              (* which of the coming service calls throw *)
}.

Definition set_solicitudes (x : sheet) (w : world) : world :=
  World (activeUser w) (now w) x (empleados w) (managersSheet w) (auditLog w)
        (scriptCache w) (userCache w) (calendar w) (outbox w) (lockHeld w)
        (unlockedAccesses w) (faults w).
Definition set_empleados (x : sheet) (w : world) : world :=
  World (activeUser w) (now w) (solicitudes w) x (managersSheet w) (auditLog w)
        (scriptCache w) (userCache w) (calendar w) (outbox w) (lockHeld w)
        (unlockedAccesses w) (faults w).
Definition set_managersSheet (x : sheet) (w : world) : world :=
  World (activeUser w) (now w) (solicitudes w) (empleados w) x (auditLog w)
        (scriptCache w) (userCache w) (calendar w) (outbox w) (lockHeld w)
        (unlockedAccesses w) (faults w).
Definition set_auditLog (x : list (string * string)) (w : world) : world :=
  World (activeUser w) (now w) (solicitudes w) (empleados w) (managersSheet w) x
        (scriptCache w) (userCache w) (calendar w) (outbox w) (lockHeld w)
        (unlockedAccesses w) (faults w).
Definition set_scriptCache (x : option (list string)) (w : world) : world :=
  World (activeUser w) (now w) (solicitudes w) (empleados w) (managersSheet w)
        (auditLog w) x (userCache w) (calendar w) (outbox w) (lockHeld w)
        (unlockedAccesses w) (faults w).
Definition set_userCache (x : gmap string Z) (w : world) : world :=
  World (activeUser w) (now w) (solicitudes w) (empleados w) (managersSheet w)
        (auditLog w) (scriptCache w) x (calendar w) (outbox w) (lockHeld w)
        (unlockedAccesses w) (faults w).
Definition set_calendar (x : gmap string event) (w : world) : world :=
  World (activeUser w) (now w) (solicitudes w) (empleados w) (managersSheet w)
        (auditLog w) (scriptCache w) (userCache w) x (outbox w) (lockHeld w)
        (unlockedAccesses w) (faults w).
Definition set_outbox (x : list mail) (w : world) : world :=
  World (activeUser w) (now w) (solicitudes w) (empleados w) (managersSheet w)
        (auditLog w) (scriptCache w) (userCache w) (calendar w) x (lockHeld w)
        (unlockedAccesses w) (faults w).
Definition set_lockHeld (x : bool) (w : world) : world :=
  World (activeUser w) (now w) (solicitudes w) (empleados w) (managersSheet w)
        (auditLog w) (scriptCache w) (userCache w) (calendar w) (outbox w) x
        (unlockedAccesses w) (faults w).
Definition set_unlockedAccesses (x : nat) (w : world) : world :=
  World (activeUser w) (now w) (solicitudes w) (empleados w) (managersSheet w)
        (auditLog w) (scriptCache w) (userCache w) (calendar w) (outbox w)
        (lockHeld w) x (faults w).
Definition set_faults (x : list bool) (w : world) : world :=
  World (activeUser w) (now w) (solicitudes w) (empleados w) (managersSheet w)
        (auditLog w) (scriptCache w) (userCache w) (calendar w) (outbox w)
        (lockHeld w) (unlockedAccesses w) x.

(** ** The monad: state, and exceptions that keep the state reached *)

Inductive result (A : Type) : Type :=
| Ok (a : A)
| Throw (msg : string).
Arguments Ok {A} a.
Arguments Throw {A} msg.

(** Computations over a state [S]; the script runs in [M], over the world. *)
Definition St (S A : Type) : Type := S -> result A * S.
Abbreviation M := (St world).

#[global] Instance St_ret {S : Type} : MRet (St S) := fun A a w => (Ok a, w).

#[global] Instance St_bind {S : Type} : MBind (St S) := fun A B f m w =>
  match m w with
  | (Ok a, w') => f a w'
  | (Throw e, w') => (Throw e, w')
  end.

Definition throw {S A : Type} (msg : string) : St S A := fun w => (Throw msg, w).

Definition gets {S A : Type} (f : S -> A) : St S A := fun w => (Ok (f w), w).

Definition modify {S : Type} (f : S -> S) : St S unit := fun w => (Ok (), f w).

(** [try { body } catch (e) { handler(e.message) }] *)
Definition try_catch {S A : Type} (body : St S A) (handler : string -> St S A) : St S A :=
  fun w =>
    match body w with
    | (Ok a, w') => (Ok a, w')
    | (Throw e, w') => handler e w'
    end.

(** [try { body } finally { fin }] *)
Definition try_finally {S A : Type} (body : St S A) (fin : St S unit) : St S A :=
  fun w =>
    match body w with
    | (r, w') =>
        match fin w' with
        | (Ok _, w'') => (r, w'')
        | (Throw e, w'') => (Throw e, w'')
        end
    end.

(** A function's own [let] variables [L], which a [catch] block still
    sees as the [try] block left them, ride along with the world. *)
Definition lift {L A : Type} (m : M A) : St (L * world) A := fun lw =>
  match m lw.2 with
  | (r, w') => (r, (lw.1, w'))
  end.

(** A function body that starts with its variables set to [init]. *)
Definition withLocals {L A : Type} (init : L) (m : St (L * world) A) : M A := fun w =>
  match m (init, w) with
  | (r, (_, w')) => (r, w')
  end.

(** A call to an outside service: it throws when the fault script says so. *)
Definition ext (msg : string) : M unit := fun w =>
  match faults w with
  | true :: fs => (Throw msg, set_faults fs w)
  | false :: fs => (Ok (), set_faults fs w)
  | [] => (Ok (), w)
  end.

(** Every read or write of a table is counted when the lock is not held. *)
Definition touched (w : world) : world :=
  set_unlockedAccesses
    (if lockHeld w then unlockedAccesses w else S (unlockedAccesses w)) w.

Definition touch : M unit := modify touched.

Definition sheetOf (n : sheetName) (w : world) : sheet :=
  match n with
  | SHEET_SOLICITUDES => solicitudes w
  | SHEET_EMPLEADOS => empleados w
  | SHEET_MANAGERS => managersSheet w
  end.

Definition set_sheet (n : sheetName) (sh : sheet) : world -> world :=
  match n with
  | SHEET_SOLICITUDES => set_solicitudes sh
  | SHEET_EMPLEADOS => set_empleados sh
  | SHEET_MANAGERS => set_managersSheet sh
  end.

Definition readSheet {A : Type} (n : sheetName) (f : sheet -> A) : M A :=
  touch;; gets (fun w => f (sheetOf n w)).

Definition writeSheet (n : sheetName) (f : sheet -> sheet) : M unit :=
  touch;; modify (fun w => set_sheet n (f (sheetOf n w)) w).

(** [sh.getRange(row, col)]: the coordinates must be positive. *)
Definition checkRange (row col : Z) : M unit :=
  if (row <? 1) || (col <? 1) then throw "The coordinates of the range are outside the dimensions of the sheet."
  else mret ().

Definition getValue (n : sheetName) (row col : Z) : M value :=
  checkRange row col;;
  readSheet n (fun sh => (getCell sh (Z.to_nat row) (Z.to_nat col)).1).

Definition setValue (n : sheetName) (row col : Z) (v : value) : M unit :=
  checkRange row col;;
  writeSheet n (updCell (Z.to_nat row) (Z.to_nat col) (fun old => (toCell v, old.2))).

Definition setNote (n : sheetName) (row col : Z) (note : string) : M unit :=
  checkRange row col;;
  writeSheet n (updCell (Z.to_nat row) (Z.to_nat col) (fun old => (old.1, note))).

Definition clearContent (n : sheetName) (row col : Z) : M unit :=
  checkRange row col;;
  writeSheet n (updCell (Z.to_nat row) (Z.to_nat col) (fun old => (blank, old.2))).

Section Backend.
Context `{Host}.

(** *** Dates *)

(** The calendar day (days since 1970-01-01) of a time stamp, in the
    script's time zone. *)
Definition localDay (t : Z) : Z := (t + tzOffsetMs) / MS_PER_DAY.

(** [d.setHours(h, 0, 0, 0)] *)
Definition Date_setHours (h : Z) (d : jsdate) : jsdate :=
  t ← d; Some (localDay t * MS_PER_DAY + h * MS_PER_HOUR - tzOffsetMs).

(** [d.getDay()]: 0 is Sunday, 6 is Saturday; 1970-01-01 was a Thursday. *)
Definition Date_getDay (d : jsdate) : num :=
  t ← d; Some ((localDay t + 4) mod 7).

(** [d.setDate(d.getDate() + 1)] *)
Definition Date_nextDay (d : jsdate) : jsdate :=
  t ← d; Some (t + MS_PER_DAY).

(** [d.getTime()] *)
Definition Date_getTime (d : jsdate) : num := d.

(** [new Date(v)] *)
Definition Date_new (v : value) : jsdate :=
  match v with
  | VDate t => t
  | VNum n => Some n
  | VStr s => Date_parse s
  | VNull => Some 0
  | VUndef => None
  end.

(** [new Date(y, m, d, 12, 0, 0)]; a year from 0 to 99 means 1900 + y. *)
Definition Date_ymd_noon (y m d : num) : jsdate :=
  match y, m, d with
  | Some y, Some m, Some d =>
      let y' := if (0 <=? y) && (y <=? 99) then 1900 + y else y in
      Some (days_from_civil y' m d * MS_PER_DAY + 12 * MS_PER_HOUR - tzOffsetMs)
  | _, _, _ => None
  end.

(** *** Coercions *)

(** [String(v)] *)
Definition String_ (v : value) : string :=
  match v with
  | VUndef => "undefined"
  | VNull => "null"
  | VStr s => s
  | VNum n => pretty n
  | VDate t => Date_toString t
  end.

(** [Number(v)] *)
Definition Number_ (v : value) : num :=
  match v with
  | VUndef => None
  | VNull => Some 0
  | VStr s => if String.eqb s "" then Some 0 else StringToNumber s
  | VNum n => Some n
  | VDate t => t
  end.

(** [a < b] where one side is a date: both sides become numbers. *)
Definition value_lt (a b : value) : bool := num_lt (Number_ a) (Number_ b).

(** *** Object literals used as dictionaries *)

(** An object written [{}] inherits from [Object.prototype]: a key it
    does not own still reads as the member of that name, when it is one
    of these. *)
Definition prototypeNames : list string :=
  ["constructor"; "hasOwnProperty"; "isPrototypeOf"; "propertyIsEnumerable";
   "toLocaleString"; "toString"; "valueOf"; "__defineGetter__";
   "__defineSetter__"; "__lookupGetter__"; "__lookupSetter__"; "__proto__"].

Definition inherited (k : string) : bool := bool_decide (k ∈ prototypeNames).

(** What [o[k]] reads: a property the object owns, a member of the
    prototype, or [undefined]. *)
Inductive member : Type :=
| Own (v : value)
| Builtin (k : string)
| Missing.

Definition getMember (o : gmap string value) (k : string) : member :=
  match o !! k with
  | Some v => Own v
  | None => if inherited k then Builtin k else Missing
  end.

(** [o[k] = v] for a number or a text [v].  The key [__proto__] is an
    accessor of the prototype, whose setter ignores such a value: the
    object never owns it. *)
Definition setMember (k : string) (v : value) (o : gmap string value)
    : gmap string value :=
  if String.eqb k "__proto__" then o else <[k := v]> o.

(** [String(m)] for a member of the prototype: the text of a built-in
    function, which [constructor] names [Object] and every other key by
    the key itself, and '[object Object]' for the prototype, which
    [__proto__] reads. *)
Definition builtinText (k : string) : string :=
  if String.eqb k "__proto__" then "[object Object]"
  else Function_toString (if String.eqb k "constructor" then "Object" else k).

(** [(m || 0) + dias] for a number [dias]: the sum when the left operand
    is a number, and else the two texts put together. *)
Definition plusDays (m : member) (dias : Z) : value :=
  match m with
  | Builtin k => VStr (builtinText k +:+ pretty dias)
  | Missing => VNum (0 + dias)
  | Own v =>
      match orElse v (VNum 0) with
      | VNum n => VNum (n + dias)
      | v' => VStr (String_ v' +:+ pretty dias)
      end
  end.

(** [m || 0], as [Range.setValues] receives it. *)
Definition orZeroCell (m : member) : value :=
  match m with
  | Builtin k => cellOfBuiltin k
  | Missing => VNum 0
  | Own v => orElse v (VNum 0)
  end.

(** *** normalizeDate_ and countBusinessDays_ *)

Definition normalizeDate_ (d : value) : jsdate :=
  Date_setHours 0 (Date_new d).

(** The [while (cur <= e)] loop of [countBusinessDays_].  [None] means
    the fuel ran out before the condition became false. *)
Fixpoint countLoop (fuel : nat) (cur e : jsdate) (count : Z) : option Z :=
  match fuel with
  | O => None
  | S fuel' =>
      if num_le cur e then
        let day := Date_getDay cur in
        let count' :=
          if negb (bool_decide (day = Some 0)) && negb (bool_decide (day = Some 6))
          then count + 1 else count in
        countLoop fuel' (Date_nextDay cur) e count'
      else Some count
  end.

(** One more than the number of iterations the loop makes from [s] to [e]. *)
Definition loopFuel (s e : jsdate) : nat :=
  match s, e with
  | Some a, Some b => Z.to_nat ((b - a) / MS_PER_DAY + 2)
  | _, _ => 1%nat
  end.

Definition countBusinessDays_fuel (fuel : nat) (start end_ : value) : option Z :=
  if negb (truthy start) || negb (truthy end_) then Some 0 else
  let s := normalizeDate_ start in
  let e := normalizeDate_ end_ in
  if num_lt e s then Some 0 else
  countLoop fuel (Date_new (VDate s)) e 0.

Definition countBusinessDays_ (start end_ : value) : Z :=
  default 0 (countBusinessDays_fuel
               (loopFuel (normalizeDate_ start) (normalizeDate_ end_)) start end_).


(** ** The script *)

(** *** Configuration *)

Definition ENFORCE_BALANCE_BEFORE_EVENT : bool := true.
Definition MIN_ADVANCE_DAYS : Z := 0.
Definition ENFORCE_MIN_ADVANCE_DAYS : bool := false.

(** [RATE_LIMITS[action]]: the maximum and the window in seconds *)
Definition RATE_LIMITS (action : string) : option (Z * Z) :=
  if String.eqb action "create_request" then Some (5, 3600)
  else if String.eqb action "cancel_request" then Some (3, 3600)
  else if String.eqb action "edit_request" then Some (10, 3600)
  else None.

Definition Pendiente : string := "Pendiente".
Definition NecesitaRevision : string := "Necesita Revisión".
Definition Aprobado : string := "Aprobado".
Definition AprobadoExcepcion : string := "Aprobado (Excepción)".
Definition Cancelado : string := "Cancelado".

(** [`${n}`] for a number *)
Definition num_str (n : num) : string :=
  match n with
  | Some z => pretty z
  | None => "NaN"
  end.

(** [v === 'text'] *)
Definition is_str (v : value) (s : string) : bool := bool_decide (v = VStr s).

(** *** Services *)

(** [_getDb()]: opening the spreadsheet may fail. *)
Definition _getDb : M unit :=
  try_catch (ext "Service Spreadsheets failed")
            (fun e => throw ("Error connecting to database: " +:+ e)).

Definition logAudit_ (action : string) (userEmail : string) : M unit :=
  try_catch
    (_getDb;;
     user ← gets (fun w => if String.eqb userEmail "" then activeUser w else userEmail);
     modify (fun w => set_auditLog (auditLog w ++ [(user, action)]) w))
    (fun _ => mret ()).

(** The cache key of a rate-limit counter *)
Definition rateKey (action userEmail : string) : string :=
  "ratelimit_" +:+ action +:+ "_" +:+ userEmail.

Definition checkRateLimit_ (userEmail action : string) : M bool :=
  let key := rateKey action userEmail in
  count ← gets (fun w => default 0 (userCache w !! key));
  match RATE_LIMITS action with
  | None => mret true
  | Some (max, window) =>
      if max <=? count then
        throw ("Too many attempts. Please try again in "
                 +:+ pretty ((window + 59) / 60) +:+ " minutes.")
      else
        modify (fun w => set_userCache (<[key := count + 1]> (userCache w)) w);;
        mret true
  end.

(** [lock.waitLock(ms)] and [lock.releaseLock()] *)
Definition waitLock : M unit :=
  ext "Lock timeout: another process was holding the lock for too long.";;
  modify (set_lockHeld true).

Definition releaseLock : M unit := modify (set_lockHeld false).

(** The filter [x => x && (uniq[x] ? false : (uniq[x] = true))] of
    [getManagerEmails_]: an entry is kept when it is not empty and
    [uniq[x]] is not truthy yet, and [uniq] owns it from then on.  [uniq]
    is the set of the keys the object owns, all with the value [true];
    the members it inherits are functions or the prototype, and truthy
    from the start. *)
Fixpoint uniqNonEmpty (uniq : gset string) (l : list string) : list string :=
  match l with
  | [] => []
  | x :: l' =>
      if String.eqb x "" then uniqNonEmpty uniq l'
      else if inherited x || bool_decide (x ∈ uniq) then uniqNonEmpty uniq l'
      else x :: uniqNonEmpty ({[x]} ∪ uniq) l'
  end.

(** The roster the sheet 'Notificar Solicitudes' holds below its header. *)
Definition managersIn (sh : sheet) : list string :=
  let vals := rangeValues sh 2 1 (getLastRow sh - 1) 1 in
  uniqNonEmpty ∅ (map (fun r => trim (String_ (at1 r 0))) vals).

Definition getManagerEmails_ : M (list string) :=
  cached ← gets scriptCache;
  match cached with
  | Some l => mret l
  | None =>
      _getDb;;
      last ← readSheet SHEET_MANAGERS getLastRow;
      if (last <? 2)%nat then mret [] else
      managers ← readSheet SHEET_MANAGERS managersIn;
      modify (set_scriptCache (Some managers));;
      mret managers
  end.

Record sendResult : Type := SendResult { success : bool; error : option string }.

Definition sendEmailSafe_ (to : value) (subject title cc : string) : M sendResult :=
  try_catch
    (ext "Service invoked too many times for one day: email.";;
     modify (fun w => set_outbox (outbox w ++ [Mail (String_ to) subject title cc]) w);;
     mret (SendResult true None))
    (fun e => mret (SendResult false (Some e))).

Fixpoint join (sep : string) (l : list string) : string :=
  match l with
  | [] => ""
  | [x] => x
  | x :: l' => x +:+ sep +:+ join sep l'
  end.

Definition notifyManagersCompact_ (subject title : string) : M sendResult :=
  managers ← getManagerEmails_;
  match managers with
  | [] => mret (SendResult false (Some "No managers found"))
  | to :: rest => sendEmailSafe_ (VStr to) subject title (join "," rest)
  end.

Definition parseDateToNoon_ (dateStr : value) : value :=
  if negb (truthy dateStr) then VNull else
  match dateStr with
  | VDate t => VDate (Date_setHours 12 t)
  | _ =>
      let parts := split "-" (String_ dateStr) in
      if (length parts <? 3)%nat then VDate (Date_new dateStr) else
      let y := parseInt (default "" (parts !! 0%nat)) in
      let m := num_sub (parseInt (default "" (parts !! 1%nat))) (Some 1) in
      let d := parseInt (substring0 2 (default "" (parts !! 2%nat))) in
      VDate (Date_ymd_noon y m d)
  end.

(** The loop of [_buscarNombrePorEmail] over the rows after the header. *)
Fixpoint buscarNombreLoop (rows : list (list value)) (searchEmail : string)
    : option value :=
  match rows with
  | [] => None
  | row :: rest =>
      if String.eqb (toLowerCase (trim (String_ (at1 row 1)))) searchEmail
      then Some (at1 row 0)
      else buscarNombreLoop rest searchEmail
  end.

Definition _buscarNombrePorEmail (email : string) : M value :=
  _getDb;;
  data ← readSheet SHEET_EMPLEADOS dataValues;
  let searchEmail := toLowerCase (trim email) in
  mret (default (VStr email) (buscarNombreLoop (drop 1 data) searchEmail)).

Record totals : Type := Totals {
  total : num; usados : num; remaining : num; totals_row : Z }.

Definition noTotals : totals := Totals (Some 0) (Some 0) (Some 0) (-1).

(** [headers.indexOf(x)], or -1 *)
Fixpoint indexOf (x : value) (l : list value) (i : Z) : Z :=
  match l with
  | [] => -1
  | y :: l' => if bool_decide (y = x) then i else indexOf x l' (i + 1)
  end.

Fixpoint totalsLoop (vals : list (list value)) (i : Z) (search : string)
    (saldoVacacionesIdx : Z) : totals :=
  match vals with
  | [] => noTotals
  | row :: rest =>
      let emp := toLowerCase (trim (String_ (orElse (at1 row 0) (VStr "")))) in
      let email := toLowerCase (trim (String_ (orElse (at1 row 1) (VStr "")))) in
      if String.eqb emp search || String.eqb email search then
        let saldoHR := Number_ (orElse (at1 row 3) (VNum 0)) in
        let usados := Number_ (orElse (at1 row 4) (VNum 0)) in
        let remaining :=
          if -1 <? saldoVacacionesIdx
          then Number_ (orElse (at1 row (Z.to_nat saldoVacacionesIdx)) (VNum 0))
          else num_sub saldoHR usados in
        Totals saldoHR usados remaining (i + 2)
      else totalsLoop rest (i + 1) search saldoVacacionesIdx
  end.

(** What [getEmployeeTotals_] computes from the employee sheet. *)
Definition totalsIn (shE : sheet) (empleadoOrEmail : value) : totals :=
  let last := getLastRow shE in
  if (last <? 2)%nat then noTotals else
  let headers := default [] (rangeValues shE 1 1 1 (getLastColumn shE) !! 0%nat) in
  let saldoVacacionesIdx := indexOf (VStr "SaldoVacaciones") headers 0 in
  let maxIdx := Z.max 3 (Z.max 4 saldoVacacionesIdx) + 1 in
  let vals := rangeValues shE 2 1 (last - 1) (Z.to_nat maxIdx) in
  let search := toLowerCase (trim (String_ (orElse empleadoOrEmail (VStr "")))) in
  totalsLoop vals 0 search saldoVacacionesIdx.

Definition getEmployeeTotals_ (empleadoOrEmail : value) : M totals :=
  _getDb;;
  readSheet SHEET_EMPLEADOS (fun shE => totalsIn shE empleadoOrEmail).

Fixpoint teamLoop (rows : list (list value)) (search : string) : option value :=
  match rows with
  | [] => None
  | row :: rest =>
      let name := toLowerCase (trim (String_ (at1 row 0))) in
      let email := toLowerCase (trim (String_ (at1 row 1))) in
      if String.eqb name search || String.eqb email search
      then Some (at1 row 2)
      else teamLoop rest search
  end.

Definition getEmployeeTeam_ (empleado : value) : M value :=
  _getDb;;
  data ← readSheet SHEET_EMPLEADOS dataValues;
  let search := toLowerCase (trim (String_ (orElse empleado (VStr "")))) in
  mret (default (VStr "") (teamLoop (drop 1 data) search)).

(** *** Calendar *)

Definition getCalendar_ : M unit := ext "Service Calendar failed".

(** An all-day event needs valid dates with the end after the start. *)
Definition allDayDates (s e : jsdate) : M (Z * Z) :=
  match s, e with
  | Some a, Some b =>
      if a <? b then mret (a, b)
      else throw "Event start date must be before event end date."
  | _, _ => throw "Invalid argument: date"
  end.

(** [cal.getEventById(id)]: the id when the event exists, else [null] *)
Definition getEventById (id : string) : M (option string) :=
  ext "Service Calendar failed";;
  gets (fun w => match calendar w !! id with Some _ => Some id | None => None end).

Definition deleteEvent (id : string) : M unit :=
  ext "Service Calendar failed";;
  modify (fun w => set_calendar (delete id (calendar w)) w).

Definition setTitle (id title : string) : M unit :=
  ext "Service Calendar failed";;
  modify (fun w => set_calendar
     (alter (fun ev => Event title (ev_start ev) (ev_end ev)) id (calendar w)) w).

Definition setAllDayDates (id : string) (s e : jsdate) : M unit :=
  ext "Service Calendar failed";;
  '(a, b) ← allDayDates s e;
  modify (fun w => set_calendar
     (alter (fun ev => Event (ev_title ev) a b) id (calendar w)) w).

(** [cal.createAllDayEvent(title, s, e).getId()] *)
Definition createAllDayEvent (title : string) (s e : jsdate) : M string :=
  ext "Service Calendar failed";;
  '(a, b) ← allDayDates s e;
  id ← gets (fun w => fresh (dom (calendar w)));
  modify (fun w => set_calendar (<[id := Event title a b]> (calendar w)) w);;
  mret id.

(** *** State-change side effects *)

Definition handleEstadoChange_ (sheet : sheetName) (row : Z) (prevEstado : value)
    : M unit :=
  getCalendar_;;
  email ← getValue sheet row 2;
  empleado ← getValue sheet row 3;
  start ← getValue sheet row 4;
  end_ ← getValue sheet row 5;
  estado ← getValue sheet row 6;
  eventId ← getValue sheet row 8;
  if is_str estado Aprobado || is_str estado AprobadoExcepcion then
    let title :=
      if is_str estado AprobadoExcepcion
      then "Vacations (EXCEPTION): " +:+ String_ empleado
      else "Vacations: " +:+ String_ empleado in
    let s := normalizeDate_ start in
    let e := Date_nextDay (Date_new (VDate (Date_getTime (normalizeDate_ end_)))) in
    ev ← (if truthy eventId then getEventById (String_ eventId) else mret None);
    match ev with
    | Some id => setTitle id title;; setAllDayDates id s e
    | None =>
        id ← createAllDayEvent title s e;
        setValue sheet row 8 (VStr id)
    end;;
    if truthy email then
      sendEmailSafe_ email "Vacation Approved ✅" "Approved" "";; mret ()
    else mret ()
  else
    (if truthy eventId then
       try_catch
         (ev ← getEventById (String_ eventId);
          match ev with Some id => deleteEvent id | None => mret () end;;
          clearContent sheet row 8)
         (fun _ => mret ())
     else mret ());;
    if truthy email && negb (is_str estado Pendiente)
       && negb (is_str estado NecesitaRevision) then
      sendEmailSafe_ email ("Request " +:+ String_ estado)
                     ("Request " +:+ String_ estado) "";; mret ()
    else mret ().

(** *** Balance ledger *)

(** The loop of [recalcEmpleados_] that fills [usedByEmp], given by the
    properties it owns. *)
Fixpoint usedLoop (rows : list (list value)) (usedByEmp : gmap string value)
    : gmap string value :=
  match rows with
  | [] => usedByEmp
  | row :: rest =>
      let est := String_ (at1 row 5) in
      if includes Aprobado est then
        let emp := trim (String_ (at1 row 2)) in
        let dias := orZero (Number_ (at1 row 6)) in
        usedLoop rest (setMember emp (plusDays (getMember usedByEmp emp) dias) usedByEmp)
      else usedLoop rest usedByEmp
  end.

Definition recalcEmpleados_ : M unit :=
  _getDb;;
  dataS ← readSheet SHEET_SOLICITUDES dataValues;
  let usedByEmp := usedLoop (drop 1 dataS) ∅ in
  lastE ← readSheet SHEET_EMPLEADOS getLastRow;
  if (lastE <? 2)%nat then mret () else
  emps ← readSheet SHEET_EMPLEADOS (fun sh => rangeValues sh 2 1 (lastE - 1) 1);
  let outUsed :=
    map (fun r => orZeroCell (getMember usedByEmp (trim (String_ (at1 r 0))))) emps in
  if (0 <? length outUsed)%nat
  then writeSheet SHEET_EMPLEADOS (setColumn 2 5 outUsed)
  else mret ().

(** *** Conflict detection *)

Record teamConflict : Type := TeamConflict {
  tc_row : Z; tc_empleado : string; tc_estado : string; tc_team : value }.

Fixpoint teamOverlapLoop (rows : list (list value)) (r : Z) (empleado team : value)
    (s0 e0 : num) (currentRow : Z) : M (option teamConflict) :=
  match rows with
  | [] => mret None
  | row :: rest =>
      let continue := teamOverlapLoop rest (r + 1) empleado team s0 e0 currentRow in
      if r + 1 =? currentRow then continue else
      let est := String_ (orElse (at1 row 5) (VStr "")) in
      if negb (String.eqb est Pendiente) && negb (includes Aprobado est)
      then continue else
      let emp2 := trim (String_ (orElse (at1 row 2) (VStr ""))) in
      if String.eqb emp2 "" || is_str empleado emp2 then continue else
      team2 ← getEmployeeTeam_ (VStr emp2);
      if negb (truthy team2) || negb (bool_decide (team2 = team)) then continue else
      let s1 := Date_getTime (normalizeDate_ (at1 row 3)) in
      let e1 := Date_getTime (normalizeDate_ (at1 row 4)) in
      if num_le s0 e1 && num_le s1 e0
      then mret (Some (TeamConflict (r + 1) emp2 est team))
      else continue
  end.

Definition hasTeamOverlapPendingOrApproved_ (empleado start end_ : value)
    (currentRow : Z) : M (option teamConflict) :=
  team ← getEmployeeTeam_ empleado;
  if negb (truthy team) then mret None else
  _getDb;;
  vals ← readSheet SHEET_SOLICITUDES dataValues;
  let s0 := Date_getTime (normalizeDate_ start) in
  let e0 := Date_getTime (normalizeDate_ end_) in
  teamOverlapLoop (drop 1 vals) 1 empleado team s0 e0 currentRow.

(** The loop of [hasOverlapPendingOrApprovedSameEmployee_]; [r] is the
    0-based index of the first row of [rows] in the data range.  The
    result is the sheet row and the status of the first row that matches. *)
Fixpoint sameEmployeeLoop (rows : list (list value)) (r : Z) (empSearch : string)
    (s0 e0 : num) (currentRow : Z) : option (Z * string) :=
  match rows with
  | [] => None
  | row :: rest =>
      let continue := sameEmployeeLoop rest (r + 1) empSearch s0 e0 currentRow in
      if r + 1 =? currentRow then continue else
      let emp2 := trim (String_ (orElse (at1 row 2) (VStr ""))) in
      if negb (String.eqb emp2 empSearch) then continue else
      let est := String_ (orElse (at1 row 5) (VStr "")) in
      if negb (String.eqb est Pendiente) && negb (includes Aprobado est)
      then continue else
      let s1 := Date_getTime (normalizeDate_ (at1 row 3)) in
      let e1 := Date_getTime (normalizeDate_ (at1 row 4)) in
      if num_le s0 e1 && num_le s1 e0 then Some (r + 1, est) else continue
  end.

Definition hasOverlapPendingOrApprovedSameEmployee_ (empleado start end_ : value)
    (currentRow : Z) : M (option (Z * string)) :=
  _getDb;;
  vals ← readSheet SHEET_SOLICITUDES dataValues;
  let s0 := Date_getTime (normalizeDate_ start) in
  let e0 := Date_getTime (normalizeDate_ end_) in
  let empSearch := trim (String_ (orElse empleado (VStr ""))) in
  mret (sameEmployeeLoop (drop 1 vals) 1 empSearch s0 e0 currentRow).

(** *** Row processing *)

Definition sortSolicitudesByFechaInicio_ : M unit :=
  _getDb;;
  last ← readSheet SHEET_SOLICITUDES getLastRow;
  if (2 <? last)%nat then
    writeSheet SHEET_SOLICITUDES (fun sh =>
      take 1 sh ++ range_sort 4 (take (last - 1) (drop 1 sh)) ++ drop last sh)
  else mret ().

Record rowOutcome : Type := RowOutcome {
  userNotified : sendResult; managersNotified : sendResult }.

Definition notSent : sendResult := SendResult false None.

(** The two [let] variables of [processRequestRow_]. *)
Definition set_userNotified (x : sendResult) : St (rowOutcome * world) unit :=
  modify (fun lw => (RowOutcome x (managersNotified lw.1), lw.2)).
Definition set_managersNotified (x : sendResult) : St (rowOutcome * world) unit :=
  modify (fun lw => (RowOutcome (userNotified lw.1) x, lw.2)).

Definition processRequestRow_body (sheet : sheetName) (row : Z)
    : St (rowOutcome * world) unit :=
  lift (checkRange row 6);;
  estado0 ← lift (getValue sheet row 6);
  (if negb (truthy estado0) then lift (setValue sheet row 6 (VStr Pendiente))
   else mret ());;
  email ← lift (getValue sheet row 2);
  empleado ← lift (getValue sheet row 3);
  ini ← lift (getValue sheet row 4);
  fin ← lift (getValue sheet row 5);
  team0 ← lift (getEmployeeTeam_ (VStr (trim (String_ (orElse empleado (VStr ""))))));
  let team := orElse team0 (VStr "—") in
  let isValid := truthy empleado && truthy ini && truthy fin
                 && num_le (normalizeDate_ ini) (normalizeDate_ fin) in
  if negb isValid then lift (setNote sheet row 6 "Invalid Data") else
  let dias := countBusinessDays_ ini fin in
  lift (setValue sheet row 7 (VNum dias));;
  teamOverlap ← lift (hasTeamOverlapPendingOrApproved_ empleado ini fin row);
  selfOverlap ← lift (hasOverlapPendingOrApprovedSameEmployee_ empleado ini fin row);
  subjectManager ←
    match teamOverlap, selfOverlap with
    | Some t, _ =>
        lift (setValue sheet row 6 (VStr NecesitaRevision));;
        lift (setNote sheet row 6
                ("⚠️ Conflict with " +:+ tc_empleado t +:+ " (" +:+ tc_estado t +:+ ")"));;
        (if truthy email then
           r ← lift (sendEmailSafe_ email "Request Under Review"
                       "Action Required: Coverage Conflict" "");
           set_userNotified r
         else mret ());;
        mret ("[Vacation] ⚠️ Conflict - " +:+ String_ empleado
                +:+ " (" +:+ String_ team +:+ ")", "Coverage Conflict Detected")
    | None, Some _ =>
        lift (setValue sheet row 6 (VStr NecesitaRevision));;
        lift (setNote sheet row 6 "⚠️ Duplicate Request");;
        mret ("", "")
    | None, None =>
        (if truthy email then
           r ← lift (sendEmailSafe_ email "Request Received" "Request Received" "");
           set_userNotified r
         else mret ());;
        mret ("[Vacation] New Request - " +:+ String_ empleado, "New Vacation Request")
    end;
  (if negb (String.eqb subjectManager.1 "") then
     r ← lift (notifyManagersCompact_ subjectManager.1 subjectManager.2);
     set_managersNotified r
   else mret ());;
  lift recalcEmpleados_;;
  lift sortSolicitudesByFechaInicio_.

(** [try { ... } catch (e) { console.error(...) }] and then the [return]
    of the two variables. *)
Definition processRequestRow_ (sheet : sheetName) (row : Z) : M rowOutcome :=
  withLocals (RowOutcome notSent notSent)
    (try_catch (processRequestRow_body sheet row) (fun _ => mret ());;
     gets fst).

(** *** API endpoints *)

(** [d.getTime()] on a value that may be [null] *)
Definition getTimeOf (v : value) : M num :=
  match v with
  | VDate t => mret t
  | _ => throw "TypeError: Cannot read properties of null (reading 'getTime')"
  end.

Definition apiCreateRequest (startDate endDate : value) : M rowOutcome :=
  userEmail ← gets activeUser;
  checkRateLimit_ userEmail "create_request";;
  try_catch waitLock (fun _ => throw "Server busy. Please try again.");;
  try_finally
    (try_catch
       (nombre0 ← _buscarNombrePorEmail userEmail;
        let nombreEmpleado := orElse nombre0 (VStr userEmail) in
        let startObj := parseDateToNoon_ startDate in
        let endObj := parseDateToNoon_ endDate in
        today ← gets (fun w => VDate (Date_setHours 0 (Some (now w))));
        (if value_lt startObj today
         then throw "Cannot request vacation for past dates." else mret ());;
        (if ENFORCE_MIN_ADVANCE_DAYS && (0 <? MIN_ADVANCE_DAYS) then
           let minAdvanceMs := MIN_ADVANCE_DAYS * 24 * 60 * 60 * 1000 in
           t1 ← getTimeOf startObj;
           t0 ← getTimeOf today;
           if num_lt (num_sub t1 t0) (Some minAdvanceMs)
           then throw ("Requests must be made at least " +:+ pretty MIN_ADVANCE_DAYS
                         +:+ " days in advance.")
           else mret ()
         else mret ());;
        conflict ← hasOverlapPendingOrApprovedSameEmployee_ nombreEmpleado startObj endObj (-1);
        (if bool_decide (conflict = None) then mret ()
         else throw "You already have a request for these dates.");;
        _getDb;;
        created ← gets (fun w => VDate (Some (now w)));
        writeSheet SHEET_SOLICITUDES
          (appendRow [created; VStr userEmail; nombreEmpleado; startObj; endObj;
                      VStr Pendiente; VStr ""; VStr ""]);;
        newRowIndex ← readSheet SHEET_SOLICITUDES getLastRow;
        result ← processRequestRow_ SHEET_SOLICITUDES (Z.of_nat newRowIndex);
        logAudit_ "CREATE_REQUEST" userEmail;;
        mret result)
       (fun e => throw e))
    releaseLock.

(** The error message of a refused approval; it quotes the override status. *)
Definition insufficientBalanceMsg (remaining : num) (dias : Z) : string :=
  "Insufficient balance. Employee has " +:+ num_str remaining
    +:+ " days left, but requested " +:+ pretty dias
    +:+ ". Use " +:+ String "034" "Approved (Exception)"
    +:+ String "034" " to override.".

Definition apiProcessRequest (rowId : Z) (action : string) : M unit :=
  userEmail ← gets activeUser;
  managers ← getManagerEmails_;
  (if bool_decide (userEmail ∈ managers) then mret ()
   else throw "Unauthorized: Only managers can perform this action.");;
  _getDb;;
  empleado ← getValue SHEET_SOLICITUDES rowId 3;
  dias0 ← getValue SHEET_SOLICITUDES rowId 7;
  let dias := orZero (Number_ dias0) in
  prevEstado ← getValue SHEET_SOLICITUDES rowId 6;
  (if String.eqb action Aprobado && ENFORCE_BALANCE_BEFORE_EVENT then
     totals ← getEmployeeTotals_ empleado;
     let newRemaining := num_sub (remaining totals) (Some dias) in
     if num_lt newRemaining (Some 0) then
       throw (insufficientBalanceMsg (remaining totals) dias)
     else mret ()
   else mret ());;
  setValue SHEET_SOLICITUDES rowId 6 (VStr action);;
  handleEstadoChange_ SHEET_SOLICITUDES rowId prevEstado;;
  recalcEmpleados_;;
  logAudit_ "MANAGER_ACTION" userEmail.

(** The ownership loop of [apiCancelRequest]: [(found, status)]. *)
Fixpoint cancelLoop (rows : list (list value)) (i : Z) (rowId : Z)
    (userEmail : string) : bool * string :=
  match rows with
  | [] => (false, "")
  | row :: rest =>
      if i + 1 =? rowId then
        let requestEmail := toLowerCase (trim (String_ (at1 row 1))) in
        let status := String_ (at1 row 5) in
        (String.eqb requestEmail (toLowerCase userEmail), status)
      else cancelLoop rest (i + 1) rowId userEmail
  end.

Definition apiCancelRequest (rowId : Z) : M unit :=
  userEmail ← gets activeUser;
  checkRateLimit_ userEmail "cancel_request";;
  try_catch waitLock (fun _ => throw "Server busy.");;
  try_finally
    (try_catch
       (_getDb;;
        data ← readSheet SHEET_SOLICITUDES dataValues;
        let '(found, status) := cancelLoop (drop 1 data) 1 rowId userEmail in
        (if found then mret ()
         else throw "Request not found or permission denied.");;
        (if negb (String.eqb status Pendiente) && negb (String.eqb status NecesitaRevision)
         then throw ("Cannot cancel request with status: " +:+ status)
         else mret ());;
        setValue SHEET_SOLICITUDES rowId 6 (VStr Cancelado);;
        eventId ← getValue SHEET_SOLICITUDES rowId 8;
        (if truthy eventId then
           try_catch
             (getCalendar_;;
              ev ← getEventById (String_ eventId);
              match ev with Some id => deleteEvent id | None => mret () end;;
              clearContent SHEET_SOLICITUDES rowId 8)
             (fun _ => mret ())
         else mret ());;
        recalcEmpleados_;;
        logAudit_ "CANCEL_REQUEST" userEmail)
       (fun e => throw e))
    releaseLock.

Definition apiEditRequest (rowId : Z) (startDate endDate : value) : M unit :=
  userEmail ← gets activeUser;
  checkRateLimit_ userEmail "edit_request";;
  try_catch waitLock (fun _ => throw "Server busy.");;
  try_finally
    (try_catch
       (_getDb;;
        let startObj := parseDateToNoon_ startDate in
        let endObj := parseDateToNoon_ endDate in
        setValue SHEET_SOLICITUDES rowId 4 startObj;;
        setValue SHEET_SOLICITUDES rowId 5 endObj;;
        setValue SHEET_SOLICITUDES rowId 6 (VStr Pendiente);;
        processRequestRow_ SHEET_SOLICITUDES rowId;;
        logAudit_ "EDIT_REQUEST" userEmail)
       (fun e => throw e))
    releaseLock.

End Backend.

(** ** A reference host, for running the script on concrete inputs *)

(** Decimal integers, with blanks around them; anything else is [NaN]. *)
Definition refStringToNumber (s : string) : num :=
  let t := trim s in
  if String.eqb t "" then Some 0 else
  match parseInt t with
  | Some n => if String.eqb (pretty n) t then Some n else None
  | None => None
  end.

(** Sort class and key of a cell for [Range.sort]: numbers and dates by
    value, then text, then the rest, blanks last. *)
Definition refSortKey (col : nat) (r : list cell) : Z * Z :=
  match (default blankCell (r !! (col - 1)%nat)).1 with
  | VNum n => (0, n)
  | VDate (Some t) => (0, t)
  | VStr s => if String.eqb s "" then (3, 0) else (1, 0)
  | _ => (2, 0)
  end.

Definition refKeyLe (a b : Z * Z) : bool :=
  (a.1 <? b.1) || ((a.1 =? b.1) && (a.2 <=? b.2)).

Fixpoint refInsert (col : nat) (r : list cell) (l : list (list cell)) : list (list cell) :=
  match l with
  | [] => [r]
  | x :: l' =>
      if refKeyLe (refSortKey col x) (refSortKey col r)
      then x :: refInsert col r l'
      else r :: l
  end.

Definition refSort (col : nat) (l : list (list cell)) : list (list cell) :=
  foldl (fun acc r => refInsert col r acc) [] l.

(** Built-in functions print as V8 prints them; a cell handed an object
    keeps the text '{}'. *)
Definition refHost : Host := {|
  Date_parse := fun _ => None;
  Date_toString := fun t => match t with
                            | Some z => "Date(" +:+ pretty z +:+ ")"
                            | None => "Invalid Date"
                            end;
  StringToNumber := refStringToNumber;
  tzOffsetMs := 0;
  range_sort := refSort;
  Function_toString := fun f => "function " +:+ f +:+ "() { [native code] }";
  cellOfBuiltin := fun _ => VStr "{}"
|}.

(** Noon of a calendar day, and a sheet row of plain values. *)
Definition noon (y m d : Z) : value :=
  VDate (Some (days_from_civil y (m - 1) d * MS_PER_DAY + 12 * MS_PER_HOUR)).

Definition plainRow (vals : list value) : list cell := map (fun v => (v, "")) vals.

(** ** Notions used to state the properties *)

(** The weekday of a calendar day: 0 is Sunday, 6 is Saturday. *)
Definition weekday (d : Z) : Z := (d + 4) mod 7.

Definition isBusinessDay (d : Z) : bool :=
  negb (weekday d =? 0) && negb (weekday d =? 6).

(** The number of calendar days from [ds] to [de], both included, that
    are neither a Saturday nor a Sunday. *)
Definition businessDaysBetween (ds de : Z) : Z :=
  Z.of_nat (length (filter (fun d => isBusinessDay d = true) (seqZ ds (de - ds + 1)))).

Section Notions.
Context `{Host}.

(** What a row of the request table says, as the conflict scans read it. *)
Definition rowEmployee (row : list value) : string :=
  trim (String_ (orElse (at1 row 2) (VStr ""))).

Definition rowStatus (row : list value) : string :=
  String_ (orElse (at1 row 5) (VStr "")).

(** Closed-interval overlap of two ranges of calendar days. *)
Definition rangesOverlap (s0 e0 s1 e1 : num) : bool :=
  num_le s0 e1 && num_le s1 e0.

(** The statuses the same-employee scan of the script looks at. *)
Definition scannedStatus (est : string) : bool :=
  String.eqb est Pendiente || includes Aprobado est.

(** The statuses the specification names for that scan: [Pending],
    [NeedsReview] and the approved states. *)
Definition specStatus (est : string) : bool :=
  String.eqb est Pendiente || String.eqb est NecesitaRevision
  || String.eqb est Aprobado || String.eqb est AprobadoExcepcion.

(** Row [r] (0-based in the data range, sheet row [r + 1]) is a request
    other than [currentRow], of the same requester, in a status accepted
    by [active], whose range overlaps the candidate range. *)
Definition sameEmployeeConflict (active : string -> bool) (vals : list (list value))
    (empleado start end_ : value) (currentRow : Z) (r : nat) : Prop :=
  (1 <= r)%nat /\ Z.of_nat r + 1 <> currentRow /\
  exists row, vals !! r = Some row /\
    rowEmployee row = trim (String_ (orElse empleado (VStr ""))) /\
    active (rowStatus row) = true /\
    rangesOverlap (normalizeDate_ start) (normalizeDate_ end_)
                  (normalizeDate_ (at1 row 3)) (normalizeDate_ (at1 row 4)) = true.

(** The test one turn of the same-employee loop makes on its row. *)
Definition sameEmployeeMatch (empSearch : string) (s0 e0 : num) (currentRow : Z)
    (r : Z) (row : list value) : bool :=
  negb (r + 1 =? currentRow) && String.eqb (rowEmployee row) empSearch
  && scannedStatus (rowStatus row)
  && rangesOverlap s0 e0 (normalizeDate_ (at1 row 3)) (normalizeDate_ (at1 row 4)).

(** The days of the approved requests of [name] in the request table. *)
Definition approvedDaysOf (dataS : list (list value)) (name : string) : Z :=
  foldr (fun row acc =>
           (if includes Aprobado (String_ (at1 row 5))
               && String.eqb (trim (String_ (at1 row 2))) name
            then orZero (Number_ (at1 row 6)) else 0) + acc)
        0 (drop 1 dataS).

(** What [recalcEmpleados_] hands to [setValues] for the employee [name]:
    [usedByEmp[name] || 0] after the loop over the request table. *)
Definition usedOf (dataS : list (list value)) (name : string) : value :=
  orZeroCell (getMember (usedLoop (drop 1 dataS) ∅) name).

(** [m] never changes the request table, whether it returns or throws. *)
Definition keepsRequests {A : Type} (m : M A) : Prop :=
  forall w : world, solicitudes (m w).2 = solicitudes w.

(** [m] never throws. *)
Definition neverThrows {S A : Type} (m : St S A) : Prop :=
  forall w : S, exists (a : A) (w' : S), m w = (Ok a, w').

(** [m] reports success, or else has left the request table as it was. *)
Definition okOrUntouched {A : Type} (m : M A) : Prop :=
  forall w : world, (exists a : A, (m w).1 = Ok a) \/ solicitudes (m w).2 = solicitudes w.

(** The roster [getManagerEmails_] answers with: the cached one if any,
    else the one on the sheet. *)
Definition managerRoster (w : world) : list string :=
  match scriptCache w with
  | Some l => l
  | None => if (getLastRow (managersSheet w) <? 2)%nat then []
            else managersIn (managersSheet w)
  end.

(** The employee table, the pending failures, the user and the lock are
    the same in [w'] as in [w]. *)
Definition sameRest (w w' : world) : Prop :=
  empleados w' = empleados w /\ faults w' = faults w /\
  activeUser w' = activeUser w /\ lockHeld w' = lockHeld w.

(** So are the request table and the calendar. *)
Definition steady (w w' : world) : Prop :=
  solicitudes w' = solicitudes w /\ calendar w' = calendar w /\ sameRest w w'.

(** The stored event reference of a row resolves to a calendar event. *)
Definition resolves (w : world) (eventId : value) : bool :=
  truthy eventId && bool_decide (is_Some (calendar w !! String_ eventId)).

(** The title of the calendar event of an approved request. *)
Definition eventTitle (estado empleado : value) : string :=
  if is_str estado AprobadoExcepcion
  then "Vacations (EXCEPTION): " +:+ String_ empleado
  else "Vacations: " +:+ String_ empleado.

(** The time stamp of the midnight that starts calendar day [d]. *)
Definition midnight (d : Z) : Z := d * MS_PER_DAY - tzOffsetMs.

(** The calendar clean-up of a cancellation fails: one of its calls, the
    calendar lookup, the event lookup or (for an event that exists) the
    deletion, throws.  [cal] is the fault script from the clean-up on. *)
Definition calendarFailure (w : world) (eventId : value) (cal : list bool) : Prop :=
  cal = [true] \/ cal = [false; true] \/
  (cal = [false; false; true] /\ is_Some (calendar w !! String_ eventId)).

(** Run with the lock held, [m] keeps it and makes no table access
    outside it. *)
Definition underLock {A : Type} (m : M A) : Prop :=
  forall w : world, lockHeld w = true ->
    lockHeld (m w).2 = true /\ unlockedAccesses (m w).2 = unlockedAccesses w.

(** The same, for a body that carries its variables along. *)
Definition underLockL {L A : Type} (m : St (L * world) A) : Prop :=
  forall (l : L) (w : world), lockHeld w = true ->
    lockHeld (m (l, w)).2.2 = true /\
    unlockedAccesses (m (l, w)).2.2 = unlockedAccesses w.

(** [m] touches neither the tables nor the lock. *)
Definition offTables {A : Type} (m : M A) : Prop :=
  forall w : world,
    lockHeld (m w).2 = lockHeld w /\ unlockedAccesses (m w).2 = unlockedAccesses w.

(** The service call that comes next does not fail. *)
Definition nextCallOk (w : world) : Prop := head (faults w) <> Some true.

End Notions.

(** ** Read-only queries *)

(** [Date.prototype.toISOString], which the platform provides. *)
Class DateFormat : Type := { Date_toISOString : Z -> string }.

Section Queries.
Context `{Host} `{DateFormat}.

(** [_safeDate(d)]: a blank for a missing or invalid date, a string as
    it is, a date in ISO form. *)
Definition _safeDate (d : value) : string :=
  if negb (truthy d) then "" else
  match d with
  | VStr s => s
  | _ => match Date_new d with
         | Some t => Date_toISOString t
         | None => ""
         end
  end.

Record stats : Type := Stats { st_total : num; st_used : num; st_remaining : num }.

Record initialData : Type := InitialData {
  id_email : string; id_role : string; id_team : value; id_stats : stats }.

Definition getInitialData : M initialData :=
  try_catch
    (userEmail ← gets activeUser;
     (if String.eqb userEmail ""
      then throw "User not identified. Please login to Google." else mret ());;
     totals ← getEmployeeTotals_ (VStr userEmail);
     team ← getEmployeeTeam_ (VStr userEmail);
     managers ← getManagerEmails_;
     let isManager := bool_decide (userEmail ∈ managers) in
     mret (InitialData userEmail (if isManager then "manager" else "agent")
             (orElse team (VStr "General"))
             (Stats (total totals) (usados totals) (remaining totals))))
    (fun e => throw ("Backend Error: " +:+ e)).

Record empData : Type := EmpData {
  ed_team : value; ed_saldoHR : num; ed_usados : num; ed_remaining : num }.

(** The loop of [getDashboardData] that fills [empleadoMap] and
    [teamMap]: each row is filed under its name and under its e-mail, a
    later row replacing an earlier one with the same key.  The two
    objects are given by the properties they own. *)
Fixpoint empleadoMapLoop (rows : list (list value))
    (maps : gmap string empData * gmap string value)
    : gmap string empData * gmap string value :=
  match rows with
  | [] => maps
  | row :: rest =>
      let name := toLowerCase (trim (String_ (at1 row 0))) in
      let email := toLowerCase (trim (String_ (at1 row 1))) in
      let team := at1 row 2 in
      let saldoHR := Number_ (orElse (at1 row 3) (VNum 0)) in
      let usados := Number_ (orElse (at1 row 4) (VNum 0)) in
      let remaining :=
        if bool_decide (at1 row 5 = VUndef) then num_sub saldoHR usados
        else Number_ (orElse (at1 row 5) (VNum 0)) in
      let empData := EmpData team saldoHR usados remaining in
      empleadoMapLoop rest
        (<[email := empData]> (<[name := empData]> maps.1),
         <[email := team]> (<[name := team]> maps.2))
  end.

Record myRequest : Type := MyRequest {
  mr_id : Z; mr_startDate : string; mr_endDate : string; mr_status : string;
  mr_days : value }.

Record managerRequest : Type := ManagerRequest {
  rq_id : Z; rq_employee : string; rq_team : value; rq_email : string;
  rq_startDate : string; rq_endDate : string; rq_status : string; rq_days : Z }.

(** [validStates.has(status)] *)
Definition validStates (status : string) : bool :=
  String.eqb status Aprobado || String.eqb status AprobadoExcepcion
  || String.eqb status Pendiente || String.eqb status NecesitaRevision.

(** The loop of [getDashboardData] over the requests; [i] is the 0-based
    index of the first row of [rows] in the data range.  The three lists
    are kept in the order of the pushes. *)
Fixpoint requestsLoop (rows : list (list value)) (i : Z) (userEmail : string)
    (isManager : bool) (teamMap : gmap string value)
    (acc : list myRequest * list managerRequest * list managerRequest)
    : list myRequest * list managerRequest * list managerRequest :=
  match rows with
  | [] => acc
  | row :: rest =>
      let '(myRequests, pendingRequests, allRequests) := acc in
      let email := toLowerCase (trim (String_ (at1 row 1))) in
      let empleado := String_ (at1 row 2) in
      let startDate := _safeDate (at1 row 3) in
      let endDate := _safeDate (at1 row 4) in
      let status := String_ (at1 row 5) in
      let days := at1 row 6 in
      let myRequests' :=
        if String.eqb email (toLowerCase userEmail)
        then myRequests ++ [MyRequest (i + 1) startDate endDate status days]
        else myRequests in
      let requestObj :=
        ManagerRequest (i + 1) empleado
          (orElse (default VUndef (teamMap !! toLowerCase (trim empleado))) (VStr "—"))
          email startDate endDate status (orZero (Number_ days)) in
      let pendingRequests' :=
        if isManager && (String.eqb status Pendiente || String.eqb status NecesitaRevision)
        then pendingRequests ++ [requestObj] else pendingRequests in
      let allRequests' :=
        if isManager && validStates status
        then allRequests ++ [requestObj] else allRequests in
      requestsLoop rest (i + 1) userEmail isManager teamMap
                   (myRequests', pendingRequests', allRequests')
  end.

Record dashboardUser : Type := DashboardUser {
  du_email : string; du_role : string; du_team : value; du_stats : stats }.

Record dashboard : Type := Dashboard {
  db_user : dashboardUser; db_requests : list myRequest;
  db_pending : list managerRequest; db_allRequests : list managerRequest }.

Definition getDashboardData : M dashboard :=
  try_catch
    (userEmail ← gets activeUser;
     (if String.eqb userEmail "" then throw "User not identified." else mret ());;
     _getDb;;
     dataSolicitudes ← readSheet SHEET_SOLICITUDES dataValues;
     dataEmpleados ← readSheet SHEET_EMPLEADOS dataValues;
     let '(empleadoMap, teamMap) := empleadoMapLoop (drop 1 dataEmpleados) (∅, ∅) in
     let userKey := toLowerCase userEmail in
     let userStats :=
       match empleadoMap !! userKey with
       | Some d => Stats (ed_saldoHR d) (ed_usados d) (ed_remaining d)
       | None => Stats (Some 0) (Some 0) (Some 0)
       end in
     let userTeam := orElse (default VUndef (teamMap !! userKey)) (VStr "General") in
     managers ← getManagerEmails_;
     let isManager := bool_decide (userEmail ∈ managers) in
     let '(myRequests, pendingRequests, allRequests) :=
       requestsLoop (drop 1 dataSolicitudes) 1 userEmail isManager teamMap ([], [], []) in
     mret (Dashboard
             (DashboardUser userEmail (if isManager then "manager" else "agent")
                            userTeam userStats)
             (reverse myRequests) pendingRequests allRequests))
    (fun e => throw e).

End Queries.

(** A reference date printer: the time stamp in decimal. *)
Definition refDateFormat : DateFormat := {| Date_toISOString := fun t => pretty t |}.

(** ** More notions used to state properties *)

(** [m] run [n] times in a row, stopping at the first throw. *)
Fixpoint callTimes {A : Type} (n : nat) (m : M A) : M unit :=
  match n with
  | O => mret ()
  | S n' => m;; callTimes n' m
  end.

(** The tables, the calendar, the outbox and the audit log are the same
    in [w'] as in [w]; the caches, the lock and the pending failures may
    differ. *)
Definition sameData (w w' : world) : Prop :=
  solicitudes w' = solicitudes w /\ empleados w' = empleados w /\
  managersSheet w' = managersSheet w /\ calendar w' = calendar w /\
  outbox w' = outbox w /\ auditLog w' = auditLog w.

(** [m] writes no table, no event, no mail and no audit entry, whether it
    returns or throws. *)
Definition readOnly {A : Type} (m : M A) : Prop :=
  forall w : world, sameData w (m w).2.

(** The name [apiCreateRequest] files a request under: the name the
    employee table gives for the caller's e-mail, else the e-mail. *)
Definition requesterName `{Host} (w : world) : value :=
  orElse (default (VStr (activeUser w))
            (buscarNombreLoop (drop 1 (dataValues (empleados w)))
                              (toLowerCase (trim (activeUser w)))))
         (VStr (activeUser w)).

(** The team the employee table gives for a name or an e-mail: what
    [getEmployeeTeam_] answers when the spreadsheet opens. *)
Definition teamOf `{Host} (w : world) (x : value) : value :=
  default (VStr "")
    (teamLoop (drop 1 (dataValues (empleados w)))
              (toLowerCase (trim (String_ (orElse x (VStr "")))))).

(** The test one turn of the team-overlap loop makes on its row: another
    row than [currentRow], Pending or approved, of a named employee other
    than [empleado] who is on the team [team], with overlapping days. *)
Definition teamMatch `{Host} (w : world) (empleado team : value) (s0 e0 : num)
    (currentRow : Z) (r : Z) (row : list value) : bool :=
  negb (r + 1 =? currentRow) && scannedStatus (rowStatus row)
  && negb (String.eqb (rowEmployee row) "") && negb (is_str empleado (rowEmployee row))
  && truthy (teamOf w (VStr (rowEmployee row)))
  && bool_decide (teamOf w (VStr (rowEmployee row)) = team)
  && rangesOverlap s0 e0 (normalizeDate_ (at1 row 3)) (normalizeDate_ (at1 row 4)).

(** Row [r] of the employee table is the row of [search], by name or by
    e-mail, as [getEmployeeTotals_] compares them. *)
Definition employeeRowMatches `{Host} (shE : sheet) (search : string) (r : nat) : bool :=
  String.eqb (toLowerCase (trim (String_ (orElse (getCell shE r 1).1 (VStr ""))))) search
  || String.eqb (toLowerCase (trim (String_ (orElse (getCell shE r 2).1 (VStr ""))))) search.

(** The 0-based column of the header 'SaldoVacaciones' in the employee
    table, or -1. *)
Definition saldoVacacionesColumn (shE : sheet) : Z :=
  indexOf (VStr "SaldoVacaciones")
          (default [] (rangeValues shE 1 1 1 (getLastColumn shE) !! 0%nat)) 0.

(** The character of a decimal digit, and the text 'YYYY-MM-DD' of a date
    given by its digits. *)
Definition digit (d : Z) : ascii := ascii_of_nat (48 + Z.to_nat d).

Definition isoDate (y1 y2 y3 y4 m1 m2 d1 d2 : Z) : string :=
  String (digit y1) (String (digit y2) (String (digit y3) (String (digit y4)
    (String "-" (String (digit m1) (String (digit m2)
      (String "-" (String (digit d1) (String (digit d2) EmptyString))))))))).

(** The value in column [c] (1-based) of a row of a sheet. *)
Definition cellValue (row : list cell) (c : nat) : value :=
  (default blankCell (row !! (c - 1)%nat)).1.

(** A row of the request table that holds a request of [email], filed
    under [name] for the days from [start] to [end_], and is Pending or
    in need of review. *)
Definition isRequestOf (email name start end_ : value) (row : list cell) : Prop :=
  cellValue row 2 = email /\ cellValue row 3 = name /\
  cellValue row 4 = start /\ cellValue row 5 = end_ /\
  (cellValue row 6 = VStr Pendiente \/ cellValue row 6 = VStr NecesitaRevision).

(** [m] keeps a property of the request table, whether it returns or
    throws; [keepsTableL] is the same for a body that carries its
    variables along, and [reaches] says that from a table with [P] the
    body ends with a table with [Q]. *)
Definition keepsTable (P : sheet -> Prop) {A : Type} (m : M A) : Prop :=
  forall w : world, P (solicitudes w) -> P (solicitudes (m w).2).

Definition keepsTableL (P : sheet -> Prop) {L A : Type} (m : St (L * world) A) : Prop :=
  forall (l : L) (w : world), P (solicitudes w) -> P (solicitudes (m (l, w)).2.2).

Definition reaches (P Q : sheet -> Prop) {L A : Type} (m : St (L * world) A) : Prop :=
  forall (l : L) (w : world), P (solicitudes w) -> Q (solicitudes (m (l, w)).2.2).

(** Row [r] of the table holds the request; some row of the table does. *)
Definition filedAt (r : nat) (email name start end_ : value) (sh : sheet) : Prop :=
  (1 <= r)%nat /\
  exists row : list cell,
    sh !! (r - 1)%nat = Some row /\ isRequestOf email name start end_ row.

Definition holdsRequest (email name start end_ : value) (sh : sheet) : Prop :=
  exists row : list cell, row ∈ sh /\ isRequestOf email name start end_ row.

(** ** Sample tables, for running the script *)

Definition hdrSolicitudes : list cell :=
  plainRow [VStr "Timestamp"; VStr "Email"; VStr "Empleado"; VStr "Inicio";
            VStr "Fin"; VStr "Estado"; VStr "Dias"; VStr "EventId"].

Definition hdrEmpleados : list cell :=
  plainRow [VStr "Nombre"; VStr "Email"; VStr "Equipo"; VStr "SaldoHR"; VStr "Usados"].

(** A request of Ana for Monday 2025-03-03 to Friday 2025-03-07. *)
Definition requestOfAna (estado : string) (eventId : string) : list cell :=
  plainRow [noon 2025 2 1; VStr "ana@corp.com"; VStr "Ana"; noon 2025 3 3;
            noon 2025 3 7; VStr estado; VNum 5; VStr eventId].

(** Ana and Beto are on one team, with [saldo] days each; the manager is
    jefa@corp.com; the clock shows 2025-02-01. *)
Definition sampleWorld (user : string) (saldo : Z) (requests : list (list cell))
    (cal : gmap string event) (fs : list bool) : world := {|
  activeUser := user;
  now := days_from_civil 2025 1 1 * MS_PER_DAY + 9 * MS_PER_HOUR;
  solicitudes := hdrSolicitudes :: requests;
  empleados := [hdrEmpleados;
                plainRow [VStr "Ana"; VStr "ana@corp.com"; VStr "Ventas"; VNum saldo; VNum 0];
                plainRow [VStr "Beto"; VStr "beto@corp.com"; VStr "Ventas"; VNum saldo; VNum 0]];
  managersSheet := [plainRow [VStr "Email"]; plainRow [VStr "jefa@corp.com"]];
  auditLog := []; scriptCache := None; userCache := ∅; calendar := cal; outbox := [];
  lockHeld := false; unlockedAccesses := 0; faults := fs
|}.

(** One employee, who goes by [name], with one approved request of
    [dias] business days. *)
Definition ledgerWorld (name : string) (dias : Z) : world := {|
  activeUser := "jefa@corp.com";
  now := days_from_civil 2025 1 1 * MS_PER_DAY + 9 * MS_PER_HOUR;
  solicitudes := [hdrSolicitudes;
                  plainRow [noon 2025 2 1; VStr "c@corp.com"; VStr name; noon 2025 3 3;
                            noon 2025 3 7; VStr Aprobado; VNum dias; VStr "evt1"]];
  empleados := [hdrEmpleados;
                plainRow [VStr name; VStr "c@corp.com"; VStr "Ventas"; VNum 10; VNum 0]];
  managersSheet := [plainRow [VStr "Email"]; plainRow [VStr "jefa@corp.com"]];
  auditLog := []; scriptCache := None; userCache := ∅; calendar := ∅; outbox := [];
  lockHeld := false; unlockedAccesses := 0; faults := []
|}.

(** The calendar with the event of Ana's request under the id "evt1". *)
Definition calendarOfAna : gmap string event :=
  {[ "evt1" := Event "Vacations: Ana"
                 (days_from_civil 2025 2 3 * MS_PER_DAY)
                 (days_from_civil 2025 2 8 * MS_PER_DAY) ]}.

(** * Properties *)

Section Properties.
Context `{Host}.

(** ** Dates and business days *)

Lemma localDay_midnight (d k : Z) :
  localDay (d * MS_PER_DAY - tzOffsetMs + k * MS_PER_DAY) = d + k.
Proof.
  unfold localDay, MS_PER_DAY.
  replace (d * 86400000 - tzOffsetMs + k * 86400000 + tzOffsetMs)
    with ((d + k) * 86400000) by lia.
  apply Z.div_mul. lia.
Qed.

Lemma localDay_midnight0 (d : Z) :
  localDay (d * MS_PER_DAY - tzOffsetMs) = d.
Proof.
  pose proof (localDay_midnight d 0) as E.
  replace (d * MS_PER_DAY - tzOffsetMs + 0 * MS_PER_DAY)
    with (d * MS_PER_DAY - tzOffsetMs) in E by lia.
  rewrite E. lia.
Qed.

Lemma normalizeDate_date (t : Z) :
  normalizeDate_ (VDate (Some t)) = Some (localDay t * MS_PER_DAY - tzOffsetMs).
Proof.
  unfold normalizeDate_, Date_setHours, Date_new. simpl. f_equal. lia.
Qed.

Lemma businessDays_cons (d : Z) (n : nat) :
  filter (fun x => isBusinessDay x = true) (seqZ d (Z.of_nat (S n)))
  = (if isBusinessDay d then [d] else [])
      ++ filter (fun x => isBusinessDay x = true) (seqZ (d + 1) (Z.of_nat n)).
Proof.
  rewrite seqZ_cons by lia.
  replace (Z.pred (Z.of_nat (S n))) with (Z.of_nat n) by lia.
  replace (Z.succ d) with (d + 1) by lia.
  rewrite filter_cons. destruct (isBusinessDay d); simpl.
  - destruct (decide (true = true)); [reflexivity | congruence].
  - destruct (decide (false = true)); [congruence | reflexivity].
Qed.

(** The loop started at midnight of day [d] with [n] days left to visit
    leaves through its condition and adds the business days visited. *)
Lemma countLoop_days (n : nat) :
  forall (d de c : Z) (fuel : nat),
    de - d + 1 = Z.of_nat n -> (n < fuel)%nat ->
    countLoop fuel (Some (d * MS_PER_DAY - tzOffsetMs))
              (Some (de * MS_PER_DAY - tzOffsetMs)) c
    = Some (c + Z.of_nat (length (filter (fun x => isBusinessDay x = true)
                                         (seqZ d (Z.of_nat n))))).
Proof.
  induction n as [|n IH]; intros d de c fuel Hn Hf.
  - destruct fuel as [|fuel]; [lia|]. simpl.
    assert (E : (d * MS_PER_DAY - tzOffsetMs <=? de * MS_PER_DAY - tzOffsetMs) = false).
    { apply Z.leb_gt. unfold MS_PER_DAY. lia. }
    rewrite E. f_equal. simpl. lia.
  - destruct fuel as [|fuel]; [lia|].
    cbn [countLoop num_le].
    assert (E : (d * MS_PER_DAY - tzOffsetMs <=? de * MS_PER_DAY - tzOffsetMs) = true).
    { apply Z.leb_le. unfold MS_PER_DAY. lia. }
    rewrite E.
    unfold Date_nextDay, Date_getDay. cbn [mbind option_bind].
    rewrite localDay_midnight0.
    replace (d * MS_PER_DAY - tzOffsetMs + MS_PER_DAY)
      with ((d + 1) * MS_PER_DAY - tzOffsetMs) by lia.
    rewrite (IH (d + 1) de _ fuel) by lia.
    rewrite businessDays_cons, length_app.
    f_equal. unfold isBusinessDay, weekday.
    destruct (Z.eqb_spec ((d + 4) mod 7) 0) as [E0|E0];
      destruct (Z.eqb_spec ((d + 4) mod 7) 6) as [E6|E6]; simpl.
    + rewrite E0. simpl. lia.
    + rewrite E0. simpl. lia.
    + rewrite E6. simpl. lia.
    + rewrite bool_decide_eq_false_2 by congruence.
      rewrite bool_decide_eq_false_2 by congruence. simpl. lia.
Qed.

Lemma countBusinessDays_fuel_dates (s e : Z) (fuel : nat) :
  (loopFuel (normalizeDate_ (VDate (Some s))) (normalizeDate_ (VDate (Some e)))
   <= fuel)%nat ->
  countBusinessDays_fuel fuel (VDate (Some s)) (VDate (Some e))
  = Some (if localDay e <? localDay s then 0
          else businessDaysBetween (localDay s) (localDay e)).
Proof.
  intros Hf. unfold countBusinessDays_fuel. cbn [truthy negb orb].
  rewrite !normalizeDate_date in *. cbn [num_lt Date_new].
  unfold loopFuel in Hf.
  destruct (Z.ltb_spec (localDay e) (localDay s)) as [Hlt|Hge].
  - assert (E : (localDay e * MS_PER_DAY - tzOffsetMs
                 <? localDay s * MS_PER_DAY - tzOffsetMs) = true).
    { apply Z.ltb_lt. unfold MS_PER_DAY. lia. }
    rewrite E. reflexivity.
  - assert (E : (localDay e * MS_PER_DAY - tzOffsetMs
                 <? localDay s * MS_PER_DAY - tzOffsetMs) = false).
    { apply Z.ltb_ge. unfold MS_PER_DAY. lia. }
    rewrite E.
    assert (Ediv : (localDay e * MS_PER_DAY - tzOffsetMs
                    - (localDay s * MS_PER_DAY - tzOffsetMs)) / MS_PER_DAY
                   = localDay e - localDay s).
    { replace (localDay e * MS_PER_DAY - tzOffsetMs
               - (localDay s * MS_PER_DAY - tzOffsetMs))
        with ((localDay e - localDay s) * MS_PER_DAY) by lia.
      apply Z.div_mul. unfold MS_PER_DAY. lia. }
    rewrite Ediv in Hf.
    rewrite (countLoop_days (Z.to_nat (localDay e - localDay s + 1))) by lia.
    unfold businessDaysBetween. f_equal.
    rewrite Z2Nat.id by lia. lia.
Qed.

Lemma countBusinessDays_dates (s e : Z) :
  countBusinessDays_ (VDate (Some s)) (VDate (Some e))
  = if localDay e <? localDay s then 0
    else businessDaysBetween (localDay s) (localDay e).
Proof.
  unfold countBusinessDays_.
  rewrite countBusinessDays_fuel_dates by lia. reflexivity.
Qed.

Lemma businessDaysBetween_nonneg (ds de : Z) : 0 <= businessDaysBetween ds de.
Proof. unfold businessDaysBetween. lia. Qed.

Lemma businessDaysBetween_mono (ds de ds' de' : Z) :
  ds' <= ds -> ds <= de -> de <= de' ->
  businessDaysBetween ds de <= businessDaysBetween ds' de'.
Proof.
  intros H1 H2 H3. unfold businessDaysBetween.
  assert (E : seqZ ds' (de' - ds' + 1)
               = seqZ ds' (ds - ds') ++ seqZ ds (de - ds + 1) ++ seqZ (de + 1) (de' - de)).
  { replace (de' - ds' + 1) with ((ds - ds') + ((de - ds + 1) + (de' - de))) by lia.
    rewrite seqZ_app by lia. f_equal.
    rewrite seqZ_app by lia. f_equal; f_equal; lia. }
  rewrite E, !filter_app, !length_app. lia.
Qed.

(** C5. On calendar dates (a date value stands for the calendar day it
    falls on), [countBusinessDays_] is 0 when the end day precedes the
    start day, and otherwise the number of days of the closed range whose
    weekday is neither Saturday nor Sunday; a single weekday gives 1, a
    Monday-to-Sunday week gives 5, and widening the range never lowers the
    result.  The [while] loop leaves through its condition: any fuel from
    [loopFuel] on yields that same result. *)
Theorem countBusinessDays_correct (s e : Z) :
  let r := countBusinessDays_ (VDate (Some s)) (VDate (Some e)) in
  (localDay e < localDay s -> r = 0) /\
  (localDay s <= localDay e -> r = businessDaysBetween (localDay s) (localDay e)) /\
  (localDay s = localDay e -> isBusinessDay (localDay s) = true -> r = 1) /\
  (weekday (localDay s) = 1 -> localDay e = localDay s + 6 -> r = 5) /\
  (forall s' e' : Z, localDay s' <= localDay s -> localDay e <= localDay e' ->
     r <= countBusinessDays_ (VDate (Some s')) (VDate (Some e'))) /\
  (forall fuel : nat,
     (loopFuel (normalizeDate_ (VDate (Some s))) (normalizeDate_ (VDate (Some e)))
      <= fuel)%nat ->
     countBusinessDays_fuel fuel (VDate (Some s)) (VDate (Some e)) = Some r).
Proof.
  cbv zeta. rewrite countBusinessDays_dates.
  repeat split.
  - intros Hlt. apply Z.ltb_lt in Hlt. rewrite Hlt. reflexivity.
  - intros Hle. apply Z.ltb_ge in Hle. rewrite Hle. reflexivity.
  - intros Heq Hb. rewrite <- Heq, Z.ltb_irrefl.
    unfold businessDaysBetween.
    replace (localDay s - localDay s + 1) with (Z.of_nat 1) by lia.
    rewrite businessDays_cons, Hb. reflexivity.
  - intros Hmon He. rewrite He.
    assert (E : (localDay s + 6 <? localDay s) = false) by (apply Z.ltb_ge; lia).
    rewrite E. unfold businessDaysBetween.
    replace (localDay s + 6 - localDay s + 1) with (Z.of_nat 7) by lia.
    unfold weekday in Hmon.
    assert (W : forall k, 0 <= k < 7 ->
                isBusinessDay (localDay s + k) = negb ((1 + k =? 7) || (1 + k =? 6))).
    { intros k Hk. unfold isBusinessDay, weekday.
      replace ((localDay s + k + 4) mod 7) with ((1 + k) mod 7).
      2:{ rewrite <- Hmon.
          replace (localDay s + k + 4) with ((localDay s + 4) + k) by lia.
          rewrite (Z.add_mod (localDay s + 4) k 7) by lia.
          rewrite (Z.add_mod (((localDay s + 4) mod 7)) k 7) by lia.
          rewrite Z.mod_mod by lia. reflexivity. }
      assert (Hc : k = 0 \/ k = 1 \/ k = 2 \/ k = 3 \/ k = 4 \/ k = 5 \/ k = 6) by lia.
      destruct Hc as [->|[->|[->|[->|[->|[->| ->]]]]]]; reflexivity. }
    pose proof (W 0 ltac:(lia)) as W0. rewrite Z.add_0_r in W0.
    rewrite businessDays_cons, W0.
    rewrite businessDays_cons, (W 1) by lia.
    replace (localDay s + 1 + 1) with (localDay s + 2) by lia.
    rewrite businessDays_cons, (W 2) by lia.
    replace (localDay s + 2 + 1) with (localDay s + 3) by lia.
    rewrite businessDays_cons, (W 3) by lia.
    replace (localDay s + 3 + 1) with (localDay s + 4) by lia.
    rewrite businessDays_cons, (W 4) by lia.
    replace (localDay s + 4 + 1) with (localDay s + 5) by lia.
    rewrite businessDays_cons, (W 5) by lia.
    replace (localDay s + 5 + 1) with (localDay s + 6) by lia.
    rewrite businessDays_cons, (W 6) by lia.
    reflexivity.
  - intros s' e' Hs He. rewrite countBusinessDays_dates.
    destruct (Z.ltb_spec (localDay e) (localDay s)) as [Hlt|Hge].
    + destruct (localDay e' <? localDay s'); [lia|].
      apply businessDaysBetween_nonneg.
    + assert (E : (localDay e' <? localDay s') = false) by (apply Z.ltb_ge; lia).
      rewrite E. apply businessDaysBetween_mono; lia.
  - intros fuel Hf. apply countBusinessDays_fuel_dates, Hf.
Qed.

(** ** The monad *)

Lemma ext_ok (msg : string) (w : world) :
  nextCallOk w -> ext msg w = (Ok (), set_faults (tail (faults w)) w).
Proof.
  unfold nextCallOk, ext. destruct w as [? ? ? ? ? ? ? ? ? ? ? ? fs]. simpl.
  destruct fs as [|[] fs]; simpl; intros Hn; try reflexivity. congruence.
Qed.

Lemma getDb_ok (w : world) :
  nextCallOk w -> _getDb w = (Ok (), set_faults (tail (faults w)) w).
Proof. intros Hn. unfold _getDb, try_catch. rewrite ext_ok by exact Hn. reflexivity. Qed.

(** ** Same-employee overlap *)

Lemma sameEmployeeLoop_cons (row : list value) (rest : list (list value)) (r : Z)
    (empSearch : string) (s0 e0 : num) (currentRow : Z) :
  sameEmployeeLoop (row :: rest) r empSearch s0 e0 currentRow
  = if sameEmployeeMatch empSearch s0 e0 currentRow r row
    then Some (r + 1, rowStatus row)
    else sameEmployeeLoop rest (r + 1) empSearch s0 e0 currentRow.
Proof.
  cbn [sameEmployeeLoop]. unfold sameEmployeeMatch, scannedStatus, rangesOverlap, Date_getTime.
  fold (rowEmployee row). fold (rowStatus row).
  destruct (r + 1 =? currentRow); [reflexivity|].
  destruct (String.eqb (rowEmployee row) empSearch); [|reflexivity].
  destruct (String.eqb (rowStatus row) Pendiente);
    destruct (includes Aprobado (rowStatus row)); reflexivity.
Qed.

(** The loop returns the first row that passes the test, if any. *)
Lemma sameEmployeeLoop_first (empSearch : string) (s0 e0 : num) (currentRow : Z)
    (rows : list (list value)) :
  forall (r n : Z) (est : string),
    sameEmployeeLoop rows r empSearch s0 e0 currentRow = Some (n, est) <->
    exists (i : nat) (row : list value),
      rows !! i = Some row /\ n = r + Z.of_nat i + 1 /\ est = rowStatus row /\
      sameEmployeeMatch empSearch s0 e0 currentRow (r + Z.of_nat i) row = true /\
      forall (j : nat) (row' : list value),
        (j < i)%nat -> rows !! j = Some row' ->
        sameEmployeeMatch empSearch s0 e0 currentRow (r + Z.of_nat j) row' = false.
Proof.
  induction rows as [|row rest IH]; intros r n est.
  - simpl. split; [discriminate|]. intros (i & row & Hl & _). destruct i; discriminate.
  - rewrite sameEmployeeLoop_cons.
    destruct (sameEmployeeMatch empSearch s0 e0 currentRow r row) eqn:Hm.
    + split.
      * intros [= <- <-]. exists 0%nat, row. simpl.
        rewrite Z.add_0_r.
        split; [reflexivity|]. split; [lia|]. split; [reflexivity|].
        split; [exact Hm|]. intros j row' Hj. lia.
      * intros (i & row' & Hl & -> & -> & Hmi & Hfirst).
        destruct i as [|i].
        -- simpl in Hl. injection Hl as <-. f_equal. f_equal. lia.
        -- specialize (Hfirst 0%nat row ltac:(lia) eq_refl).
           simpl in Hfirst. rewrite Z.add_0_r in Hfirst. congruence.
    + rewrite IH. split.
      * intros (i & row' & Hl & -> & -> & Hmi & Hfirst).
        exists (S i), row'.
        replace (r + Z.of_nat (S i)) with (r + 1 + Z.of_nat i) by lia.
        split; [exact Hl|]. split; [lia|]. split; [reflexivity|].
        split; [exact Hmi|].
        intros [|j] row'' Hj Hl'.
        -- simpl in Hl'. injection Hl' as <-. simpl. rewrite Z.add_0_r. exact Hm.
        -- simpl in Hl'.
           replace (r + Z.of_nat (S j)) with (r + 1 + Z.of_nat j) by lia.
           apply (Hfirst j); [lia|exact Hl'].
      * intros (i & row' & Hl & -> & -> & Hmi & Hfirst).
        destruct i as [|i].
        -- simpl in Hl. injection Hl as <-.
           simpl in Hmi. rewrite Z.add_0_r in Hmi. congruence.
        -- exists i, row'. simpl in Hl.
           replace (r + 1 + Z.of_nat i) with (r + Z.of_nat (S i)) by lia.
           split; [exact Hl|]. split; [lia|]. split; [reflexivity|].
           split; [exact Hmi|].
           intros j row'' Hj Hl'.
           replace (r + 1 + Z.of_nat j) with (r + Z.of_nat (S j)) by lia.
           apply (Hfirst (S j)); [lia|exact Hl'].
Qed.

Lemma sameEmployeeLoop_none (empSearch : string) (s0 e0 : num) (currentRow : Z)
    (rows : list (list value)) :
  forall r : Z,
    sameEmployeeLoop rows r empSearch s0 e0 currentRow = None <->
    forall (i : nat) (row : list value),
      rows !! i = Some row ->
      sameEmployeeMatch empSearch s0 e0 currentRow (r + Z.of_nat i) row = false.
Proof.
  induction rows as [|row rest IH]; intros r.
  - simpl. split; [|reflexivity]. intros _ i row Hl. destruct i; discriminate.
  - rewrite sameEmployeeLoop_cons.
    destruct (sameEmployeeMatch empSearch s0 e0 currentRow r row) eqn:Hm.
    + split; [discriminate|]. intros Hall.
      specialize (Hall 0%nat row eq_refl). simpl in Hall.
      rewrite Z.add_0_r in Hall. congruence.
    + rewrite IH. split.
      * intros Hall [|i] row' Hl.
        -- simpl in Hl. injection Hl as <-. simpl. rewrite Z.add_0_r. exact Hm.
        -- simpl in Hl.
           replace (r + Z.of_nat (S i)) with (r + 1 + Z.of_nat i) by lia.
           apply Hall, Hl.
      * intros Hall i row' Hl.
        replace (r + 1 + Z.of_nat i) with (r + Z.of_nat (S i)) by lia.
        apply Hall. exact Hl.
Qed.

Lemma run_bind {S A B : Type} (m : St S A) (k : A -> St S B) (w : S) :
  (m ≫= k) w = match m w with
               | (Ok a, w') => k a w'
               | (Throw e, w') => (Throw e, w')
               end.
Proof. reflexivity. Qed.

Lemma readSheet_run {A : Type} (n : sheetName) (f : sheet -> A) (w : world) :
  readSheet n f w = (Ok (f (sheetOf n w)), touched w).
Proof.
  unfold readSheet, touch, modify, gets. rewrite run_bind.
  destruct n; reflexivity.
Qed.

Lemma writeSheet_run (n : sheetName) (f : sheet -> sheet) (w : world) :
  writeSheet n f w = (Ok (), set_sheet n (f (sheetOf n w)) (touched w)).
Proof.
  unfold writeSheet, touch, modify. rewrite run_bind.
  destruct n; reflexivity.
Qed.

Lemma sameEmployeeMatch_conflict (vals : list (list value))
    (empleado start end_ : value) (currentRow : Z) (i : nat) (row : list value) :
  vals !! S i = Some row ->
  sameEmployeeMatch (trim (String_ (orElse empleado (VStr ""))))
                    (normalizeDate_ start) (normalizeDate_ end_) currentRow
                    (1 + Z.of_nat i) row = true
  <-> sameEmployeeConflict scannedStatus vals empleado start end_ currentRow (S i).
Proof.
  intros Hl. unfold sameEmployeeMatch, sameEmployeeConflict.
  rewrite !andb_true_iff, negb_true_iff, Z.eqb_neq, String.eqb_eq.
  replace (Z.of_nat (S i) + 1) with (1 + Z.of_nat i + 1) by lia.
  split.
  - intros [[[Hc He] Hs] Ho]. split; [lia|]. split; [exact Hc|].
    exists row. auto.
  - intros (_ & Hc & row' & Hl' & He & Hs & Ho).
    rewrite Hl in Hl'. injection Hl' as <-. auto.
Qed.

(** C1 (amended). When the spreadsheet can be opened, the same-employee
    overlap check reports a conflict iff some request other than the row
    being edited belongs to the same requester (trimmed name), has a
    status that is [Pendiente] or contains [Aprobado], and a range of
    days overlapping the candidate range as closed intervals; the row
    and status of the first such request are returned.  The request
    table is not changed. *)
Theorem sameEmployeeOverlap_first_match (w : world) (empleado start end_ : value)
    (currentRow : Z) :
  nextCallOk w ->
  exists (res : option (Z * string)) (w' : world),
    hasOverlapPendingOrApprovedSameEmployee_ empleado start end_ currentRow w
      = (Ok res, w') /\
    solicitudes w' = solicitudes w /\
    let vals := dataValues (solicitudes w) in
    let conflict := sameEmployeeConflict scannedStatus vals empleado start end_ currentRow in
    (res <> None <-> exists r : nat, conflict r) /\
    (forall (n : Z) (est : string),
        res = Some (n, est) <->
        exists (r : nat) (row : list value),
          conflict r /\ (forall r' : nat, (r' < r)%nat -> ~ conflict r') /\
          vals !! r = Some row /\ n = Z.of_nat r + 1 /\ est = rowStatus row).
Proof.
  intros Hok. unfold hasOverlapPendingOrApprovedSameEmployee_.
  rewrite run_bind, getDb_ok by exact Hok.
  rewrite run_bind, readSheet_run.
  eexists _, _. split; [reflexivity|].
  split; [reflexivity|].
  assert (Es : sheetOf SHEET_SOLICITUDES (set_faults (tail (faults w)) w) = solicitudes w)
    by reflexivity.
  rewrite Es. cbv zeta. unfold Date_getTime.
  set (vals := dataValues (solicitudes w)).
  set (empSearch := trim (String_ (orElse empleado (VStr "")))).
  set (s0 := normalizeDate_ start). set (e0 := normalizeDate_ end_).
  assert (Hdrop : forall i, drop 1 vals !! i = vals !! S i).
  { intros i. rewrite lookup_drop. reflexivity. }
  assert (Hzero : ~ sameEmployeeConflict scannedStatus vals empleado start end_ currentRow 0).
  { intros (Hr & _). lia. }
  split.
  - split.
    + intros Hne.
      destruct (sameEmployeeLoop (drop 1 vals) 1 empSearch s0 e0 currentRow)
        as [[n est]|] eqn:Hres; [|congruence].
      apply sameEmployeeLoop_first in Hres.
      destruct Hres as (i & row & Hl & _ & _ & Hm & _).
      rewrite Hdrop in Hl. exists (S i).
      apply (sameEmployeeMatch_conflict vals empleado start end_ currentRow i row Hl), Hm.
    + intros [r Hc] Hnone.
      destruct r as [|i]; [exact (Hzero Hc)|].
      pose proof Hc as (_ & _ & row & Hl & _).
      apply (sameEmployeeMatch_conflict vals empleado start end_ currentRow i row Hl) in Hc.
      pose proof (proj1 (sameEmployeeLoop_none empSearch s0 e0 currentRow (drop 1 vals) 1)
                        Hnone i row) as Hf.
      rewrite Hdrop in Hf. specialize (Hf Hl).
      fold empSearch s0 e0 in Hc. congruence.
  - intros n est. rewrite sameEmployeeLoop_first. split.
    + intros (i & row & Hl & -> & -> & Hm & Hfirst).
      rewrite Hdrop in Hl. exists (S i), row.
      split; [apply (sameEmployeeMatch_conflict vals empleado start end_ currentRow i row Hl), Hm|].
      split; [|split; [exact Hl|split; [lia|reflexivity]]].
      intros [|j] Hj Hc; [exact (Hzero Hc)|].
      pose proof Hc as (_ & _ & row' & Hl' & _).
      apply (sameEmployeeMatch_conflict vals empleado start end_ currentRow j row' Hl') in Hc.
      specialize (Hfirst j row' ltac:(lia)). rewrite Hdrop in Hfirst.
      specialize (Hfirst Hl'). fold empSearch s0 e0 in Hc. congruence.
    + intros (r & row & Hc & Hfirst & Hl & -> & ->).
      destruct r as [|i]; [exfalso; exact (Hzero Hc)|].
      exists i, row. rewrite Hdrop.
      split; [exact Hl|]. split; [lia|]. split; [reflexivity|].
      split; [apply (sameEmployeeMatch_conflict vals empleado start end_ currentRow i row Hl), Hc|].
      intros j row' Hj Hl'. rewrite Hdrop in Hl'.
      destruct (sameEmployeeMatch empSearch s0 e0 currentRow (1 + Z.of_nat j) row') eqn:Hm;
        [|reflexivity].
      exfalso. apply (Hfirst (S j)); [lia|].
      apply (sameEmployeeMatch_conflict vals empleado start end_ currentRow j row' Hl'), Hm.
Qed.

(** ** Sheets *)

Lemma default_lookup_pad {A : Type} (d : A) (l : list A) (n k : nat) :
  default d ((l ++ replicate n d) !! k) = default d (l !! k).
Proof.
  destruct (decide (k < length l)%nat) as [Hlt|Hge].
  - rewrite lookup_app_l by exact Hlt. reflexivity.
  - rewrite lookup_app_r by lia.
    rewrite (lookup_ge_None_2 l k) by lia. simpl.
    destruct (replicate n d !! (k - length l)%nat) as [x|] eqn:E; [|reflexivity].
    apply lookup_replicate in E. destruct E as [-> _]. reflexivity.
Qed.

Lemma getCell_alt (sh : sheet) (r c : nat) :
  getCell sh r c
  = default blankCell (default [] (sh !! (r - 1)%nat) !! (c - 1)%nat).
Proof. unfold getCell. destruct (sh !! (r - 1)%nat); reflexivity. Qed.

Lemma updRow_lookup (c : nat) (f : cell -> cell) (r : list cell) (k : nat) :
  (1 <= c)%nat ->
  default blankCell (updRow c f r !! k)
  = if decide (k = (c - 1)%nat) then f (default blankCell (r !! k))
    else default blankCell (r !! k).
Proof.
  intros Hc. unfold updRow. cbv zeta.
  set (r' := r ++ replicate (c - length r) blankCell).
  assert (Hlen : (c - 1 < length r')%nat).
  { unfold r'. rewrite length_app, length_replicate. lia. }
  destruct (decide (k = (c - 1)%nat)) as [->|Hne].
  - rewrite list_lookup_insert_eq by exact Hlen. simpl.
    unfold r'. rewrite default_lookup_pad. reflexivity.
  - rewrite list_lookup_insert_ne by congruence.
    unfold r'. apply default_lookup_pad.
Qed.

Lemma updCell_row (r c : nat) (f : cell -> cell) (sh : sheet) (k : nat) :
  (1 <= r)%nat ->
  default [] (updCell r c f sh !! k)
  = if decide (k = (r - 1)%nat) then updRow c f (default [] (sh !! k))
    else default [] (sh !! k).
Proof.
  intros Hr. unfold updCell. cbv zeta.
  set (sh' := sh ++ replicate (r - length sh) []).
  assert (Hlen : (r - 1 < length sh')%nat).
  { unfold sh'. rewrite length_app, length_replicate. lia. }
  destruct (decide (k = (r - 1)%nat)) as [->|Hne].
  - rewrite list_lookup_insert_eq by exact Hlen. simpl.
    unfold sh'. rewrite default_lookup_pad. reflexivity.
  - rewrite list_lookup_insert_ne by congruence.
    unfold sh'. apply default_lookup_pad.
Qed.

(** Reading a cell after an update. *)
Lemma getCell_updCell (r c r' c' : nat) (f : cell -> cell) (sh : sheet) :
  (1 <= r)%nat -> (1 <= c)%nat -> (1 <= r')%nat -> (1 <= c')%nat ->
  getCell (updCell r c f sh) r' c'
  = if decide (r' = r /\ c' = c) then f (getCell sh r c) else getCell sh r' c'.
Proof.
  intros Hr Hc Hr' Hc'. rewrite !getCell_alt, updCell_row by exact Hr.
  destruct (decide ((r' - 1)%nat = (r - 1)%nat)) as [E|E].
  - rewrite updRow_lookup by exact Hc.
    assert (r' = r) as -> by lia.
    destruct (decide ((c' - 1)%nat = (c - 1)%nat)) as [E'|E'].
    + assert (c' = c) as -> by lia.
      rewrite decide_True by auto. reflexivity.
    + rewrite decide_False by (intros [_ ?]; lia). reflexivity.
  - rewrite decide_False by (intros [? _]; lia). reflexivity.
Qed.

Lemma setColumn_snoc (r0 c : nat) (col : list value) (v : value) (sh : sheet) :
  setColumn r0 c (col ++ [v]) sh
  = updCell (r0 + length col) c (fun old => (toCell v, old.2)) (setColumn r0 c col sh).
Proof.
  unfold setColumn. rewrite imap_app, foldl_app. simpl.
  rewrite Nat.add_0_r. reflexivity.
Qed.

(** Reading a cell after a column write: the written cells take the new
    values and keep their notes, all other cells are as before. *)
Lemma getCell_setColumn (r0 c : nat) (col : list value) (sh : sheet) (r' c' : nat) :
  (1 <= r0)%nat -> (1 <= c)%nat -> (1 <= r')%nat -> (1 <= c')%nat ->
  getCell (setColumn r0 c col sh) r' c'
  = if decide (c' = c /\ (r0 <= r' < r0 + length col)%nat)
    then (toCell (default VUndef (col !! (r' - r0)%nat)), (getCell sh r' c').2)
    else getCell sh r' c'.
Proof.
  intros Hr0 Hc Hr' Hc'. induction col as [|v col IH] using rev_ind.
  - simpl. rewrite decide_False by (intros [_ ?]; lia). reflexivity.
  - rewrite setColumn_snoc, getCell_updCell by lia.
    rewrite length_app. simpl.
    destruct (decide (r' = (r0 + length col)%nat /\ c' = c)) as [[-> ->]|Hne].
    + rewrite decide_True by (split; [reflexivity|lia]).
      rewrite IH. rewrite decide_False by (intros [_ ?]; lia).
      rewrite lookup_app_r by lia.
      replace (r0 + length col - r0 - length col)%nat with 0%nat by lia.
      reflexivity.
    + rewrite IH.
      destruct (decide (c' = c /\ (r0 <= r' < r0 + length col)%nat)) as [[-> Hin]|Hout].
      * rewrite decide_True by (split; [reflexivity|lia]).
        rewrite lookup_app_l by lia. reflexivity.
      * rewrite decide_False; [reflexivity|].
        intros [-> Hin]. destruct (decide (r' = (r0 + length col)%nat)) as [->|Hd].
        -- apply Hne. split; reflexivity.
        -- apply Hout. split; [reflexivity|lia].
Qed.

Lemma getLastRow_le_length (sh : sheet) : (getLastRow sh <= length sh)%nat.
Proof.
  induction sh as [|x rest IH]; simpl; [lia|].
  destruct (getLastRow rest); [destruct (rowBlank x)|]; lia.
Qed.

Lemma getLastRow_insert (sh : sheet) :
  forall (k : nat) (row' : list cell),
    (k < getLastRow sh)%nat -> rowBlank row' = false ->
    getLastRow (<[k := row']> sh) = getLastRow sh.
Proof.
  induction sh as [|x rest IH]; intros k row' Hk Hb; [simpl in Hk; lia|].
  destruct k as [|k]; simpl in *.
  - destruct (getLastRow rest); [|reflexivity].
    rewrite Hb. destruct (rowBlank x); [lia|reflexivity].
  - destruct (getLastRow rest) as [|n] eqn:E.
    + destruct (rowBlank x); lia.
    + rewrite (IH k row') by (rewrite ?E; lia || exact Hb). reflexivity.
Qed.

Lemma rowBlank_updRow (c : nat) (f : cell -> cell) (r : list cell) :
  (1 <= c)%nat -> (forall x, (f x).1 <> blank) -> rowBlank (updRow c f r) = false.
Proof.
  intros Hc Hf. unfold rowBlank.
  destruct (forallb _ (updRow c f r)) eqn:E; [|reflexivity].
  exfalso. rewrite forallb_forall in E.
  pose proof (updRow_lookup c f r (c - 1) Hc) as Hl.
  rewrite decide_True in Hl by reflexivity.
  destruct (updRow c f r !! (c - 1)%nat) as [x|] eqn:Hx.
  - simpl in Hl. subst x.
    assert (Hin : In (f (default blankCell (r !! (c - 1)%nat))) (updRow c f r)).
    { apply list_elem_of_In. eapply list_elem_of_lookup_2. exact Hx. }
    specialize (E _ Hin). apply bool_decide_eq_true in E.
    exact (Hf _ E).
  - apply lookup_ge_None in Hx. unfold updRow in Hx. cbv zeta in Hx.
    rewrite length_insert, length_app, length_replicate in Hx. lia.
Qed.

Lemma getLastRow_updCell (r c : nat) (f : cell -> cell) (sh : sheet) :
  (1 <= r <= getLastRow sh)%nat -> (1 <= c)%nat -> (forall x, (f x).1 <> blank) ->
  getLastRow (updCell r c f sh) = getLastRow sh.
Proof.
  intros Hr Hc Hf. pose proof (getLastRow_le_length sh) as Hlen.
  unfold updCell. cbv zeta.
  replace (r - length sh)%nat with 0%nat by lia. simpl. rewrite app_nil_r.
  apply getLastRow_insert; [lia|]. apply rowBlank_updRow; assumption.
Qed.

Lemma getLastRow_setColumn (r0 c : nat) (col : list value) (sh : sheet) :
  (1 <= r0)%nat -> (1 <= c)%nat -> (r0 + length col <= getLastRow sh + 1)%nat ->
  (forall v, v ∈ col -> toCell v <> blank) ->
  getLastRow (setColumn r0 c col sh) = getLastRow sh.
Proof.
  intros Hr0 Hc. induction col as [|v col IH] using rev_ind; intros Hlen Hnb.
  - reflexivity.
  - rewrite length_app in Hlen. simpl in Hlen.
    assert (IH' : getLastRow (setColumn r0 c col sh) = getLastRow sh).
    { apply IH; [lia|]. intros x Hx. apply Hnb. apply elem_of_app. left. exact Hx. }
    rewrite setColumn_snoc, getLastRow_updCell; [exact IH'| rewrite IH'; lia | exact Hc |].
    intros x. simpl. apply Hnb. apply elem_of_app. right. apply list_elem_of_singleton.
    reflexivity.
Qed.

Lemma padRow_lookup (n : nat) (r : list cell) (k : nat) :
  (k < n)%nat -> padRow n r !! k = Some (default blankCell (r !! k)).
Proof.
  intros Hk. unfold padRow. rewrite lookup_take_lt by exact Hk.
  destruct (decide (k < length r)%nat) as [Hlt|Hge].
  - rewrite lookup_app_l by exact Hlt.
    destruct (lookup_lt_is_Some_2 r k Hlt) as [x Hx]. rewrite Hx. reflexivity.
  - rewrite lookup_app_r by lia. rewrite (lookup_ge_None_2 r k) by lia. simpl.
    apply lookup_replicate. split; [reflexivity|lia].
Qed.

Lemma rangeValues_length (sh : sheet) (r0 c0 nrows ncols : nat) :
  length (rangeValues sh r0 c0 nrows ncols) = nrows.
Proof.
  unfold rangeValues.
  rewrite length_map, length_take, length_drop, length_app, length_replicate. lia.
Qed.

(** The cell values a range read returns. *)
Lemma rangeValues_at (sh : sheet) (r0 c0 nrows ncols i j : nat) :
  (1 <= r0)%nat -> (1 <= c0)%nat -> (i < nrows)%nat -> (j < ncols)%nat ->
  at2 (rangeValues sh r0 c0 nrows ncols) i j = (getCell sh (r0 + i) (c0 + j)).1.
Proof.
  intros Hr0 Hc0 Hi Hj. unfold at2, rangeValues.
  rewrite list_lookup_fmap, lookup_take_lt, lookup_drop by exact Hi.
  set (X := sh ++ replicate (r0 - 1 + nrows) []).
  assert (HX : X !! (r0 - 1 + i)%nat = Some (default [] (sh !! (r0 - 1 + i)%nat))).
  { unfold X. destruct (decide (r0 - 1 + i < length sh)%nat) as [Hlt|Hge].
    - rewrite lookup_app_l by exact Hlt.
      destruct (lookup_lt_is_Some_2 sh _ Hlt) as [x Hx]. rewrite Hx. reflexivity.
    - rewrite lookup_app_r by lia. rewrite (lookup_ge_None_2 sh) by lia. simpl.
      apply lookup_replicate. split; [reflexivity|lia]. }
  rewrite HX. simpl.
  rewrite list_lookup_fmap, lookup_take_lt, lookup_drop by exact Hj.
  rewrite padRow_lookup by lia. simpl.
  rewrite getCell_alt.
  replace (r0 + i - 1)%nat with (r0 - 1 + i)%nat by lia.
  replace (c0 + j - 1)%nat with (c0 - 1 + j)%nat by lia.
  reflexivity.
Qed.

(** ** Balance ledger *)

Lemma getCell_cons (x : list cell) (rest : sheet) (r c : nat) :
  getCell (x :: rest) (S (S r)) c = getCell rest (S r) c.
Proof. unfold getCell. simpl. rewrite Nat.sub_0_r. reflexivity. Qed.

(** Rows below the last row with content are blank, and the last row
    with content lies at or above any row below which all is blank. *)
Lemma getLastRow_blank_below (sh : sheet) :
  forall r c : nat,
    (getLastRow sh < r)%nat -> (1 <= c)%nat -> (getCell sh r c).1 = blank.
Proof.
  induction sh as [|x rest IH]; intros r c Hr Hc.
  - unfold getCell. rewrite lookup_nil. reflexivity.
  - destruct r as [|[|r]]; [simpl in Hr; lia| |].
    + simpl in Hr. destruct (getLastRow rest); [|lia].
      destruct (rowBlank x) eqn:Hb; [|lia].
      unfold getCell. simpl.
      destruct (x !! (c - 1)%nat) as [y|] eqn:Hy; [|reflexivity]. simpl.
      unfold rowBlank in Hb. rewrite forallb_forall in Hb.
      apply (bool_decide_eq_true_1 (y.1 = blank)). apply Hb. apply list_elem_of_In.
      eapply list_elem_of_lookup_2. exact Hy.
    + rewrite getCell_cons.
      apply IH; [|exact Hc]. simpl in Hr.
      destruct (getLastRow rest); [|lia]. lia.
Qed.

Lemma getLastRow_bound (sh : sheet) :
  forall n : nat,
    (forall r c : nat, (n < r)%nat -> (1 <= c)%nat -> (getCell sh r c).1 = blank) ->
    (getLastRow sh <= n)%nat.
Proof.
  induction sh as [|x rest IH]; intros n Hblank; [simpl; lia|].
  assert (Hrest : forall m : nat, (n <= S m)%nat -> (getLastRow rest <= m)%nat).
  { intros m Hm. apply IH. intros r c Hr Hc.
    destruct r as [|r]; [lia|].
    rewrite <- (getCell_cons x). apply Hblank; lia. }
  simpl. destruct n as [|n].
  - specialize (Hrest 0%nat ltac:(lia)).
    destruct (getLastRow rest); [|lia].
    destruct (rowBlank x) eqn:Hb; [lia|]. exfalso.
    unfold rowBlank in Hb. apply not_true_iff_false in Hb. apply Hb.
    apply forallb_forall. intros y Hy. apply bool_decide_eq_true_2.
    apply list_elem_of_In in Hy. apply list_elem_of_lookup_1 in Hy.
    destruct Hy as [j Hj].
    specialize (Hblank 1%nat (S j) ltac:(lia) ltac:(lia)).
    unfold getCell in Hblank. simpl in Hblank.
    rewrite Nat.sub_0_r, Hj in Hblank. exact Hblank.
  - specialize (Hrest n ltac:(lia)).
    destruct (getLastRow rest); [destruct (rowBlank x)|]; lia.
Qed.



(** What one run of [recalcEmpleados_] does to the employee table. *)
Lemma recalcEmpleados_cells (w : world) :
  nextCallOk w ->
  exists w' : world,
    recalcEmpleados_ w = (Ok (), w') /\
    solicitudes w' = solicitudes w /\
    faults w' = tail (faults w) /\
    (getLastRow (empleados w') <= getLastRow (empleados w))%nat /\
    forall r c : nat, (1 <= r)%nat -> (1 <= c)%nat ->
      getCell (empleados w') r c
      = if decide (c = 5%nat /\ (2 <= r <= getLastRow (empleados w))%nat)
        then (toCell (usedOf (dataValues (solicitudes w))
                        (trim (String_ (getCell (empleados w) r 1).1))),
              (getCell (empleados w) r c).2)
        else getCell (empleados w) r c.
Proof.
  intros Hok. unfold recalcEmpleados_.
  rewrite run_bind, getDb_ok by exact Hok.
  rewrite run_bind, readSheet_run. cbv zeta.
  rewrite run_bind, readSheet_run.
  cbn [sheetOf solicitudes empleados set_faults touched set_unlockedAccesses].
  set (shE := empleados w). set (dataS := dataValues (solicitudes w)).
  destruct (Nat.ltb_spec (getLastRow shE) 2) as [Hlt|Hge].
  - eexists. split; [reflexivity|]. cbn.
    do 2 (split; [reflexivity|]). split; [apply Nat.le_refl|].
    intros r c Hr Hc. rewrite decide_False by (intros [_ ?]; lia). reflexivity.
  - rewrite run_bind, readSheet_run.
    cbn [sheetOf solicitudes empleados set_faults touched set_unlockedAccesses].
    fold shE.
    set (emps := rangeValues shE 2 1 (getLastRow shE - 1) 1).
    assert (Hlen : length emps = (getLastRow shE - 1)%nat)
      by apply rangeValues_length.
    rewrite length_map, Hlen.
    destruct (Nat.ltb_spec 0 (getLastRow shE - 1)) as [_|Hz]; [|lia].
    rewrite writeSheet_run.
    eexists. split; [reflexivity|].
    cbn [sheetOf set_sheet solicitudes empleados faults set_empleados set_faults
         touched set_unlockedAccesses]. fold shE.
    split; [reflexivity|]. split; [reflexivity|]. split.
    + apply getLastRow_bound. intros r c Hr Hc.
      rewrite getCell_setColumn by lia. rewrite length_map, Hlen.
      rewrite decide_False by (intros [_ ?]; lia).
      apply getLastRow_blank_below; [exact Hr|exact Hc].
    + intros r c Hr Hc. rewrite getCell_setColumn by lia.
      rewrite length_map, Hlen.
      destruct (decide (c = 5%nat /\ (2 <= r <= getLastRow shE)%nat)) as [[-> Hin]|Hout].
      * rewrite decide_True by (split; [reflexivity|lia]).
        rewrite list_lookup_fmap.
        assert (Hat : at2 emps (r - 2) 0 = (getCell shE (2 + (r - 2)) (1 + 0)).1)
          by (apply rangeValues_at; lia).
        replace (2 + (r - 2))%nat with r in Hat by lia.
        unfold at2 in Hat.
        destruct (emps !! (r - 2)%nat) as [row|] eqn:Erow.
        -- simpl in Hat. simpl. unfold at1. rewrite Hat. reflexivity.
        -- apply lookup_ge_None in Erow. lia.
      * rewrite decide_False; [reflexivity|]. intros [-> Hin]. apply Hout.
        split; [reflexivity|lia].
Qed.

(** An employee who goes by the name 'constructor', with one approved
    request of 5 business days.  The sum of the approved days of that
    name is 5, yet the cell of the used days receives a text, whatever
    the engine prints for the built-in function [Object] followed by
    '5': the object [usedByEmp] owns no property of that name when the
    request is met, so that [usedByEmp[emp] || 0] reads the constructor
    it inherits, and the addition puts the two texts together. *)
Lemma recalcEmpleados_inherited_name :
  let w := ledgerWorld "constructor" 5 in
  approvedDaysOf (dataValues (solicitudes w)) "constructor" = 5 /\
  exists w' : world,
    recalcEmpleados_ w = (Ok (), w') /\
    (getCell (empleados w') 2 1).1 = VStr "constructor" /\
    (getCell (empleados w') 2 5).1 = VStr (Function_toString "Object" +:+ "5") /\
    (getCell (empleados w') 2 5).1 <> VNum 5.
Proof.
  cbv zeta. split; [vm_compute; reflexivity|].
  exists (recalcEmpleados_ (ledgerWorld "constructor" 5)).2.
  assert (Hcell : (getCell (empleados (recalcEmpleados_ (ledgerWorld "constructor" 5)).2)
                     2 5).1
                  = VStr (Function_toString "Object" +:+ "5")).
  { generalize H. intros [parse print number zone sort text stored].
    vm_compute. destruct (text "Object"); reflexivity. }
  split; [|split; [|split; [exact Hcell|rewrite Hcell; discriminate]]].
  - generalize H. intros [parse print number zone sort text stored].
    vm_compute. destruct (text "Object"); reflexivity.
  - reflexivity.
Qed.


(** ** Computations that keep the request table, or never throw *)

Lemma keeps_ret {A : Type} (a : A) : keepsRequests (mret a).
Proof. intros w. reflexivity. Qed.

Lemma keeps_throw {A : Type} (msg : string) : keepsRequests (@throw world A msg).
Proof. intros w. reflexivity. Qed.

Lemma keeps_gets {A : Type} (f : world -> A) : keepsRequests (gets f).
Proof. intros w. reflexivity. Qed.

Lemma keeps_modify (f : world -> world) :
  (forall w, solicitudes (f w) = solicitudes w) -> keepsRequests (modify f).
Proof. intros Hf w. apply Hf. Qed.

Lemma keeps_bind {A B : Type} (m : M A) (k : A -> M B) :
  keepsRequests m -> (forall a, keepsRequests (k a)) -> keepsRequests (m ≫= k).
Proof.
  intros Hm Hk w. rewrite run_bind. specialize (Hm w).
  destruct (m w) as [[a|e] w1]; simpl in *.
  - rewrite (Hk a w1). exact Hm.
  - exact Hm.
Qed.

Lemma keeps_try_catch {A : Type} (m : M A) (h : string -> M A) :
  keepsRequests m -> (forall e, keepsRequests (h e)) -> keepsRequests (try_catch m h).
Proof.
  intros Hm Hh w. unfold try_catch. specialize (Hm w).
  destruct (m w) as [[a|e] w1]; simpl in *.
  - exact Hm.
  - rewrite (Hh e w1). exact Hm.
Qed.

Lemma keeps_ext (msg : string) : keepsRequests (ext msg).
Proof. intros w. unfold ext. destruct (faults w) as [|[] fs]; reflexivity. Qed.

Lemma keeps_getDb : keepsRequests _getDb.
Proof.
  apply keeps_try_catch; [apply keeps_ext|]. intros e. apply keeps_throw.
Qed.

Lemma keeps_readSheet {A : Type} (n : sheetName) (f : sheet -> A) :
  keepsRequests (readSheet n f).
Proof. intros w. rewrite readSheet_run. reflexivity. Qed.

Lemma keeps_checkRange (row col : Z) : keepsRequests (checkRange row col).
Proof.
  unfold checkRange. destruct ((row <? 1) || (col <? 1));
    [apply keeps_throw|apply keeps_ret].
Qed.

Lemma keeps_getValue (n : sheetName) (row col : Z) : keepsRequests (getValue n row col).
Proof.
  apply keeps_bind; [apply keeps_checkRange|]. intros _. apply keeps_readSheet.
Qed.

Lemma keeps_checkRateLimit (userEmail action : string) :
  keepsRequests (checkRateLimit_ userEmail action).
Proof.
  unfold checkRateLimit_. apply keeps_bind; [apply keeps_gets|]. intros count.
  destruct (RATE_LIMITS action) as [[max window]|]; [|apply keeps_ret].
  destruct (max <=? count); [apply keeps_throw|].
  apply keeps_bind; [|intros _; apply keeps_ret].
  apply keeps_modify. reflexivity.
Qed.

Lemma keeps_waitLock : keepsRequests waitLock.
Proof.
  apply keeps_bind; [apply keeps_ext|]. intros _. apply keeps_modify. reflexivity.
Qed.

Lemma keeps_buscarNombre (email : string) : keepsRequests (_buscarNombrePorEmail email).
Proof.
  apply keeps_bind; [apply keeps_getDb|]. intros _.
  apply keeps_bind; [apply keeps_readSheet|]. intros data. apply keeps_ret.
Qed.

Lemma keeps_getTimeOf (v : value) : keepsRequests (getTimeOf v).
Proof. destruct v; first [apply keeps_ret | apply keeps_throw]. Qed.

Lemma keeps_sameEmployee (empleado start end_ : value) (currentRow : Z) :
  keepsRequests (hasOverlapPendingOrApprovedSameEmployee_ empleado start end_ currentRow).
Proof.
  apply keeps_bind; [apply keeps_getDb|]. intros _.
  apply keeps_bind; [apply keeps_readSheet|]. intros vals. apply keeps_ret.
Qed.

Lemma never_ret {S A : Type} (a : A) : neverThrows (@mret (St S) _ A a).
Proof. intros w. eexists _, _. reflexivity. Qed.

Lemma never_gets {S A : Type} (f : S -> A) : neverThrows (gets f).
Proof. intros w. eexists _, _. reflexivity. Qed.

Lemma never_modify {S : Type} (f : S -> S) : neverThrows (modify f).
Proof. intros w. eexists _, _. reflexivity. Qed.

Lemma never_bind {S A B : Type} (m : St S A) (k : A -> St S B) :
  neverThrows m -> (forall a, neverThrows (k a)) -> neverThrows (m ≫= k).
Proof.
  intros Hm Hk w. rewrite run_bind.
  destruct (Hm w) as (a & w1 & ->). apply Hk.
Qed.

(** A [catch] block that does not throw makes the whole [try] safe. *)
Lemma never_try_catch {S A : Type} (m : St S A) (h : string -> St S A) :
  (forall e, neverThrows (h e)) -> neverThrows (try_catch m h).
Proof.
  intros Hh w. unfold try_catch.
  destruct (m w) as [[a|e] w1]; [eexists _, _; reflexivity|apply Hh].
Qed.

Lemma never_withLocals {L A : Type} (init : L) (m : St (L * world) A) :
  neverThrows m -> neverThrows (withLocals init m).
Proof.
  intros Hm w. unfold withLocals.
  destruct (Hm (init, w)) as (a & [l w1] & ->). eexists _, _. reflexivity.
Qed.

Lemma never_readSheet {A : Type} (n : sheetName) (f : sheet -> A) :
  neverThrows (readSheet n f).
Proof. intros w. rewrite readSheet_run. eexists _, _. reflexivity. Qed.

Lemma never_writeSheet (n : sheetName) (f : sheet -> sheet) :
  neverThrows (writeSheet n f).
Proof. intros w. rewrite writeSheet_run. eexists _, _. reflexivity. Qed.

Lemma never_logAudit (action userEmail : string) : neverThrows (logAudit_ action userEmail).
Proof. apply never_try_catch. intros e. apply never_ret. Qed.

Lemma never_processRequestRow (sheet : sheetName) (row : Z) :
  neverThrows (processRequestRow_ sheet row).
Proof.
  apply never_withLocals, never_bind; [|intros _; apply never_gets].
  apply never_try_catch. intros e. apply never_ret.
Qed.

Lemma okOrUntouched_never {A : Type} (m : M A) : neverThrows m -> okOrUntouched m.
Proof. intros Hm w. destruct (Hm w) as (a & w1 & ->). left. exists a. reflexivity. Qed.

Lemma okOrUntouched_bind {A B : Type} (m : M A) (k : A -> M B) :
  keepsRequests m -> (forall a, okOrUntouched (k a)) -> okOrUntouched (m ≫= k).
Proof.
  intros Hm Hk w. rewrite run_bind. specialize (Hm w).
  destruct (m w) as [[a|e] w1]; simpl in *.
  - destruct (Hk a w1) as [Hok|Hsame]; [left; exact Hok|right; congruence].
  - right. exact Hm.
Qed.

Lemma okOrUntouched_rethrow {A : Type} (m : M A) :
  okOrUntouched m -> okOrUntouched (try_catch m (fun e => throw e)).
Proof.
  intros Hm w. unfold try_catch. specialize (Hm w).
  destruct (m w) as [[a|e] w1]; exact Hm.
Qed.

Lemma okOrUntouched_finally_release {A : Type} (m : M A) :
  okOrUntouched m -> okOrUntouched (try_finally m releaseLock).
Proof.
  intros Hm w. unfold try_finally, releaseLock, modify. specialize (Hm w).
  destruct (m w) as [r w1]. exact Hm.
Qed.

Lemma okOrUntouched_guard {B : Type} (b : bool) (msg : string) (k : M B) :
  okOrUntouched k ->
  okOrUntouched ((if b then throw msg else mret ()) ≫= fun _ => k).
Proof.
  intros Hk. apply okOrUntouched_bind; [|intros _; exact Hk].
  destruct b; [apply keeps_throw|apply keeps_ret].
Qed.

Lemma okOrUntouched_throws {A B : Type} (m : M A) (k : A -> M B) :
  (forall w, exists e, m w = (Throw e, w)) -> okOrUntouched (m ≫= k).
Proof.
  intros Hm w. rewrite run_bind. destruct (Hm w) as [e ->]. right. reflexivity.
Qed.

Lemma setValue_outside (n : sheetName) (row col : Z) (v : value) (w : world) :
  row < 1 \/ col < 1 ->
  setValue n row col v w
  = (Throw "The coordinates of the range are outside the dimensions of the sheet.", w).
Proof.
  intros Hbad. unfold setValue, checkRange.
  assert (E : (row <? 1) || (col <? 1) = true).
  { apply orb_true_iff. destruct Hbad; [left|right]; apply Z.ltb_lt; assumption. }
  rewrite E. reflexivity.
Qed.

Lemma checkRange_inside (row col : Z) (w : world) :
  1 <= row -> 1 <= col -> checkRange row col w = (Ok (), w).
Proof.
  intros Hr Hc. unfold checkRange.
  rewrite (proj2 (Z.ltb_ge row 1) Hr), (proj2 (Z.ltb_ge col 1) Hc). reflexivity.
Qed.

Lemma never_setValue (n : sheetName) (row col : Z) (v : value) :
  1 <= row -> 1 <= col -> neverThrows (setValue n row col v).
Proof.
  intros Hr Hc w. unfold setValue.
  rewrite run_bind, checkRange_inside by assumption. apply never_writeSheet.
Qed.

(** C10. Row processing never throws: whatever the sheet, the row and the
    failures of the services it calls, [processRequestRow_] returns the
    record of the two notification outcomes.  Hence [apiCreateRequest]
    and [apiEditRequest] can only fail before they write to the request
    table: each of them either reports success or has left the request
    table untouched. *)
Theorem processRequestRow_never_propagates :
  (forall (sheet : sheetName) (row : Z) (w : world),
     exists (out : rowOutcome) (w' : world),
       processRequestRow_ sheet row w = (Ok out, w')) /\
  (forall (startDate endDate : value) (w : world),
     (exists out : rowOutcome, (apiCreateRequest startDate endDate w).1 = Ok out) \/
     solicitudes (apiCreateRequest startDate endDate w).2 = solicitudes w) /\
  (forall (rowId : Z) (startDate endDate : value) (w : world),
     (apiEditRequest rowId startDate endDate w).1 = Ok () \/
     solicitudes (apiEditRequest rowId startDate endDate w).2 = solicitudes w).
Proof.
  split; [|split].
  - intros sheet row w. apply never_processRequestRow.
  - intros startDate endDate. change (okOrUntouched (apiCreateRequest startDate endDate)).
    unfold apiCreateRequest.
    apply okOrUntouched_bind; [apply keeps_gets|]. intros userEmail.
    apply okOrUntouched_bind; [apply keeps_checkRateLimit|]. intros _.
    apply okOrUntouched_bind.
    { apply keeps_try_catch; [apply keeps_waitLock|]. intros e. apply keeps_throw. }
    intros _. apply okOrUntouched_finally_release, okOrUntouched_rethrow.
    apply okOrUntouched_bind; [apply keeps_buscarNombre|]. intros nombre0. cbv zeta.
    apply okOrUntouched_bind; [apply keeps_gets|]. intros today.
    apply okOrUntouched_guard.
    apply okOrUntouched_bind.
    { destruct (ENFORCE_MIN_ADVANCE_DAYS && (0 <? MIN_ADVANCE_DAYS)); [|apply keeps_ret].
      apply keeps_bind; [apply keeps_getTimeOf|]. intros t1.
      apply keeps_bind; [apply keeps_getTimeOf|]. intros t0.
      destruct (num_lt _ _); [apply keeps_throw|apply keeps_ret]. }
    intros _.
    apply okOrUntouched_bind; [apply keeps_sameEmployee|]. intros conflict.
    apply okOrUntouched_bind.
    { destruct (bool_decide (conflict = None)); [apply keeps_ret|apply keeps_throw]. }
    intros _.
    apply okOrUntouched_bind; [apply keeps_getDb|]. intros _.
    apply okOrUntouched_never.
    apply never_bind; [apply never_gets|]. intros created.
    apply never_bind; [apply never_writeSheet|]. intros _.
    apply never_bind; [apply never_readSheet|]. intros newRowIndex.
    apply never_bind; [apply never_processRequestRow|]. intros result.
    apply never_bind; [apply never_logAudit|]. intros _. apply never_ret.
  - intros rowId startDate endDate w.
    assert (Hk : okOrUntouched (apiEditRequest rowId startDate endDate)).
    { unfold apiEditRequest.
      apply okOrUntouched_bind; [apply keeps_gets|]. intros userEmail.
      apply okOrUntouched_bind; [apply keeps_checkRateLimit|]. intros _.
      apply okOrUntouched_bind.
      { apply keeps_try_catch; [apply keeps_waitLock|]. intros e. apply keeps_throw. }
      intros _. apply okOrUntouched_finally_release, okOrUntouched_rethrow.
      apply okOrUntouched_bind; [apply keeps_getDb|]. intros _. cbv zeta.
      destruct (Z.ltb_spec rowId 1) as [Hlt|Hge].
      - apply okOrUntouched_throws. intros w0. eexists.
        apply setValue_outside. left. exact Hlt.
      - apply okOrUntouched_never.
        apply never_bind; [apply never_setValue; lia|]. intros _.
        apply never_bind; [apply never_setValue; lia|]. intros _.
        apply never_bind; [apply never_setValue; lia|]. intros _.
        apply never_bind; [apply never_processRequestRow|]. intros _.
        apply never_logAudit. }
    destruct (Hk w) as [[[] Hok]|Hsame]; [left; exact Hok|right; exact Hsame].
Qed.

(** ** Runs without service failures *)

Lemma ext_quiet (msg : string) (w : world) : faults w = [] -> ext msg w = (Ok (), w).
Proof. intros Hf. unfold ext. rewrite Hf. reflexivity. Qed.

Lemma getDb_quiet (w : world) : faults w = [] -> _getDb w = (Ok (), w).
Proof. intros Hf. unfold _getDb, try_catch. rewrite ext_quiet by exact Hf. reflexivity. Qed.

Lemma getValue_run (n : sheetName) (row col : Z) (w : world) :
  1 <= row -> 1 <= col ->
  getValue n row col w
  = (Ok (getCell (sheetOf n w) (Z.to_nat row) (Z.to_nat col)).1, touched w).
Proof.
  intros Hr Hc. unfold getValue.
  rewrite run_bind, checkRange_inside by assumption. apply readSheet_run.
Qed.

Lemma setValue_run (n : sheetName) (row col : Z) (v : value) (w : world) :
  1 <= row -> 1 <= col ->
  setValue n row col v w
  = (Ok (), set_sheet n (updCell (Z.to_nat row) (Z.to_nat col)
                                 (fun old => (toCell v, old.2)) (sheetOf n w))
                        (touched w)).
Proof.
  intros Hr Hc. unfold setValue.
  rewrite run_bind, checkRange_inside by assumption. apply writeSheet_run.
Qed.

Lemma clearContent_run (n : sheetName) (row col : Z) (w : world) :
  1 <= row -> 1 <= col ->
  clearContent n row col w
  = (Ok (), set_sheet n (updCell (Z.to_nat row) (Z.to_nat col)
                                 (fun old => (blank, old.2)) (sheetOf n w))
                        (touched w)).
Proof.
  intros Hr Hc. unfold clearContent.
  rewrite run_bind, checkRange_inside by assumption. apply writeSheet_run.
Qed.

Lemma sendEmailSafe_quiet (to : value) (subject title cc : string) (w : world) :
  faults w = [] ->
  sendEmailSafe_ to subject title cc w
  = (Ok (SendResult true None),
     set_outbox (outbox w ++ [Mail (String_ to) subject title cc]) w).
Proof.
  intros Hf. unfold sendEmailSafe_, try_catch.
  rewrite run_bind, ext_quiet by exact Hf. reflexivity.
Qed.

Lemma steady_refl (w : world) : steady w w.
Proof. repeat split. Qed.

Lemma sameRest_trans (w1 w2 w3 : world) :
  sameRest w1 w2 -> sameRest w2 w3 -> sameRest w1 w3.
Proof.
  intros (A1 & A2 & A3 & A4) (B1 & B2 & B3 & B4). repeat split; congruence.
Qed.

Lemma steady_trans (w1 w2 w3 : world) : steady w1 w2 -> steady w2 w3 -> steady w1 w3.
Proof.
  intros (A1 & A2 & A3) (B1 & B2 & B3).
  split; [congruence|]. split; [congruence|]. eapply sameRest_trans; eassumption.
Qed.

Lemma getManagerEmails_quiet (w : world) :
  faults w = [] ->
  exists w' : world,
    getManagerEmails_ w = (Ok (managerRoster w), w') /\ steady w w'.
Proof.
  intros Hf. unfold getManagerEmails_, managerRoster.
  rewrite run_bind. unfold gets at 1. cbv beta.
  destruct (scriptCache w) as [l|].
  - eexists. split; [reflexivity|apply steady_refl].
  - rewrite run_bind, getDb_quiet by exact Hf.
    rewrite run_bind, readSheet_run. cbn [sheetOf].
    destruct (getLastRow (managersSheet w) <? 2)%nat.
    + eexists. split; [reflexivity|]. repeat split.
    + rewrite run_bind, readSheet_run.
      eexists. split; [reflexivity|]. repeat split.
Qed.

Lemma getEmployeeTotals_quiet (key : value) (w : world) :
  faults w = [] ->
  getEmployeeTotals_ key w = (Ok (totalsIn (empleados w) key), touched w).
Proof.
  intros Hf. unfold getEmployeeTotals_.
  rewrite run_bind, getDb_quiet by exact Hf. apply readSheet_run.
Qed.

Lemma alter_twice_insert (cal : gmap string event) (id : string) (ev : event)
    (f g : event -> event) :
  cal !! id = Some ev -> alter g id (alter f id cal) = <[id := g (f ev)]> cal.
Proof.
  intros Hl. apply map_eq. intros k.
  destruct (decide (k = id)) as [->|Hne].
  - rewrite lookup_alter_eq, lookup_alter_eq, Hl, lookup_insert_eq. reflexivity.
  - rewrite !lookup_alter_ne, lookup_insert_ne by congruence. reflexivity.
Qed.

Ltac wcbn :=
  cbn [sheetOf set_sheet activeUser now solicitudes empleados managersSheet auditLog
       scriptCache userCache calendar outbox lockHeld unlockedAccesses faults
       set_solicitudes set_empleados set_managersSheet set_auditLog set_scriptCache
       set_userCache set_calendar set_outbox set_lockHeld set_unlockedAccesses
       set_faults touched fst snd].

Ltac wcbn_in H :=
  cbn [sheetOf set_sheet activeUser now solicitudes empleados managersSheet auditLog
       scriptCache userCache calendar outbox lockHeld unlockedAccesses faults
       set_solicitudes set_empleados set_managersSheet set_auditLog set_scriptCache
       set_userCache set_calendar set_outbox set_lockHeld set_unlockedAccesses
       set_faults touched fst snd] in H.

Ltac quiet := wcbn; assumption.

Ltac colnums :=
  change (Z.to_nat 1) with 1%nat; change (Z.to_nat 2) with 2%nat;
  change (Z.to_nat 3) with 3%nat; change (Z.to_nat 4) with 4%nat;
  change (Z.to_nat 5) with 5%nat; change (Z.to_nat 6) with 6%nat;
  change (Z.to_nat 7) with 7%nat; change (Z.to_nat 8) with 8%nat.

Lemma allDayDates_ok (a b : Z) (w : world) :
  a < b -> allDayDates (Some a) (Some b) w = (Ok (a, b), w).
Proof. intros Hab. unfold allDayDates. rewrite (proj2 (Z.ltb_lt a b) Hab). reflexivity. Qed.

Lemma updateEvent_quiet (id title : string) (a b : Z) (ev0 : event) (w : world) :
  faults w = [] -> calendar w !! id = Some ev0 -> a < b ->
  exists w' : world,
    (setTitle id title ≫= fun _ : () => setAllDayDates id (Some a) (Some b)) w
      = (Ok (), w') /\
    calendar w' = <[id := Event title a b]> (calendar w) /\
    solicitudes w' = solicitudes w /\ sameRest w w'.
Proof.
  intros Hf Hl Hab. unfold setTitle, setAllDayDates.
  rewrite run_bind, run_bind, ext_quiet by exact Hf.
  unfold modify at 1. cbv beta iota.
  rewrite run_bind, ext_quiet by quiet.
  rewrite run_bind, allDayDates_ok by exact Hab.
  eexists. split; [reflexivity|]. wcbn.
  split; [|split; [reflexivity|repeat split]].
  rewrite (alter_twice_insert _ _ ev0) by exact Hl. reflexivity.
Qed.

Lemma createEvent_quiet (title : string) (a b : Z) (row : Z) (w : world) :
  faults w = [] -> a < b -> 1 <= row ->
  exists w' : world,
    (createAllDayEvent title (Some a) (Some b)
       ≫= fun id : string => setValue SHEET_SOLICITUDES row 8 (VStr id)) w
      = (Ok (), w') /\
    calendar w' = <[fresh (dom (calendar w)) := Event title a b]> (calendar w) /\
    solicitudes w' = updCell (Z.to_nat row) 8
                       (fun old => (VStr (fresh (dom (calendar w))), old.2))
                       (solicitudes w) /\
    sameRest w w'.
Proof.
  intros Hf Hab Hrow. unfold createAllDayEvent.
  rewrite run_bind, run_bind, ext_quiet by exact Hf.
  rewrite run_bind, allDayDates_ok by exact Hab.
  rewrite run_bind. unfold gets at 1. cbv beta iota.
  rewrite run_bind. unfold modify at 1. cbv beta iota.
  unfold mret at 1, St_ret. cbv beta iota.
  rewrite setValue_run by lia.
  eexists. split; [reflexivity|]. wcbn. colnums. repeat split.
Qed.

(** The approved branch of [handleEstadoChange_], when no service fails. *)
Lemma handleEstadoChange_approved (w : world) (row : Z) (prevEstado : value) (a b : Z) :
  faults w = [] -> 1 <= row ->
  let sh := solicitudes w in
  let r := Z.to_nat row in
  let estado := (getCell sh r 6).1 in
  let eventId := (getCell sh r 8).1 in
  let ev := Event (eventTitle estado (getCell sh r 3).1) a (b + MS_PER_DAY) in
  estado = VStr Aprobado \/ estado = VStr AprobadoExcepcion ->
  normalizeDate_ (getCell sh r 4).1 = Some a ->
  normalizeDate_ (getCell sh r 5).1 = Some b ->
  a <= b ->
  exists (w' : world) (id : string),
    handleEstadoChange_ SHEET_SOLICITUDES row prevEstado w = (Ok (), w') /\
    faults w' = [] /\ empleados w' = empleados w /\ activeUser w' = activeUser w /\
    lockHeld w' = lockHeld w /\
    calendar w' = <[id := ev]> (calendar w) /\
    if resolves w eventId
    then id = String_ eventId /\ solicitudes w' = sh
    else (id ∉ dom (calendar w)) /\
         solicitudes w' = updCell r 8 (fun old => (VStr id, old.2)) sh.
Proof.
  intros Hf Hrow sh r estado eventId ev Hest Ha Hb Hab.
  unfold handleEstadoChange_, getCalendar_.
  rewrite run_bind, ext_quiet by exact Hf.
  do 6 (rewrite run_bind, getValue_run by lia).
  wcbn. colnums. fold sh r. fold estado eventId.
  assert (Hbr : (is_str estado Aprobado || is_str estado AprobadoExcepcion) = true).
  { unfold is_str. destruct Hest as [-> | ->].
    - rewrite bool_decide_eq_true_2 by reflexivity. reflexivity.
    - rewrite (bool_decide_eq_true_2 (VStr AprobadoExcepcion = VStr AprobadoExcepcion))
        by reflexivity. apply orb_true_r. }
  rewrite Hbr. fold (eventTitle estado (getCell sh r 3).1).
  rewrite Ha, Hb. cbn [Date_getTime Date_new Date_nextDay mbind option_bind option_ret mret].
  set (title := eventTitle estado (getCell sh r 3).1) in *.
  set (w6 := touched (touched (touched (touched (touched (touched w)))))).
  assert (Hf6 : faults w6 = []) by exact Hf.
  assert (Hmail : forall (w1 : world), faults w1 = [] ->
            exists w2, (if truthy (getCell sh r 2).1
                        then sendEmailSafe_ (getCell sh r 2).1 "Vacation Approved ✅"
                               "Approved" "" ≫= (fun _ : sendResult => mret ())
                        else mret ()) w1 = (Ok (), w2) /\
                       faults w2 = [] /\ empleados w2 = empleados w1 /\
                       activeUser w2 = activeUser w1 /\ lockHeld w2 = lockHeld w1 /\
                       calendar w2 = calendar w1 /\ solicitudes w2 = solicitudes w1).
  { intros w1 Hf1. destruct (truthy (getCell sh r 2).1).
    - rewrite run_bind, sendEmailSafe_quiet by exact Hf1.
      eexists. split; [reflexivity|]. repeat split. exact Hf1.
    - eexists. split; [reflexivity|]. repeat split. exact Hf1. }
  assert (Hlt : a < b + MS_PER_DAY) by (unfold MS_PER_DAY; lia).
  assert (Hcreate : resolves w eventId = false ->
            forall w1 : world, faults w1 = [] -> calendar w1 = calendar w ->
              solicitudes w1 = sh -> sameRest w w1 ->
            exists (w' : world) (id : string),
              ((createAllDayEvent title (Some a) (Some (b + MS_PER_DAY))
                  ≫= fun id0 : string => setValue SHEET_SOLICITUDES row 8 (VStr id0))
                 ≫= fun _ : () =>
                      if truthy (getCell sh r 2).1
                      then sendEmailSafe_ (getCell sh r 2).1 "Vacation Approved ✅"
                             "Approved" "" ≫= (fun _ : sendResult => mret ())
                      else mret ()) w1 = (Ok (), w') /\
              faults w' = [] /\ empleados w' = empleados w /\
              activeUser w' = activeUser w /\ lockHeld w' = lockHeld w /\
              calendar w' = <[id := ev]> (calendar w) /\
              (id ∉ dom (calendar w)) /\
              solicitudes w' = updCell r 8 (fun old => (VStr id, old.2)) sh).
  { intros _ w1 Hf1 Hc1 Hs1 (R1 & R2 & R3 & R4).
    rewrite run_bind.
    destruct (createEvent_quiet title a (b + MS_PER_DAY) row w1 Hf1 Hlt Hrow)
      as (w2 & -> & Hc2 & Hs2 & (Q1 & Q2 & Q3 & Q4)).
    destruct (Hmail w2 ltac:(congruence)) as (w3 & -> & M1 & M2 & M3 & M4 & M5 & M6).
    exists w3, (fresh (dom (calendar w))).
    split; [reflexivity|].
    split; [exact M1|]. split; [congruence|]. split; [congruence|].
    split; [congruence|]. split; [rewrite M5, Hc2, Hc1; reflexivity|].
    split; [apply is_fresh|]. rewrite M6, Hs2, Hs1, Hc1. reflexivity. }
  rewrite run_bind. unfold resolves.
  destruct (truthy eventId) eqn:Htr; cbn [andb].
  - unfold getEventById. rewrite run_bind, ext_quiet by exact Hf6.
    unfold gets. cbv beta iota.
    replace (calendar w6) with (calendar w) by reflexivity.
    destruct (calendar w !! String_ eventId) as [ev0|] eqn:Hev.
    + rewrite bool_decide_eq_true_2 by (eexists; reflexivity).
      rewrite run_bind.
      destruct (updateEvent_quiet (String_ eventId) title a (b + MS_PER_DAY) ev0 w6
                  Hf6 Hev Hlt) as (w7 & -> & Hc7 & Hs7 & (Q1 & Q2 & Q3 & Q4)).
      destruct (Hmail w7 ltac:(congruence)) as (w8 & -> & M1 & M2 & M3 & M4 & M5 & M6).
      exists w8, (String_ eventId). split; [reflexivity|].
      split; [exact M1|]. split; [rewrite M2, Q1; reflexivity|].
      split; [rewrite M3, Q3; reflexivity|]. split; [rewrite M4, Q4; reflexivity|].
      split; [rewrite M5, Hc7; reflexivity|].
      split; [reflexivity|]. rewrite M6, Hs7. reflexivity.
    + rewrite bool_decide_eq_false_2 by (intros [x Hx]; discriminate).
      apply Hcreate; try reflexivity; try exact Hf6.
      * unfold resolves. rewrite Htr, Hev.
        rewrite bool_decide_eq_false_2 by (intros [x Hx]; discriminate). reflexivity.
      * repeat split.
  - unfold mret at 1, St_ret. cbv beta iota.
    apply Hcreate; try reflexivity; try exact Hf6.
    + unfold resolves. rewrite Htr. reflexivity.
    + repeat split.
Qed.

Lemma normalizeDate_midnight (t : Z) :
  normalizeDate_ (VDate (Some t)) = Some (midnight (localDay t)).
Proof. apply normalizeDate_date. Qed.

(** C7 (amended). Let the status of a request be an approved state and
    its dates valid with the end day not before the start day.  When no
    service fails, the state-change side effect leaves in the calendar an
    all-day event from the midnight of the start day to the midnight
    after the end day (end-exclusive), titled with the employee name and
    with "(EXCEPTION)" exactly for the exception status.  When the stored
    reference is the id of a calendar event, that event is updated in
    place and the request table is unchanged; otherwise (no reference, or
    one that no longer identifies an event) the event is new, under a
    fresh id, and the id is stored in column 8 of the request. *)
Theorem handleEstadoChange_calendar_event (w : world) (row : Z) (prevEstado : value)
    (s e : Z) :
  let sh := solicitudes w in
  let r := Z.to_nat row in
  let estado := (getCell sh r 6).1 in
  let empleado := (getCell sh r 3).1 in
  let eventId := (getCell sh r 8).1 in
  faults w = [] -> 1 <= row ->
  estado = VStr Aprobado \/ estado = VStr AprobadoExcepcion ->
  (getCell sh r 4).1 = VDate (Some s) ->
  (getCell sh r 5).1 = VDate (Some e) ->
  localDay s <= localDay e ->
  exists (w' : world) (id title : string),
    handleEstadoChange_ SHEET_SOLICITUDES row prevEstado w = (Ok (), w') /\
    calendar w'
      = <[id := Event title (midnight (localDay s)) (midnight (localDay e + 1))]>
          (calendar w) /\
    (estado = VStr AprobadoExcepcion ->
       title = "Vacations (EXCEPTION): " +:+ String_ empleado) /\
    (estado = VStr Aprobado -> title = "Vacations: " +:+ String_ empleado) /\
    (resolves w eventId = true -> id = String_ eventId /\ solicitudes w' = sh) /\
    (resolves w eventId = false ->
       (id ∉ dom (calendar w)) /\
       solicitudes w' = updCell r 8 (fun old => (VStr id, old.2)) sh /\
       (getCell (solicitudes w') r 8).1 = VStr id).
Proof.
  intros sh r estado empleado eventId Hf Hrow Hest Hs He Hse.
  assert (Ha : normalizeDate_ (getCell sh r 4).1 = Some (midnight (localDay s)))
    by (rewrite Hs; apply normalizeDate_midnight).
  assert (Hb : normalizeDate_ (getCell sh r 5).1 = Some (midnight (localDay e)))
    by (rewrite He; apply normalizeDate_midnight).
  assert (Hab : midnight (localDay s) <= midnight (localDay e))
    by (unfold midnight, MS_PER_DAY; lia).
  destruct (handleEstadoChange_approved w row prevEstado _ _ Hf Hrow Hest Ha Hb Hab)
    as (w' & id & Hrun & _ & _ & _ & _ & Hcal & Hcase).
  fold sh r in Hcal, Hcase. fold estado eventId empleado in Hcal, Hcase.
  exists w', id, (eventTitle estado empleado).
  split; [exact Hrun|]. split.
  { rewrite Hcal. f_equal. f_equal. unfold midnight, MS_PER_DAY. lia. }
  split.
  { intros E. unfold eventTitle, is_str. rewrite E.
    rewrite bool_decide_eq_true_2 by reflexivity. reflexivity. }
  split.
  { intros E. unfold eventTitle, is_str. rewrite E.
    rewrite bool_decide_eq_false_2 by discriminate. reflexivity. }
  split.
  - intros Hres. rewrite Hres in Hcase. exact Hcase.
  - intros Hres. rewrite Hres in Hcase.
    destruct Hcase as [Hfresh Hsol].
    split; [exact Hfresh|]. split; [exact Hsol|].
    rewrite Hsol, getCell_updCell by lia.
    rewrite decide_True by (split; reflexivity). reflexivity.
Qed.

Lemma logAudit_run (action userEmail : string) (w : world) :
  exists w' : world,
    logAudit_ action userEmail w = (Ok (), w') /\
    solicitudes w' = solicitudes w /\ calendar w' = calendar w /\
    empleados w' = empleados w /\ lockHeld w' = lockHeld w.
Proof.
  unfold logAudit_, try_catch, _getDb, try_catch, ext.
  rewrite !run_bind.
  destruct (faults w) as [|[] fs]; cbv beta iota;
    eexists; (split; [reflexivity|]); repeat split.
Qed.

Lemma recalcEmpleados_quiet (w : world) :
  faults w = [] ->
  exists w' : world,
    recalcEmpleados_ w = (Ok (), w') /\
    solicitudes w' = solicitudes w /\ faults w' = [].
Proof.
  intros Hf.
  destruct (recalcEmpleados_cells w) as (w' & Hrun & Hs & Hf' & _).
  { unfold nextCallOk. rewrite Hf. discriminate. }
  exists w'. split; [exact Hrun|]. split; [exact Hs|]. rewrite Hf', Hf. reflexivity.
Qed.

(** C4. A manager decides on a request row while no service fails.  With
    balance enforcement on, the decision [Aprobado] is refused with the
    insufficient-balance error, which quotes the remaining and the
    requested days, when remaining minus business days is negative, and
    then no table or calendar entry is written.  The decision
    [Aprobado (Excepción)] is not checked against the balance: whatever
    the employee's totals, on a request with valid dates it succeeds and
    the status is written. *)
Theorem decision_balance_check (w : world) (rowId : Z) :
  let sh := solicitudes w in
  let r := Z.to_nat rowId in
  let empleado := (getCell sh r 3).1 in
  let dias := orZero (Number_ (getCell sh r 7).1) in
  let t := totalsIn (empleados w) empleado in
  faults w = [] -> activeUser w ∈ managerRoster w -> 1 <= rowId ->
  ENFORCE_BALANCE_BEFORE_EVENT = true /\
  (num_lt (num_sub (remaining t) (Some dias)) (Some 0) = true ->
   exists w' : world,
     apiProcessRequest rowId Aprobado w
       = (Throw (insufficientBalanceMsg (remaining t) dias), w') /\
     solicitudes w' = solicitudes w /\ empleados w' = empleados w /\
     calendar w' = calendar w) /\
  (forall s e : Z,
     (getCell sh r 4).1 = VDate (Some s) -> (getCell sh r 5).1 = VDate (Some e) ->
     localDay s <= localDay e ->
     exists w' : world,
       apiProcessRequest rowId AprobadoExcepcion w = (Ok (), w') /\
       (getCell (solicitudes w') r 6).1 = VStr AprobadoExcepcion).
Proof.
  intros sh r empleado dias t Hf Hman Hrow.
  split; [reflexivity|].
  destruct (getManagerEmails_quiet w Hf) as (w1 & Hrun1 & Hs1 & Hc1 & He1 & Hf1 & Hu1 & Hl1).
  assert (Hf1' : faults w1 = []) by congruence.
  split.
  - intros Hneg. unfold apiProcessRequest.
    rewrite run_bind. unfold gets at 1. cbv beta iota.
    rewrite run_bind, Hrun1.
    rewrite bool_decide_eq_true_2 by exact Hman.
    rewrite run_bind. unfold mret at 1, St_ret. cbv beta iota.
    rewrite run_bind, getDb_quiet by exact Hf1'.
    do 3 (rewrite run_bind, getValue_run by lia).
    wcbn. colnums. rewrite Hs1. fold sh r. fold empleado. cbv zeta.
    change (String.eqb Aprobado Aprobado && ENFORCE_BALANCE_BEFORE_EVENT) with true.
    cbv iota. rewrite run_bind, run_bind, getEmployeeTotals_quiet by quiet.
    wcbn. rewrite He1. fold t. fold dias. rewrite Hneg.
    eexists. split; [reflexivity|]. wcbn. repeat split; assumption.
  - intros s e Hs He Hse. unfold apiProcessRequest.
    rewrite run_bind. unfold gets at 1. cbv beta iota.
    rewrite run_bind, Hrun1.
    rewrite bool_decide_eq_true_2 by exact Hman.
    rewrite run_bind. unfold mret at 1, St_ret. cbv beta iota.
    rewrite run_bind, getDb_quiet by exact Hf1'.
    do 3 (rewrite run_bind, getValue_run by lia).
    wcbn. colnums. rewrite Hs1. fold sh r. cbv zeta.
    change (String.eqb AprobadoExcepcion Aprobado && ENFORCE_BALANCE_BEFORE_EVENT)
      with false.
    cbv iota. rewrite run_bind. unfold mret at 1, St_ret. cbv beta iota.
    rewrite run_bind, setValue_run by lia. wcbn. colnums. rewrite Hs1. fold sh r.
    set (w4 := set_solicitudes _ _).
    assert (Hsol4 : solicitudes w4
                    = updCell r 6 (fun old => (VStr AprobadoExcepcion, old.2)) sh)
      by reflexivity.
    assert (Hf4 : faults w4 = []) by exact Hf1'.
    assert (Hr : (1 <= r)%nat) by (unfold r; lia).
    assert (Hcell : forall c : nat, (1 <= c)%nat -> c <> 6%nat ->
                      getCell (solicitudes w4) (Z.to_nat rowId) c = getCell sh r c).
    { intros c Hc Hne. rewrite Hsol4. fold r. rewrite getCell_updCell by lia.
      apply decide_False. intros [_ ?]. contradiction. }
    assert (Hest4 : (getCell (solicitudes w4) (Z.to_nat rowId) 6).1 = VStr AprobadoExcepcion).
    { rewrite Hsol4. fold r. rewrite getCell_updCell by lia.
      rewrite decide_True by (split; reflexivity). reflexivity. }
    destruct (handleEstadoChange_approved w4 rowId (getCell sh r 6).1
                (midnight (localDay s)) (midnight (localDay e)))
      as (w5 & id & Hrun5 & Hf5 & _ & _ & _ & _ & Hcase); try assumption.
    { right. exact Hest4. }
    { rewrite Hcell by lia. rewrite Hs. apply normalizeDate_midnight. }
    { rewrite Hcell by lia. rewrite He. apply normalizeDate_midnight. }
    { unfold midnight, MS_PER_DAY. lia. }
    rewrite run_bind, Hrun5.
    destruct (recalcEmpleados_quiet w5 Hf5) as (w6 & Hrun6 & Hs6 & Hf6).
    rewrite run_bind, Hrun6.
    destruct (logAudit_run "MANAGER_ACTION" (activeUser w) w6)
      as (w7 & Hrun7 & Hs7 & _).
    rewrite Hrun7. exists w7. split; [reflexivity|].
    rewrite Hs7, Hs6.
    destruct (resolves w4 _); destruct Hcase as [_ Hsol5]; rewrite Hsol5.
    + exact Hest4.
    + fold r. rewrite getCell_updCell by lia.
      rewrite decide_False by (intros [_ ?]; lia). exact Hest4.
Qed.

(** ** Cancellation *)

Lemma ext_pass (msg : string) (fs : list bool) (w : world) :
  faults w = false :: fs -> ext msg w = (Ok (), set_faults fs w).
Proof. intros Hf. unfold ext. rewrite Hf. reflexivity. Qed.

Lemma ext_fail (msg : string) (fs : list bool) (w : world) :
  faults w = true :: fs -> ext msg w = (Throw msg, set_faults fs w).
Proof. intros Hf. unfold ext. rewrite Hf. reflexivity. Qed.

Lemma getDb_pass (fs : list bool) (w : world) :
  faults w = false :: fs -> _getDb w = (Ok (), set_faults fs w).
Proof.
  intros Hf. unfold _getDb, try_catch. rewrite (ext_pass _ fs) by exact Hf. reflexivity.
Qed.

Lemma checkRateLimit_under (userEmail action : string) (max window : Z) (w : world) :
  RATE_LIMITS action = Some (max, window) ->
  default 0 (userCache w !! rateKey action userEmail) < max ->
  checkRateLimit_ userEmail action w
  = (Ok true,
     set_userCache (<[rateKey action userEmail :=
                        default 0 (userCache w !! rateKey action userEmail) + 1]>
                      (userCache w)) w).
Proof.
  intros Hlim Hlt. unfold checkRateLimit_. cbv zeta.
  rewrite run_bind. unfold gets at 1. cbv beta iota. rewrite Hlim.
  rewrite (proj2 (Z.leb_gt max _) Hlt). reflexivity.
Qed.

Lemma cancelLoop_lookup (userEmail : string) (rowId : Z) (rows : list (list value)) :
  forall (i : Z) (k : nat) (row : list value),
    rows !! k = Some row -> i + Z.of_nat k + 1 = rowId ->
    cancelLoop rows i rowId userEmail
    = (String.eqb (toLowerCase (trim (String_ (at1 row 1)))) (toLowerCase userEmail),
       String_ (at1 row 5)).
Proof.
  induction rows as [|x rest IH]; intros i k row Hl Hk; [destruct k; discriminate|].
  cbn [cancelLoop]. destruct k as [|k].
  - injection Hl as ->. rewrite (proj2 (Z.eqb_eq _ _)) by lia. reflexivity.
  - rewrite (proj2 (Z.eqb_neq _ _)) by lia.
    apply (IH (i + 1) k); [exact Hl|lia].
Qed.

(** The calendar clean-up block of [apiCancelRequest]. *)
Lemma cancelCleanup_run (w : world) (rowId : Z) (eventId : value) :
  1 <= rowId ->
  let block :=
    try_catch
      (getCalendar_;;
       ev ← getEventById (String_ eventId);
       match ev with Some id => deleteEvent id | None => mret () end;;
       clearContent SHEET_SOLICITUDES rowId 8)
      (fun _ => mret ()) in
  (faults w = [] ->
   exists w' : world,
     block w = (Ok (), w') /\ faults w' = [] /\
     solicitudes w' = updCell (Z.to_nat rowId) 8 (fun old => (blank, old.2))
                              (solicitudes w) /\
     calendar w' = delete (String_ eventId) (calendar w)) /\
  (calendarFailure w eventId (faults w) ->
   exists w' : world,
     block w = (Ok (), w') /\ faults w' = [] /\
     solicitudes w' = solicitudes w /\ calendar w' = calendar w).
Proof.
  intros Hrow block. split.
  - intros Hf. unfold block, try_catch, getCalendar_, getEventById.
    rewrite run_bind, ext_quiet by exact Hf.
    rewrite run_bind, run_bind, ext_quiet by exact Hf.
    unfold gets. cbv beta iota.
    destruct (calendar w !! String_ eventId) as [ev0|] eqn:Hev.
    + rewrite run_bind. unfold deleteEvent.
      rewrite run_bind, ext_quiet by exact Hf.
      unfold modify. cbv beta iota.
      rewrite clearContent_run by lia.
      eexists. split; [reflexivity|]. wcbn. colnums. repeat split. exact Hf.
    + rewrite run_bind. unfold mret at 1, St_ret. cbv beta iota.
      rewrite clearContent_run by lia.
      eexists. split; [reflexivity|]. wcbn. colnums.
      split; [exact Hf|]. split; [reflexivity|].
      symmetry. apply delete_id. exact Hev.
  - intros [Hc|[Hc|[Hc [ev0 Hev]]]]; unfold block, try_catch, getCalendar_, getEventById.
    + rewrite run_bind, (ext_fail _ []) by exact Hc.
      eexists. split; [reflexivity|]. repeat split.
    + rewrite run_bind, (ext_pass _ [true]) by exact Hc.
      rewrite run_bind, run_bind, (ext_fail _ []) by reflexivity.
      eexists. split; [reflexivity|]. repeat split.
    + rewrite run_bind, (ext_pass _ [false; true]) by exact Hc.
      rewrite run_bind, run_bind, (ext_pass _ [true]) by reflexivity.
      unfold gets. cbv beta iota. wcbn. rewrite Hev.
      rewrite run_bind. unfold deleteEvent.
      rewrite run_bind, (ext_fail _ []) by reflexivity.
      eexists. split; [reflexivity|]. repeat split.
Qed.

(** C8 (amended). The owner cancels a pending request that holds a
    calendar event reference; the lock is acquired and the spreadsheet
    opens.  Whether or not the calendar clean-up fails, the call succeeds
    and the status becomes [Cancelado].  The stored reference is cleared
    when the clean-up runs without error, the event being deleted (or
    already absent); when the calendar lookup, the event lookup or the
    deletion throws, the error is swallowed and the reference and the
    calendar are left as they were. *)
Theorem cancel_event_reference (w : world) (rowId : Z) (row : list value)
    (cal : list bool) :
  let sh := solicitudes w in
  let r := Z.to_nat rowId in
  let eventId := (getCell sh r 8).1 in
  default 0 (userCache w !! rateKey "cancel_request" (activeUser w)) < 3 ->
  2 <= rowId ->
  dataValues sh !! Z.to_nat (rowId - 1) = Some row ->
  toLowerCase (trim (String_ (at1 row 1))) = toLowerCase (activeUser w) ->
  String_ (at1 row 5) = Pendiente \/ String_ (at1 row 5) = NecesitaRevision ->
  truthy eventId = true ->
  faults w = false :: false :: cal ->
  (cal = [] ->
   exists w' : world,
     apiCancelRequest rowId w = (Ok (), w') /\
     (getCell (solicitudes w') r 6).1 = VStr Cancelado /\
     (getCell (solicitudes w') r 8).1 = blank /\
     calendar w' = delete (String_ eventId) (calendar w)) /\
  (calendarFailure w eventId cal ->
   exists w' : world,
     apiCancelRequest rowId w = (Ok (), w') /\
     (getCell (solicitudes w') r 6).1 = VStr Cancelado /\
     (getCell (solicitudes w') r 8).1 = eventId /\
     calendar w' = calendar w).
Proof.
  intros sh r eventId Hrate Hrow Hlook Hown Hstat Htr Hf.
  assert (Hr : (1 <= r)%nat) by (unfold r; lia).
  assert (Hrun : exists w5 : world,
    faults w5 = cal /\ calendar w5 = calendar w /\
    solicitudes w5 = updCell r 6 (fun old => (VStr Cancelado, old.2)) sh /\
    apiCancelRequest rowId w
    = try_finally
        (try_catch
           ((try_catch
               (getCalendar_;;
                ev ← getEventById (String_ eventId);
                match ev with Some id => deleteEvent id | None => mret () end;;
                clearContent SHEET_SOLICITUDES rowId 8)
               (fun _ => mret ()));;
            recalcEmpleados_;;
            logAudit_ "CANCEL_REQUEST" (activeUser w))
           (fun e => throw e))
        releaseLock w5).
  { eexists. split; [|split; [|split]]; cycle 3.
    - unfold apiCancelRequest.
      rewrite run_bind. unfold gets at 1. cbv beta iota.
      rewrite run_bind, (checkRateLimit_under _ _ 3 3600) by (reflexivity || exact Hrate).
      rewrite run_bind. unfold try_catch at 1, waitLock.
      rewrite run_bind, (ext_pass _ (false :: cal)) by (wcbn; exact Hf).
      unfold modify at 1. cbv beta iota.
      unfold try_finally at 1, try_catch at 1.
      rewrite run_bind, (getDb_pass cal) by reflexivity.
      rewrite run_bind, readSheet_run. wcbn. fold sh.
      rewrite (cancelLoop_lookup (activeUser w) rowId (drop 1 (dataValues sh)) 1
                 (Z.to_nat (rowId - 1) - 1) row).
      2:{ rewrite lookup_drop. rewrite <- Hlook. f_equal. lia. }
      2:{ lia. }
      rewrite Hown, String.eqb_refl.
      rewrite run_bind. unfold mret at 1, St_ret. cbv beta iota.
      assert (Hg : (negb (String.eqb (String_ (at1 row 5)) Pendiente)
                    && negb (String.eqb (String_ (at1 row 5)) NecesitaRevision)) = false).
      { destruct Hstat as [-> | ->]; reflexivity. }
      rewrite Hg. rewrite run_bind. unfold mret at 1, St_ret. cbv beta iota.
      rewrite run_bind, setValue_run by lia. wcbn. colnums. fold sh r.
      rewrite run_bind, getValue_run by lia. wcbn. colnums. fold r.
      rewrite getCell_updCell by lia.
      rewrite decide_False by (intros [_ ?]; lia). fold eventId. rewrite Htr.
      unfold try_finally, try_catch at 1. reflexivity.
    - reflexivity.
    - reflexivity.
    - reflexivity. }
  destruct Hrun as (w5 & Hf5 & Hc5 & Hs5 & ->).
  pose proof (cancelCleanup_run w5 rowId eventId ltac:(lia)) as [Hclean Hfail].
  cbv zeta in Hclean, Hfail.
  assert (Hrest : forall w6 : world, faults w6 = [] ->
            exists w8 : world,
              (recalcEmpleados_;; logAudit_ "CANCEL_REQUEST" (activeUser w)) w6
                = (Ok (), w8) /\
              solicitudes w8 = solicitudes w6 /\ calendar w8 = calendar w6).
  { intros w6 Hf6.
    destruct (recalcEmpleados_cells w6) as (w7 & Hrun7 & Hs7 & _ & _ & _).
    { unfold nextCallOk. rewrite Hf6. discriminate. }
    assert (Hc7 : calendar w7 = calendar w6).
    { revert Hrun7. unfold recalcEmpleados_.
      rewrite run_bind, getDb_quiet by exact Hf6.
      rewrite run_bind, readSheet_run. cbv zeta.
      rewrite run_bind, readSheet_run.
      destruct (_ <? 2)%nat.
      - intros [= <-]. reflexivity.
      - rewrite run_bind, readSheet_run.
        destruct (0 <? _)%nat.
        + rewrite writeSheet_run. intros [= <-]. reflexivity.
        + intros [= <-]. reflexivity. }
    destruct (logAudit_run "CANCEL_REQUEST" (activeUser w) w7)
      as (w8 & Hrun8 & Hs8 & Hc8 & _).
    exists w8. rewrite run_bind, Hrun7, Hrun8.
    split; [reflexivity|]. split; congruence. }
  split.
  - intros ->. destruct (Hclean Hf5) as (w6 & Hrun6 & Hf6 & Hs6 & Hc6).
    destruct (Hrest w6 Hf6) as (w8 & Hrun8 & Hs8 & Hc8).
    unfold try_finally, try_catch at 1. rewrite run_bind, Hrun6, Hrun8.
    unfold releaseLock, modify. eexists. split; [reflexivity|]. wcbn.
    rewrite Hs8, Hs6, Hs5, Hc8, Hc6, Hc5. fold r.
    rewrite !getCell_updCell by lia.
    rewrite (decide_False (P := (r = r /\ 6%nat = 8%nat))) by (intros [_ ?]; lia).
    rewrite (decide_True (P := (r = r /\ 6%nat = 6%nat))) by (split; reflexivity).
    rewrite (decide_True (P := (r = r /\ 8%nat = 8%nat))) by (split; reflexivity).
    repeat split.
  - intros Hcf.
    assert (Hcf5 : calendarFailure w5 eventId (faults w5)).
    { rewrite Hf5. unfold calendarFailure in *. rewrite Hc5. exact Hcf. }
    destruct (Hfail Hcf5) as (w6 & Hrun6 & Hf6 & Hs6 & Hc6).
    destruct (Hrest w6 Hf6) as (w8 & Hrun8 & Hs8 & Hc8).
    unfold try_finally, try_catch at 1. rewrite run_bind, Hrun6, Hrun8.
    unfold releaseLock, modify. eexists. split; [reflexivity|]. wcbn.
    rewrite Hs8, Hs6, Hs5, Hc8, Hc6, Hc5. fold r.
    rewrite !getCell_updCell by lia.
    rewrite (decide_True (P := (r = r /\ 6%nat = 6%nat))) by (split; reflexivity).
    rewrite (decide_False (P := (r = r /\ 8%nat = 6%nat))) by (intros [_ ?]; lia).
    repeat split.
Qed.

(** ** The lock discipline *)

Lemma underLock_ret {A : Type} (a : A) : underLock (mret a).
Proof. intros w Hl. split; [exact Hl|reflexivity]. Qed.

Lemma underLock_throw {A : Type} (msg : string) : underLock (@throw world A msg).
Proof. intros w Hl. split; [exact Hl|reflexivity]. Qed.

Lemma underLock_gets {A : Type} (f : world -> A) : underLock (gets f).
Proof. intros w Hl. split; [exact Hl|reflexivity]. Qed.

Lemma underLock_modify (f : world -> world) :
  (forall w, lockHeld (f w) = lockHeld w /\ unlockedAccesses (f w) = unlockedAccesses w) ->
  underLock (modify f).
Proof.
  intros Hf w Hl. unfold modify. cbn [snd]. destruct (Hf w) as [E1 E2].
  split; congruence.
Qed.

Lemma underLock_bind {A B : Type} (m : M A) (k : A -> M B) :
  underLock m -> (forall a, underLock (k a)) -> underLock (m ≫= k).
Proof.
  intros Hm Hk w Hl. rewrite run_bind. specialize (Hm w Hl).
  destruct (m w) as [[a|e] w1]; cbn [snd] in *.
  - destruct Hm as [Hl1 Hc1]. destruct (Hk a w1 Hl1) as [Hl2 Hc2].
    split; congruence.
  - exact Hm.
Qed.

Lemma underLock_try_catch {A : Type} (m : M A) (h : string -> M A) :
  underLock m -> (forall e, underLock (h e)) -> underLock (try_catch m h).
Proof.
  intros Hm Hh w Hl. unfold try_catch. specialize (Hm w Hl).
  destruct (m w) as [[a|e] w1]; cbn [snd] in *.
  - exact Hm.
  - destruct Hm as [Hl1 Hc1]. destruct (Hh e w1 Hl1) as [Hl2 Hc2].
    split; congruence.
Qed.

Lemma underLock_if {A : Type} (b : bool) (m1 m2 : M A) :
  underLock m1 -> underLock m2 -> underLock (if b then m1 else m2).
Proof. destruct b; auto. Qed.

Lemma underLock_ext (msg : string) : underLock (ext msg).
Proof.
  intros w Hl. unfold ext.
  destruct (faults w) as [|[] fs]; cbn [snd]; split; auto.
Qed.

Lemma underLock_touch : underLock touch.
Proof.
  intros w Hl. unfold touch, modify, touched. cbn. rewrite Hl. split; reflexivity.
Qed.

Lemma underLock_getDb : underLock _getDb.
Proof.
  apply underLock_try_catch; [apply underLock_ext|]. intros e. apply underLock_throw.
Qed.

Lemma underLock_readSheet {A : Type} (n : sheetName) (f : sheet -> A) :
  underLock (readSheet n f).
Proof.
  apply underLock_bind; [apply underLock_touch|]. intros _. apply underLock_gets.
Qed.

Lemma underLock_writeSheet (n : sheetName) (f : sheet -> sheet) :
  underLock (writeSheet n f).
Proof.
  apply underLock_bind; [apply underLock_touch|]. intros _.
  apply underLock_modify. intros w. destruct n; split; reflexivity.
Qed.

Lemma underLock_checkRange (row col : Z) : underLock (checkRange row col).
Proof. apply underLock_if; [apply underLock_throw|apply underLock_ret]. Qed.

Lemma underLock_getValue (n : sheetName) (row col : Z) : underLock (getValue n row col).
Proof.
  apply underLock_bind; [apply underLock_checkRange|]. intros _. apply underLock_readSheet.
Qed.

Lemma underLock_setValue (n : sheetName) (row col : Z) (v : value) :
  underLock (setValue n row col v).
Proof.
  apply underLock_bind; [apply underLock_checkRange|]. intros _. apply underLock_writeSheet.
Qed.

Lemma underLock_setNote (n : sheetName) (row col : Z) (note : string) :
  underLock (setNote n row col note).
Proof.
  apply underLock_bind; [apply underLock_checkRange|]. intros _. apply underLock_writeSheet.
Qed.

Lemma underLock_clearContent (n : sheetName) (row col : Z) :
  underLock (clearContent n row col).
Proof.
  apply underLock_bind; [apply underLock_checkRange|]. intros _. apply underLock_writeSheet.
Qed.

Create HintDb lock.

#[local] Hint Resolve underLock_ret underLock_throw underLock_gets underLock_ext
  underLock_touch underLock_getDb underLock_readSheet underLock_writeSheet
  underLock_checkRange underLock_getValue underLock_setValue underLock_setNote
  underLock_clearContent : lock.

(** Splits a computation along its binds, branches and handlers. *)
Ltac lock_step :=
  first
    [ apply underLock_bind; [|intros ?]
    | apply underLock_try_catch; [|intros ?]
    | apply underLock_if
    | apply underLock_modify; intros ?; split; reflexivity
    | solve [auto with lock]
    | match goal with
      | |- underLock (match ?x with _ => _ end) => destruct x
      end ].

Ltac lock := repeat lock_step.

Lemma underLock_logAudit (action userEmail : string) : underLock (logAudit_ action userEmail).
Proof. unfold logAudit_. lock. Qed.

Lemma underLock_getManagerEmails : underLock getManagerEmails_.
Proof. unfold getManagerEmails_. lock. Qed.

Lemma underLock_sendEmailSafe (to : value) (subject title cc : string) :
  underLock (sendEmailSafe_ to subject title cc).
Proof. unfold sendEmailSafe_. lock. Qed.

#[local] Hint Resolve underLock_logAudit underLock_getManagerEmails
  underLock_sendEmailSafe : lock.

Lemma underLock_notifyManagers (subject title : string) :
  underLock (notifyManagersCompact_ subject title).
Proof. unfold notifyManagersCompact_. lock. Qed.

Lemma underLock_buscarNombre (email : string) : underLock (_buscarNombrePorEmail email).
Proof. unfold _buscarNombrePorEmail. lock. Qed.

Lemma underLock_getEmployeeTeam (empleado : value) : underLock (getEmployeeTeam_ empleado).
Proof. unfold getEmployeeTeam_. lock. Qed.

Lemma underLock_getTimeOf (v : value) : underLock (getTimeOf v).
Proof. unfold getTimeOf. lock. Qed.

Lemma underLock_recalcEmpleados : underLock recalcEmpleados_.
Proof. unfold recalcEmpleados_. lock. Qed.

Lemma underLock_sameEmployee (empleado start end_ : value) (currentRow : Z) :
  underLock (hasOverlapPendingOrApprovedSameEmployee_ empleado start end_ currentRow).
Proof. unfold hasOverlapPendingOrApprovedSameEmployee_. lock. Qed.

Lemma underLock_sortSolicitudes : underLock sortSolicitudesByFechaInicio_.
Proof. unfold sortSolicitudesByFechaInicio_. lock. Qed.

#[local] Hint Resolve underLock_notifyManagers underLock_buscarNombre
  underLock_getEmployeeTeam underLock_getTimeOf underLock_recalcEmpleados
  underLock_sameEmployee underLock_sortSolicitudes : lock.

Lemma underLock_getCalendar : underLock getCalendar_.
Proof. unfold getCalendar_. lock. Qed.

Lemma underLock_getEventById (id : string) : underLock (getEventById id).
Proof. unfold getEventById. lock. Qed.

Lemma underLock_deleteEvent (id : string) : underLock (deleteEvent id).
Proof. unfold deleteEvent. lock. Qed.

#[local] Hint Resolve underLock_getCalendar underLock_getEventById
  underLock_deleteEvent : lock.

Lemma underLock_teamOverlapLoop (rows : list (list value)) :
  forall (r : Z) (empleado team : value) (s0 e0 : num) (currentRow : Z),
    underLock (teamOverlapLoop rows r empleado team s0 e0 currentRow).
Proof.
  induction rows as [|row rest IH]; intros r empleado team s0 e0 currentRow.
  - apply underLock_ret.
  - cbn [teamOverlapLoop]. cbv zeta.
    repeat first [ apply IH | lock_step ].
Qed.

Lemma underLock_teamOverlap (empleado start end_ : value) (currentRow : Z) :
  underLock (hasTeamOverlapPendingOrApproved_ empleado start end_ currentRow).
Proof.
  unfold hasTeamOverlapPendingOrApproved_.
  repeat first [ apply underLock_teamOverlapLoop | lock_step ].
Qed.

#[local] Hint Resolve underLock_teamOverlap : lock.

Lemma underLockL_lift {L A : Type} (m : M A) : underLock m -> underLockL (@lift L A m).
Proof.
  intros Hm l w Hl. unfold lift. cbn [fst snd]. specialize (Hm w Hl).
  destruct (m w) as [r w1]. exact Hm.
Qed.

Lemma underLockL_ret {L A : Type} (a : A) : underLockL (@mret (St (L * world)) _ A a).
Proof. intros l w Hl. split; [exact Hl|reflexivity]. Qed.

Lemma underLockL_bind {L A B : Type} (m : St (L * world) A) (k : A -> St (L * world) B) :
  underLockL m -> (forall a, underLockL (k a)) -> underLockL (m ≫= k).
Proof.
  intros Hm Hk l w Hl. rewrite run_bind. specialize (Hm l w Hl).
  destruct (m (l, w)) as [[a|e] [l1 w1]]; cbn [snd] in *.
  - destruct Hm as [Hl1 Hc1]. destruct (Hk a l1 w1 Hl1) as [Hl2 Hc2].
    split; congruence.
  - exact Hm.
Qed.

Lemma underLockL_if {L A : Type} (b : bool) (m1 m2 : St (L * world) A) :
  underLockL m1 -> underLockL m2 -> underLockL (if b then m1 else m2).
Proof. destruct b; auto. Qed.

Lemma underLockL_set_userNotified (x : sendResult) : underLockL (set_userNotified x).
Proof. intros l w Hl. split; [exact Hl|reflexivity]. Qed.

Lemma underLockL_set_managersNotified (x : sendResult) :
  underLockL (set_managersNotified x).
Proof. intros l w Hl. split; [exact Hl|reflexivity]. Qed.

Ltac lockL_step :=
  first
    [ apply underLockL_bind; [|intros ?]
    | apply underLockL_if
    | apply underLockL_ret
    | apply underLockL_set_userNotified
    | apply underLockL_set_managersNotified
    | apply underLockL_lift; solve [auto with lock]
    | match goal with
      | |- underLockL (match ?x with _ => _ end) => destruct x
      | |- underLockL (match ?x with _ => _ end _) => destruct x
      end ].

Lemma underLockL_processBody (sheet : sheetName) (row : Z) :
  underLockL (processRequestRow_body sheet row).
Proof. unfold processRequestRow_body. repeat (cbv zeta; lockL_step). Qed.

Lemma underLock_processRequestRow (sheet : sheetName) (row : Z) :
  underLock (processRequestRow_ sheet row).
Proof.
  intros w Hl. unfold processRequestRow_, withLocals.
  rewrite run_bind. unfold try_catch.
  pose proof (underLockL_processBody sheet row (RowOutcome notSent notSent) w Hl) as Hb.
  destruct (processRequestRow_body sheet row (RowOutcome notSent notSent, w))
    as [[[]|e] [l1 w1]]; cbn [fst snd] in *; exact Hb.
Qed.

#[local] Hint Resolve underLock_processRequestRow : lock.

Lemma offTables_checkRateLimit (userEmail action : string) :
  offTables (checkRateLimit_ userEmail action).
Proof.
  intros w. unfold checkRateLimit_. cbv zeta.
  destruct (RATE_LIMITS action) as [[max window]|];
    rewrite run_bind; unfold gets; cbv beta iota; [|split; reflexivity].
  destruct (max <=? _); split; reflexivity.
Qed.

(** A transaction of the form: rate limit, [waitLock], then the body in
    [try ... finally releaseLock].  If its body respects the lock, the
    transaction makes no table access without the lock and ends with the
    lock released, on every exit path. *)
Lemma locked_transaction {A : Type} (userEmail action busy : string) (body : M A)
    (w : world) :
  underLock body -> lockHeld w = false ->
  let res := (checkRateLimit_ userEmail action;;
              try_catch waitLock (fun _ => throw busy);;
              try_finally body releaseLock) w in
  unlockedAccesses res.2 = unlockedAccesses w /\ lockHeld res.2 = false.
Proof.
  intros Hbody Hl. cbv zeta. rewrite run_bind.
  destruct (offTables_checkRateLimit userEmail action w) as [Hl1 Hc1].
  destruct (checkRateLimit_ userEmail action w) as [[b|e] w1]; cbn [snd] in *.
  2:{ split; congruence. }
  rewrite run_bind. unfold try_catch, waitLock. rewrite run_bind. unfold ext.
  destruct (faults w1) as [|[] fs]; cbv beta iota; unfold modify, throw.
  - unfold try_finally, releaseLock, modify.
    destruct (Hbody (set_lockHeld true w1) eq_refl) as [_ Hc2].
    destruct (body (set_lockHeld true w1)) as [r w2]. cbn [snd] in *.
    split; [|reflexivity]. wcbn. wcbn_in Hc2. congruence.
  - cbn [snd]. wcbn. split; congruence.
  - unfold try_finally, releaseLock, modify.
    destruct (Hbody (set_lockHeld true (set_faults fs w1)) eq_refl) as [_ Hc2].
    destruct (body (set_lockHeld true (set_faults fs w1))) as [r w2]. cbn [snd] in *.
    split; [|reflexivity]. wcbn. wcbn_in Hc2. congruence.
Qed.

(** X1. Create, Edit and Cancel take the script lock before they read or
    write a table, hold it through notifications and calendar calls, and
    release it on every exit path; a lock time-out is reported as a
    "Server busy" error. *)
Lemma siblings_hold_the_lock (w : world) :
  lockHeld w = false ->
  (forall startDate endDate : value,
     let res := apiCreateRequest startDate endDate w in
     unlockedAccesses res.2 = unlockedAccesses w /\ lockHeld res.2 = false) /\
  (forall (rowId : Z) (startDate endDate : value),
     let res := apiEditRequest rowId startDate endDate w in
     unlockedAccesses res.2 = unlockedAccesses w /\ lockHeld res.2 = false) /\
  (forall rowId : Z,
     let res := apiCancelRequest rowId w in
     unlockedAccesses res.2 = unlockedAccesses w /\ lockHeld res.2 = false).
Proof.
  intros Hl. split; [|split].
  - intros startDate endDate. cbv zeta. unfold apiCreateRequest.
    rewrite run_bind. unfold gets at 1. cbv beta iota.
    apply (locked_transaction (activeUser w) "create_request"); [|exact Hl].
    cbv zeta. lock.
  - intros rowId startDate endDate. cbv zeta. unfold apiEditRequest.
    rewrite run_bind. unfold gets at 1. cbv beta iota.
    apply (locked_transaction (activeUser w) "edit_request"); [|exact Hl].
    cbv zeta. lock.
  - intros rowId. cbv zeta. unfold apiCancelRequest.
    rewrite run_bind. unfold gets at 1. cbv beta iota.
    apply (locked_transaction (activeUser w) "cancel_request"); [|exact Hl].
    cbv zeta. lock.
Qed.

(** ** Edit and Cancel: what the guards let through *)

(** [apiEditRequest] looks at neither the caller nor the status: under
    the rate limit, with the lock acquired and the spreadsheet open, it
    succeeds on every row, for every caller. *)
Lemma apiEditRequest_always_succeeds (w : world) (rowId : Z) (startDate endDate : value)
    (fs : list bool) :
  default 0 (userCache w !! rateKey "edit_request" (activeUser w)) < 10 ->
  faults w = false :: false :: fs -> 1 <= rowId ->
  exists w' : world, apiEditRequest rowId startDate endDate w = (Ok (), w').
Proof.
  intros Hrate Hf Hrow. unfold apiEditRequest.
  rewrite run_bind. unfold gets at 1. cbv beta iota.
  rewrite run_bind, (checkRateLimit_under _ _ 10 3600) by (reflexivity || exact Hrate).
  rewrite run_bind. unfold try_catch at 1, waitLock.
  rewrite run_bind, (ext_pass _ (false :: fs)) by (wcbn; exact Hf).
  unfold modify at 1. cbv beta iota.
  unfold try_finally at 1, try_catch at 1.
  rewrite run_bind, (getDb_pass fs) by reflexivity. cbv zeta.
  match goal with
  | |- context [?m ?w0] =>
      match m with
      | (setValue _ _ _ _ ≫= _) =>
          assert (Hn : neverThrows m);
          [|destruct (Hn w0) as (a & w1 & ->)]
      end
  end.
  - apply never_bind; [apply never_setValue; lia|]. intros _.
    apply never_bind; [apply never_setValue; lia|]. intros _.
    apply never_bind; [apply never_setValue; lia|]. intros _.
    apply never_bind; [apply never_processRequestRow|]. intros _.
    apply never_logAudit.
  - destruct a. unfold releaseLock, modify. eexists. reflexivity.
Qed.

(** X2. The guards of [apiCancelRequest], with the lock acquired and the
    spreadsheet open: a caller whose e-mail is not the request's is
    refused, manager or not; the owner is refused when the status is
    neither [Pendiente] nor [Necesita Revisión], with an error that names
    the status.  In both cases the request table is left as it was. *)
Lemma apiCancelRequest_guards (w : world) (rowId : Z) (row : list value)
    (fs : list bool) :
  default 0 (userCache w !! rateKey "cancel_request" (activeUser w)) < 3 ->
  faults w = false :: false :: fs -> 2 <= rowId ->
  dataValues (solicitudes w) !! Z.to_nat (rowId - 1) = Some row ->
  (toLowerCase (trim (String_ (at1 row 1))) <> toLowerCase (activeUser w) ->
   exists w' : world,
     apiCancelRequest rowId w = (Throw "Request not found or permission denied.", w') /\
     solicitudes w' = solicitudes w) /\
  (toLowerCase (trim (String_ (at1 row 1))) = toLowerCase (activeUser w) ->
   String_ (at1 row 5) <> Pendiente -> String_ (at1 row 5) <> NecesitaRevision ->
   exists w' : world,
     apiCancelRequest rowId w
     = (Throw ("Cannot cancel request with status: " +:+ String_ (at1 row 5)), w') /\
     solicitudes w' = solicitudes w).
Proof.
  intros Hrate Hf Hrow Hlook.
  assert (Hloop : cancelLoop (drop 1 (dataValues (solicitudes w))) 1 rowId (activeUser w)
                  = (String.eqb (toLowerCase (trim (String_ (at1 row 1))))
                                (toLowerCase (activeUser w)),
                     String_ (at1 row 5))).
  { apply (cancelLoop_lookup _ _ _ 1 (Z.to_nat (rowId - 1) - 1)); [|lia].
    rewrite lookup_drop. rewrite <- Hlook. f_equal. lia. }
  split.
  - intros Hne. unfold apiCancelRequest.
    rewrite run_bind. unfold gets at 1. cbv beta iota.
    rewrite run_bind, (checkRateLimit_under _ _ 3 3600) by (reflexivity || exact Hrate).
    rewrite run_bind. unfold try_catch at 1, waitLock.
    rewrite run_bind, (ext_pass _ (false :: fs)) by (wcbn; exact Hf).
    unfold modify at 1. cbv beta iota.
    unfold try_finally, try_catch.
    rewrite run_bind, (getDb_pass fs) by reflexivity.
    rewrite run_bind, readSheet_run. wcbn. rewrite Hloop.
    rewrite (proj2 (String.eqb_neq _ _) Hne).
    rewrite run_bind.
    unfold throw, releaseLock, modify. eexists. split; reflexivity.
  - intros Heq Hp Hn. unfold apiCancelRequest.
    rewrite run_bind. unfold gets at 1. cbv beta iota.
    rewrite run_bind, (checkRateLimit_under _ _ 3 3600) by (reflexivity || exact Hrate).
    rewrite run_bind. unfold try_catch at 1, waitLock.
    rewrite run_bind, (ext_pass _ (false :: fs)) by (wcbn; exact Hf).
    unfold modify at 1. cbv beta iota.
    unfold try_finally, try_catch.
    rewrite run_bind, (getDb_pass fs) by reflexivity.
    rewrite run_bind, readSheet_run. wcbn. rewrite Hloop.
    rewrite Heq, String.eqb_refl.
    rewrite (proj2 (String.eqb_neq _ _) Hp), (proj2 (String.eqb_neq _ _) Hn).
    rewrite run_bind.
    unfold mret at 1, St_ret. cbv beta iota. rewrite run_bind.
    unfold throw, releaseLock, modify. eexists. split; reflexivity.
Qed.

(** * Further properties of the script *)

(** ** More on business days *)

Lemma weekday_shift (d j : Z) : weekday (d + j) = (weekday d + j) mod 7.
Proof.
  unfold weekday. replace (d + j + 4) with ((d + 4) + j) by lia.
  rewrite (Z.add_mod (d + 4) j 7) by lia.
  rewrite (Z.add_mod ((d + 4) mod 7) j 7) by lia.
  rewrite Z.mod_mod by lia. reflexivity.
Qed.

Lemma businessDays_week (d : Z) :
  length (filter (fun x => isBusinessDay x = true) (seqZ d 7)) = 5%nat.
Proof.
  assert (W : forall j, isBusinessDay (d + j)
                        = negb ((weekday d + j) mod 7 =? 0)
                          && negb ((weekday d + j) mod 7 =? 6)).
  { intros j. unfold isBusinessDay. rewrite weekday_shift. reflexivity. }
  change 7 with (Z.of_nat 7).
  rewrite businessDays_cons.
  replace (isBusinessDay d) with (isBusinessDay (d + 0)) by (f_equal; lia).
  rewrite businessDays_cons, (W 0), (W 1).
  replace (d + 1 + 1) with (d + 2) by lia. rewrite businessDays_cons, (W 2).
  replace (d + 2 + 1) with (d + 3) by lia. rewrite businessDays_cons, (W 3).
  replace (d + 3 + 1) with (d + 4) by lia. rewrite businessDays_cons, (W 4).
  replace (d + 4 + 1) with (d + 5) by lia. rewrite businessDays_cons, (W 5).
  replace (d + 5 + 1) with (d + 6) by lia. rewrite businessDays_cons, (W 6).
  pose proof (Z.mod_pos_bound (d + 4) 7 ltac:(lia)) as Hb.
  fold (weekday d) in Hb.
  assert (Hc : weekday d = 0 \/ weekday d = 1 \/ weekday d = 2 \/ weekday d = 3 \/
               weekday d = 4 \/ weekday d = 5 \/ weekday d = 6) by lia.
  destruct Hc as [->|[->|[->|[->|[->|[->| ->]]]]]]; reflexivity.
Qed.

Lemma businessDays_weeks (n : nat) :
  forall d : Z,
    length (filter (fun x => isBusinessDay x = true) (seqZ d (7 * Z.of_nat n)))
    = (5 * n)%nat.
Proof.
  induction n as [|n IH]; intros d.
  - reflexivity.
  - replace (7 * Z.of_nat (S n)) with (7 + 7 * Z.of_nat n) by lia.
    rewrite seqZ_app by lia.
    rewrite filter_app, length_app, businessDays_week, IH. lia.
Qed.

(** X3. Any run of whole weeks, whatever the weekday it starts on, holds
    five business days per week. *)
Theorem countBusinessDays_whole_weeks (s e : Z) (n : nat) :
  localDay e = localDay s + 7 * Z.of_nat n - 1 ->
  countBusinessDays_ (VDate (Some s)) (VDate (Some e)) = 5 * Z.of_nat n.
Proof.
  intros He. rewrite countBusinessDays_dates.
  destruct n as [|n].
  - rewrite (proj2 (Z.ltb_lt _ _)) by lia. reflexivity.
  - rewrite (proj2 (Z.ltb_ge _ _)) by lia.
    unfold businessDaysBetween.
    replace (localDay e - localDay s + 1) with (7 * Z.of_nat (S n)) by lia.
    rewrite businessDays_weeks. lia.
Qed.

(** X4. The count of a range is the sum of the counts of its two parts, and
    never exceeds the number of calendar days of the range. *)
Theorem countBusinessDays_splits (s m m' e : Z) :
  localDay s <= localDay m -> localDay m' = localDay m + 1 ->
  localDay m' <= localDay e ->
  countBusinessDays_ (VDate (Some s)) (VDate (Some m))
  + countBusinessDays_ (VDate (Some m')) (VDate (Some e))
  = countBusinessDays_ (VDate (Some s)) (VDate (Some e))
  /\ 0 <= countBusinessDays_ (VDate (Some s)) (VDate (Some e))
       <= localDay e - localDay s + 1.
Proof.
  intros H1 H2 H3. rewrite !countBusinessDays_dates.
  rewrite !(proj2 (Z.ltb_ge _ _)) by lia.
  unfold businessDaysBetween. split.
  - replace (localDay e - localDay s + 1)
      with ((localDay m - localDay s + 1) + (localDay e - localDay m' + 1)) by lia.
    rewrite (seqZ_app (localDay s) (localDay m - localDay s + 1)
               (localDay e - localDay m' + 1)) by lia.
    replace (localDay s + (localDay m - localDay s + 1)) with (localDay m') by lia.
    rewrite filter_app, length_app. lia.
  - split; [lia|].
    pose proof (length_filter (fun x => isBusinessDay x = true)
                  (seqZ (localDay s) (localDay e - localDay s + 1))) as Hl.
    rewrite length_seqZ in Hl. lia.
Qed.

(** X5. A missing or invalid date gives 0 business days, and the loop is
    never entered: its condition is false at the first test, so the
    count is returned with any fuel, however little. *)
Theorem countBusinessDays_without_dates (start end_ : value) :
  truthy start = false \/ truthy end_ = false \/
  normalizeDate_ start = None \/ normalizeDate_ end_ = None ->
  (forall fuel : nat, countBusinessDays_fuel (S fuel) start end_ = Some 0) /\
  countBusinessDays_ start end_ = 0.
Proof.
  intros Hbad.
  assert (Hfuel : forall fuel : nat,
             countBusinessDays_fuel (S fuel) start end_ = Some 0).
  { intros fuel. unfold countBusinessDays_fuel.
    destruct (truthy start) eqn:Hs; [|reflexivity].
    destruct (truthy end_) eqn:He; [|reflexivity].
    cbn [negb orb].
    destruct Hbad as [Hb|[Hb|[Hb|Hb]]]; try discriminate.
    - rewrite Hb. cbn [num_lt Date_new countLoop num_le].
      destruct (normalizeDate_ end_); reflexivity.
    - rewrite Hb. cbn [num_lt].
      destruct (normalizeDate_ start) as [a|]; reflexivity. }
  split; [exact Hfuel|].
  unfold countBusinessDays_.
  destruct (loopFuel (normalizeDate_ start) (normalizeDate_ end_)) as [|n] eqn:Hn.
  - unfold countBusinessDays_fuel.
    destruct (truthy start) eqn:Hs; [|reflexivity].
    destruct (truthy end_) eqn:He; [|reflexivity].
    exfalso. unfold loopFuel in Hn.
    destruct Hbad as [Hb|[Hb|[Hb|Hb]]]; try discriminate;
      rewrite Hb in Hn; [|destruct (normalizeDate_ start)]; discriminate.
  - rewrite Hfuel. reflexivity.
Qed.

(** X6. [parseDateToNoon_] on a date keeps its calendar day and moves it to
    noon: parsing twice changes nothing, and the day that
    [normalizeDate_] sees is that of the original date. *)
Theorem parseDateToNoon_date (t : Z) :
  parseDateToNoon_ (VDate (Some t))
  = VDate (Some (midnight (localDay t) + 12 * MS_PER_HOUR)) /\
  parseDateToNoon_ (parseDateToNoon_ (VDate (Some t))) = parseDateToNoon_ (VDate (Some t)) /\
  normalizeDate_ (parseDateToNoon_ (VDate (Some t))) = normalizeDate_ (VDate (Some t)).
Proof.
  assert (E : parseDateToNoon_ (VDate (Some t))
              = VDate (Some (midnight (localDay t) + 12 * MS_PER_HOUR))).
  { unfold parseDateToNoon_, Date_setHours, midnight. simpl. do 2 f_equal. lia. }
  assert (D : localDay (midnight (localDay t) + 12 * MS_PER_HOUR) = localDay t).
  { unfold localDay at 1, midnight, MS_PER_DAY, MS_PER_HOUR.
    replace (localDay t * 86400000 - tzOffsetMs + 12 * 3600000 + tzOffsetMs)
      with (localDay t * 86400000 + 43200000) by lia.
    rewrite Z.div_add_l by lia.
    rewrite (Z.div_small 43200000 86400000) by lia. lia. }
  split; [exact E|]. split.
  - rewrite E. unfold parseDateToNoon_ at 1, Date_setHours. cbn [truthy negb mbind option_bind].
    rewrite D. do 2 f_equal. unfold midnight. lia.
  - rewrite E, !normalizeDate_date, D. reflexivity.
Qed.

(** ** Rate limiting *)

Lemma checkRateLimit_over (userEmail action : string) (max window : Z) (w : world) :
  RATE_LIMITS action = Some (max, window) ->
  max <= default 0 (userCache w !! rateKey action userEmail) ->
  checkRateLimit_ userEmail action w
  = (Throw ("Too many attempts. Please try again in "
              +:+ pretty ((window + 59) / 60) +:+ " minutes."), w).
Proof.
  intros Hlim Hge. unfold checkRateLimit_. cbv zeta.
  rewrite run_bind. unfold gets at 1. cbv beta iota. rewrite Hlim.
  rewrite (proj2 (Z.leb_le max _) Hge). reflexivity.
Qed.

(** X7. The quota of a limited action: as long as the counter stays within
    the maximum every call passes and counts once, the counters of other
    keys are left alone, and once the maximum is reached a call is
    refused and leaves the world as it is. *)
Theorem checkRateLimit_quota (userEmail action : string) (max window : Z) (n : nat) :
  RATE_LIMITS action = Some (max, window) ->
  forall w : world,
    let key := rateKey action userEmail in
    let c := default 0 (userCache w !! key) in
    (c + Z.of_nat n <= max ->
     exists w' : world,
       callTimes n (checkRateLimit_ userEmail action) w = (Ok (), w') /\
       default 0 (userCache w' !! key) = c + Z.of_nat n /\
       (forall key', key' <> key -> userCache w' !! key' = userCache w !! key') /\
       solicitudes w' = solicitudes w /\ faults w' = faults w) /\
    (max <= c ->
     exists msg : string, checkRateLimit_ userEmail action w = (Throw msg, w)).
Proof.
  intros Hlim. induction n as [|n IH]; intros w key c; split.
  - intros _. exists w. split; [reflexivity|]. split; [lia|]. repeat split.
  - intros Hge. eexists. apply (checkRateLimit_over _ _ max window); assumption.
  - intros Hle. subst key c. cbn [callTimes]. rewrite run_bind.
    rewrite (checkRateLimit_under _ _ max window) by (assumption || lia).
    set (key := rateKey action userEmail) in *.
    set (c := default 0 (userCache w !! key)) in *.
    set (w1 := set_userCache (<[key := default 0 (userCache w !! key) + 1]> (userCache w)) w).
    assert (Hc1 : default 0 (userCache w1 !! rateKey action userEmail) = c + 1).
    { unfold w1. wcbn. fold key. rewrite lookup_insert_eq. reflexivity. }
    destruct (IH w1) as [Hpass _]. cbv zeta in Hpass. fold key in Hpass, Hc1.
    destruct Hpass as (w' & Hrun & Hcount & Hothers & Hs & Hf); [rewrite Hc1; lia|].
    exists w'. split; [exact Hrun|]. split; [rewrite Hcount, Hc1; lia|].
    split; [|split; [exact Hs|exact Hf]].
    intros key' Hne. rewrite Hothers by exact Hne.
    unfold w1. wcbn. apply lookup_insert_ne. congruence.
  - intros Hge. eexists. apply (checkRateLimit_over _ _ max window); assumption.
Qed.

(** ** The manager roster *)

Lemma uniqNonEmpty_spec (l : list string) :
  forall uniq : gset string,
    NoDup (uniqNonEmpty uniq l) /\
    forall x : string,
      x ∈ uniqNonEmpty uniq l
      <-> x ∈ l /\ x <> "" /\ inherited x = false /\ x ∉ uniq.
Proof.
  induction l as [|y l IH]; intros uniq; cbn [uniqNonEmpty].
  - split; [constructor|]. intros x. split.
    + intros Hx. inversion Hx.
    + intros [Hx _]. inversion Hx.
  - destruct (String.eqb_spec y "") as [->|Hy].
    + destruct (IH uniq) as [Hnd Hin]. split; [exact Hnd|].
      intros x. rewrite Hin, elem_of_cons. split.
      * intros (H1 & H2 & H3 & H4). auto.
      * intros ([->|H1] & H2 & H3 & H4); [congruence|auto].
    + destruct (inherited y) eqn:Hproto; cbn [orb].
      { destruct (IH uniq) as [Hnd Hin]. split; [exact Hnd|].
        intros x. rewrite Hin, elem_of_cons. split.
        - intros (H1 & H2 & H3 & H4). auto.
        - intros ([->|H1] & H2 & H3 & H4); [congruence|auto]. }
      destruct (decide (y ∈ uniq)) as [Hs|Hs].
      * rewrite bool_decide_eq_true_2 by exact Hs.
        destruct (IH uniq) as [Hnd Hin]. split; [exact Hnd|].
        intros x. rewrite Hin, elem_of_cons. split.
        -- intros (H1 & H2 & H3 & H4). auto.
        -- intros ([->|H1] & H2 & H3 & H4); [contradiction|auto].
      * rewrite bool_decide_eq_false_2 by exact Hs.
        destruct (IH ({[y]} ∪ uniq)) as [Hnd Hin]. split.
        -- constructor; [|exact Hnd]. rewrite Hin. intros (_ & _ & _ & H4).
           apply H4. apply elem_of_union. left. apply elem_of_singleton. reflexivity.
        -- intros x. rewrite elem_of_cons, Hin, elem_of_cons. split.
           ++ intros [->|(H1 & H2 & H3 & H4)]; [auto|].
              split; [auto|]. split; [exact H2|]. split; [exact H3|].
              intros Hx. apply H4. apply elem_of_union. right. exact Hx.
           ++ intros ([->|H1] & H2 & H3 & H4); [auto|].
              destruct (decide (x = y)) as [->|Hne]; [auto|].
              right. split; [exact H1|]. split; [exact H2|]. split; [exact H3|].
              intros Hx. apply elem_of_union in Hx. destruct Hx as [Hx|Hx].
              ** apply elem_of_singleton in Hx. contradiction.
              ** contradiction.
Qed.

(** X8. Read from the sheet, the manager roster lists exactly once each
    trimmed entry of column 1 below the header that is neither blank nor
    the name of a member of [Object.prototype] ('constructor', say: the
    object that marks the entries met reads such a key as met from the
    start); it is then cached, and a cached roster is answered without
    opening the spreadsheet, whatever the sheet holds by then. *)
Theorem getManagerEmails_roster (w : world) :
  scriptCache w = None -> nextCallOk w ->
  exists (l : list string) (w' : world),
    getManagerEmails_ w = (Ok l, w') /\
    NoDup l /\
    (forall x : string,
       x ∈ l <-> x <> "" /\ inherited x = false /\
                 exists r : nat, (2 <= r <= getLastRow (managersSheet w))%nat /\
                   trim (String_ (getCell (managersSheet w) r 1).1) = x) /\
    ((2 <= getLastRow (managersSheet w))%nat -> scriptCache w' = Some l) /\
    (forall w2 : world, scriptCache w2 = Some l -> getManagerEmails_ w2 = (Ok l, w2)).
Proof.
  intros Hcache Hok. unfold getManagerEmails_.
  rewrite run_bind. unfold gets at 1. cbv beta iota. rewrite Hcache.
  rewrite run_bind, getDb_ok by exact Hok.
  rewrite run_bind, readSheet_run. wcbn.
  assert (Hcached : forall (l : list string) (w2 : world),
            scriptCache w2 = Some l ->
            (cached ← gets scriptCache;
             match cached with
             | Some l0 => mret l0
             | None =>
                 _getDb;;
                 last ← readSheet SHEET_MANAGERS getLastRow;
                 if (last <? 2)%nat then mret [] else
                 managers ← readSheet SHEET_MANAGERS managersIn;
                 modify (set_scriptCache (Some managers));;
                 mret managers
             end) w2 = (Ok l, w2)).
  { intros l w2 Hc. rewrite run_bind. unfold gets. cbv beta iota. rewrite Hc. reflexivity. }
  set (sh := managersSheet w).
  destruct (Nat.ltb_spec (getLastRow sh) 2) as [Hlt|Hge].
  - eexists [], _. split; [reflexivity|]. split; [constructor|]. split.
    + intros x. split; [intros Hx; inversion Hx|]. intros (_ & _ & r & Hr & _). lia.
    + split; [lia|]. intros w2. apply Hcached.
  - rewrite run_bind, readSheet_run. wcbn. fold sh.
    eexists (managersIn sh), _. split; [reflexivity|].
    unfold managersIn. cbv zeta.
    set (vals := rangeValues sh 2 1 (getLastRow sh - 1) 1).
    destruct (uniqNonEmpty_spec (map (fun r => trim (String_ (at1 r 0))) vals) ∅)
      as [Hnd Hin].
    split; [exact Hnd|]. split.
    + intros x. rewrite Hin. split.
      * intros (Hx & Hne & Hproto & _). split; [exact Hne|]. split; [exact Hproto|].
        apply list_elem_of_fmap in Hx. destruct Hx as (row & -> & Hrow).
        apply list_elem_of_lookup in Hrow. destruct Hrow as [i Hi].
        assert (Hil : (i < getLastRow sh - 1)%nat).
        { apply lookup_lt_Some in Hi. unfold vals in Hi.
          rewrite rangeValues_length in Hi. exact Hi. }
        exists (2 + i)%nat. split; [lia|].
        pose proof (rangeValues_at sh 2 1 (getLastRow sh - 1) 1 i 0
                      ltac:(lia) ltac:(lia) Hil ltac:(lia)) as Hat.
        fold vals in Hat. unfold at2 in Hat. rewrite Hi in Hat.
        unfold at1. do 2 f_equal. symmetry. exact Hat.
      * intros (Hne & Hproto & r & Hr & Hx).
        split; [|split; [exact Hne|split; [exact Hproto|apply not_elem_of_empty]]].
        apply list_elem_of_fmap.
        assert (Hil : (r - 2 < getLastRow sh - 1)%nat) by lia.
        destruct (lookup_lt_is_Some_2 vals (r - 2)) as [row Hrow].
        { unfold vals. rewrite rangeValues_length. exact Hil. }
        exists row. split; [|eapply list_elem_of_lookup_2; exact Hrow].
        pose proof (rangeValues_at sh 2 1 (getLastRow sh - 1) 1 (r - 2) 0
                      ltac:(lia) ltac:(lia) Hil ltac:(lia)) as Hat.
        fold vals in Hat. unfold at2 in Hat. rewrite Hrow in Hat.
        replace (2 + (r - 2))%nat with r in Hat by lia.
        unfold at1. rewrite <- Hx. do 2 f_equal. symmetry. exact Hat.
    + split; [reflexivity|]. intros w2. apply Hcached.
Qed.

(** ** What the queries and a refused decision leave alone *)

Lemma sameData_refl (w : world) : sameData w w.
Proof. repeat split. Qed.

Lemma sameData_trans (w1 w2 w3 : world) :
  sameData w1 w2 -> sameData w2 w3 -> sameData w1 w3.
Proof.
  intros (A1 & A2 & A3 & A4 & A5 & A6) (B1 & B2 & B3 & B4 & B5 & B6).
  repeat split; congruence.
Qed.

Lemma readOnly_ret {A : Type} (a : A) : readOnly (mret a).
Proof. intros w. apply sameData_refl. Qed.

Lemma readOnly_throw {A : Type} (msg : string) : readOnly (@throw world A msg).
Proof. intros w. apply sameData_refl. Qed.

Lemma readOnly_gets {A : Type} (f : world -> A) : readOnly (gets f).
Proof. intros w. apply sameData_refl. Qed.

Lemma readOnly_bind {A B : Type} (m : M A) (k : A -> M B) :
  readOnly m -> (forall a, readOnly (k a)) -> readOnly (m ≫= k).
Proof.
  intros Hm Hk w. rewrite run_bind. specialize (Hm w).
  destruct (m w) as [[a|e] w1]; cbn [snd] in *.
  - eapply sameData_trans; [exact Hm|apply Hk].
  - exact Hm.
Qed.

Lemma readOnly_try_catch {A : Type} (m : M A) (h : string -> M A) :
  readOnly m -> (forall e, readOnly (h e)) -> readOnly (try_catch m h).
Proof.
  intros Hm Hh w. unfold try_catch. specialize (Hm w).
  destruct (m w) as [[a|e] w1]; cbn [snd] in *.
  - exact Hm.
  - eapply sameData_trans; [exact Hm|apply Hh].
Qed.

Lemma readOnly_if {A : Type} (b : bool) (m1 m2 : M A) :
  readOnly m1 -> readOnly m2 -> readOnly (if b then m1 else m2).
Proof. destruct b; auto. Qed.

Lemma readOnly_ext (msg : string) : readOnly (ext msg).
Proof. intros w. unfold ext. destruct (faults w) as [|[] fs]; repeat split. Qed.

Lemma readOnly_getDb : readOnly _getDb.
Proof.
  unfold _getDb. apply readOnly_try_catch; [apply readOnly_ext|].
  intros e. apply readOnly_throw.
Qed.

Lemma readOnly_readSheet {A : Type} (n : sheetName) (f : sheet -> A) :
  readOnly (readSheet n f).
Proof. intros w. rewrite readSheet_run. repeat split. Qed.

Lemma readOnly_getManagerEmails : readOnly getManagerEmails_.
Proof.
  unfold getManagerEmails_. apply readOnly_bind; [apply readOnly_gets|].
  intros [l|]; [apply readOnly_ret|].
  apply readOnly_bind; [apply readOnly_getDb|]. intros _.
  apply readOnly_bind; [apply readOnly_readSheet|]. intros last.
  apply readOnly_if; [apply readOnly_ret|].
  apply readOnly_bind; [apply readOnly_readSheet|]. intros managers.
  apply readOnly_bind; [|intros _; apply readOnly_ret].
  intros w. repeat split.
Qed.

Lemma readOnly_getEmployeeTotals (x : value) : readOnly (getEmployeeTotals_ x).
Proof.
  unfold getEmployeeTotals_. apply readOnly_bind; [apply readOnly_getDb|].
  intros _. apply readOnly_readSheet.
Qed.

Lemma readOnly_getEmployeeTeam (x : value) : readOnly (getEmployeeTeam_ x).
Proof.
  unfold getEmployeeTeam_. apply readOnly_bind; [apply readOnly_getDb|]. intros _.
  apply readOnly_bind; [apply readOnly_readSheet|]. intros data. apply readOnly_ret.
Qed.

Lemma getManagerEmails_result (w : world) :
  (exists w' : world,
     getManagerEmails_ w = (Ok (managerRoster w), w') /\ activeUser w' = activeUser w) \/
  (scriptCache w = None /\ ~ nextCallOk w /\
   exists (msg : string) (w' : world), getManagerEmails_ w = (Throw msg, w')).
Proof.
  unfold nextCallOk.
  destruct (scriptCache w) as [l|] eqn:Hc.
  - left. exists w. unfold getManagerEmails_, managerRoster.
    rewrite run_bind. unfold gets at 1. cbv beta iota. rewrite Hc. split; reflexivity.
  - destruct (faults w) as [|[] fs] eqn:Hf.
    + left. unfold getManagerEmails_, managerRoster.
      rewrite run_bind. unfold gets at 1. cbv beta iota. rewrite Hc.
      rewrite run_bind, getDb_quiet by exact Hf.
      rewrite run_bind, readSheet_run. wcbn.
      destruct (getLastRow (managersSheet w) <? 2)%nat.
      * eexists. split; reflexivity.
      * rewrite run_bind, readSheet_run. wcbn. eexists. split; reflexivity.
    + right. split; [reflexivity|]. split; [intros Hn; apply Hn; reflexivity|].
      unfold getManagerEmails_.
      rewrite run_bind. unfold gets at 1. cbv beta iota. rewrite Hc.
      rewrite run_bind. unfold _getDb, try_catch. rewrite (ext_fail _ fs) by exact Hf.
      eexists _, _. reflexivity.
    + left. unfold getManagerEmails_, managerRoster.
      rewrite run_bind. unfold gets at 1. cbv beta iota. rewrite Hc.
      rewrite run_bind, (getDb_pass fs) by exact Hf.
      rewrite run_bind, readSheet_run. wcbn.
      destruct (getLastRow (managersSheet w) <? 2)%nat.
      * eexists. split; reflexivity.
      * rewrite run_bind, readSheet_run. wcbn. eexists. split; reflexivity.
Qed.

(** ** Mail *)

(** X9. Mail to the managers goes to the first of the roster with the others
    in copy; a failure of the mail service is reported in the result, not
    thrown, and then nothing is sent; with an empty roster nothing is
    sent either.  The roster is read first: when it is not cached and
    the spreadsheet cannot be opened, that failure does reach the caller,
    and no mail is sent. *)
Theorem notifyManagers_addressing (subject title : string) (w : world) :
  (scriptCache w <> None \/ nextCallOk w ->
   exists w1 : world,
     getManagerEmails_ w = (Ok (managerRoster w), w1) /\
     sameData w w1 /\
     faults w1 = match scriptCache w with
                 | Some _ => faults w
                 | None => tail (faults w)
                 end /\
     match managerRoster w with
     | [] =>
         notifyManagersCompact_ subject title w
         = (Ok (SendResult false (Some "No managers found")), w1)
     | to :: rest =>
         exists (r : sendResult) (w' : world),
           notifyManagersCompact_ subject title w = (Ok r, w') /\
           solicitudes w' = solicitudes w /\ empleados w' = empleados w /\
           calendar w' = calendar w /\
           (nextCallOk w1 ->
            r = SendResult true None /\
            outbox w' = outbox w ++ [Mail to subject title (join "," rest)]) /\
           (~ nextCallOk w1 ->
            success r = false /\ error r <> None /\ outbox w' = outbox w)
     end) /\
  (scriptCache w = None -> ~ nextCallOk w ->
   exists w' : world,
     notifyManagersCompact_ subject title w
     = (Throw "Error connecting to database: Service Spreadsheets failed", w') /\
     sameData w w').
Proof.
  assert (Hmail : forall (to : string) (rest : list string) (w1 : world),
             sameData w w1 ->
             exists (r : sendResult) (w' : world),
               sendEmailSafe_ (VStr to) subject title (join "," rest) w1 = (Ok r, w') /\
               solicitudes w' = solicitudes w /\ empleados w' = empleados w /\
               calendar w' = calendar w /\
               (nextCallOk w1 ->
                r = SendResult true None /\
                outbox w' = outbox w ++ [Mail to subject title (join "," rest)]) /\
               (~ nextCallOk w1 ->
                success r = false /\ error r <> None /\ outbox w' = outbox w)).
  { intros to rest w1 (Hs & He & _ & Hc & Ho & _).
    unfold sendEmailSafe_, try_catch. rewrite run_bind. unfold ext, nextCallOk.
    destruct (faults w1) as [|[] fs]; cbv beta iota; cbn [head].
    - eexists _, _. split; [reflexivity|]. wcbn. rewrite Hs, He, Hc, Ho.
      do 3 (split; [reflexivity|]). split.
      + intros _. split; reflexivity.
      + intros Hn. exfalso. apply Hn. discriminate.
    - eexists _, _. split; [reflexivity|]. wcbn. rewrite Hs, He, Hc, Ho.
      do 3 (split; [reflexivity|]). split.
      + intros Hn. exfalso. apply Hn. reflexivity.
      + intros _. repeat split. discriminate.
    - eexists _, _. split; [reflexivity|]. wcbn. rewrite Hs, He, Hc, Ho.
      do 3 (split; [reflexivity|]). split.
      + intros _. split; reflexivity.
      + intros Hn. exfalso. apply Hn. discriminate. }
  assert (Hroster : scriptCache w <> None \/ nextCallOk w ->
            exists w1 : world,
              getManagerEmails_ w = (Ok (managerRoster w), w1) /\
              sameData w w1 /\
              faults w1 = match scriptCache w with
                 | Some _ => faults w
                 | None => tail (faults w)
                 end).
  { intros Hcan. pose proof (readOnly_getManagerEmails w) as Hro.
    unfold getManagerEmails_, managerRoster in *.
    rewrite run_bind in *. unfold gets at 1 in Hro. unfold gets at 1.
    cbv beta iota in *.
    destruct (scriptCache w) as [l|] eqn:Hc.
    - exists w. split; [reflexivity|]. split; [apply sameData_refl|reflexivity].
    - destruct Hcan as [Hcan|Hok]; [contradiction|].
      rewrite run_bind in *. rewrite getDb_ok in * by exact Hok.
      rewrite run_bind in *. rewrite readSheet_run in *. wcbn. wcbn_in Hro.
      destruct (getLastRow (managersSheet w) <? 2)%nat.
      + eexists. split; [reflexivity|]. split; [exact Hro|reflexivity].
      + rewrite run_bind in *. rewrite readSheet_run in *. wcbn. wcbn_in Hro.
        eexists. split; [reflexivity|]. split; [exact Hro|reflexivity]. }
  split.
  - intros Hcan. destruct (Hroster Hcan) as (w1 & Hrun & Hsame & Hf).
    exists w1. split; [exact Hrun|]. split; [exact Hsame|]. split; [exact Hf|].
    unfold notifyManagersCompact_. rewrite run_bind, Hrun.
    destruct (managerRoster w) as [|to rest]; [reflexivity|].
    apply Hmail. exact Hsame.
  - intros Hc Hn. pose proof (readOnly_getManagerEmails w) as Hro.
    unfold notifyManagersCompact_. rewrite run_bind.
    unfold getManagerEmails_ in *.
    rewrite run_bind in *. unfold gets at 1 in Hro. unfold gets at 1.
    cbv beta iota in *. rewrite Hc in *.
    rewrite run_bind in *. unfold _getDb, try_catch in *.
    unfold nextCallOk in Hn.
    destruct (faults w) as [|[] fs] eqn:Hf;
      try (exfalso; apply Hn; cbn; discriminate).
    rewrite (ext_fail _ fs) in * by exact Hf.
    eexists. split; [reflexivity|]. exact Hro.
Qed.

(** X10. A decision by a caller who is not on the manager roster is refused,
    whatever the row and the action: the call throws, and the tables, the
    calendar, the outbox and the audit log are left as they were. *)
Theorem apiProcessRequest_unauthorized (rowId : Z) (action : string) (w : world) :
  activeUser w ∉ managerRoster w ->
  exists (msg : string) (w' : world),
    apiProcessRequest rowId action w = (Throw msg, w') /\
    sameData w w' /\
    (scriptCache w <> None \/ nextCallOk w ->
     msg = "Unauthorized: Only managers can perform this action.").
Proof.
  intros Hnot. unfold apiProcessRequest.
  rewrite run_bind. unfold gets at 1. cbv beta iota.
  rewrite run_bind.
  pose proof (readOnly_getManagerEmails w) as Hro.
  destruct (getManagerEmails_result w) as [(w1 & Hrun & _)|(Hc & Hn & msg & w1 & Hrun)];
    rewrite Hrun in *; cbn [snd] in Hro.
  - rewrite run_bind. rewrite bool_decide_eq_false_2 by exact Hnot.
    unfold throw at 1. cbv beta iota.
    eexists _, w1. split; [reflexivity|]. split; [exact Hro|]. reflexivity.
  - exists msg, w1. split; [reflexivity|]. split; [exact Hro|].
    intros [Hc'|Hn']; contradiction.
Qed.

(** X11. [getInitialData] writes nothing, and answers with the caller's
    e-mail, the role 'manager' exactly for a caller on the roster, and
    the team and the balance the employee table gives (the team 'General'
    when it gives none); every failure is reported with the prefix
    'Backend Error: '. *)
Theorem getInitialData_answer (w : world) :
  sameData w (getInitialData w).2 /\
  (forall (d : initialData) (w' : world),
     getInitialData w = (Ok d, w') ->
     activeUser w <> "" /\
     id_email d = activeUser w /\
     id_role d = (if bool_decide (activeUser w ∈ managerRoster w)
                  then "manager" else "agent") /\
     id_team d = orElse (default (VStr "")
                           (teamLoop (drop 1 (dataValues (empleados w)))
                                     (toLowerCase (trim (activeUser w)))))
                        (VStr "General") /\
     id_stats d = (let t := totalsIn (empleados w) (VStr (activeUser w)) in
                   Stats (total t) (usados t) (remaining t))) /\
  (forall (e : string) (w' : world),
     getInitialData w = (Throw e, w') ->
     exists e0 : string, e = "Backend Error: " +:+ e0) /\
  (activeUser w = "" ->
   getInitialData w
   = (Throw "Backend Error: User not identified. Please login to Google.", w)).
Proof.
  split; [|split; [|split]].
  - unfold getInitialData. apply readOnly_try_catch.
    + apply readOnly_bind; [apply readOnly_gets|]. intros u.
      apply readOnly_bind; [apply readOnly_if; [apply readOnly_throw|apply readOnly_ret]|].
      intros _. apply readOnly_bind; [apply readOnly_getEmployeeTotals|]. intros t.
      apply readOnly_bind; [apply readOnly_getEmployeeTeam|]. intros team.
      apply readOnly_bind; [apply readOnly_getManagerEmails|]. intros l.
      apply readOnly_ret.
    + intros e. apply readOnly_throw.
  - intros d w'. unfold getInitialData, try_catch.
    rewrite run_bind. unfold gets at 1. cbv beta iota. rewrite run_bind.
    destruct (String.eqb_spec (activeUser w) "") as [He|Hne].
    { unfold throw. discriminate. }
    assert (Ho : orElse (VStr (activeUser w)) (VStr "") = VStr (activeUser w)).
    { unfold orElse, truthy. rewrite (proj2 (String.eqb_neq _ _) Hne). reflexivity. }
    unfold mret at 1, St_ret. cbv beta iota. rewrite run_bind.
    unfold getEmployeeTotals_ at 1. rewrite run_bind. unfold _getDb at 1, try_catch, ext.
    destruct (faults w) as [|[] fs] eqn:Hf; cbv beta iota; unfold throw; try discriminate.
    + rewrite readSheet_run. rewrite run_bind.
      unfold getEmployeeTeam_ at 1. rewrite run_bind, getDb_quiet by (wcbn; exact Hf).
      rewrite run_bind, readSheet_run. unfold mret at 1, St_ret. cbv beta iota.
      rewrite run_bind.
      match goal with |- context [getManagerEmails_ ?w0] =>
        destruct (getManagerEmails_result w0) as [(w1 & Hrun & _)|(_ & Hn & _)];
        [rewrite Hrun|exfalso; apply Hn; unfold nextCallOk; wcbn; rewrite Hf; discriminate]
      end.
      unfold mret, St_ret. intros Hd. injection Hd as <- <-.
      cbn [id_email id_role id_team id_stats]. split; [exact Hne|].
      split; [reflexivity|]. split; [reflexivity|]. split; [rewrite Ho; reflexivity|reflexivity].
    + rewrite readSheet_run. rewrite run_bind.
      unfold getEmployeeTeam_ at 1. rewrite run_bind.
      unfold _getDb at 1, try_catch, ext. wcbn.
      destruct fs as [|[] fs']; cbv beta iota; unfold throw; try discriminate.
      * rewrite run_bind, readSheet_run. unfold mret at 1, St_ret. cbv beta iota.
        rewrite run_bind.
        match goal with |- context [getManagerEmails_ ?w0] =>
          destruct (getManagerEmails_result w0) as [(w1 & Hrun & _)|(_ & Hn & _)];
          [rewrite Hrun|exfalso; apply Hn; unfold nextCallOk; wcbn; discriminate]
        end.
        unfold mret, St_ret. intros Hd. injection Hd as <- <-.
        cbn [id_email id_role id_team id_stats]. split; [exact Hne|].
        split; [reflexivity|]. split; [reflexivity|]. split; [rewrite Ho; reflexivity|reflexivity].
      * rewrite run_bind, readSheet_run. unfold mret at 1, St_ret. cbv beta iota.
        rewrite run_bind.
        match goal with |- context [getManagerEmails_ ?w0] =>
          destruct (getManagerEmails_result w0) as [(w1 & Hrun & _)|(Hc & Hn & msg & w1 & Hrun)];
          rewrite Hrun
        end.
        -- unfold mret, St_ret. intros Hd. injection Hd as <- <-.
           cbn [id_email id_role id_team id_stats]. split; [exact Hne|].
           split; [reflexivity|]. split; [reflexivity|]. split; [rewrite Ho; reflexivity|reflexivity].
        -- discriminate.
  - intros e w'. unfold getInitialData, try_catch.
    match goal with |- context [match ?m w with _ => _ end] => destruct (m w) as [[d|e0] w1] end.
    + discriminate.
    + unfold throw. intros He. injection He as <- _. eexists. reflexivity.
  - intros He. unfold getInitialData, try_catch.
    rewrite run_bind. unfold gets at 1. cbv beta iota. rewrite run_bind.
    rewrite He. reflexivity.
Qed.

(** ** The dashboard *)

Lemma StronglySorted_snoc {A : Type} (R : A -> A -> Prop) (l : list A) (x : A) :
  StronglySorted R l -> Forall (fun y => R y x) l -> StronglySorted R (l ++ [x]).
Proof.
  induction l as [|y l IH]; intros Hs Hx; cbn.
  - constructor; constructor.
  - inversion Hs as [|? ? Hs' Hy]; subst. inversion Hx as [|? ? Hyx Hx']; subst.
    constructor; [apply IH; assumption|].
    apply Forall_app. split; [exact Hy|]. constructor; [exact Hyx|constructor].
Qed.

Lemma StronglySorted_reverse (l : list Z) :
  StronglySorted Z.lt l -> StronglySorted Z.gt (reverse l).
Proof.
  induction l as [|x l IH]; intros Hs.
  - constructor.
  - inversion Hs as [|? ? Hs' Hx]; subst. rewrite reverse_cons.
    apply StronglySorted_snoc; [apply IH; exact Hs'|].
    apply Forall_forall. intros y Hy. rewrite elem_of_reverse in Hy.
    rewrite Forall_forall in Hx. specialize (Hx y Hy). lia.
Qed.

Section Dashboard.
Context `{DateFormat}.

Lemma requestsLoop_manager_views (userEmail : string) (isManager : bool)
    (teamMap : gmap string value) (rows : list (list value)) :
  forall (i : Z) (a : list myRequest) (b c : list managerRequest),
    let res := requestsLoop rows i userEmail isManager teamMap (a, b, c) in
    (isManager = false -> res.1.2 = b /\ res.2 = c) /\
    (b = filter (fun q => rq_status q = Pendiente \/ rq_status q = NecesitaRevision) c ->
     res.1.2
     = filter (fun q => rq_status q = Pendiente \/ rq_status q = NecesitaRevision) res.2) /\
    ((forall q, q ∈ c -> validStates (rq_status q) = true) ->
     forall q, q ∈ res.2 -> validStates (rq_status q) = true).
Proof.
  induction rows as [|row rest IH]; intros i a b c; cbn [requestsLoop].
  - cbv zeta. cbn [fst snd]. split; [intros _; split; reflexivity|]. split; auto.
  - cbv zeta.
    set (st := String_ (at1 row 5)).
    set (q0 := ManagerRequest _ _ _ _ _ _ _ _).
    match goal with
    | |- context [requestsLoop rest (i + 1) userEmail isManager teamMap (?a', ?b', ?c')] =>
        specialize (IH (i + 1) a' b' c'); cbv zeta in IH;
        destruct IH as (IH1 & IH2 & IH3)
    end.
    assert (Hst : rq_status q0 = st) by reflexivity.
    split; [|split].
    + intros ->. cbn [andb] in *. apply IH1. reflexivity.
    + intros ->. apply IH2.
      destruct isManager; cbn [andb]; [|reflexivity].
      unfold validStates. fold st.
      assert (Hyes : rq_status q0 = Pendiente \/ rq_status q0 = NecesitaRevision ->
                     filter (fun q => rq_status q = Pendiente \/ rq_status q = NecesitaRevision) c
                       ++ [q0]
                     = filter (fun q => rq_status q = Pendiente \/ rq_status q = NecesitaRevision)
                         (c ++ [q0])).
      { intros Hq. rewrite filter_app, (filter_cons_True _ q0) by exact Hq. reflexivity. }
      assert (Hno : ~ (rq_status q0 = Pendiente \/ rq_status q0 = NecesitaRevision) ->
                    filter (fun q => rq_status q = Pendiente \/ rq_status q = NecesitaRevision) c
                    = filter (fun q => rq_status q = Pendiente \/ rq_status q = NecesitaRevision)
                        (c ++ [q0])).
      { intros Hq. rewrite filter_app, filter_cons_False, filter_nil, app_nil_r by exact Hq.
        reflexivity. }
      rewrite Hst in Hyes, Hno.
      destruct (String.eqb_spec st Pendiente) as [Hp|Hp];
        destruct (String.eqb_spec st NecesitaRevision) as [Hn|Hn];
        destruct (String.eqb st Aprobado); destruct (String.eqb st AprobadoExcepcion);
        cbn [andb orb];
        first [ reflexivity
              | apply Hyes; auto
              | apply Hno; intros [?|?]; contradiction ].
    + intros Hc. apply IH3. intros q Hq.
      destruct isManager; cbn [andb] in Hq; [|apply Hc; exact Hq].
      fold st in Hq. destruct (validStates st) eqn:Hv; [|apply Hc; exact Hq].
      apply elem_of_app in Hq. destruct Hq as [Hq|Hq]; [apply Hc; exact Hq|].
      apply list_elem_of_singleton in Hq. subst q. rewrite Hst. exact Hv.
Qed.

Lemma requestsLoop_own (userEmail : string) (isManager : bool)
    (teamMap : gmap string value) (rows : list (list value)) :
  forall (i : Z) (a : list myRequest) (b c : list managerRequest),
    exists l : list myRequest,
      (requestsLoop rows i userEmail isManager teamMap (a, b, c)).1.1 = a ++ l /\
      StronglySorted Z.lt (map mr_id l) /\
      (forall q, q ∈ l ->
         exists (k : nat) (row : list value),
           rows !! k = Some row /\ mr_id q = i + Z.of_nat k + 1 /\
           toLowerCase (trim (String_ (at1 row 1))) = toLowerCase userEmail /\
           mr_status q = String_ (at1 row 5) /\ mr_days q = at1 row 6 /\
           mr_startDate q = _safeDate (at1 row 3) /\
           mr_endDate q = _safeDate (at1 row 4)) /\
      (forall (k : nat) (row : list value),
         rows !! k = Some row ->
         toLowerCase (trim (String_ (at1 row 1))) = toLowerCase userEmail ->
         exists q, q ∈ l /\ mr_id q = i + Z.of_nat k + 1).
Proof.
  induction rows as [|row rest IH]; intros i a b c; cbn [requestsLoop].
  - exists []. cbn [fst]. rewrite app_nil_r. split; [reflexivity|].
    split; [constructor|]. split.
    + intros q Hq. inversion Hq.
    + intros k row Hk. discriminate.
  - cbv zeta.
    match goal with
    | |- context [requestsLoop rest (i + 1) userEmail isManager teamMap (?a', ?b', ?c')] =>
        destruct (IH (i + 1) a' b' c') as (l & Hl & Hs & Hin & Hall)
    end.
    destruct (String.eqb_spec (toLowerCase (trim (String_ (at1 row 1))))
                (toLowerCase userEmail)) as [He|He].
    + set (q0 := MyRequest _ _ _ _ _) in *.
      exists (q0 :: l). split; [rewrite Hl, <- app_assoc; reflexivity|].
      split; [|split].
      * cbn [map]. constructor; [exact Hs|].
        apply Forall_forall. intros x Hx.
        apply list_elem_of_fmap in Hx. destruct Hx as (q & -> & Hq).
        destruct (Hin q Hq) as (k & row' & _ & Hid & _). cbn [mr_id q0]. 
        change (mr_id q0) with (i + 1). lia.
      * intros q Hq. apply elem_of_cons in Hq. destruct Hq as [->|Hq].
        -- exists 0%nat, row. split; [reflexivity|].
           split; [change (mr_id q0) with (i + 1); lia|].
           split; [exact He|]. repeat split.
        -- destruct (Hin q Hq) as (k & row' & Hk & Hid & Hrest).
           exists (S k), row'. split; [exact Hk|]. split; [lia|exact Hrest].
      * intros [|k] row' Hk Hm.
        -- exists q0. split; [apply elem_of_cons; left; reflexivity|].
           change (mr_id q0) with (i + 1). lia.
        -- destruct (Hall k row' Hk Hm) as (q & Hq & Hid).
           exists q. split; [apply elem_of_cons; right; exact Hq|lia].
    + exists l. split; [exact Hl|]. split; [exact Hs|]. split.
      * intros q Hq. destruct (Hin q Hq) as (k & row' & Hk & Hid & Hrest).
        exists (S k), row'. split; [exact Hk|]. split; [lia|exact Hrest].
      * intros [|k] row' Hk Hm.
        -- injection Hk as <-. contradiction.
        -- destruct (Hall k row' Hk Hm) as (q & Hq & Hid).
           exists q. split; [exact Hq|lia].
Qed.

Lemma readOnly_getDashboardData : readOnly getDashboardData.
Proof.
  unfold getDashboardData. apply readOnly_try_catch; [|intros e; apply readOnly_throw].
  apply readOnly_bind; [apply readOnly_gets|]. intros u.
  apply readOnly_bind; [apply readOnly_if; [apply readOnly_throw|apply readOnly_ret]|].
  intros _. apply readOnly_bind; [apply readOnly_getDb|]. intros _.
  apply readOnly_bind; [apply readOnly_readSheet|]. intros dataS.
  apply readOnly_bind; [apply readOnly_readSheet|]. intros dataE.
  destruct (empleadoMapLoop (drop 1 dataE) (∅, ∅)) as [empleadoMap teamMap].
  apply readOnly_bind; [apply readOnly_getManagerEmails|]. intros managers.
  destruct (requestsLoop _ _ _ _ _ _) as [[my pend] all]. apply readOnly_ret.
Qed.

(** What a successful run of [getDashboardData] returns, in terms of the
    loop over the requests. *)
Lemma getDashboardData_ok (w w' : world) (d : dashboard) :
  getDashboardData w = (Ok d, w') ->
  exists teamMap : gmap string value,
    let res := requestsLoop (drop 1 (dataValues (solicitudes w))) 1 (activeUser w)
                 (bool_decide (activeUser w ∈ managerRoster w)) teamMap ([], [], []) in
    db_requests d = reverse res.1.1 /\ db_pending d = res.1.2 /\
    db_allRequests d = res.2 /\
    du_email (db_user d) = activeUser w /\
    du_role (db_user d)
    = (if bool_decide (activeUser w ∈ managerRoster w) then "manager" else "agent").
Proof.
  unfold getDashboardData, try_catch.
  rewrite run_bind. unfold gets at 1. cbv beta iota. rewrite run_bind.
  destruct (String.eqb (activeUser w) ""); [unfold throw; discriminate|].
  unfold mret at 1, St_ret. cbv beta iota. rewrite run_bind.
  unfold _getDb at 1, try_catch, ext.
  destruct (faults w) as [|[] fs] eqn:Hf; cbv beta iota; unfold throw; try discriminate.
  - rewrite run_bind, readSheet_run, run_bind, readSheet_run. wcbn.
    destruct (empleadoMapLoop _ _) as [empleadoMap teamMap].
    rewrite run_bind.
    match goal with |- context [getManagerEmails_ ?w0] =>
      destruct (getManagerEmails_result w0) as [(w1 & Hrun & _)|(_ & Hn & _)];
      [rewrite Hrun|exfalso; apply Hn; unfold nextCallOk; wcbn; rewrite Hf; discriminate]
    end.
    change (managerRoster (touched (touched w))) with (managerRoster w).
    destruct (requestsLoop _ _ _ _ _ _) as [[my pend] all] eqn:Hloop.
    unfold mret, St_ret. intros Hd. injection Hd as <- _.
    exists teamMap. cbv zeta. rewrite Hloop. cbn. repeat split.
  - rewrite run_bind, readSheet_run, run_bind, readSheet_run. wcbn.
    destruct (empleadoMapLoop _ _) as [empleadoMap teamMap].
    rewrite run_bind.
    match goal with |- context [getManagerEmails_ ?w0] =>
      destruct (getManagerEmails_result w0) as [(w1 & Hrun & _)|(_ & _ & msg & w1 & Hrun)];
      rewrite Hrun; [|discriminate]
    end.
    change (managerRoster (touched (touched (set_faults fs w)))) with (managerRoster w).
    destruct (requestsLoop _ _ _ _ _ _) as [[my pend] all] eqn:Hloop.
    unfold mret, St_ret. intros Hd. injection Hd as <- _.
    exists teamMap. cbv zeta. rewrite Hloop. cbn. repeat split.
Qed.

(** X12. The manager views of the dashboard: a caller who is not on the
    roster gets neither pending nor team requests; for a manager the
    pending list is the part of the list of all requests whose status is
    Pending or NeedsReview, and that list shows only requests in a live
    status (cancelled and rejected ones are left out).  The call writes
    nothing. *)
Theorem getDashboardData_manager_views (w : world) :
  sameData w (getDashboardData w).2 /\
  forall (d : dashboard) (w' : world),
    getDashboardData w = (Ok d, w') ->
    (activeUser w ∉ managerRoster w -> db_pending d = [] /\ db_allRequests d = []) /\
    db_pending d
    = filter (fun q => rq_status q = Pendiente \/ rq_status q = NecesitaRevision)
             (db_allRequests d) /\
    (forall q, q ∈ db_allRequests d ->
       rq_status q = Aprobado \/ rq_status q = AprobadoExcepcion \/
       rq_status q = Pendiente \/ rq_status q = NecesitaRevision).
Proof.
  split; [apply readOnly_getDashboardData|].
  intros d w' Hrun. destruct (getDashboardData_ok w w' d Hrun) as (tm & Hd).
  cbv zeta in Hd. destruct Hd as (_ & Hp & Ha & _).
  destruct (requestsLoop_manager_views (activeUser w)
              (bool_decide (activeUser w ∈ managerRoster w)) tm
              (drop 1 (dataValues (solicitudes w))) 1 [] [] []) as (V1 & V2 & V3).
  rewrite Hp, Ha. split; [|split].
  - intros Hnot. apply V1. apply bool_decide_eq_false_2. exact Hnot.
  - apply V2. reflexivity.
  - intros q Hq. apply V3 in Hq; [|intros q' Hq'; inversion Hq'].
    unfold validStates in Hq.
    destruct (String.eqb_spec (rq_status q) Aprobado); [auto|].
    destruct (String.eqb_spec (rq_status q) AprobadoExcepcion); [auto|].
    destruct (String.eqb_spec (rq_status q) Pendiente); [auto|].
    destruct (String.eqb_spec (rq_status q) NecesitaRevision); [auto|].
    discriminate.
Qed.

(** X13. The caller's own requests on the dashboard: they are exactly the rows
    of the request table below the header whose e-mail is the caller's
    (trimmed, whatever the case), each with the row number as its id and
    the status and days of the row, the later rows first. *)
Theorem getDashboardData_own_requests (w w' : world) (d : dashboard) :
  getDashboardData w = (Ok d, w') ->
  StronglySorted Z.gt (map mr_id (db_requests d)) /\
  (forall q, q ∈ db_requests d ->
     exists row : list value,
       2 <= mr_id q /\
       dataValues (solicitudes w) !! Z.to_nat (mr_id q - 1) = Some row /\
       toLowerCase (trim (String_ (at1 row 1))) = toLowerCase (activeUser w) /\
       mr_status q = String_ (at1 row 5) /\ mr_days q = at1 row 6 /\
       mr_startDate q = _safeDate (at1 row 3) /\
       mr_endDate q = _safeDate (at1 row 4)) /\
  (forall (r : nat) (row : list value),
     (1 <= r)%nat -> dataValues (solicitudes w) !! r = Some row ->
     toLowerCase (trim (String_ (at1 row 1))) = toLowerCase (activeUser w) ->
     exists q, q ∈ db_requests d /\ mr_id q = Z.of_nat r + 1).
Proof.
  intros Hrun. destruct (getDashboardData_ok w w' d Hrun) as (tm & Hd).
  cbv zeta in Hd. destruct Hd as (Hr & _).
  destruct (requestsLoop_own (activeUser w)
              (bool_decide (activeUser w ∈ managerRoster w)) tm
              (drop 1 (dataValues (solicitudes w))) 1 [] [] [])
    as (l & Hl & Hs & Hin & Hall).
  rewrite app_nil_l in Hl. rewrite Hl in Hr. rewrite Hr. split; [|split].
  - change (map mr_id (reverse l)) with (mr_id <$> reverse l).
    rewrite fmap_reverse. apply StronglySorted_reverse. exact Hs.
  - intros q Hq. rewrite elem_of_reverse in Hq.
    destruct (Hin q Hq) as (k & row & Hk & Hid & Hrest).
    exists row. split; [lia|]. split; [|exact Hrest].
    rewrite lookup_drop in Hk. rewrite <- Hk. f_equal. lia.
  - intros r row Hr1 Hk Hm.
    destruct (Hall (r - 1)%nat row) as (q & Hq & Hid).
    + rewrite lookup_drop. rewrite <- Hk. f_equal. lia.
    + exact Hm.
    + exists q. split; [rewrite elem_of_reverse; exact Hq|lia].
Qed.

End Dashboard.

(** ** Requests that Create turns down *)

Lemma past_date_lt (startDate : value) (now_ : Z) :
  (exists t : Z, parseDateToNoon_ startDate = VDate (Some t) /\
                 localDay t < localDay now_) \/
  (truthy startDate = false /\ tzOffsetMs < localDay now_ * MS_PER_DAY) ->
  value_lt (parseDateToNoon_ startDate) (VDate (Date_setHours 0 (Some now_))) = true.
Proof.
  intros [(t & -> & Hlt)|[Hf Hpos]].
  - unfold value_lt, Date_setHours. cbn.
    apply Z.ltb_lt. unfold localDay, MS_PER_DAY, MS_PER_HOUR in *.
    pose proof (Z.mul_succ_div_gt (t + tzOffsetMs) 86400000 ltac:(lia)) as Hup.
    lia.
  - unfold parseDateToNoon_. rewrite Hf. cbn [negb].
    unfold value_lt, Date_setHours. cbn. apply Z.ltb_lt. lia.
Qed.

(** X14. A request whose start date, a date or a text such as
    'YYYY-MM-DD', is read by [parseDateToNoon_] as a moment of a calendar
    day before today, or whose start date is missing, is turned down as a
    past date: nothing is written and the lock is released. *)
Theorem apiCreateRequest_past_date (w : world) (startDate endDate : value)
    (fs : list bool) :
  default 0 (userCache w !! rateKey "create_request" (activeUser w)) < 5 ->
  faults w = false :: false :: fs ->
  (exists t : Z, parseDateToNoon_ startDate = VDate (Some t) /\
                 localDay t < localDay (now w)) \/
  (truthy startDate = false /\ tzOffsetMs < localDay (now w) * MS_PER_DAY) ->
  exists w' : world,
    apiCreateRequest startDate endDate w
    = (Throw "Cannot request vacation for past dates.", w') /\
    sameData w w' /\ lockHeld w' = false.
Proof.
  intros Hrate Hf Hpast. apply past_date_lt in Hpast. unfold apiCreateRequest.
  rewrite run_bind. unfold gets at 1. cbv beta iota.
  rewrite run_bind, (checkRateLimit_under _ _ 5 3600) by (reflexivity || exact Hrate).
  rewrite run_bind. unfold try_catch at 1, waitLock.
  rewrite run_bind, (ext_pass _ (false :: fs)) by (wcbn; exact Hf).
  unfold modify at 1. cbv beta iota.
  unfold try_finally, try_catch.
  rewrite run_bind. unfold _buscarNombrePorEmail.
  rewrite run_bind, (getDb_pass fs) by reflexivity.
  rewrite run_bind, readSheet_run. cbv zeta.
  unfold mret at 1, St_ret. cbv beta iota.
  rewrite run_bind. unfold gets at 1. cbv beta iota. wcbn.
  rewrite run_bind, Hpast.
  unfold throw, releaseLock, modify. eexists. split; [reflexivity|].
  split; [repeat split|reflexivity].
Qed.

(** X15. A request that overlaps a Pending or approved request of the same
    requester is turned down as a duplicate: nothing is written and the
    lock is released. *)
Theorem apiCreateRequest_duplicate (w : world) (startDate endDate : value)
    (fs : list bool) (r : nat) :
  default 0 (userCache w !! rateKey "create_request" (activeUser w)) < 5 ->
  faults w = false :: false :: false :: fs ->
  value_lt (parseDateToNoon_ startDate) (VDate (Date_setHours 0 (Some (now w)))) = false ->
  sameEmployeeConflict scannedStatus (dataValues (solicitudes w)) (requesterName w)
    (parseDateToNoon_ startDate) (parseDateToNoon_ endDate) (-1) r ->
  exists w' : world,
    apiCreateRequest startDate endDate w
    = (Throw "You already have a request for these dates.", w') /\
    sameData w w' /\ lockHeld w' = false.
Proof.
  intros Hrate Hf Hpast Hconf. unfold apiCreateRequest.
  rewrite run_bind. unfold gets at 1. cbv beta iota.
  rewrite run_bind, (checkRateLimit_under _ _ 5 3600) by (reflexivity || exact Hrate).
  rewrite run_bind. unfold try_catch at 1, waitLock.
  rewrite run_bind, (ext_pass _ (false :: false :: fs)) by (wcbn; exact Hf).
  unfold modify at 1. cbv beta iota.
  unfold try_finally, try_catch.
  rewrite run_bind. unfold _buscarNombrePorEmail.
  rewrite run_bind, (getDb_pass (false :: fs)) by reflexivity.
  rewrite run_bind, readSheet_run. cbv zeta.
  unfold mret at 1, St_ret. cbv beta iota.
  rewrite run_bind. unfold gets at 1. cbv beta iota. wcbn.
  rewrite run_bind, Hpast.
  unfold mret at 1, St_ret. cbv beta iota.
  rewrite run_bind.
  change (ENFORCE_MIN_ADVANCE_DAYS && (0 <? MIN_ADVANCE_DAYS)) with false. cbv iota.
  unfold mret at 1, St_ret. cbv beta iota.
  rewrite run_bind. unfold hasOverlapPendingOrApprovedSameEmployee_.
  rewrite run_bind, (getDb_pass fs) by reflexivity.
  rewrite run_bind, readSheet_run. cbv zeta.
  unfold mret at 1, St_ret. cbv beta iota. wcbn.
  fold (requesterName w).
  destruct (sameEmployeeLoop _ _ _ _ _ _) as [c|] eqn:Hloop.
  - rewrite run_bind. rewrite bool_decide_eq_false_2 by discriminate.
    unfold throw, releaseLock, modify. eexists. split; [reflexivity|].
    split; [repeat split|reflexivity].
  - exfalso. destruct r as [|i]; [destruct Hconf as [Hr _]; lia|].
    pose proof Hconf as (_ & _ & row & Hrow & _).
    rewrite sameEmployeeLoop_none in Hloop.
    specialize (Hloop i row). rewrite lookup_drop in Hloop.
    specialize (Hloop Hrow).
    apply (sameEmployeeMatch_conflict _ _ _ _ _ _ _ Hrow) in Hconf.
    unfold Date_getTime in Hloop. rewrite Hloop in Hconf. discriminate.
Qed.

(** ** The balance ledger and a decision other than an approval *)

Lemma recalcEmpleados_frame (w : world) :
  let w' := (recalcEmpleados_ w).2 in
  solicitudes w' = solicitudes w /\ managersSheet w' = managersSheet w /\
  calendar w' = calendar w /\ outbox w' = outbox w /\ auditLog w' = auditLog w /\
  activeUser w' = activeUser w.
Proof.
  cbv zeta. unfold recalcEmpleados_. rewrite run_bind.
  unfold _getDb, try_catch, ext.
  destruct (faults w) as [|[] fs]; cbv beta iota; unfold throw;
    try (cbn [snd]; repeat split; fail);
    rewrite run_bind, readSheet_run; cbv zeta;
    rewrite run_bind, readSheet_run;
    (destruct (_ <? 2)%nat; [repeat split|]);
    rewrite run_bind, readSheet_run;
    (destruct (0 <? _)%nat; [rewrite writeSheet_run|]); repeat split.
Qed.

(** X16. [recalcEmpleados_] writes nothing but the 'Usados' values (column 5)
    of the employee rows below the header: every other cell, the notes,
    the request table, the calendar, the outbox and the audit log are as
    before; when the spreadsheet cannot be opened nothing changes. *)
Theorem recalcEmpleados_writes_only_used (w : world) :
  let w' := (recalcEmpleados_ w).2 in
  (solicitudes w' = solicitudes w /\ managersSheet w' = managersSheet w /\
   calendar w' = calendar w /\ outbox w' = outbox w /\ auditLog w' = auditLog w) /\
  (forall r c : nat, (1 <= r)%nat -> (1 <= c)%nat ->
     (c <> 5%nat \/ r = 1%nat \/ (getLastRow (empleados w) < r)%nat) ->
     getCell (empleados w') r c = getCell (empleados w) r c) /\
  (forall r : nat, (1 <= r)%nat ->
     (getCell (empleados w') r 5).2 = (getCell (empleados w) r 5).2) /\
  (~ nextCallOk w -> empleados w' = empleados w).
Proof.
  cbv zeta. split.
  { destruct (recalcEmpleados_frame w) as (F1 & F2 & F3 & F4 & F5 & _).
    repeat split; assumption. }
  destruct (faults w) as [|[] fs] eqn:Hf.
  - destruct (recalcEmpleados_cells w) as (w' & Hrun & _ & _ & _ & Hcells).
    { unfold nextCallOk. rewrite Hf. discriminate. }
    rewrite Hrun. cbn [snd]. split; [|split].
    + intros r c Hr Hc Hout. rewrite Hcells by assumption.
      apply decide_False. intros [-> Hin]. destruct Hout as [?|[?|?]]; lia.
    + intros r Hr. rewrite Hcells by lia. destruct (decide _); reflexivity.
    + intros Hn. exfalso. apply Hn. unfold nextCallOk. rewrite Hf. discriminate.
  - assert (Hrun : empleados (recalcEmpleados_ w).2 = empleados w).
    { unfold recalcEmpleados_. rewrite run_bind. unfold _getDb, try_catch.
      rewrite (ext_fail _ fs) by exact Hf. reflexivity. }
    rewrite Hrun. split; [|split]; auto.
  - destruct (recalcEmpleados_cells w) as (w' & Hrun & _ & _ & _ & Hcells).
    { unfold nextCallOk. rewrite Hf. discriminate. }
    rewrite Hrun. cbn [snd]. split; [|split].
    + intros r c Hr Hc Hout. rewrite Hcells by assumption.
      apply decide_False. intros [-> Hin]. destruct Hout as [?|[?|?]]; lia.
    + intros r Hr. rewrite Hcells by lia. destruct (decide _); reflexivity.
    + intros Hn. exfalso. apply Hn. unfold nextCallOk. rewrite Hf. discriminate.
Qed.

Lemma run_ret {S A : Type} (a : A) (w : S) : (mret a : St S A) w = (Ok a, w).
Proof. reflexivity. Qed.

Lemma logAudit_quiet (action userEmail : string) (w : world) :
  faults w = [] ->
  logAudit_ action userEmail w
  = (Ok (),
     set_auditLog (auditLog w ++ [(if String.eqb userEmail "" then activeUser w
                                   else userEmail, action)]) w).
Proof.
  intros Hf. unfold logAudit_, try_catch.
  rewrite run_bind, getDb_quiet by exact Hf. reflexivity.
Qed.

(** The side effects of a change to a status that is not an approval,
    when no service fails: the calendar event of the request, if it has
    one, is deleted and its reference cleared, and the requester is told
    unless the status is Pending or NeedsReview. *)
Lemma handleEstadoChange_other (w : world) (row : Z) (prevEstado : value) :
  faults w = [] -> 1 <= row ->
  let sh := solicitudes w in
  let r := Z.to_nat row in
  let email := (getCell sh r 2).1 in
  let estado := (getCell sh r 6).1 in
  let eventId := (getCell sh r 8).1 in
  is_str estado Aprobado || is_str estado AprobadoExcepcion = false ->
  exists w' : world,
    handleEstadoChange_ SHEET_SOLICITUDES row prevEstado w = (Ok (), w') /\
    faults w' = [] /\ empleados w' = empleados w /\ activeUser w' = activeUser w /\
    auditLog w' = auditLog w /\
    calendar w' = (if truthy eventId then delete (String_ eventId) (calendar w)
                   else calendar w) /\
    solicitudes w' = (if truthy eventId
                      then updCell r 8 (fun old => (blank, old.2)) sh else sh) /\
    outbox w' = outbox w ++
                (if truthy email && negb (is_str estado Pendiente)
                    && negb (is_str estado NecesitaRevision)
                 then [Mail (String_ email) ("Request " +:+ String_ estado)
                            ("Request " +:+ String_ estado) ""]
                 else []).
Proof.
  intros Hf Hrow sh r email estado eventId Hnot.
  unfold handleEstadoChange_, getCalendar_.
  rewrite run_bind, ext_quiet by exact Hf.
  do 6 (rewrite run_bind, getValue_run by lia).
  wcbn. colnums. fold sh r. fold email estado eventId.
  rewrite Hnot.
  set (w6 := touched (touched (touched (touched (touched (touched w)))))).
  assert (Hf6 : faults w6 = []) by exact Hf.
  assert (Hmail : forall w1 : world, faults w1 = [] ->
            exists w2 : world,
              (if truthy email && negb (is_str estado Pendiente)
                  && negb (is_str estado NecesitaRevision)
               then sendEmailSafe_ email ("Request " +:+ String_ estado)
                      ("Request " +:+ String_ estado) ""
                      ≫= (fun _ : sendResult => mret ())
               else mret ()) w1 = (Ok (), w2) /\
              faults w2 = [] /\ empleados w2 = empleados w1 /\
              activeUser w2 = activeUser w1 /\ auditLog w2 = auditLog w1 /\
              calendar w2 = calendar w1 /\ solicitudes w2 = solicitudes w1 /\
              outbox w2 = outbox w1 ++
                (if truthy email && negb (is_str estado Pendiente)
                    && negb (is_str estado NecesitaRevision)
                 then [Mail (String_ email) ("Request " +:+ String_ estado)
                            ("Request " +:+ String_ estado) ""]
                 else [])).
  { intros w1 Hf1.
    destruct (truthy email && negb (is_str estado Pendiente)
              && negb (is_str estado NecesitaRevision)).
    - rewrite run_bind, sendEmailSafe_quiet by exact Hf1.
      eexists. split; [reflexivity|]. repeat split. exact Hf1.
    - eexists. split; [reflexivity|]. rewrite app_nil_r. repeat split. exact Hf1. }
  rewrite run_bind.
  destruct (truthy eventId) eqn:Htr.
  - unfold try_catch at 1. rewrite run_bind.
    unfold getEventById. rewrite run_bind, ext_quiet by exact Hf6.
    unfold gets at 1. cbv beta iota.
    replace (calendar w6) with (calendar w) by reflexivity.
    destruct (calendar w !! String_ eventId) as [ev0|] eqn:Hev.
    + rewrite run_bind. unfold deleteEvent.
      rewrite run_bind, ext_quiet by exact Hf6.
      unfold modify at 1. cbv beta iota.
      rewrite clearContent_run by lia.
      set (w7 := set_sheet SHEET_SOLICITUDES _ _).
      destruct (Hmail w7 Hf) as (w8 & -> & M1 & M2 & M3 & M4 & M5 & M6 & M7).
      exists w8. split; [reflexivity|]. split; [exact M1|].
      split; [rewrite M2; reflexivity|]. split; [rewrite M3; reflexivity|].
      split; [rewrite M4; reflexivity|]. split; [rewrite M5; reflexivity|].
      split; [rewrite M6; reflexivity|]. rewrite M7. reflexivity.
    + rewrite run_bind, run_ret.
      rewrite clearContent_run by lia.
      set (w7 := set_sheet SHEET_SOLICITUDES _ _).
      destruct (Hmail w7 Hf) as (w8 & -> & M1 & M2 & M3 & M4 & M5 & M6 & M7).
      exists w8. split; [reflexivity|]. split; [exact M1|].
      split; [rewrite M2; reflexivity|]. split; [rewrite M3; reflexivity|].
      split; [rewrite M4; reflexivity|].
      split; [rewrite M5; wcbn; symmetry; apply delete_id; exact Hev|].
      split; [rewrite M6; reflexivity|]. rewrite M7. reflexivity.
  - rewrite run_ret.
    destruct (Hmail w6 Hf6) as (w8 & -> & M1 & M2 & M3 & M4 & M5 & M6 & M7).
    exists w8. split; [reflexivity|]. split; [exact M1|].
    split; [rewrite M2; reflexivity|]. split; [rewrite M3; reflexivity|].
    split; [rewrite M4; reflexivity|]. split; [rewrite M5; reflexivity|].
    split; [rewrite M6; reflexivity|]. rewrite M7. reflexivity.
Qed.

(** X17. A manager's decision other than an approval (a rejection, say), when
    no service fails: the call succeeds, the row takes the action as its
    status, the calendar event of the request, if there is one, is
    deleted and its reference cleared, no other cell of the request table
    changes, the requester is told (unless the new status is Pending or
    NeedsReview) and the action is entered in the audit log. *)
Theorem apiProcessRequest_rejection (w : world) (rowId : Z) (action : string) :
  let sh := solicitudes w in
  let r := Z.to_nat rowId in
  let email := (getCell sh r 2).1 in
  let eventId := (getCell sh r 8).1 in
  faults w = [] -> activeUser w ∈ managerRoster w -> 1 <= rowId ->
  action <> Aprobado -> action <> AprobadoExcepcion ->
  exists w' : world,
    apiProcessRequest rowId action w = (Ok (), w') /\
    (getCell (solicitudes w') r 6).1 = VStr action /\
    (forall r' c : nat, (1 <= r')%nat -> (1 <= c)%nat ->
       ~ (r' = r /\ (c = 6%nat \/ c = 8%nat)) ->
       getCell (solicitudes w') r' c = getCell sh r' c) /\
    (if truthy eventId
     then (getCell (solicitudes w') r 8).1 = blank /\
          calendar w' = delete (String_ eventId) (calendar w)
     else getCell (solicitudes w') r 8 = getCell sh r 8 /\ calendar w' = calendar w) /\
    outbox w' = outbox w ++
                (if truthy email && negb (String.eqb action Pendiente)
                    && negb (String.eqb action NecesitaRevision)
                 then [Mail (String_ email) ("Request " +:+ action)
                            ("Request " +:+ action) ""]
                 else []) /\
    auditLog w' = auditLog w ++ [(activeUser w, "MANAGER_ACTION")].
Proof.
  intros sh r email eventId Hf Hman Hrow Hna Hne.
  destruct (getManagerEmails_quiet w Hf) as (w1 & Hrun1 & Hs1 & Hc1 & He1 & Hf1 & Hu1 & Hl1).
  assert (Hf1' : faults w1 = []) by congruence.
  assert (Hro1 : sameData w w1).
  { pose proof (readOnly_getManagerEmails w) as Hro. rewrite Hrun1 in Hro. exact Hro. }
  destruct Hro1 as (_ & _ & _ & _ & Ho1 & Ha1).
  unfold apiProcessRequest.
  rewrite run_bind. unfold gets at 1. cbv beta iota.
  rewrite run_bind, Hrun1.
  rewrite bool_decide_eq_true_2 by exact Hman.
  rewrite run_bind. unfold mret at 1, St_ret. cbv beta iota.
  rewrite run_bind, getDb_quiet by exact Hf1'.
  do 3 (rewrite run_bind, getValue_run by lia).
  wcbn. colnums. rewrite Hs1. fold sh r. cbv zeta.
  rewrite (proj2 (String.eqb_neq action Aprobado) Hna). cbn [andb].
  rewrite run_bind. unfold mret at 1, St_ret. cbv beta iota.
  rewrite run_bind, setValue_run by lia. wcbn. colnums. rewrite Hs1. fold sh r.
  set (w4 := set_solicitudes _ _).
  assert (Hsol4 : solicitudes w4 = updCell r 6 (fun old => (VStr action, old.2)) sh)
    by reflexivity.
  assert (Hf4 : faults w4 = []) by exact Hf1'.
  assert (Hr : (1 <= r)%nat) by (unfold r; lia).
  assert (Hcell : forall r' c : nat, (1 <= r')%nat -> (1 <= c)%nat ->
                    ~ (r' = r /\ c = 6%nat) ->
                    getCell (solicitudes w4) r' c = getCell sh r' c).
  { intros r' c Hr' Hc Hne'. rewrite Hsol4. rewrite getCell_updCell by lia.
    apply decide_False. exact Hne'. }
  assert (Hest4 : (getCell (solicitudes w4) r 6).1 = VStr action).
  { rewrite Hsol4. rewrite getCell_updCell by lia.
    rewrite decide_True by (split; reflexivity). reflexivity. }
  destruct (handleEstadoChange_other w4 rowId (getCell sh r 6).1 Hf4 Hrow)
    as (w5 & Hrun5 & Hf5 & He5 & Hu5 & Ha5 & Hc5 & Hs5 & Ho5).
  { fold r. rewrite Hest4. unfold is_str.
    rewrite !bool_decide_eq_false_2 by congruence. reflexivity. }
  fold r in Hc5, Hs5, Ho5. rewrite Hest4 in Ho5.
  rewrite !Hcell in Hc5, Hs5, Ho5 by (lia || (intros [_ ?]; lia)).
  fold email eventId in Hc5, Hs5, Ho5.
  rewrite run_bind, Hrun5.
  destruct (recalcEmpleados_quiet w5 Hf5) as (w6 & Hrun6 & Hs6 & Hf6).
  pose proof (recalcEmpleados_frame w5) as Hfr. rewrite Hrun6 in Hfr.
  cbv zeta in Hfr. cbn [snd] in Hfr. destruct Hfr as (_ & _ & Hc6 & Ho6 & Ha6 & Hu6).
  rewrite run_bind, Hrun6.
  rewrite logAudit_quiet by exact Hf6.
  eexists. split; [reflexivity|]. wcbn.
  rewrite Hs6, Hc6, Ho6, Ha6, Hs5, Hc5, Ho5, Ha5.
  replace (calendar w4) with (calendar w) by (symmetry; exact Hc1).
  replace (outbox w4) with (outbox w) by (symmetry; exact Ho1).
  replace (auditLog w4) with (auditLog w) by (symmetry; exact Ha1).
  assert (Hact : (if String.eqb (activeUser w) "" then activeUser w6 else activeUser w)
                 = activeUser w).
  { destruct (String.eqb (activeUser w) ""); [|reflexivity].
    rewrite Hu6, Hu5. exact Hu1. }
  split; [|split; [|split; [|split]]].
  - destruct (truthy eventId).
    + rewrite getCell_updCell by lia.
      rewrite decide_False by (intros [_ ?]; lia). exact Hest4.
    + exact Hest4.
  - intros r' c Hr' Hc Hout. destruct (truthy eventId).
    + rewrite getCell_updCell by lia.
      rewrite decide_False by (intros [-> ->]; apply Hout; auto).
      apply Hcell; [lia|lia|]. intros [-> ->]. apply Hout. auto.
    + apply Hcell; [lia|lia|]. intros [-> ->]. apply Hout. auto.
  - destruct (truthy eventId).
    + split; [|reflexivity]. rewrite getCell_updCell by lia.
      rewrite decide_True by (split; reflexivity). reflexivity.
    + split; [|reflexivity]. apply Hcell; [lia|lia|]. intros [_ ?]. lia.
  - unfold is_str. cbn [String_].
    destruct (String.eqb_spec action Pendiente) as [->|Hp].
    + rewrite (bool_decide_eq_true_2 (VStr Pendiente = VStr Pendiente)) by reflexivity.
      reflexivity.
    + rewrite (bool_decide_eq_false_2 (VStr action = VStr Pendiente)) by congruence.
      destruct (String.eqb_spec action NecesitaRevision) as [->|Hn].
      * rewrite (bool_decide_eq_true_2 (VStr NecesitaRevision = VStr NecesitaRevision))
          by reflexivity. reflexivity.
      * rewrite (bool_decide_eq_false_2 (VStr action = VStr NecesitaRevision))
          by congruence. reflexivity.
  - rewrite Hact. reflexivity.
Qed.

(** ** Endpoints over their quota *)

(** X18. Once the caller's counter for an action has reached its maximum (5
    creations, 10 edits, 3 cancellations per hour), the endpoint refuses
    the call before it takes the lock or opens the spreadsheet, and the
    world is left exactly as it was. *)
Theorem endpoints_over_quota (w : world) :
  let over := fun (action : string) (max : Z) =>
    max <= default 0 (userCache w !! rateKey action (activeUser w)) in
  let msg := "Too many attempts. Please try again in 60 minutes." in
  (over "create_request" 5 ->
   forall startDate endDate : value,
     apiCreateRequest startDate endDate w = (Throw msg, w)) /\
  (over "edit_request" 10 ->
   forall (rowId : Z) (startDate endDate : value),
     apiEditRequest rowId startDate endDate w = (Throw msg, w)) /\
  (over "cancel_request" 3 ->
   forall rowId : Z, apiCancelRequest rowId w = (Throw msg, w)).
Proof.
  cbv zeta. split; [|split].
  - intros Hover startDate endDate. unfold apiCreateRequest.
    rewrite run_bind. unfold gets at 1. cbv beta iota.
    rewrite run_bind, (checkRateLimit_over _ _ 5 3600) by (reflexivity || exact Hover).
    reflexivity.
  - intros Hover rowId startDate endDate. unfold apiEditRequest.
    rewrite run_bind. unfold gets at 1. cbv beta iota.
    rewrite run_bind, (checkRateLimit_over _ _ 10 3600) by (reflexivity || exact Hover).
    reflexivity.
  - intros Hover rowId. unfold apiCancelRequest.
    rewrite run_bind. unfold gets at 1. cbv beta iota.
    rewrite run_bind, (checkRateLimit_over _ _ 3 3600) by (reflexivity || exact Hover).
    reflexivity.
Qed.

(** ** Sorting the request table *)

Lemma sortedTable_rows (sh : sheet) :
  (forall (col : nat) (rows : list (list cell)), range_sort col rows ≡ₚ rows) ->
  (2 < getLastRow sh)%nat ->
  let last := getLastRow sh in
  let sh' := take 1 sh ++ range_sort 4 (take (last - 1) (drop 1 sh)) ++ drop last sh in
  sh' ≡ₚ sh /\ sh' !! 0%nat = sh !! 0%nat /\ drop last sh' = drop last sh.
Proof.
  intros Hperm Hlt last sh'.
  assert (Hlen : (last <= length sh)%nat) by apply getLastRow_le_length.
  assert (Hsplit : sh = take 1 sh ++ take (last - 1) (drop 1 sh) ++ drop last sh).
  { rewrite <- (take_drop 1 sh) at 1. f_equal.
    rewrite <- (take_drop (last - 1) (drop 1 sh)) at 1. f_equal.
    rewrite drop_drop. f_equal. lia. }
  split; [|split].
  - transitivity (take 1 sh ++ take (last - 1) (drop 1 sh) ++ drop last sh).
    + unfold sh'. apply Permutation_app_head, Permutation_app_tail, Hperm.
    + rewrite <- Hsplit. reflexivity.
  - unfold sh'. clear Hsplit Hlen. subst last.
    destruct sh as [|x l]; [cbn in Hlt; lia|reflexivity].
  - unfold sh'. rewrite app_assoc. apply drop_app_length'.
    rewrite length_app, (Permutation_length (Hperm _ _)), !length_take, length_drop.
    lia.
Qed.

(** X19. Sorting the requests by start date keeps the header row and whatever
    lies below the last row with content; with at most one request it
    changes nothing; and, the platform's range sort being a permutation
    of the rows it is given, the rows of the table are the same rows
    after the sort, so that no request is lost or duplicated.  Nothing
    but the request table is written. *)
Theorem sortSolicitudes_keeps_rows (w : world) :
  (forall (col : nat) (rows : list (list cell)), range_sort col rows ≡ₚ rows) ->
  let w' := (sortSolicitudesByFechaInicio_ w).2 in
  solicitudes w' ≡ₚ solicitudes w /\
  solicitudes w' !! 0%nat = solicitudes w !! 0%nat /\
  drop (getLastRow (solicitudes w)) (solicitudes w')
  = drop (getLastRow (solicitudes w)) (solicitudes w) /\
  ((getLastRow (solicitudes w) <= 2)%nat -> solicitudes w' = solicitudes w) /\
  empleados w' = empleados w /\ managersSheet w' = managersSheet w /\
  calendar w' = calendar w /\ outbox w' = outbox w /\ auditLog w' = auditLog w.
Proof.
  intros Hperm. cbv zeta.
  assert (Hsame : forall w1 : world,
            solicitudes w1 = solicitudes w -> empleados w1 = empleados w ->
            managersSheet w1 = managersSheet w -> calendar w1 = calendar w ->
            outbox w1 = outbox w -> auditLog w1 = auditLog w ->
            solicitudes w1 ≡ₚ solicitudes w /\
            solicitudes w1 !! 0%nat = solicitudes w !! 0%nat /\
            drop (getLastRow (solicitudes w)) (solicitudes w1)
            = drop (getLastRow (solicitudes w)) (solicitudes w) /\
            ((getLastRow (solicitudes w) <= 2)%nat -> solicitudes w1 = solicitudes w) /\
            empleados w1 = empleados w /\ managersSheet w1 = managersSheet w /\
            calendar w1 = calendar w /\ outbox w1 = outbox w /\
            auditLog w1 = auditLog w).
  { intros w1 -> -> -> -> -> ->. repeat split; reflexivity. }
  assert (Hgo : forall w0 : world,
            solicitudes w0 = solicitudes w -> empleados w0 = empleados w ->
            managersSheet w0 = managersSheet w -> calendar w0 = calendar w ->
            outbox w0 = outbox w -> auditLog w0 = auditLog w ->
            let w1 := ((last ← readSheet SHEET_SOLICITUDES getLastRow;
                        if (2 <? last)%nat then
                          writeSheet SHEET_SOLICITUDES (fun sh =>
                            take 1 sh ++ range_sort 4 (take (last - 1) (drop 1 sh))
                              ++ drop last sh)
                        else mret ()) w0).2 in
            solicitudes w1 ≡ₚ solicitudes w /\
            solicitudes w1 !! 0%nat = solicitudes w !! 0%nat /\
            drop (getLastRow (solicitudes w)) (solicitudes w1)
            = drop (getLastRow (solicitudes w)) (solicitudes w) /\
            ((getLastRow (solicitudes w) <= 2)%nat -> solicitudes w1 = solicitudes w) /\
            empleados w1 = empleados w /\ managersSheet w1 = managersSheet w /\
            calendar w1 = calendar w /\ outbox w1 = outbox w /\
            auditLog w1 = auditLog w).
  { intros w0 E1 E2 E3 E4 E5 E6. cbv zeta.
    rewrite run_bind, readSheet_run. wcbn. rewrite E1.
    destruct (Nat.ltb_spec 2 (getLastRow (solicitudes w))) as [Hlt|Hge].
    - rewrite writeSheet_run. wcbn. rewrite E1.
      destruct (sortedTable_rows (solicitudes w) Hperm Hlt) as (P1 & P2 & P3).
      cbv zeta in P1, P2, P3.
      split; [exact P1|]. split; [exact P2|]. split; [exact P3|].
      split; [intros Hle; lia|]. repeat split; assumption.
    - apply Hsame; assumption. }
  unfold sortSolicitudesByFechaInicio_.
  rewrite run_bind. unfold _getDb, try_catch, ext.
  destruct (faults w) as [|[] fs]; cbv beta iota; unfold throw.
  - apply Hgo; reflexivity.
  - apply Hsame; reflexivity.
  - apply Hgo; reflexivity.
Qed.

(** ** Rows that cannot be processed *)

Lemma lift_ok {L A : Type} (m : M A) (l : L) (w w' : world) (a : A) :
  m w = (Ok a, w') -> @lift L A m (l, w) = (Ok a, (l, w')).
Proof. intros Hm. unfold lift. cbn [fst snd]. rewrite Hm. reflexivity. Qed.

Lemma setNote_run (n : sheetName) (row col : Z) (note : string) (w : world) :
  1 <= row -> 1 <= col ->
  setNote n row col note w
  = (Ok (), set_sheet n (updCell (Z.to_nat row) (Z.to_nat col)
                                 (fun old => (old.1, note)) (sheetOf n w))
                        (touched w)).
Proof.
  intros Hr Hc. unfold setNote.
  rewrite run_bind, checkRange_inside by assumption. apply writeSheet_run.
Qed.

Lemma getEmployeeTeam_ok (x : value) (w : world) :
  nextCallOk w ->
  getEmployeeTeam_ x w
  = (Ok (default (VStr "")
           (teamLoop (drop 1 (dataValues (empleados w)))
                     (toLowerCase (trim (String_ (orElse x (VStr ""))))))),
     touched (set_faults (tail (faults w)) w)).
Proof.
  intros Hok. unfold getEmployeeTeam_.
  rewrite run_bind, getDb_ok by exact Hok.
  rewrite run_bind, readSheet_run. reflexivity.
Qed.

(** X20. A row that lacks its employee or a date, or whose end date is not on
    or after its start date, is only flagged: the note 'Invalid Data' is
    put on its status cell (which is set to Pending if it was blank), no
    days are counted, no mail is sent, nothing else is written, and the
    caller is told that nobody was notified. *)
Theorem processRequestRow_invalid_data (w : world) (row : Z) :
  let sh := solicitudes w in
  let r := Z.to_nat row in
  let empleado := (getCell sh r 3).1 in
  let ini := (getCell sh r 4).1 in
  let fin := (getCell sh r 5).1 in
  nextCallOk w -> 1 <= row ->
  truthy empleado && truthy ini && truthy fin
    && num_le (normalizeDate_ ini) (normalizeDate_ fin) = false ->
  exists w' : world,
    processRequestRow_ SHEET_SOLICITUDES row w = (Ok (RowOutcome notSent notSent), w') /\
    (getCell (solicitudes w') r 6).2 = "Invalid Data" /\
    (getCell (solicitudes w') r 6).1
    = (if truthy (getCell sh r 6).1 then (getCell sh r 6).1 else VStr Pendiente) /\
    (forall r' c : nat, (1 <= r')%nat -> (1 <= c)%nat -> ~ (r' = r /\ c = 6%nat) ->
       getCell (solicitudes w') r' c = getCell sh r' c) /\
    empleados w' = empleados w /\ calendar w' = calendar w /\ outbox w' = outbox w.
Proof.
  intros sh r empleado ini fin Hok Hrow Hinv.
  assert (Hr : (1 <= r)%nat) by (unfold r; lia).
  unfold processRequestRow_, withLocals.
  rewrite run_bind. unfold try_catch. unfold processRequestRow_body.
  rewrite run_bind, (lift_ok _ _ _ _ _ (checkRange_inside row 6 w Hrow ltac:(lia))).
  rewrite run_bind, (lift_ok _ _ _ _ _ (getValue_run SHEET_SOLICITUDES row 6 w Hrow ltac:(lia))).
  wcbn. colnums. fold sh r.
  set (sh1 := if truthy (getCell sh r 6).1 then sh
              else updCell r 6 (fun old => (VStr Pendiente, old.2)) sh).
  assert (Hcell1 : forall r' c : nat, (1 <= r')%nat -> (1 <= c)%nat ->
             ~ (r' = r /\ c = 6%nat) -> getCell sh1 r' c = getCell sh r' c).
  { intros r' c Hr' Hc Hne. unfold sh1. destruct (truthy (getCell sh r 6).1); [reflexivity|].
    rewrite getCell_updCell by lia. apply decide_False. exact Hne. }
  assert (Hest1 : (getCell sh1 r 6).1
                  = if truthy (getCell sh r 6).1 then (getCell sh r 6).1
                    else VStr Pendiente).
  { unfold sh1. destruct (truthy (getCell sh r 6).1); [reflexivity|].
    rewrite getCell_updCell by lia. rewrite decide_True by (split; reflexivity).
    reflexivity. }
  assert (Hstep : exists w1 : world,
            (if negb (truthy (getCell sh r 6).1)
             then @lift rowOutcome _ (setValue SHEET_SOLICITUDES row 6 (VStr Pendiente))
             else mret ()) (RowOutcome notSent notSent, touched w)
            = (Ok (), (RowOutcome notSent notSent, w1)) /\
            solicitudes w1 = sh1 /\ faults w1 = faults w /\
            empleados w1 = empleados w /\ calendar w1 = calendar w /\
            outbox w1 = outbox w).
  { unfold sh1. destruct (truthy (getCell sh r 6).1); cbn [negb].
    - eexists. split; [reflexivity|]. repeat split.
    - rewrite (lift_ok _ _ _ _ _ (setValue_run SHEET_SOLICITUDES row 6 _ _ Hrow ltac:(lia))).
      eexists. split; [reflexivity|]. repeat split. }
  destruct Hstep as (w1 & Hrun1 & Hs1 & Hf1 & He1 & Hc1 & Ho1).
  rewrite run_bind, Hrun1.
  rewrite run_bind, (lift_ok _ _ _ _ _ (getValue_run SHEET_SOLICITUDES row 2 _ Hrow ltac:(lia))).
  rewrite run_bind, (lift_ok _ _ _ _ _ (getValue_run SHEET_SOLICITUDES row 3 _ Hrow ltac:(lia))).
  rewrite run_bind, (lift_ok _ _ _ _ _ (getValue_run SHEET_SOLICITUDES row 4 _ Hrow ltac:(lia))).
  rewrite run_bind, (lift_ok _ _ _ _ _ (getValue_run SHEET_SOLICITUDES row 5 _ Hrow ltac:(lia))).
  wcbn. colnums. rewrite Hs1. fold r.
  rewrite !Hcell1 by (lia || (intros [_ ?]; lia)).
  fold empleado ini fin.
  assert (Hok1 : nextCallOk (touched (touched (touched (touched w1))))).
  { unfold nextCallOk. wcbn. rewrite Hf1. exact Hok. }
  rewrite run_bind, (lift_ok _ _ _ _ _ (getEmployeeTeam_ok _ _ Hok1)).
  cbv zeta. rewrite Hinv. cbn [negb].
  rewrite (lift_ok _ _ _ _ _ (setNote_run SHEET_SOLICITUDES row 6 _ _ Hrow ltac:(lia))).
  unfold gets. cbv beta iota. cbn [fst snd].
  eexists. split; [reflexivity|]. wcbn. colnums. rewrite Hs1. fold r.
  split; [|split; [|split]].
  - rewrite getCell_updCell by lia. rewrite decide_True by (split; reflexivity).
    reflexivity.
  - rewrite getCell_updCell by lia. rewrite decide_True by (split; reflexivity).
    exact Hest1.
  - intros r' c Hr' Hc Hne. rewrite getCell_updCell by lia.
    rewrite decide_False by exact Hne. apply Hcell1; assumption.
  - repeat split; assumption.
Qed.

(** ** Team coverage conflicts *)

Lemma teamOverlapLoop_first (w : world) (empleado team : value) (s0 e0 : num)
    (currentRow : Z) (rows : list (list value)) :
  forall (r : Z) (w1 : world),
    faults w1 = [] -> empleados w1 = empleados w ->
    exists (res : option teamConflict) (w2 : world),
      teamOverlapLoop rows r empleado team s0 e0 currentRow w1 = (Ok res, w2) /\
      sameData w1 w2 /\ faults w2 = [] /\
      match res with
      | Some c =>
          exists (i : nat) (row : list value),
            rows !! i = Some row /\
            teamMatch w empleado team s0 e0 currentRow (r + Z.of_nat i) row = true /\
            (forall (j : nat) (row' : list value),
               (j < i)%nat -> rows !! j = Some row' ->
               teamMatch w empleado team s0 e0 currentRow (r + Z.of_nat j) row' = false) /\
            c = TeamConflict (r + Z.of_nat i + 1) (rowEmployee row) (rowStatus row) team
      | None =>
          forall (i : nat) (row : list value),
            rows !! i = Some row ->
            teamMatch w empleado team s0 e0 currentRow (r + Z.of_nat i) row = false
      end.
Proof.
  induction rows as [|row rest IH]; intros r w1 Hf He.
  - exists None, w1. split; [reflexivity|]. split; [apply sameData_refl|].
    split; [exact Hf|]. intros i row Hi. discriminate.
  - assert (Hskip : forall w1' : world,
              faults w1' = [] -> empleados w1' = empleados w -> sameData w1 w1' ->
              teamMatch w empleado team s0 e0 currentRow r row = false ->
              exists (res : option teamConflict) (w2 : world),
                teamOverlapLoop rest (r + 1) empleado team s0 e0 currentRow w1'
                = (Ok res, w2) /\
                sameData w1 w2 /\ faults w2 = [] /\
                match res with
                | Some c =>
                    exists (i : nat) (row0 : list value),
                      (row :: rest) !! i = Some row0 /\
                      teamMatch w empleado team s0 e0 currentRow (r + Z.of_nat i) row0
                      = true /\
                      (forall (j : nat) (row' : list value),
                         (j < i)%nat -> (row :: rest) !! j = Some row' ->
                         teamMatch w empleado team s0 e0 currentRow (r + Z.of_nat j) row'
                         = false) /\
                      c = TeamConflict (r + Z.of_nat i + 1) (rowEmployee row0)
                            (rowStatus row0) team
                | None =>
                    forall (i : nat) (row0 : list value),
                      (row :: rest) !! i = Some row0 ->
                      teamMatch w empleado team s0 e0 currentRow (r + Z.of_nat i) row0
                      = false
                end).
    { intros w1' Hf' He' Hsd Hno.
      destruct (IH (r + 1) w1' Hf' He') as (res & w2 & Hrun & Hsd2 & Hf2 & Hres).
      exists res, w2. split; [exact Hrun|].
      split; [eapply sameData_trans; eassumption|]. split; [exact Hf2|].
      destruct res as [c|].
      - destruct Hres as (i & row0 & Hi & Hm & Hbefore & ->).
        exists (S i), row0. split; [exact Hi|].
        split; [rewrite <- Hm; f_equal; lia|]. split.
        + intros [|j] row' Hj Hrow'.
          * injection Hrow' as <-. rewrite Z.add_0_r. exact Hno.
          * rewrite <- (Hbefore j row' ltac:(lia) Hrow'). f_equal. lia.
        + f_equal. lia.
      - intros [|i] row0 Hi.
        + injection Hi as <-. rewrite Z.add_0_r. exact Hno.
        + rewrite <- (Hres i row0 Hi). f_equal. lia. }
    cbn [teamOverlapLoop]. cbv zeta.
    fold (rowStatus row). fold (rowEmployee row).
    unfold teamMatch at 1 in Hskip. unfold scannedStatus in Hskip.
    destruct (r + 1 =? currentRow) eqn:E1.
    { apply Hskip; [exact Hf|exact He|apply sameData_refl|reflexivity]. }
    destruct (String.eqb (rowStatus row) Pendiente || includes Aprobado (rowStatus row))
      eqn:E2.
    2:{ apply orb_false_iff in E2. destruct E2 as [-> ->]. cbn [negb andb].
        apply Hskip; [exact Hf|exact He|apply sameData_refl|reflexivity]. }
    assert (E2' : negb (String.eqb (rowStatus row) Pendiente)
                  && negb (includes Aprobado (rowStatus row)) = false).
    { rewrite <- negb_orb, E2. reflexivity. }
    rewrite E2'.
    destruct (String.eqb (rowEmployee row) "") eqn:E3.
    { cbn [orb]. apply Hskip; [exact Hf|exact He|apply sameData_refl|reflexivity]. }
    destruct (is_str empleado (rowEmployee row)) eqn:E4.
    { cbn [orb]. apply Hskip; [exact Hf|exact He|apply sameData_refl|reflexivity]. }
    cbn [orb negb andb] in *.
    assert (Hok1 : nextCallOk w1) by (unfold nextCallOk; rewrite Hf; discriminate).
    rewrite run_bind, (getEmployeeTeam_ok _ _ Hok1). rewrite Hf. cbn [tail].
    rewrite He. fold (teamOf w (VStr (rowEmployee row))).
    set (w1' := touched (set_faults [] w1)).
    assert (Hsd1 : sameData w1 w1') by (repeat split).
    destruct (truthy (teamOf w (VStr (rowEmployee row)))) eqn:E5.
    2:{ cbn [negb orb]. apply Hskip; [reflexivity|exact He|exact Hsd1|reflexivity]. }
    destruct (bool_decide (teamOf w (VStr (rowEmployee row)) = team)) eqn:E6.
    2:{ cbn [negb orb]. apply Hskip; [reflexivity|exact He|exact Hsd1|reflexivity]. }
    cbn [negb orb andb] in *. unfold rangesOverlap in Hskip.
    unfold Date_getTime.
    destruct (num_le s0 (normalizeDate_ (at1 row 4))
              && num_le (normalizeDate_ (at1 row 3)) e0) eqn:E7.
    2:{ apply Hskip; [reflexivity|exact He|exact Hsd1|reflexivity]. }
    eexists _, w1'. split; [reflexivity|]. split; [exact Hsd1|]. split; [reflexivity|].
    exists 0%nat, row. split; [reflexivity|]. split.
    + rewrite Z.add_0_r. unfold teamMatch, scannedStatus, rangesOverlap.
      rewrite E1, E2, E3, E4, E5, E6, E7. reflexivity.
    + split; [intros j row' Hj; lia|]. rewrite Z.add_0_r. reflexivity.
Qed.

(** X21. The team-coverage check, when no service fails: an employee without
    a team never has a conflict; otherwise the answer is the first row
    below the header, other than the row being processed, that is Pending
    or approved, belongs to a named colleague on the same team and
    overlaps the candidate days, reported with its row number, employee
    and status; there is no answer exactly when no row qualifies.  The
    check writes nothing. *)
Theorem hasTeamOverlap_first_match (w : world) (empleado start end_ : value)
    (currentRow : Z) :
  faults w = [] ->
  let team := teamOf w empleado in
  let rows := drop 1 (dataValues (solicitudes w)) in
  let hit := teamMatch w empleado team (normalizeDate_ start) (normalizeDate_ end_)
               currentRow in
  exists (res : option teamConflict) (w' : world),
    hasTeamOverlapPendingOrApproved_ empleado start end_ currentRow w = (Ok res, w') /\
    sameData w w' /\
    (truthy team = false -> res = None) /\
    (truthy team = true ->
     match res with
     | Some c =>
         exists (i : nat) (row : list value),
           rows !! i = Some row /\ hit (1 + Z.of_nat i) row = true /\
           (forall (j : nat) (row' : list value),
              (j < i)%nat -> rows !! j = Some row' -> hit (1 + Z.of_nat j) row' = false) /\
           c = TeamConflict (Z.of_nat i + 2) (rowEmployee row) (rowStatus row) team
     | None =>
         forall (i : nat) (row : list value),
           rows !! i = Some row -> hit (1 + Z.of_nat i) row = false
     end).
Proof.
  intros Hf team rows hit. unfold hasTeamOverlapPendingOrApproved_.
  assert (Hok : nextCallOk w) by (unfold nextCallOk; rewrite Hf; discriminate).
  rewrite run_bind, (getEmployeeTeam_ok _ _ Hok). rewrite Hf. cbn [tail].
  fold (teamOf w empleado). fold team.
  destruct (truthy team) eqn:Ht; cbn [negb].
  - rewrite run_bind, getDb_quiet by reflexivity.
    rewrite run_bind, readSheet_run. wcbn. cbv zeta. unfold Date_getTime.
    fold rows.
    destruct (teamOverlapLoop_first w empleado team (normalizeDate_ start)
                (normalizeDate_ end_) currentRow rows 1
                (touched (touched (set_faults [] w))) eq_refl eq_refl)
      as (res & w2 & Hrun & Hsd & _ & Hres).
    exists res, w2. split; [exact Hrun|]. split.
    { eapply sameData_trans; [|exact Hsd]. repeat split. }
    split; [discriminate|]. intros _.
    destruct res as [c|]; [|exact Hres].
    destruct Hres as (i & row & Hi & Hm & Hbefore & ->).
    exists i, row. split; [exact Hi|]. split; [exact Hm|]. split; [exact Hbefore|].
    f_equal. lia.
  - eexists None, _. split; [reflexivity|]. split; [repeat split|].
    split; [reflexivity|discriminate].
Qed.

(** ** Looking an employee up *)

Lemma indexOf_range (x : value) (l : list value) :
  forall i : Z, 0 <= i -> indexOf x l i = -1 \/ 0 <= indexOf x l i < i + Z.of_nat (length l).
Proof.
  induction l as [|y l IH]; intros i Hi; cbn [indexOf length].
  - left. reflexivity.
  - destruct (bool_decide (y = x)); [right; lia|].
    destruct (IH (i + 1) ltac:(lia)) as [->|Hr]; [left; reflexivity|right; lia].
Qed.

Lemma totalsLoop_first (search : string) (idx : Z) (rows : list (list value)) :
  forall i : Z,
    let hit := fun row : list value =>
      String.eqb (toLowerCase (trim (String_ (orElse (at1 row 0) (VStr ""))))) search
      || String.eqb (toLowerCase (trim (String_ (orElse (at1 row 1) (VStr ""))))) search in
    let t := totalsLoop rows i search idx in
    (t = noTotals /\
     forall (k : nat) (row : list value), rows !! k = Some row -> hit row = false) \/
    (exists (k : nat) (row : list value),
       rows !! k = Some row /\ hit row = true /\
       (forall (j : nat) (row' : list value),
          (j < k)%nat -> rows !! j = Some row' -> hit row' = false) /\
       t = Totals (Number_ (orElse (at1 row 3) (VNum 0)))
                  (Number_ (orElse (at1 row 4) (VNum 0)))
                  (if -1 <? idx
                   then Number_ (orElse (at1 row (Z.to_nat idx)) (VNum 0))
                   else num_sub (Number_ (orElse (at1 row 3) (VNum 0)))
                                (Number_ (orElse (at1 row 4) (VNum 0))))
                  (i + Z.of_nat k + 2)).
Proof.
  induction rows as [|row rest IH]; intros i hit t.
  - left. split; [reflexivity|]. intros k row Hk. discriminate.
  - subst t. cbn [totalsLoop]. cbv zeta. fold (hit row).
    destruct (hit row) eqn:Hhit.
    + right. exists 0%nat, row. split; [reflexivity|]. split; [exact Hhit|].
      split; [intros j row' Hj; lia|]. rewrite Z.add_0_r. reflexivity.
    + destruct (IH (i + 1)) as [[Hn Hall]|(k & row0 & Hk & Hm & Hbefore & Ht)].
      * left. split; [exact Hn|]. intros [|k] row0 Hk.
        -- injection Hk as <-. exact Hhit.
        -- exact (Hall k row0 Hk).
      * right. exists (S k), row0. split; [exact Hk|]. split; [exact Hm|]. split.
        -- intros [|j] row' Hj Hrow'.
           ++ injection Hrow' as <-. exact Hhit.
           ++ apply (Hbefore j row'); [lia|exact Hrow'].
        -- cbv zeta in Ht. rewrite Ht. f_equal. lia.
Qed.

(** X22. The balance [getEmployeeTotals_] answers with, when the spreadsheet
    opens: that of the first row below the header whose name or e-mail is
    the one asked for (trimmed, whatever the case), with its row number,
    its 'SaldoHR' and 'Usados' values (columns 4 and 5), and as remaining
    days the value under the header 'SaldoVacaciones' if the table has
    one, else the difference of the two; zeros and row -1 when no row
    matches.  The lookup writes nothing. *)
Theorem getEmployeeTotals_first_match (w : world) (x : value) :
  nextCallOk w ->
  let shE := empleados w in
  let search := toLowerCase (trim (String_ (orElse x (VStr "")))) in
  let idx := saldoVacacionesColumn shE in
  exists (t : totals) (w' : world),
    getEmployeeTotals_ x w = (Ok t, w') /\ sameData w w' /\
    ((t = noTotals /\
      forall r : nat, (2 <= r <= getLastRow shE)%nat ->
        employeeRowMatches shE search r = false) \/
     (exists r : nat,
        (2 <= r <= getLastRow shE)%nat /\ totals_row t = Z.of_nat r /\
        employeeRowMatches shE search r = true /\
        (forall r' : nat, (2 <= r' < r)%nat -> employeeRowMatches shE search r' = false) /\
        total t = Number_ (orElse (getCell shE r 4).1 (VNum 0)) /\
        usados t = Number_ (orElse (getCell shE r 5).1 (VNum 0)) /\
        remaining t
        = if -1 <? idx
          then Number_ (orElse (getCell shE r (Z.to_nat idx + 1)).1 (VNum 0))
          else num_sub (total t) (usados t))).
Proof.
  intros Hok shE search idx. unfold getEmployeeTotals_.
  rewrite run_bind, getDb_ok by exact Hok. rewrite readSheet_run. wcbn. fold shE.
  eexists _, _. split; [reflexivity|]. split; [repeat split|].
  unfold totalsIn. cbv zeta. fold (saldoVacacionesColumn shE). fold idx. fold search.
  destruct (Nat.ltb_spec (getLastRow shE) 2) as [Hlt|Hge].
  { left. split; [reflexivity|]. intros r Hr. lia. }
  set (maxIdx := Z.max 3 (Z.max 4 idx) + 1).
  set (vals := rangeValues shE 2 1 (getLastRow shE - 1) (Z.to_nat maxIdx)).
  assert (Hidx : idx = -1 \/ 0 <= idx).
  { unfold idx, saldoVacacionesColumn.
    destruct (indexOf_range (VStr "SaldoVacaciones")
                (default [] (rangeValues shE 1 1 1 (getLastColumn shE) !! 0%nat)) 0
                ltac:(lia)) as [->|Hr]; [left; reflexivity|right; lia]. }
  assert (Hat : forall (k : nat) (row : list value) (j : nat),
            vals !! k = Some row -> (j < Z.to_nat maxIdx)%nat ->
            at1 row j = (getCell shE (2 + k) (1 + j)).1).
  { intros k row j Hk Hj.
    assert (Hkl : (k < getLastRow shE - 1)%nat).
    { apply lookup_lt_Some in Hk. unfold vals in Hk.
      rewrite rangeValues_length in Hk. exact Hk. }
    pose proof (rangeValues_at shE 2 1 (getLastRow shE - 1) (Z.to_nat maxIdx) k j
                  ltac:(lia) ltac:(lia) Hkl Hj) as Hv.
    fold vals in Hv. unfold at2 in Hv. rewrite Hk in Hv. exact Hv. }
  assert (Hhit : forall (k : nat) (row : list value),
            vals !! k = Some row ->
            String.eqb (toLowerCase (trim (String_ (orElse (at1 row 0) (VStr ""))))) search
            || String.eqb (toLowerCase (trim (String_ (orElse (at1 row 1) (VStr "")))))
                          search
            = employeeRowMatches shE search (2 + k)).
  { intros k row Hk. unfold employeeRowMatches.
    rewrite (Hat k row 0%nat Hk) by (unfold maxIdx; lia).
    rewrite (Hat k row 1%nat Hk) by (unfold maxIdx; lia). reflexivity. }
  assert (Hrow : forall r : nat, (2 <= r <= getLastRow shE)%nat ->
            exists row : list value, vals !! (r - 2)%nat = Some row).
  { intros r Hr. apply lookup_lt_is_Some_2. unfold vals.
    rewrite rangeValues_length. lia. }
  destruct (totalsLoop_first search idx vals 0)
    as [[Hn Hall]|(k & row & Hk & Hm & Hbefore & Ht)]; cbv zeta in *.
  - left. split; [exact Hn|]. intros r Hr. destruct (Hrow r Hr) as [row Hk].
    rewrite <- (Hall _ row Hk), (Hhit _ row Hk). f_equal. lia.
  - right. exists (2 + k)%nat.
    assert (Hkl : (k < getLastRow shE - 1)%nat).
    { apply lookup_lt_Some in Hk. unfold vals in Hk.
      rewrite rangeValues_length in Hk. exact Hk. }
    split; [lia|]. rewrite Ht. cbn [totals_row total usados remaining].
    split; [lia|]. split; [rewrite <- (Hhit k row Hk); exact Hm|]. split.
    + intros r' Hr'. destruct (Hrow r' ltac:(lia)) as [row' Hk'].
      rewrite <- (Hbefore (r' - 2)%nat row' ltac:(lia) Hk'), (Hhit _ row' Hk').
      f_equal. lia.
    + rewrite (Hat k row 3%nat Hk) by (unfold maxIdx; lia).
      rewrite (Hat k row 4%nat Hk) by (unfold maxIdx; lia).
      split; [reflexivity|]. split; [reflexivity|].
      destruct (Z.ltb_spec (-1) idx) as [Hpos|Hneg]; [|reflexivity].
      rewrite (Hat k row (Z.to_nat idx) Hk) by (unfold maxIdx; lia).
      replace (1 + Z.to_nat idx)%nat with (Z.to_nat idx + 1)%nat by lia. reflexivity.
Qed.

(** ** Services that must not break the caller *)

(** X23. Audit logging never fails its caller: when the spreadsheet opens, one
    entry with the action is added under the given user, or under the
    active user when none is given; when it does not open, the failure is
    swallowed and no entry is added.  Nothing else is written. *)
Theorem logAudit_contract (action userEmail : string) (w : world) :
  exists w' : world,
    logAudit_ action userEmail w = (Ok (), w') /\
    auditLog w'
    = auditLog w ++
      (if bool_decide (nextCallOk w)
       then [(if String.eqb userEmail "" then activeUser w else userEmail, action)]
       else []) /\
    solicitudes w' = solicitudes w /\ empleados w' = empleados w /\
    calendar w' = calendar w /\ outbox w' = outbox w.
Proof.
  unfold logAudit_, try_catch, nextCallOk. rewrite run_bind.
  unfold _getDb, try_catch, ext.
  destruct (faults w) as [|[] fs]; cbv beta iota; unfold throw.
  - eexists. split; [reflexivity|]. cbn [head].
    rewrite bool_decide_eq_true_2 by discriminate. repeat split.
  - eexists. split; [reflexivity|]. cbn [head].
    rewrite bool_decide_eq_false_2 by (intros Hn; apply Hn; reflexivity).
    wcbn. rewrite app_nil_r. repeat split.
  - eexists. split; [reflexivity|]. cbn [head].
    rewrite bool_decide_eq_true_2 by discriminate. repeat split.
Qed.

(** ** Dates sent as text *)

Lemma digit_cases (d : Z) :
  0 <= d <= 9 ->
  d = 0 \/ d = 1 \/ d = 2 \/ d = 3 \/ d = 4 \/ d = 5 \/ d = 6 \/ d = 7 \/ d = 8 \/ d = 9.
Proof. lia. Qed.

Lemma digit_of_digit (d : Z) : 0 <= d <= 9 -> digit_of (digit d) = Some d.
Proof.
  intros Hd. destruct (digit_cases d Hd) as [->|[->|[->|[->|[->|[->|[->|[->|[->| ->]]]]]]]]];
    reflexivity.
Qed.

Lemma digit_not_dash (d : Z) : 0 <= d <= 9 -> Ascii.eqb (digit d) "-" = false.
Proof.
  intros Hd. destruct (digit_cases d Hd) as [->|[->|[->|[->|[->|[->|[->|[->|[->| ->]]]]]]]]];
    reflexivity.
Qed.

Lemma parseInt_digit (d : Z) (s : string) :
  0 <= d <= 9 -> parseInt (String (digit d) s) = digits_prefix (String (digit d) s) None.
Proof.
  intros Hd. destruct (digit_cases d Hd) as [->|[->|[->|[->|[->|[->|[->|[->|[->| ->]]]]]]]]];
    reflexivity.
Qed.

Lemma append_cons (c : ascii) (s t : string) : String c s +:+ t = String c (s +:+ t).
Proof. reflexivity. Qed.

Lemma append_empty_l (t : string) : EmptyString +:+ t = t.
Proof. reflexivity. Qed.

Lemma append_empty_r (s : string) : s +:+ EmptyString = s.
Proof.
  induction s as [|c s IH]; [reflexivity|]. rewrite append_cons, IH. reflexivity.
Qed.

Lemma append_snoc (s p : string) (c : ascii) :
  (s +:+ String c EmptyString) +:+ p = s +:+ String c p.
Proof.
  induction s as [|x s IH]; [reflexivity|]. rewrite !append_cons, IH. reflexivity.
Qed.

Lemma split_on_head (sep : ascii) (s : string) :
  forall cur : string,
    exists (p : string) (tl : list string), split_on sep s cur = (cur +:+ p) :: tl.
Proof.
  induction s as [|c s IH]; intros cur; cbn [split_on].
  - exists EmptyString, []. rewrite append_empty_r. reflexivity.
  - destruct (Ascii.eqb c sep).
    + exists EmptyString, (split_on sep s EmptyString).
      rewrite append_empty_r. reflexivity.
    + destruct (IH (cur +:+ String c EmptyString)) as (p & tl & ->).
      exists (String c p), tl. f_equal. apply append_snoc.
Qed.

(** X24. A date sent as the text 'YYYY-MM-DD', whatever follows the day (a
    time part, say), is read as noon of that calendar date in the
    script's time zone. *)
Theorem parseDateToNoon_iso (y1 y2 y3 y4 m1 m2 d1 d2 : Z) (rest : string) :
  1 <= y1 <= 9 -> 0 <= y2 <= 9 -> 0 <= y3 <= 9 -> 0 <= y4 <= 9 ->
  0 <= m1 <= 9 -> 0 <= m2 <= 9 -> 0 <= d1 <= 9 -> 0 <= d2 <= 9 ->
  parseDateToNoon_ (VStr (isoDate y1 y2 y3 y4 m1 m2 d1 d2 +:+ rest))
  = VDate (Some (days_from_civil (1000 * y1 + 100 * y2 + 10 * y3 + y4)
                                 (10 * m1 + m2 - 1) (10 * d1 + d2) * MS_PER_DAY
                 + 12 * MS_PER_HOUR - tzOffsetMs)).
Proof.
  intros Hy1 Hy2 Hy3 Hy4 Hm1 Hm2 Hd1 Hd2.
  unfold parseDateToNoon_, isoDate. rewrite !append_cons, append_empty_l.
  cbn [truthy String_ String.eqb negb].
  unfold split. cbn [split_on].
  rewrite !digit_not_dash by lia. cbn [Ascii.eqb Bool.eqb andb split_on].
  repeat (rewrite ?append_empty_l, ?append_cons).
  destruct (split_on_head "-" rest (String (digit d1) (String (digit d2) EmptyString)))
    as (p & tl & ->).
  cbn [length Nat.ltb Nat.leb lookup list_lookup default from_option]. unfold id.
  rewrite !append_cons. cbn [substring0].
  rewrite !parseInt_digit by lia. cbn [digits_prefix].
  rewrite !digit_of_digit by lia. cbn [digits_prefix orZero default].
  cbn [num_sub Date_ymd_noon]. unfold id.
  set (y := 10 * (10 * (10 * (10 * 0 + y1) + y2) + y3) + y4).
  assert (Hy : y = 1000 * y1 + 100 * y2 + 10 * y3 + y4) by (unfold y; lia).
  destruct ((0 <=? y) && (y <=? 99)) eqn:Hcent.
  { exfalso. apply andb_true_iff in Hcent. destruct Hcent as [_ Hle].
    apply Z.leb_le in Hle. lia. }
  rewrite Hy.
  replace (10 * (10 * 0 + m1) + m2 - 1) with (10 * m1 + m2 - 1) by lia.
  replace (10 * (10 * 0 + d1) + d2) with (10 * d1 + d2) by lia.
  reflexivity.
Qed.

(** ** What row processing tells whom *)

Lemma sortSolicitudes_frame (w : world) :
  let w' := (sortSolicitudesByFechaInicio_ w).2 in
  outbox w' = outbox w /\ calendar w' = calendar w.
Proof.
  cbv zeta. unfold sortSolicitudesByFechaInicio_. rewrite run_bind.
  unfold _getDb, try_catch, ext.
  destruct (faults w) as [|[] fs]; cbv beta iota; unfold throw;
    try (cbn [snd]; split; reflexivity);
    rewrite run_bind, readSheet_run;
    (destruct (2 <? _)%nat; [rewrite writeSheet_run|]); split; reflexivity.
Qed.

Lemma recalc_sort_frame (l : rowOutcome) (w1 : world) :
  exists (res : result unit) (w2 : world),
    (lift recalcEmpleados_ ≫= fun _ : () => lift sortSolicitudesByFechaInicio_) (l, w1)
    = (res, (l, w2)) /\
    outbox w2 = outbox w1 /\ calendar w2 = calendar w1.
Proof.
  rewrite run_bind. unfold lift at 1. cbn [fst snd].
  destruct (recalcEmpleados_frame w1) as (_ & _ & Hc & Ho & _).
  destruct (recalcEmpleados_ w1) as [[[]|e] w1'] eqn:Hrun; cbn [snd] in Hc, Ho.
  - unfold lift. cbn [fst snd].
    destruct (sortSolicitudes_frame w1') as (Ho2 & Hc2).
    destruct (sortSolicitudesByFechaInicio_ w1') as [res w2]. cbn [snd] in Ho2, Hc2.
    exists res, w2. split; [reflexivity|]. split; congruence.
  - exists (Throw e), w1'. split; [reflexivity|]. split; assumption.
Qed.

Lemma userMail_step (email : value) (subject title : string) (l : rowOutcome)
    (w1 : world) :
  faults w1 = [] ->
  exists w2 : world,
    (if truthy email
     then r ← lift (sendEmailSafe_ email subject title ""); set_userNotified r
     else mret ()) (l, w1)
    = (Ok (), (if truthy email then RowOutcome (SendResult true None) (managersNotified l)
               else l, w2)) /\
    outbox w2 = outbox w1 ++ (if truthy email then [Mail (String_ email) subject title ""]
                              else []) /\
    faults w2 = [] /\ calendar w2 = calendar w1 /\ scriptCache w2 = scriptCache w1 /\
    managersSheet w2 = managersSheet w1.
Proof.
  intros Hf. destruct (truthy email).
  - rewrite run_bind, (lift_ok _ _ _ _ _ (sendEmailSafe_quiet _ _ _ _ _ Hf)).
    eexists. split; [reflexivity|]. repeat split. exact Hf.
  - exists w1. split; [reflexivity|]. rewrite app_nil_r. repeat split. exact Hf.
Qed.

Lemma managerMail_step (subject title : string) (l : rowOutcome) (w1 : world) :
  faults w1 = [] -> subject <> "" ->
  exists w2 : world,
    (if negb (String.eqb subject "")
     then r ← lift (notifyManagersCompact_ subject title); set_managersNotified r
     else mret ()) (l, w1)
    = (Ok (), (RowOutcome (userNotified l)
                 (match managerRoster w1 with
                  | [] => SendResult false (Some "No managers found")
                  | _ :: _ => SendResult true None
                  end), w2)) /\
    outbox w2 = outbox w1 ++ (match managerRoster w1 with
                              | to :: rest => [Mail to subject title (join "," rest)]
                              | [] => []
                              end) /\
    calendar w2 = calendar w1.
Proof.
  intros Hf Hne. rewrite (proj2 (String.eqb_neq _ _) Hne). cbn [negb].
  destruct (getManagerEmails_quiet w1 Hf) as (w1' & Hrun & Hs & Hc & He & Hf' & _).
  pose proof (readOnly_getManagerEmails w1) as Hro. rewrite Hrun in Hro.
  destruct Hro as (_ & _ & _ & _ & Ho & _). cbn [snd] in Ho.
  assert (Hf1 : faults w1' = []) by congruence.
  rewrite run_bind. unfold lift at 1. cbn [fst snd].
  unfold notifyManagersCompact_. rewrite run_bind, Hrun.
  destruct (managerRoster w1) as [|to rest].
  - eexists. split; [reflexivity|]. rewrite app_nil_r. split; [exact Ho|exact Hc].
  - rewrite sendEmailSafe_quiet by exact Hf1.
    eexists. split; [reflexivity|]. wcbn. rewrite Ho, Hc. split; reflexivity.
Qed.

Lemma getEmployeeTeam_cache (x : value) (w : world) :
  scriptCache (getEmployeeTeam_ x w).2 = scriptCache w.
Proof.
  unfold getEmployeeTeam_. rewrite run_bind. unfold _getDb, try_catch, ext.
  destruct (faults w) as [|[] fs]; cbv beta iota; unfold throw;
    try reflexivity; rewrite run_bind, readSheet_run; reflexivity.
Qed.

Lemma teamOverlapLoop_cache (empleado team : value) (s0 e0 : num) (currentRow : Z)
    (rows : list (list value)) :
  forall (r : Z) (w1 : world),
    scriptCache (teamOverlapLoop rows r empleado team s0 e0 currentRow w1).2
    = scriptCache w1.
Proof.
  induction rows as [|row rest IH]; intros r w1; [reflexivity|].
  cbn [teamOverlapLoop]. cbv zeta.
  destruct (r + 1 =? currentRow); [apply IH|].
  destruct (negb _ && negb _); [apply IH|].
  destruct (_ || _); [apply IH|].
  rewrite run_bind.
  pose proof (getEmployeeTeam_cache
                (VStr (trim (String_ (orElse (at1 row 2) (VStr ""))))) w1) as Hc.
  destruct (getEmployeeTeam_ _ w1) as [[team2|e] w1']; cbn [snd] in Hc; [|exact Hc].
  destruct (_ || _); [rewrite IH; exact Hc|].
  destruct (_ && _); [exact Hc|rewrite IH; exact Hc].
Qed.

Lemma teamMatch_same_table (w w1 : world) (empleado team : value) (s0 e0 : num)
    (currentRow r : Z) (row : list value) :
  empleados w1 = empleados w ->
  teamMatch w1 empleado team s0 e0 currentRow r row
  = teamMatch w empleado team s0 e0 currentRow r row.
Proof. intros He. unfold teamMatch, teamOf. rewrite He. reflexivity. Qed.

(** X25. Row processing of a valid request, when no service fails, by the
    outcome of the two conflict scans on the table with the day count
    filled in.  With a team conflict the requester is told that the
    request is under review and the managers get a conflict notice; with
    only an overlap with the requester's own requests nobody is told
    anything; with no conflict the requester gets an acknowledgement and
    the managers a notice of the new request.  Mail to the requester is
    sent only when the row has an e-mail; mail to the managers goes to
    the first of the roster with the others in copy.  The calendar is not
    touched. *)
Theorem processRequestRow_notifications (w : world) (row : Z) :
  let sh := solicitudes w in
  let r := Z.to_nat row in
  let email := (getCell sh r 2).1 in
  let empleado := (getCell sh r 3).1 in
  let ini := (getCell sh r 4).1 in
  let fin := (getCell sh r 5).1 in
  let sh1 := if truthy (getCell sh r 6).1 then sh
             else updCell r 6 (fun old => (VStr Pendiente, old.2)) sh in
  let sh2 := updCell r 7 (fun old => (VNum (countBusinessDays_ ini fin), old.2)) sh1 in
  let rows := drop 1 (dataValues sh2) in
  let team := teamOf w empleado in
  let teamLabel :=
    String_ (orElse (teamOf w (VStr (trim (String_ (orElse empleado (VStr ""))))))
                    (VStr "—")) in
  let teamHit := fun (i : nat) (rowv : list value) =>
    truthy team && teamMatch w empleado team (normalizeDate_ ini) (normalizeDate_ fin)
                     row (1 + Z.of_nat i) rowv in
  let ownHit := fun (i : nat) (rowv : list value) =>
    sameEmployeeMatch (trim (String_ (orElse empleado (VStr ""))))
      (normalizeDate_ ini) (normalizeDate_ fin) row (1 + Z.of_nat i) rowv in
  let toUser := fun subject title : string =>
    if truthy email then [Mail (String_ email) subject title ""] else [] in
  let toManagers := fun subject title : string =>
    match managerRoster w with
    | to :: rest => [Mail to subject title (join "," rest)]
    | [] => []
    end in
  let userResult := if truthy email then SendResult true None else notSent in
  let managersResult :=
    match managerRoster w with
    | [] => SendResult false (Some "No managers found")
    | _ :: _ => SendResult true None
    end in
  faults w = [] -> 1 <= row ->
  truthy empleado && truthy ini && truthy fin
    && num_le (normalizeDate_ ini) (normalizeDate_ fin) = true ->
  exists (out : rowOutcome) (w' : world),
    processRequestRow_ SHEET_SOLICITUDES row w = (Ok out, w') /\
    calendar w' = calendar w /\
    ((exists (i : nat) (rowv : list value), rows !! i = Some rowv /\ teamHit i rowv = true) ->
     out = RowOutcome userResult managersResult /\
     outbox w'
     = outbox w
       ++ toUser "Request Under Review" "Action Required: Coverage Conflict"
       ++ toManagers ("[Vacation] ⚠️ Conflict - " +:+ String_ empleado
                        +:+ " (" +:+ teamLabel +:+ ")")
                     "Coverage Conflict Detected") /\
    ((forall (i : nat) (rowv : list value), rows !! i = Some rowv -> teamHit i rowv = false) ->
     (exists (i : nat) (rowv : list value), rows !! i = Some rowv /\ ownHit i rowv = true) ->
     out = RowOutcome notSent notSent /\ outbox w' = outbox w) /\
    ((forall (i : nat) (rowv : list value), rows !! i = Some rowv -> teamHit i rowv = false) ->
     (forall (i : nat) (rowv : list value), rows !! i = Some rowv -> ownHit i rowv = false) ->
     out = RowOutcome userResult managersResult /\
     outbox w'
     = outbox w
       ++ toUser "Request Received" "Request Received"
       ++ toManagers ("[Vacation] New Request - " +:+ String_ empleado)
                     "New Vacation Request").
Proof.
  intros sh r email empleado ini fin sh1 sh2 rows team teamLabel teamHit ownHit
         toUser toManagers userResult managersResult Hf Hrow Hvalid.
  assert (Hr : (1 <= r)%nat) by (unfold r; lia).
  unfold processRequestRow_, withLocals.
  rewrite run_bind. unfold try_catch. unfold processRequestRow_body.
  rewrite run_bind, (lift_ok _ _ _ _ _ (checkRange_inside row 6 w Hrow ltac:(lia))).
  rewrite run_bind, (lift_ok _ _ _ _ _ (getValue_run SHEET_SOLICITUDES row 6 w Hrow ltac:(lia))).
  wcbn. colnums. fold sh r.
  assert (Hcell1 : forall r' c : nat, (1 <= r')%nat -> (1 <= c)%nat ->
             ~ (r' = r /\ c = 6%nat) -> getCell sh1 r' c = getCell sh r' c).
  { intros r' c Hr' Hc Hne. unfold sh1. destruct (truthy (getCell sh r 6).1); [reflexivity|].
    rewrite getCell_updCell by lia. apply decide_False. exact Hne. }
  assert (Hstep : exists w1 : world,
            (if negb (truthy (getCell sh r 6).1)
             then @lift rowOutcome _ (setValue SHEET_SOLICITUDES row 6 (VStr Pendiente))
             else mret ()) (RowOutcome notSent notSent, touched w)
            = (Ok (), (RowOutcome notSent notSent, w1)) /\
            solicitudes w1 = sh1 /\ faults w1 = [] /\
            empleados w1 = empleados w /\ calendar w1 = calendar w /\
            outbox w1 = outbox w /\ scriptCache w1 = scriptCache w /\
            managersSheet w1 = managersSheet w).
  { unfold sh1. destruct (truthy (getCell sh r 6).1); cbn [negb].
    - eexists. split; [reflexivity|]. repeat split. exact Hf.
    - rewrite (lift_ok _ _ _ _ _ (setValue_run SHEET_SOLICITUDES row 6 _ _ Hrow ltac:(lia))).
      eexists. split; [reflexivity|]. repeat split. exact Hf. }
  destruct Hstep as (w1 & Hrun1 & Hs1 & Hf1 & He1 & Hc1 & Ho1 & Hsc1 & Hm1).
  rewrite run_bind, Hrun1.
  rewrite run_bind, (lift_ok _ _ _ _ _ (getValue_run SHEET_SOLICITUDES row 2 _ Hrow ltac:(lia))).
  rewrite run_bind, (lift_ok _ _ _ _ _ (getValue_run SHEET_SOLICITUDES row 3 _ Hrow ltac:(lia))).
  rewrite run_bind, (lift_ok _ _ _ _ _ (getValue_run SHEET_SOLICITUDES row 4 _ Hrow ltac:(lia))).
  rewrite run_bind, (lift_ok _ _ _ _ _ (getValue_run SHEET_SOLICITUDES row 5 _ Hrow ltac:(lia))).
  wcbn. colnums. rewrite Hs1. fold r.
  rewrite !Hcell1 by (lia || (intros [_ ?]; lia)).
  fold email empleado ini fin.
  set (w2 := touched (touched (touched (touched w1)))).
  assert (Hok2 : nextCallOk w2).
  { unfold nextCallOk, w2. wcbn. rewrite Hf1. discriminate. }
  rewrite run_bind, (lift_ok _ _ _ _ _ (getEmployeeTeam_ok _ _ Hok2)).
  cbv zeta. rewrite Hvalid. cbn [negb].
  replace (empleados w2) with (empleados w) by (symmetry; exact He1).
  fold (teamOf w (VStr (trim (String_ (orElse empleado (VStr "")))))).
  fold teamLabel.
  set (w3 := touched (set_faults (tail (faults w2)) w2)).
  assert (Hf3 : faults w3 = []) by (unfold w3, w2; wcbn; rewrite Hf1; reflexivity).
  rewrite run_bind, (lift_ok _ _ _ _ _ (setValue_run SHEET_SOLICITUDES row 7 _ w3 Hrow ltac:(lia))).
  wcbn. colnums. change (solicitudes w3) with (solicitudes w1). rewrite Hs1.
  fold r. fold sh2.
  set (w4 := set_solicitudes sh2 (touched w3)).
  assert (Hf4 : faults w4 = []) by exact Hf3.
  assert (He4 : empleados w4 = empleados w) by exact He1.
  (* the team scan *)
  assert (Hteam : exists (teamRes : option teamConflict) (w5 : world),
            hasTeamOverlapPendingOrApproved_ empleado ini fin row w4 = (Ok teamRes, w5) /\
            sameData w4 w5 /\ faults w5 = [] /\ scriptCache w5 = scriptCache w4 /\
            match teamRes with
            | Some _ =>
                exists (i : nat) (rowv : list value),
                  rows !! i = Some rowv /\ teamHit i rowv = true
            | None =>
                forall (i : nat) (rowv : list value),
                  rows !! i = Some rowv -> teamHit i rowv = false
            end).
  { pose proof (teamOverlapLoop_cache empleado (teamOf w empleado)
                  (normalizeDate_ ini) (normalizeDate_ fin) row rows 1) as Hcache.
    unfold hasTeamOverlapPendingOrApproved_.
    assert (Hok4 : nextCallOk w4) by (unfold nextCallOk; rewrite Hf4; discriminate).
    rewrite run_bind, (getEmployeeTeam_ok _ _ Hok4). rewrite Hf4. cbn [tail].
    rewrite He4. fold (teamOf w empleado). fold team.
    unfold teamHit.
    destruct (truthy team) eqn:Ht; cbn [negb andb].
    - rewrite run_bind, getDb_quiet by reflexivity.
      rewrite run_bind, readSheet_run. wcbn. cbv zeta. unfold Date_getTime. fold rows.
      set (w4' := touched (touched (set_faults [] w4))).
      destruct (teamOverlapLoop_first w empleado team (normalizeDate_ ini)
                  (normalizeDate_ fin) row rows 1 w4' eq_refl He4)
        as (res & w5 & Hrun & Hsd & Hf5 & Hres).
      specialize (Hcache w4'). fold team in Hcache. rewrite Hrun in Hcache.
      cbn [snd] in Hcache.
      exists res, w5. split; [exact Hrun|]. split.
      { eapply sameData_trans; [|exact Hsd]. repeat split. }
      split; [exact Hf5|]. split; [exact Hcache|].
      destruct res as [c|].
      + destruct Hres as (i & rowv & Hi & Hm & _). exists i, rowv. split; assumption.
      + exact Hres.
    - eexists None, _. split; [reflexivity|]. split; [repeat split|].
      split; [reflexivity|]. split; [reflexivity|]. reflexivity. }
  destruct Hteam as (teamRes & w5 & Hrun5 & Hsd5 & Hf5 & Hsc5 & Hteam).
  destruct Hsd5 as (Hs5 & He5 & Hm5 & Hc5 & Ho5 & _).
  rewrite run_bind, (lift_ok _ _ _ _ _ Hrun5).
  (* the scan of the requester's own requests *)
  rewrite run_bind. unfold hasOverlapPendingOrApprovedSameEmployee_ at 1.
  unfold lift at 1. cbn [fst snd].
  rewrite run_bind, getDb_quiet by exact Hf5.
  rewrite run_bind, readSheet_run. wcbn. rewrite Hs5.
  change (solicitudes w4) with sh2. fold rows. cbv zeta. unfold Date_getTime.
  rewrite run_ret.
  set (selfRes := sameEmployeeLoop rows 1 _ _ _ row).
  assert (Hself : match selfRes with
                  | Some _ =>
                      exists (i : nat) (rowv : list value),
                        rows !! i = Some rowv /\ ownHit i rowv = true
                  | None =>
                      forall (i : nat) (rowv : list value),
                        rows !! i = Some rowv -> ownHit i rowv = false
                  end).
  { destruct selfRes as [[n est]|] eqn:Hres; unfold selfRes in Hres.
    - apply sameEmployeeLoop_first in Hres.
      destruct Hres as (i & rowv & Hi & _ & _ & Hm & _). exists i, rowv.
      split; [exact Hi|exact Hm].
    - apply sameEmployeeLoop_none. exact Hres. }
  set (w6 := touched w5).
  assert (Hf6 : faults w6 = []) by exact Hf5.
  assert (Hc6 : calendar w6 = calendar w) by (unfold w6; wcbn; rewrite Hc5; exact Hc1).
  assert (Ho6 : outbox w6 = outbox w) by (unfold w6; wcbn; rewrite Ho5; exact Ho1).
  assert (Hroster : forall w7 : world,
            scriptCache w7 = scriptCache w6 -> managersSheet w7 = managersSheet w6 ->
            managerRoster w7 = managerRoster w).
  { intros w7 E1 E2. unfold managerRoster. rewrite E1, E2. unfold w6. wcbn.
    rewrite Hsc5, Hm5. unfold w4, w3, w2. wcbn. rewrite Hsc1, Hm1. reflexivity. }
  assert (Hfinish : forall (subject title : string) (l : rowOutcome) (w7 : world),
            faults w7 = [] -> scriptCache w7 = scriptCache w6 ->
            managersSheet w7 = managersSheet w6 ->
            exists (res : result unit) (l' : rowOutcome) (w8 : world),
              ((if negb (String.eqb subject "")
                then r0 ← lift (notifyManagersCompact_ subject title);
                     set_managersNotified r0
                else mret ())
               ≫= fun _ : () =>
                    lift recalcEmpleados_
                      ≫= fun _ : () => lift sortSolicitudesByFechaInicio_) (l, w7)
              = (res, (l', w8)) /\
              calendar w8 = calendar w7 /\
              (subject = "" -> l' = l /\ outbox w8 = outbox w7) /\
              (subject <> "" ->
               l' = RowOutcome (userNotified l) managersResult /\
               outbox w8 = outbox w7 ++ toManagers subject title)).
  { intros subject title l w7 Hf7 Hsc7 Hm7. rewrite run_bind.
    destruct (String.eqb_spec subject "") as [->|Hne]; cbn [negb].
    - rewrite run_ret.
      destruct (recalc_sort_frame l w7) as (res & w8 & -> & Ho8 & Hc8).
      exists res, l, w8. split; [reflexivity|]. split; [exact Hc8|].
      split; [intros _; split; [reflexivity|exact Ho8]|]. intros Hne. contradiction.
    - destruct (managerMail_step subject title l w7 Hf7 Hne) as (w7' & Hrun & Ho & Hc).
      rewrite (proj2 (String.eqb_neq _ _) Hne) in Hrun. cbn [negb] in Hrun.
      rewrite Hrun. rewrite (Hroster w7 Hsc7 Hm7) in *.
      destruct (recalc_sort_frame
                  (RowOutcome (userNotified l)
                     match managerRoster w with
                     | [] => SendResult false (Some "No managers found")
                     | _ :: _ => SendResult true None
                     end) w7') as (res & w8 & -> & Ho8 & Hc8).
      eexists res, _, w8. split; [reflexivity|]. split; [congruence|].
      split; [intros Heq; contradiction|]. intros _.
      split; [reflexivity|]. rewrite Ho8, Ho. reflexivity. }
  assert (Hwrap : forall (res : result unit) (l' : rowOutcome) (w8 : world),
            (let (r0, p) :=
               let (r0, w'0) :=
                 let (r0, w'0) := (res, (l', w8)) in
                 match r0 with
                 | Ok a => (Ok a, w'0)
                 | Throw _ => @mret (St (rowOutcome * world)) _ _ () w'0
                 end in
               match r0 with
               | Ok _ => gets fst w'0
               | Throw e => (Throw e, w'0)
               end in
             let (_, w'0) := p in (r0, w'0)) = (Ok l', w8)).
  { intros [[]|e] l' w8; reflexivity. }
  assert (Hnot : forall hit : nat -> list value -> bool,
            (exists (i : nat) (rowv : list value), rows !! i = Some rowv /\ hit i rowv = true) ->
            (forall (i : nat) (rowv : list value), rows !! i = Some rowv -> hit i rowv = false) ->
            False).
  { intros hit (i & rowv & Hi & Hm) Hall. rewrite (Hall i rowv Hi) in Hm. discriminate. }
  destruct teamRes as [t|].
  - (* a team conflict *)
    rewrite run_bind.
    rewrite run_bind, (lift_ok _ _ _ _ _ (setValue_run SHEET_SOLICITUDES row 6 _ w6 Hrow ltac:(lia))).
    rewrite run_bind, (lift_ok _ _ _ _ _ (setNote_run SHEET_SOLICITUDES row 6 _ _ Hrow ltac:(lia))).
    rewrite run_bind.
    match goal with |- context [(if truthy email then _ else _) (?l0, ?w0)] =>
      destruct (userMail_step email "Request Under Review"
                  "Action Required: Coverage Conflict" l0 w0 Hf6)
        as (w7 & -> & Ho7 & Hf7 & Hc7 & Hsc7 & Hm7)
    end.
    rewrite run_ret. cbv beta iota. cbn [fst snd].
    match goal with |- context [_ (?l0, w7)] =>
      destruct (Hfinish ("[Vacation] ⚠️ Conflict - " +:+ String_ empleado
                           +:+ " (" +:+ teamLabel +:+ ")")
                  "Coverage Conflict Detected" l0 w7 Hf7 Hsc7 Hm7)
        as (res & l' & w8 & -> & Hc8 & _ & Hsent)
    end.
    rewrite Hwrap. exists l', w8. split; [reflexivity|].
    split; [rewrite Hc8, Hc7; exact Hc6|].
    destruct Hsent as [Hl Ho8]; [rewrite append_cons; discriminate|].
    split; [|split].
    + intros _. split.
      * rewrite Hl. unfold userResult. destruct (truthy email); reflexivity.
      * rewrite Ho8, Ho7. wcbn. rewrite Ho6, <- app_assoc. reflexivity.
    + intros Hall. exfalso. exact (Hnot teamHit Hteam Hall).
    + intros Hall. exfalso. exact (Hnot teamHit Hteam Hall).
  - destruct selfRes as [c|].
    + (* an overlap with the requester's own requests *)
      rewrite run_bind.
      rewrite run_bind, (lift_ok _ _ _ _ _ (setValue_run SHEET_SOLICITUDES row 6 _ w6 Hrow ltac:(lia))).
      rewrite run_bind, (lift_ok _ _ _ _ _ (setNote_run SHEET_SOLICITUDES row 6 _ _ Hrow ltac:(lia))).
      rewrite run_ret. cbv beta iota. cbn [fst snd].
      match goal with |- context [_ (?l0, ?w0)] =>
        destruct (Hfinish "" "" l0 w0 Hf6 eq_refl eq_refl)
          as (res & l' & w8 & -> & Hc8 & Hquiet & _)
      end.
      rewrite Hwrap. exists l', w8. split; [reflexivity|].
      split; [rewrite Hc8; exact Hc6|].
      destruct (Hquiet eq_refl) as [Hl Ho8].
      split; [|split].
      * intros Hex. exfalso. exact (Hnot teamHit Hex Hteam).
      * intros _ _. split; [exact Hl|]. rewrite Ho8. exact Ho6.
      * intros _ Hall. exfalso. exact (Hnot ownHit Hself Hall).
    + (* no conflict *)
      rewrite run_bind, run_bind.
      match goal with |- context [(if truthy email then _ else _) (?l0, ?w0)] =>
        destruct (userMail_step email "Request Received" "Request Received" l0 w0 Hf6)
          as (w7 & -> & Ho7 & Hf7 & Hc7 & Hsc7 & Hm7)
      end.
      rewrite run_ret. cbv beta iota. cbn [fst snd].
      match goal with |- context [_ (?l0, w7)] =>
        destruct (Hfinish ("[Vacation] New Request - " +:+ String_ empleado)
                    "New Vacation Request" l0 w7 Hf7 Hsc7 Hm7)
          as (res & l' & w8 & -> & Hc8 & _ & Hsent)
      end.
      rewrite Hwrap. exists l', w8. split; [reflexivity|].
      split; [rewrite Hc8, Hc7; exact Hc6|].
      destruct Hsent as [Hl Ho8]; [rewrite append_cons; discriminate|].
      split; [|split].
      * intros Hex. exfalso. exact (Hnot teamHit Hex Hteam).
      * intros _ Hex. exfalso. exact (Hnot ownHit Hex Hself).
      * intros _ _. split.
        -- rewrite Hl. unfold userResult. destruct (truthy email); reflexivity.
        -- rewrite Ho8, Ho7, Ho6, <- app_assoc. reflexivity.
Qed.

(** ** A request that Create accepts is in the table *)

Lemma keepsTable_requests (P : sheet -> Prop) {A : Type} (m : M A) :
  keepsRequests m -> keepsTable P m.
Proof. intros Hm w HP. rewrite (Hm w). exact HP. Qed.

Lemma keepsTable_readOnly (P : sheet -> Prop) {A : Type} (m : M A) :
  readOnly m -> keepsTable P m.
Proof. intros Hm w HP. destruct (Hm w) as [Hs _]. rewrite Hs. exact HP. Qed.

Lemma keepsTable_bind (P : sheet -> Prop) {A B : Type} (m : M A) (k : A -> M B) :
  keepsTable P m -> (forall a, keepsTable P (k a)) -> keepsTable P (m ≫= k).
Proof.
  intros Hm Hk w HP. rewrite run_bind. specialize (Hm w HP).
  destruct (m w) as [[a|e] w1]; cbn [snd] in *; [apply Hk; exact Hm|exact Hm].
Qed.

Lemma keepsTable_try_catch (P : sheet -> Prop) {A : Type} (m : M A) (h : string -> M A) :
  keepsTable P m -> (forall e, keepsTable P (h e)) -> keepsTable P (try_catch m h).
Proof.
  intros Hm Hh w HP. unfold try_catch. specialize (Hm w HP).
  destruct (m w) as [[a|e] w1]; cbn [snd] in *; [exact Hm|apply Hh; exact Hm].
Qed.

Lemma keepsTableL_lift (P : sheet -> Prop) {L A : Type} (m : M A) :
  keepsTable P m -> keepsTableL P (@lift L A m).
Proof.
  intros Hm l w HP. unfold lift. cbn [fst snd]. specialize (Hm w HP).
  destruct (m w) as [r w1]. exact Hm.
Qed.

Lemma keepsTableL_ret (P : sheet -> Prop) {L A : Type} (a : A) :
  keepsTableL P (@mret (St (L * world)) _ A a).
Proof. intros l w HP. exact HP. Qed.

Lemma keepsTableL_bind (P : sheet -> Prop) {L A B : Type} (m : St (L * world) A)
    (k : A -> St (L * world) B) :
  keepsTableL P m -> (forall a, keepsTableL P (k a)) -> keepsTableL P (m ≫= k).
Proof.
  intros Hm Hk l w HP. rewrite run_bind. specialize (Hm l w HP).
  destruct (m (l, w)) as [[a|e] [l1 w1]]; cbn [snd] in *; [apply Hk; exact Hm|exact Hm].
Qed.

Lemma keepsTableL_if (P : sheet -> Prop) {L A : Type} (b : bool)
    (m1 m2 : St (L * world) A) :
  keepsTableL P m1 -> keepsTableL P m2 -> keepsTableL P (if b then m1 else m2).
Proof. destruct b; auto. Qed.

Lemma keepsTableL_set_userNotified (P : sheet -> Prop) (x : sendResult) :
  keepsTableL P (set_userNotified x).
Proof. intros l w HP. exact HP. Qed.

Lemma keepsTableL_set_managersNotified (P : sheet -> Prop) (x : sendResult) :
  keepsTableL P (set_managersNotified x).
Proof. intros l w HP. exact HP. Qed.

Lemma reaches_keeps (P Q : sheet -> Prop) {L A : Type} (m : St (L * world) A) :
  (forall sh, P sh -> Q sh) -> keepsTableL P m -> reaches P Q m.
Proof. intros HPQ Hm l w HP. apply HPQ, Hm, HP. Qed.

Lemma reaches_bind (P Q : sheet -> Prop) {L A B : Type} (m : St (L * world) A)
    (k : A -> St (L * world) B) :
  (forall sh, P sh -> Q sh) ->
  keepsTableL P m -> (forall a, reaches P Q (k a)) -> reaches P Q (m ≫= k).
Proof.
  intros HPQ Hm Hk l w HP. rewrite run_bind. specialize (Hm l w HP).
  destruct (m (l, w)) as [[a|e] [l1 w1]]; cbn [snd] in *;
    [apply Hk; exact Hm|apply HPQ; exact Hm].
Qed.

Lemma reaches_if (P Q : sheet -> Prop) {L A : Type} (b : bool)
    (m1 m2 : St (L * world) A) :
  reaches P Q m1 -> reaches P Q m2 -> reaches P Q (if b then m1 else m2).
Proof. destruct b; auto. Qed.

(** Computations of the script that leave the request table alone. *)
Lemma keeps_if {A : Type} (b : bool) (m1 m2 : M A) :
  keepsRequests m1 -> keepsRequests m2 -> keepsRequests (if b then m1 else m2).
Proof. destruct b; auto. Qed.

Lemma keeps_sendEmailSafe (to : value) (subject title cc : string) :
  keepsRequests (sendEmailSafe_ to subject title cc).
Proof.
  unfold sendEmailSafe_. apply keeps_try_catch; [|intros e; apply keeps_ret].
  apply keeps_bind; [apply keeps_ext|]. intros _.
  apply keeps_bind; [|intros _; apply keeps_ret]. apply keeps_modify. reflexivity.
Qed.

Lemma keeps_getManagerEmails : keepsRequests getManagerEmails_.
Proof. intros w. apply (readOnly_getManagerEmails w). Qed.

Lemma keeps_notifyManagers (subject title : string) :
  keepsRequests (notifyManagersCompact_ subject title).
Proof.
  unfold notifyManagersCompact_. apply keeps_bind; [apply keeps_getManagerEmails|].
  intros [|to rest]; [apply keeps_ret|apply keeps_sendEmailSafe].
Qed.

Lemma keeps_getEmployeeTeam (x : value) : keepsRequests (getEmployeeTeam_ x).
Proof. intros w. apply (readOnly_getEmployeeTeam x w). Qed.

Lemma keeps_recalcEmpleados : keepsRequests recalcEmpleados_.
Proof. intros w. apply (recalcEmpleados_frame w). Qed.

Lemma keeps_teamOverlapLoop (empleado team : value) (s0 e0 : num) (currentRow : Z)
    (rows : list (list value)) :
  forall r : Z, keepsRequests (teamOverlapLoop rows r empleado team s0 e0 currentRow).
Proof.
  induction rows as [|row rest IH]; intros r; [apply keeps_ret|].
  cbn [teamOverlapLoop]. cbv zeta.
  repeat (apply keeps_if; [apply IH|]).
  apply keeps_bind; [apply keeps_getEmployeeTeam|]. intros team2.
  apply keeps_if; [apply IH|]. apply keeps_if; [apply keeps_ret|apply IH].
Qed.

Lemma keeps_teamOverlap (empleado start end_ : value) (currentRow : Z) :
  keepsRequests (hasTeamOverlapPendingOrApproved_ empleado start end_ currentRow).
Proof.
  unfold hasTeamOverlapPendingOrApproved_.
  apply keeps_bind; [apply keeps_getEmployeeTeam|]. intros team.
  apply keeps_if; [apply keeps_ret|].
  apply keeps_bind; [apply keeps_getDb|]. intros _.
  apply keeps_bind; [apply keeps_readSheet|]. intros vals. apply keeps_teamOverlapLoop.
Qed.

Lemma keeps_logAudit (action userEmail : string) : keepsRequests (logAudit_ action userEmail).
Proof.
  unfold logAudit_. apply keeps_try_catch; [|intros e; apply keeps_ret].
  apply keeps_bind; [apply keeps_getDb|]. intros _.
  apply keeps_bind; [apply keeps_gets|]. intros user. apply keeps_modify. reflexivity.
Qed.

Lemma cellValue_updRow (c : nat) (f : cell -> cell) (row : list cell) (k : nat) :
  (1 <= c)%nat -> (1 <= k)%nat ->
  cellValue (updRow c f row) k
  = if decide (k = c) then (f (default blankCell (row !! (c - 1)%nat))).1
    else cellValue row k.
Proof.
  intros Hc Hk. unfold cellValue. rewrite updRow_lookup by exact Hc.
  destruct (decide (k = c)) as [->|Hne].
  - rewrite decide_True by reflexivity. reflexivity.
  - rewrite decide_False by lia. reflexivity.
Qed.

Lemma filedAt_updCell (r c : nat) (f : cell -> cell) (email name start end_ : value)
    (sh : sheet) :
  (6 <= c)%nat ->
  (c = 6%nat -> forall x : cell,
     x.1 = VStr Pendiente \/ x.1 = VStr NecesitaRevision ->
     (f x).1 = VStr Pendiente \/ (f x).1 = VStr NecesitaRevision) ->
  filedAt r email name start end_ sh ->
  filedAt r email name start end_ (updCell r c f sh).
Proof.
  intros Hc Hf (Hr & row & Hrow & H2 & H3 & H4 & H5 & H6).
  split; [exact Hr|]. exists (updRow c f row). split.
  - unfold updCell. cbv zeta.
    pose proof (lookup_lt_Some _ _ _ Hrow) as Hlen.
    replace (r - length sh)%nat with 0%nat by lia. cbn [replicate].
    rewrite app_nil_r, Hrow. cbn [default from_option]. unfold id.
    apply list_lookup_insert_eq. exact Hlen.
  - unfold isRequestOf. rewrite !cellValue_updRow by lia.
    rewrite !(decide_False (P := _ = c)) by lia.
    split; [exact H2|]. split; [exact H3|]. split; [exact H4|]. split; [exact H5|].
    destruct (decide (6%nat = c)) as [<-|Hne]; [|exact H6].
    apply (Hf eq_refl). exact H6.
Qed.

Section Filed.
Variables (r : nat) (email name start end_ : value).

Lemma keepsTable_write (c : Z) (f : cell -> cell) :
  6 <= c ->
  (c = 6 -> forall x : cell,
     x.1 = VStr Pendiente \/ x.1 = VStr NecesitaRevision ->
     (f x).1 = VStr Pendiente \/ (f x).1 = VStr NecesitaRevision) ->
  keepsTable (filedAt r email name start end_)
    (checkRange (Z.of_nat r) c;;
     writeSheet SHEET_SOLICITUDES (updCell (Z.to_nat (Z.of_nat r)) (Z.to_nat c) f)).
Proof.
  intros Hc Hf w HP. rewrite run_bind. unfold checkRange.
  destruct ((Z.of_nat r <? 1) || (c <? 1)); [exact HP|].
  unfold mret at 1, St_ret. cbv beta iota. rewrite writeSheet_run. wcbn.
  rewrite Nat2Z.id. apply filedAt_updCell; [lia| |exact HP].
  intros Hc6. apply Hf. lia.
Qed.

Lemma keepsTable_setStatus (v : string) :
  v = Pendiente \/ v = NecesitaRevision ->
  keepsTable (filedAt r email name start end_)
    (setValue SHEET_SOLICITUDES (Z.of_nat r) 6 (VStr v)).
Proof.
  intros Hv. apply keepsTable_write; [lia|]. intros _ x _. cbn [fst toCell].
  destruct Hv as [-> | ->]; auto.
Qed.

Lemma keepsTable_setDays (v : value) :
  keepsTable (filedAt r email name start end_)
    (setValue SHEET_SOLICITUDES (Z.of_nat r) 7 v).
Proof. apply keepsTable_write; [lia|]. intros Hc. discriminate. Qed.

Lemma keepsTable_setNote (note : string) :
  keepsTable (filedAt r email name start end_)
    (setNote SHEET_SOLICITUDES (Z.of_nat r) 6 note).
Proof. apply keepsTable_write; [lia|]. intros _ x Hx. exact Hx. Qed.

Lemma filedAt_holds (sh : sheet) :
  filedAt r email name start end_ sh -> holdsRequest email name start end_ sh.
Proof.
  intros (_ & row & Hrow & Hreq). exists row. split; [|exact Hreq].
  eapply list_elem_of_lookup_2. exact Hrow.
Qed.

Lemma sortSolicitudes_perm (w : world) :
  (forall (col : nat) (rows : list (list cell)), range_sort col rows ≡ₚ rows) ->
  solicitudes (sortSolicitudesByFechaInicio_ w).2 ≡ₚ solicitudes w.
Proof.
  intros Hperm. unfold sortSolicitudesByFechaInicio_.
  rewrite run_bind. unfold _getDb, try_catch, ext.
  destruct (faults w) as [|[] fs]; cbv beta iota; unfold throw; try reflexivity;
    rewrite run_bind, readSheet_run; wcbn;
    (destruct (Nat.ltb_spec 2 (getLastRow (solicitudes w))) as [Hlt|Hge];
     [|reflexivity]);
    rewrite writeSheet_run; wcbn;
    apply (sortedTable_rows (solicitudes w) Hperm Hlt).
Qed.

Lemma reaches_sort {L : Type} :
  (forall (col : nat) (rows : list (list cell)), range_sort col rows ≡ₚ rows) ->
  reaches (filedAt r email name start end_) (holdsRequest email name start end_)
    (@lift L _ sortSolicitudesByFechaInicio_).
Proof.
  intros Hperm l w HP. unfold lift. cbn [fst snd].
  pose proof (sortSolicitudes_perm w Hperm) as Hp.
  destruct (sortSolicitudesByFechaInicio_ w) as [res w1]. cbn [snd] in *.
  destruct (filedAt_holds _ HP) as (row & Hin & Hreq).
  exists row. split; [|exact Hreq]. rewrite Hp. exact Hin.
Qed.

Create HintDb filed.

#[local] Hint Resolve keepsTable_setStatus keepsTable_setDays keepsTable_setNote : filed.
#[local] Hint Extern 1 (keepsTable _ (checkRange _ _)) =>
  apply keepsTable_requests, keeps_checkRange : filed.
#[local] Hint Extern 1 (keepsTable _ (getValue _ _ _)) =>
  apply keepsTable_requests, keeps_getValue : filed.
#[local] Hint Extern 1 (keepsTable _ (getEmployeeTeam_ _)) =>
  apply keepsTable_requests, keeps_getEmployeeTeam : filed.
#[local] Hint Extern 1 (keepsTable _ (hasTeamOverlapPendingOrApproved_ _ _ _ _)) =>
  apply keepsTable_requests, keeps_teamOverlap : filed.
#[local] Hint Extern 1 (keepsTable _ (hasOverlapPendingOrApprovedSameEmployee_ _ _ _ _)) =>
  apply keepsTable_requests, keeps_sameEmployee : filed.
#[local] Hint Extern 1 (keepsTable _ (sendEmailSafe_ _ _ _ _)) =>
  apply keepsTable_requests, keeps_sendEmailSafe : filed.
#[local] Hint Extern 1 (keepsTable _ (notifyManagersCompact_ _ _)) =>
  apply keepsTable_requests, keeps_notifyManagers : filed.
#[local] Hint Extern 1 (keepsTable _ recalcEmpleados_) =>
  apply keepsTable_requests, keeps_recalcEmpleados : filed.

Ltac keepL_step :=
  first
    [ apply keepsTableL_bind; [|intros ?]
    | apply keepsTableL_if
    | apply keepsTableL_ret
    | apply keepsTableL_set_userNotified
    | apply keepsTableL_set_managersNotified
    | apply keepsTableL_lift; solve [auto with filed]
    | match goal with
      | |- keepsTableL _ (match ?x with _ => _ end) => destruct x
      | |- keepsTableL _ (match ?x with _ => _ end _) => destruct x
      end ].

Lemma reaches_processBody :
  (forall (col : nat) (rows : list (list cell)), range_sort col rows ≡ₚ rows) ->
  reaches (filedAt r email name start end_) (holdsRequest email name start end_)
    (processRequestRow_body SHEET_SOLICITUDES (Z.of_nat r)).
Proof.
  intros Hperm. unfold processRequestRow_body.
  repeat (cbv zeta;
          first
            [ apply (reaches_sort Hperm)
            | apply reaches_bind; [exact filedAt_holds|repeat keepL_step|intros ?]
            | apply reaches_if
            | apply reaches_keeps; [exact filedAt_holds|repeat keepL_step] ]).
Qed.

Lemma processRequestRow_reaches (w : world) :
  (forall (col : nat) (rows : list (list cell)), range_sort col rows ≡ₚ rows) ->
  filedAt r email name start end_ (solicitudes w) ->
  holdsRequest email name start end_
    (solicitudes (processRequestRow_ SHEET_SOLICITUDES (Z.of_nat r) w).2).
Proof.
  intros Hperm HP. unfold processRequestRow_, withLocals.
  rewrite run_bind. unfold try_catch.
  pose proof (reaches_processBody Hperm (RowOutcome notSent notSent) w HP) as Hb.
  destruct (processRequestRow_body SHEET_SOLICITUDES (Z.of_nat r)
              (RowOutcome notSent notSent, w)) as [[[]|e] [l1 w1]];
    cbn [fst snd] in *; exact Hb.
Qed.

End Filed.

Lemma ext_cases (msg : string) (w : world) :
  (exists fs : list bool, ext msg w = (Ok (), set_faults fs w)) \/
  (exists fs : list bool, ext msg w = (Throw msg, set_faults fs w)).
Proof.
  unfold ext. destruct (faults w) as [|[] fs] eqn:Hf.
  - left. exists []. destruct w. cbn in Hf. subst. reflexivity.
  - right. exists fs. reflexivity.
  - left. exists fs. reflexivity.
Qed.

Lemma getDb_cases (w : world) :
  (exists fs : list bool, _getDb w = (Ok (), set_faults fs w)) \/
  (exists (e : string) (fs : list bool), _getDb w = (Throw e, set_faults fs w)).
Proof.
  unfold _getDb, try_catch, ext.
  destruct (faults w) as [|[] fs] eqn:Hf; cbv beta iota.
  - left. exists []. destruct w. cbn in Hf. subst. reflexivity.
  - right. eexists _, fs. reflexivity.
  - left. exists fs. reflexivity.
Qed.

Lemma getLastRow_snoc (l : sheet) (row : list cell) :
  rowBlank row = false -> getLastRow (l ++ [row]) = S (length l).
Proof.
  intros Hb. induction l as [|x l IH]; cbn [app getLastRow length].
  - rewrite Hb. reflexivity.
  - rewrite IH. reflexivity.
Qed.

Lemma toCell_orElse (a : value) (s : string) :
  toCell (orElse a (VStr s)) = orElse a (VStr s).
Proof. unfold orElse. destruct a as [| |x|n|t]; cbn; try reflexivity; destruct (negb _); reflexivity. Qed.

Lemma filedAt_appendRow (sh : sheet) (t : Z) (email : string) (name start end_ : value) :
  let sh' := appendRow [VDate (Some t); VStr email; name; start; end_;
                        VStr Pendiente; VStr ""; VStr ""] sh in
  getLastRow sh' = S (getLastRow sh) /\
  filedAt (S (getLastRow sh)) (VStr email) (toCell name) (toCell start) (toCell end_) sh'.
Proof.
  cbv zeta. unfold appendRow.
  pose proof (getLastRow_le_length sh) as Hlen.
  assert (Htake : length (take (getLastRow sh) sh) = getLastRow sh)
    by (rewrite length_take; lia).
  split.
  - rewrite getLastRow_snoc, Htake; [reflexivity|].
    cbn [map rowBlank forallb fst toCell].
    rewrite bool_decide_eq_false_2 by discriminate. reflexivity.
  - split; [lia|]. eexists. split.
    + replace (S (getLastRow sh) - 1)%nat with (length (take (getLastRow sh) sh) + 0)%nat
        by lia.
      rewrite lookup_app_r by lia.
      replace (length (take (getLastRow sh) sh) + 0 - length (take (getLastRow sh) sh))%nat
        with 0%nat by lia.
      reflexivity.
    + unfold isRequestOf, cellValue. cbn. repeat split. left. reflexivity.
Qed.

(** X26. Provided the platform's range sort permutes the rows it is
    given, a call of [apiCreateRequest] that reports success, whatever
    failures of the mail service or of later spreadsheet calls it met on
    the way, has left in the request table a row with the caller's
    e-mail, the name the employee table gives for it (else the e-mail),
    the requested start and end dates at noon, and the status Pending or
    NeedsReview; and it has released the lock. *)
Theorem apiCreateRequest_files_request (w w' : world) (startDate endDate : value)
    (out : rowOutcome) :
  (forall (col : nat) (rows : list (list cell)), range_sort col rows ≡ₚ rows) ->
  apiCreateRequest startDate endDate w = (Ok out, w') ->
  holdsRequest (VStr (activeUser w)) (requesterName w)
    (toCell (parseDateToNoon_ startDate)) (toCell (parseDateToNoon_ endDate))
    (solicitudes w') /\
  lockHeld w' = false.
Proof.
  intros Hperm. unfold apiCreateRequest.
  rewrite run_bind. unfold gets at 1. cbv beta iota. rewrite run_bind.
  destruct (Z.lt_ge_cases
              (default 0 (userCache w !! rateKey "create_request" (activeUser w))) 5)
    as [Hlt|Hge].
  2:{ rewrite (checkRateLimit_over _ _ 5 3600) by (reflexivity || exact Hge).
      discriminate. }
  rewrite (checkRateLimit_under _ _ 5 3600) by (reflexivity || exact Hlt).
  set (w1 := set_userCache _ w).
  rewrite run_bind. unfold try_catch at 1, waitLock. rewrite run_bind.
  destruct (ext_cases "Lock timeout: another process was holding the lock for too long."
              w1) as [[fs1 ->]|[fs1 ->]]; [|discriminate].
  unfold modify at 1. cbv beta iota.
  unfold try_finally, releaseLock.
  set (w2 := set_lockHeld true _).
  assert (He2 : empleados w2 = empleados w) by reflexivity.
  assert (Hs2 : solicitudes w2 = solicitudes w) by reflexivity.
  assert (Hn2 : now w2 = now w) by reflexivity.
  clearbody w2. clear w1 Hlt.
  match goal with
  | |- context [try_catch ?body ?h ?w0] =>
      unfold try_catch; destruct (body w0) as [[a|e] wb] eqn:HB
  end.
  2:{ unfold modify, throw. discriminate. }
  unfold modify. cbv beta iota.
  intros Heq. injection Heq as -> <-. wcbn. split; [|reflexivity].
  revert HB.
  (* the name *)
  rewrite run_bind. unfold _buscarNombrePorEmail. rewrite run_bind.
  destruct (getDb_cases w2) as [[fs2 ->]|(e2 & fs2 & ->)]; [|discriminate].
  rewrite run_bind, readSheet_run. cbv zeta. rewrite run_ret. wcbn. rewrite He2.
  fold (requesterName w).
  (* the checks *)
  rewrite run_bind. unfold gets at 1. cbv beta iota.
  rewrite run_bind.
  destruct (value_lt _ _); [unfold throw; discriminate|]. rewrite run_ret.
  rewrite run_bind.
  change (ENFORCE_MIN_ADVANCE_DAYS && (0 <? MIN_ADVANCE_DAYS)) with false. cbv iota.
  rewrite run_ret.
  rewrite run_bind. unfold hasOverlapPendingOrApprovedSameEmployee_.
  rewrite run_bind.
  match goal with |- context [_getDb ?w0] =>
    destruct (getDb_cases w0) as [[fs3 ->]|(e3 & fs3 & ->)]; [|discriminate]
  end.
  rewrite run_bind, readSheet_run. cbv zeta. rewrite run_ret.
  rewrite run_bind.
  destruct (bool_decide _); [|unfold throw; discriminate]. rewrite run_ret.
  (* the new row *)
  rewrite run_bind.
  match goal with |- context [_getDb ?w0] =>
    destruct (getDb_cases w0) as [[fs4 ->]|(e4 & fs4 & ->)]; [|discriminate]
  end.
  rewrite run_bind. unfold gets at 1. cbv beta iota.
  rewrite run_bind, writeSheet_run. rewrite run_bind, readSheet_run. wcbn.
  rewrite Hs2.
  match goal with |- context [appendRow (VDate (Some ?t) :: _)] =>
    destruct (filedAt_appendRow (solicitudes w) t (activeUser w) (requesterName w)
                (parseDateToNoon_ startDate) (parseDateToNoon_ endDate))
      as [Hlast Hfiled]
  end.
  cbv zeta in Hlast, Hfiled. rewrite Hlast.
  unfold requesterName in Hfiled at 1. rewrite toCell_orElse in Hfiled.
  fold (requesterName w) in Hfiled.
  rewrite run_bind.
  match goal with |- context [processRequestRow_ _ _ ?w0] =>
    pose proof (processRequestRow_reaches (S (getLastRow (solicitudes w)))
                  (VStr (activeUser w)) (requesterName w)
                  (toCell (parseDateToNoon_ startDate)) (toCell (parseDateToNoon_ endDate))
                  w0 Hperm Hfiled) as Hreach;
    destruct (processRequestRow_ SHEET_SOLICITUDES
                (Z.of_nat (S (getLastRow (solicitudes w)))) w0) as [[res|e] w6]
  end.
  2:{ discriminate. }
  cbn [snd] in Hreach.
  rewrite run_bind.
  pose proof (keeps_logAudit "CREATE_REQUEST" (activeUser w) w6) as Hs7.
  destruct (logAudit_ "CREATE_REQUEST" (activeUser w) w6) as [[[]|e] w7];
    [|discriminate].
  cbn [snd] in Hs7. rewrite run_ret.
  intros Heq. injection Heq as _ <-. rewrite Hs7. exact Hreach.
Qed.

(** ** A request that Edit accepts has the new dates *)

Lemma updCell_lookup_row (r c : nat) (f : cell -> cell) (sh : sheet) :
  (1 <= r)%nat ->
  updCell r c f sh !! (r - 1)%nat = Some (updRow c f (default [] (sh !! (r - 1)%nat))).
Proof.
  intros Hr. unfold updCell. cbv zeta.
  set (sh' := sh ++ replicate (r - length sh) []).
  assert (Hlen : (r - 1 < length sh')%nat).
  { unfold sh'. rewrite length_app, length_replicate. lia. }
  rewrite list_lookup_insert_eq by exact Hlen. do 2 f_equal.
  unfold sh'. destruct (decide (r - 1 < length sh)%nat) as [Hin|Hout].
  - rewrite lookup_app_l by exact Hin. reflexivity.
  - rewrite lookup_app_r by lia.
    rewrite (lookup_ge_None_2 sh) by lia.
    destruct (replicate (r - length sh) [] !! (r - 1 - length sh)%nat) as [x|] eqn:Hx;
      [|reflexivity].
    apply lookup_replicate in Hx. destruct Hx as [-> _]. reflexivity.
Qed.

Lemma filedAt_edited (r : nat) (start end_ : value) (sh : sheet) :
  (1 <= r)%nat ->
  filedAt r (getCell sh r 2).1 (getCell sh r 3).1 (toCell start) (toCell end_)
    (updCell r 6 (fun old => (toCell (VStr Pendiente), old.2))
       (updCell r 5 (fun old => (toCell end_, old.2))
          (updCell r 4 (fun old => (toCell start, old.2)) sh))).
Proof.
  intros Hr. split; [exact Hr|]. eexists. split.
  - rewrite updCell_lookup_row by exact Hr.
    rewrite updCell_lookup_row by exact Hr.
    rewrite updCell_lookup_row by exact Hr. cbn [default from_option]. unfold id.
    reflexivity.
  - unfold isRequestOf. rewrite !cellValue_updRow by lia.
    rewrite !(decide_False (P := (2 = _)%nat)) by lia.
    rewrite !(decide_False (P := (3 = _)%nat)) by lia.
    rewrite (decide_False (P := (4 = 6)%nat)) by lia.
    rewrite (decide_False (P := (4 = 5)%nat)) by lia.
    rewrite (decide_True (P := (4 = 4)%nat)) by reflexivity.
    rewrite (decide_False (P := (5 = 6)%nat)) by lia.
    rewrite (decide_True (P := (5 = 5)%nat)) by reflexivity.
    rewrite (decide_True (P := (6 = 6)%nat)) by reflexivity.
    unfold cellValue. rewrite !getCell_alt. cbn [fst].
    split; [reflexivity|]. split; [reflexivity|]. split; [reflexivity|].
    split; [reflexivity|]. left. reflexivity.
Qed.

(** X27. Provided the platform's range sort permutes the rows it is
    given, a call of [apiEditRequest] that reports success has left in
    the request table a row with the e-mail and the employee name the
    edited row had, the new start and end dates at noon, and the status
    Pending or NeedsReview; and it has released the lock. *)
Theorem apiEditRequest_files_dates (w w' : world) (rowId : Z) (startDate endDate : value) :
  (forall (col : nat) (rows : list (list cell)), range_sort col rows ≡ₚ rows) ->
  apiEditRequest rowId startDate endDate w = (Ok (), w') ->
  holdsRequest (getCell (solicitudes w) (Z.to_nat rowId) 2).1
    (getCell (solicitudes w) (Z.to_nat rowId) 3).1
    (toCell (parseDateToNoon_ startDate)) (toCell (parseDateToNoon_ endDate))
    (solicitudes w') /\
  lockHeld w' = false.
Proof.
  intros Hperm. unfold apiEditRequest.
  rewrite run_bind. unfold gets at 1. cbv beta iota. rewrite run_bind.
  destruct (Z.lt_ge_cases
              (default 0 (userCache w !! rateKey "edit_request" (activeUser w))) 10)
    as [Hlt|Hge].
  2:{ rewrite (checkRateLimit_over _ _ 10 3600) by (reflexivity || exact Hge).
      discriminate. }
  rewrite (checkRateLimit_under _ _ 10 3600) by (reflexivity || exact Hlt).
  set (w1 := set_userCache _ w).
  rewrite run_bind. unfold try_catch at 1, waitLock. rewrite run_bind.
  destruct (ext_cases "Lock timeout: another process was holding the lock for too long."
              w1) as [[fs1 ->]|[fs1 ->]]; [|discriminate].
  unfold modify at 1. cbv beta iota.
  unfold try_finally, releaseLock.
  set (w2 := set_lockHeld true _).
  assert (Hs2 : solicitudes w2 = solicitudes w) by reflexivity.
  clearbody w2. clear w1 Hlt.
  match goal with
  | |- context [try_catch ?body ?h ?w0] =>
      unfold try_catch; destruct (body w0) as [[a|e] wb] eqn:HB
  end.
  2:{ unfold modify, throw. discriminate. }
  unfold modify. cbv beta iota.
  intros Heq. injection Heq as _ <-. wcbn. split; [|reflexivity].
  revert HB.
  rewrite run_bind.
  destruct (getDb_cases w2) as [[fs2 ->]|(e2 & fs2 & ->)]; [|discriminate].
  cbv zeta. rewrite run_bind.
  destruct (Z.lt_ge_cases rowId 1) as [Hout|Hrow].
  { rewrite setValue_outside by (left; exact Hout). discriminate. }
  rewrite setValue_run by lia.
  rewrite run_bind, setValue_run by lia.
  rewrite run_bind, setValue_run by lia.
  wcbn. colnums. rewrite Hs2.
  pose proof (filedAt_edited (Z.to_nat rowId) (parseDateToNoon_ startDate)
                (parseDateToNoon_ endDate) (solicitudes w) ltac:(lia)) as Hfiled.
  rewrite run_bind.
  assert (Hid : Z.of_nat (Z.to_nat rowId) = rowId) by lia.
  match goal with |- context [processRequestRow_ _ _ ?w0] =>
    pose proof (processRequestRow_reaches (Z.to_nat rowId)
                  (getCell (solicitudes w) (Z.to_nat rowId) 2).1
                  (getCell (solicitudes w) (Z.to_nat rowId) 3).1
                  (toCell (parseDateToNoon_ startDate)) (toCell (parseDateToNoon_ endDate))
                  w0 Hperm Hfiled) as Hreach;
    rewrite Hid in Hreach;
    destruct (processRequestRow_ SHEET_SOLICITUDES rowId w0) as [[res|e] w6]
  end.
  2:{ discriminate. }
  cbn [snd] in Hreach.
  pose proof (keeps_logAudit "EDIT_REQUEST" (activeUser w) w6) as Hs7.
  destruct (logAudit_ "EDIT_REQUEST" (activeUser w) w6) as [[[]|e] w7];
    [|discriminate].
  cbn [snd] in Hs7.
  intros Heq. assert (Hwb : w7 = wb) by congruence. subst wb.
  rewrite Hs7. exact Hreach.
Qed.

(** ** Who can have succeeded *)

Lemma cancelLoop_found (userEmail : string) (rowId : Z) (rows : list (list value)) :
  forall (i : Z) (status : string),
    cancelLoop rows i rowId userEmail = (true, status) ->
    exists (k : nat) (row : list value),
      rows !! k = Some row /\ i + Z.of_nat k + 1 = rowId /\
      toLowerCase (trim (String_ (at1 row 1))) = toLowerCase userEmail /\
      status = String_ (at1 row 5).
Proof.
  induction rows as [|row rest IH]; intros i status; cbn [cancelLoop].
  - discriminate.
  - destruct (Z.eqb_spec (i + 1) rowId) as [Heq|Hne].
    + intros Hfound. injection Hfound as Hm <-.
      exists 0%nat, row. split; [reflexivity|]. split; [lia|].
      split; [apply String.eqb_eq; exact Hm|reflexivity].
    + intros Hfound. destruct (IH (i + 1) status Hfound) as (k & row' & Hk & Hid & Hrest).
      exists (S k), row'. split; [exact Hk|]. split; [lia|exact Hrest].
Qed.

Lemma try_catch_run {S A : Type} (body : St S A) (h : string -> St S A) (w : S) :
  try_catch body h w
  = match body w with
    | (Ok a, w') => (Ok a, w')
    | (Throw e, w') => h e w'
    end.
Proof. reflexivity. Qed.

Lemma keepsTable_if (P : sheet -> Prop) {A : Type} (b : bool) (m1 m2 : M A) :
  keepsTable P m1 -> keepsTable P m2 -> keepsTable P (if b then m1 else m2).
Proof. destruct b; auto. Qed.

Lemma keepsTable_cancelled (rowId : Z) (eventId : value) (userEmail : string) :
  1 <= rowId ->
  keepsTable (fun sh => (getCell sh (Z.to_nat rowId) 6).1 = VStr Cancelado)
    ((if truthy eventId then
        try_catch
          (getCalendar_;;
           ev ← getEventById (String_ eventId);
           match ev with Some id => deleteEvent id | None => mret () end;;
           clearContent SHEET_SOLICITUDES rowId 8)
          (fun _ => mret ())
      else mret ());;
     recalcEmpleados_;;
     logAudit_ "CANCEL_REQUEST" userEmail).
Proof.
  intros Hrow.
  set (P := fun sh : sheet => (getCell sh (Z.to_nat rowId) 6).1 = VStr Cancelado).
  assert (Hkeep : forall (A : Type) (m : M A), keepsRequests m -> keepsTable P m).
  { intros A m Hm. apply keepsTable_requests. exact Hm. }
  apply keepsTable_bind.
  - apply keepsTable_if; [|apply Hkeep, keeps_ret].
    apply keepsTable_try_catch; [|intros e; apply Hkeep, keeps_ret].
    apply keepsTable_bind; [apply Hkeep, keeps_ext|]. intros _.
    apply keepsTable_bind.
    { apply Hkeep. unfold getEventById.
      apply keeps_bind; [apply keeps_ext|]. intros _. apply keeps_gets. }
    intros ev. apply keepsTable_bind.
    { apply Hkeep. destruct ev as [id|]; [|apply keeps_ret].
      unfold deleteEvent. apply keeps_bind; [apply keeps_ext|]. intros _.
      apply keeps_modify. reflexivity. }
    intros _ w HP. rewrite clearContent_run by lia. wcbn. unfold P in *.
    rewrite getCell_updCell by lia. rewrite decide_False by (intros [_ ?]; lia).
    exact HP.
  - intros _. apply keepsTable_bind; [apply Hkeep, keeps_recalcEmpleados|].
    intros _. apply Hkeep, keeps_logAudit.
Qed.

(** X28. Whatever the state and the failures, a decision that succeeds
    was made by a caller on the manager roster, and a cancellation that
    succeeds was made by the requester of the row (the row's e-mail,
    trimmed and whatever the case, is the caller's) while its status was
    Pending or NeedsReview; the row's status is then Cancelled. *)
Theorem success_was_authorised (w w' : world) (rowId : Z) :
  (forall action : string,
     apiProcessRequest rowId action w = (Ok (), w') -> activeUser w ∈ managerRoster w) /\
  (apiCancelRequest rowId w = (Ok (), w') ->
   exists row : list value,
     2 <= rowId /\
     dataValues (solicitudes w) !! Z.to_nat (rowId - 1) = Some row /\
     toLowerCase (trim (String_ (at1 row 1))) = toLowerCase (activeUser w) /\
     (String_ (at1 row 5) = Pendiente \/ String_ (at1 row 5) = NecesitaRevision) /\
     (getCell (solicitudes w') (Z.to_nat rowId) 6).1 = VStr Cancelado).
Proof.
  split.
  - intros action. unfold apiProcessRequest.
    rewrite run_bind. unfold gets at 1. cbv beta iota. rewrite run_bind.
    destruct (getManagerEmails_result w) as [(w1 & -> & _)|(_ & _ & msg & w1 & ->)];
      [|discriminate].
    rewrite run_bind.
    destruct (decide (activeUser w ∈ managerRoster w)) as [Hin|Hnot]; [intros _; exact Hin|].
    rewrite bool_decide_eq_false_2 by exact Hnot. discriminate.
  - unfold apiCancelRequest.
    rewrite run_bind. unfold gets at 1. cbv beta iota. rewrite run_bind.
    destruct (Z.lt_ge_cases
                (default 0 (userCache w !! rateKey "cancel_request" (activeUser w))) 3)
      as [Hlt|Hge].
    2:{ rewrite (checkRateLimit_over _ _ 3 3600) by (reflexivity || exact Hge).
        discriminate. }
    rewrite (checkRateLimit_under _ _ 3 3600) by (reflexivity || exact Hlt).
    set (w1 := set_userCache _ w).
    rewrite run_bind. unfold try_catch at 1, waitLock. rewrite run_bind.
    destruct (ext_cases "Lock timeout: another process was holding the lock for too long."
                w1) as [[fs1 ->]|[fs1 ->]]; [|discriminate].
    unfold modify at 1. cbv beta iota.
    unfold try_finally, releaseLock.
    set (w2 := set_lockHeld true _).
    assert (Hs2 : solicitudes w2 = solicitudes w) by reflexivity.
    clearbody w2. clear w1 Hlt.
    rewrite try_catch_run.
    match goal with
    | |- context [match ?body w2 with _ => _ end] =>
        destruct (body w2) as [[a|e] wb] eqn:HB
    end.
    2:{ unfold modify, throw. discriminate. }
    unfold modify. cbv beta iota.
    intros Heq. assert (Hw' : w' = set_lockHeld false wb) by congruence. subst w'.
    clear Heq. wcbn. revert HB.
    rewrite run_bind.
    destruct (getDb_cases w2) as [[fs2 ->]|(e2 & fs2 & ->)]; [|discriminate].
    rewrite run_bind, readSheet_run. wcbn. rewrite Hs2.
    destruct (cancelLoop (drop 1 (dataValues (solicitudes w))) 1 rowId (activeUser w))
      as [found status] eqn:Hloop.
    rewrite run_bind. destruct found; [|unfold throw; discriminate]. rewrite run_ret.
    rewrite run_bind.
    destruct (String.eqb_spec status Pendiente) as [Hp|Hp];
      [|destruct (String.eqb_spec status NecesitaRevision) as [Hn|Hn]];
      cbn [negb andb]; try (unfold throw; discriminate); rewrite run_ret.
    all: apply cancelLoop_found in Hloop;
      destruct Hloop as (k & row & Hk & Hid & Hmatch & Hst);
      rewrite lookup_drop in Hk.
    all: rewrite run_bind, setValue_run by lia.
    all: match goal with
         | |- ?m ?w0 = _ -> _ =>
             pose proof (keepsTable_cancelled rowId) as Hkeep
         end.
    all: rewrite run_bind, getValue_run by lia.
    all: match goal with
         | |- ?m ?w0 = _ -> _ =>
             intros HB; exists row;
             split; [lia|];
             split; [rewrite <- Hk; f_equal; lia|];
             split; [exact Hmatch|];
             split; [rewrite <- Hst; auto|]
         end.
    all: match type of HB with
         | ?m ?w0 = _ =>
             match m with
             | (if truthy ?ev then _ else _) ≫= _ =>
                 specialize (Hkeep ev (activeUser w) ltac:(lia) w0)
             end
         end.
    all: rewrite HB in Hkeep; cbn [snd] in Hkeep; apply Hkeep.
    all: wcbn; colnums; rewrite getCell_updCell by lia;
      rewrite decide_True by (split; reflexivity); reflexivity.
Qed.

End Properties.

(** * The script on the sample tables *)

Section Samples.
#[local] Existing Instance refHost.

(** C5, at concrete dates: Monday 2025-03-03 alone counts 1, the week up
    to Sunday 2025-03-09 counts 5, and a range that ends on the Sunday
    before it starts counts 0. *)
Lemma countBusinessDays_correct_witness :
  countBusinessDays_ (noon 2025 3 3) (noon 2025 3 3) = 1 /\
  countBusinessDays_ (noon 2025 3 3) (noon 2025 3 9) = 5 /\
  countBusinessDays_ (noon 2025 3 3) (noon 2025 3 2) = 0.
Proof.
  split; [|split].
  - pose proof (countBusinessDays_correct 1741003200000 1741003200000)
      as (_ & _ & Hone & _).
    apply Hone; reflexivity.
  - pose proof (countBusinessDays_correct 1741003200000 1741521600000)
      as (_ & _ & _ & Hweek & _).
    apply Hweek; reflexivity.
  - pose proof (countBusinessDays_correct 1741003200000 1740916800000)
      as (Hback & _).
    apply Hback. reflexivity.
Defined.

(** C1 as stated fails: Ana has a request in status [Necesita Revisión]
    for 2025-03-03 to 2025-03-07, which the specification counts as a
    conflict for the candidate range 2025-03-05 to 2025-03-06, but the
    check reports none. *)
Lemma sameEmployeeOverlap_skips_NeedsReview :
  let w := sampleWorld "ana@corp.com" 10 [requestOfAna NecesitaRevision ""] ∅ [] in
  (hasOverlapPendingOrApprovedSameEmployee_
     (VStr "Ana") (noon 2025 3 5) (noon 2025 3 6) (-1) w).1 = Ok None /\
  sameEmployeeConflict specStatus (dataValues (solicitudes w))
    (VStr "Ana") (noon 2025 3 5) (noon 2025 3 6) (-1) 1.
Proof.
  cbv zeta. split; [vm_compute; reflexivity|].
  unfold sameEmployeeConflict. split; [lia|]. split; [lia|].
  eexists. split; [vm_compute; reflexivity|].
  repeat split; vm_compute; reflexivity.
Qed.

(** C1 (amended), at a concrete table: against Ana's pending request the
    check reports row 2 with its status. *)
Lemma sameEmployeeOverlap_first_match_witness :
  let w := sampleWorld "ana@corp.com" 10 [requestOfAna Pendiente ""] ∅ [] in
  exists w' : world,
    hasOverlapPendingOrApprovedSameEmployee_
      (VStr "Ana") (noon 2025 3 5) (noon 2025 3 6) (-1) w
    = (Ok (Some (2, Pendiente)), w').
Proof.
  cbv zeta.
  destruct (sameEmployeeOverlap_first_match
              (sampleWorld "ana@corp.com" 10 [requestOfAna Pendiente ""] ∅ [])
              (VStr "Ana") (noon 2025 3 5) (noon 2025 3 6) (-1))
    as (res & w' & Hrun & _).
  - unfold nextCallOk. simpl. discriminate.
  - exists w'. rewrite Hrun. f_equal. f_equal.
    apply (f_equal fst) in Hrun. vm_compute in Hrun.
    injection Hrun as <-. reflexivity.
Defined.

(** C2: the code contradicts the claim.  Beto, who does not own it, edits
    Ana's request, which is already approved: the call succeeds, moves
    the dates and resets the status to [Pendiente]. *)
Theorem apiEditRequest_checks_nothing :
  let w := sampleWorld "beto@corp.com" 10 [requestOfAna Aprobado "evt1"]
             calendarOfAna [] in
  let res := apiEditRequest 2 (VStr "2025-04-07") (VStr "2025-04-08") w in
  (getCell (solicitudes w) 2 2).1 = VStr "ana@corp.com" /\
  (getCell (solicitudes w) 2 6).1 = VStr Aprobado /\
  res.1 = Ok () /\
  (getCell (solicitudes res.2) 2 4).1 = noon 2025 4 7 /\
  (getCell (solicitudes res.2) 2 5).1 = noon 2025 4 8 /\
  (getCell (solicitudes res.2) 2 6).1 = VStr Pendiente.
Proof. vm_compute. repeat split. Qed.

(** C3: the code contradicts the claim and its own header comment.  The
    manager, who does not own it, cancels Ana's pending request: the call
    fails with the permission error and the status stays [Pendiente]. *)
Theorem apiCancelRequest_refuses_manager :
  let w := sampleWorld "jefa@corp.com" 10 [requestOfAna Pendiente ""] ∅ [] in
  let res := apiCancelRequest 2 w in
  activeUser w ∈ managerRoster w /\
  res.1 = Throw "Request not found or permission denied." /\
  solicitudes res.2 = solicitudes w.
Proof.
  cbv zeta. split; [apply (bool_decide_unpack _); vm_compute; exact I|].
  vm_compute. split; reflexivity.
Qed.

(** C4, at a concrete table: Ana has 3 days left and asks for 5; the
    approval is refused with the message quoting both, and the exception
    approval of the same request goes through. *)
Lemma decision_balance_check_witness :
  let w := sampleWorld "jefa@corp.com" 3 [requestOfAna Pendiente ""] ∅ [] in
  (exists w' : world,
     apiProcessRequest 2 Aprobado w
     = (Throw (insufficientBalanceMsg (Some 3) 5), w') /\
     solicitudes w' = solicitudes w) /\
  (exists w' : world,
     apiProcessRequest 2 AprobadoExcepcion w = (Ok (), w') /\
     (getCell (solicitudes w') 2 6).1 = VStr AprobadoExcepcion).
Proof.
  cbv zeta.
  destruct (decision_balance_check
              (sampleWorld "jefa@corp.com" 3 [requestOfAna Pendiente ""] ∅ []) 2)
    as (_ & Hrefuse & Hexception).
  - reflexivity.
  - apply (bool_decide_unpack _). vm_compute. exact I.
  - lia.
  - split.
    + destruct Hrefuse as (w' & Hrun & Hs & _); [reflexivity|].
      exists w'. split; [exact Hrun|exact Hs].
    + destruct (Hexception 1741003200000 1741348800000) as (w' & Hrun & Hst);
        [reflexivity|reflexivity|vm_compute; discriminate|].
      exists w'. split; [exact Hrun|exact Hst].
Defined.



(** C7 as stated fails: Ana's approved request holds the reference
    "gone", which no longer identifies a calendar event.  The reference
    exists, yet nothing is updated: a new event is created under the id
    "0" and that id replaces the stored reference. *)
Lemma handleEstadoChange_recreates_stale_event :
  let w := sampleWorld "jefa@corp.com" 10 [requestOfAna Aprobado "gone"] ∅ [] in
  let res := handleEstadoChange_ SHEET_SOLICITUDES 2 (VStr Pendiente) w in
  truthy (getCell (solicitudes w) 2 8).1 = true /\
  res.1 = Ok () /\
  calendar res.2 !! "gone" = None /\
  (getCell (solicitudes res.2) 2 8).1 = VStr "0" /\
  calendar res.2 !! "0"
  = Some (Event "Vacations: Ana" (days_from_civil 2025 2 3 * MS_PER_DAY)
                (days_from_civil 2025 2 8 * MS_PER_DAY)).
Proof. vm_compute. repeat split. Qed.

(** C7 (amended), at a concrete table: Ana's approved request for
    2025-03-03 to 2025-03-07 has no event yet; the side effect creates
    the event from 2025-03-03 to 2025-03-08 (exclusive) and stores its
    id. *)
Lemma handleEstadoChange_calendar_event_witness :
  let w := sampleWorld "jefa@corp.com" 10 [requestOfAna Aprobado ""] ∅ [] in
  exists (w' : world) (id : string),
    handleEstadoChange_ SHEET_SOLICITUDES 2 (VStr Pendiente) w = (Ok (), w') /\
    calendar w' = {[ id := Event "Vacations: Ana"
                             (days_from_civil 2025 2 3 * MS_PER_DAY)
                             (days_from_civil 2025 2 8 * MS_PER_DAY) ]} /\
    (getCell (solicitudes w') 2 8).1 = VStr id.
Proof.
  cbv zeta.
  destruct (handleEstadoChange_calendar_event
              (sampleWorld "jefa@corp.com" 10 [requestOfAna Aprobado ""] ∅ [])
              2 (VStr Pendiente) 1741003200000 1741348800000)
    as (w' & id & title & Hrun & Hcal & _ & Htitle & _ & Hnew).
  - reflexivity.
  - lia.
  - left. reflexivity.
  - reflexivity.
  - reflexivity.
  - vm_compute. discriminate.
  - exists w', id. split; [exact Hrun|].
    destruct Hnew as (_ & _ & Hcell); [reflexivity|].
    split; [|exact Hcell].
    rewrite Hcal, Htitle by reflexivity. reflexivity.
Defined.

(** C8 as stated fails: Ana cancels her pending request, which holds the
    reference "evt1", and the deletion of the calendar event throws.  The
    status becomes [Cancelado], but the reference is still there. *)
Lemma cancel_keeps_reference_when_deletion_fails :
  let w := sampleWorld "ana@corp.com" 10 [requestOfAna Pendiente "evt1"]
             calendarOfAna [false; false; false; false; true] in
  let res := apiCancelRequest 2 w in
  res.1 = Ok () /\
  (getCell (solicitudes res.2) 2 6).1 = VStr Cancelado /\
  (getCell (solicitudes res.2) 2 8).1 = VStr "evt1" /\
  (getCell (solicitudes res.2) 2 8).1 <> blank.
Proof. vm_compute. repeat split. discriminate. Qed.

(** C8 (amended), at a concrete table: without failures the reference is
    cleared and the event deleted; when the event lookup throws, the
    reference stays. *)
Lemma cancel_event_reference_witness :
  (exists w' : world,
     apiCancelRequest 2 (sampleWorld "ana@corp.com" 10 [requestOfAna Pendiente "evt1"]
                           calendarOfAna [false; false]) = (Ok (), w') /\
     (getCell (solicitudes w') 2 8).1 = blank /\ calendar w' = ∅) /\
  (exists w' : world,
     apiCancelRequest 2 (sampleWorld "ana@corp.com" 10 [requestOfAna Pendiente "evt1"]
                           calendarOfAna [false; false; false; true]) = (Ok (), w') /\
     (getCell (solicitudes w') 2 8).1 = VStr "evt1").
Proof.
  split.
  - destruct (cancel_event_reference
                (sampleWorld "ana@corp.com" 10 [requestOfAna Pendiente "evt1"]
                   calendarOfAna [false; false])
                2 (map fst (requestOfAna Pendiente "evt1")) [])
      as [Hclear _]; try reflexivity; try lia.
    + left. reflexivity.
    + destruct Hclear as (w' & Hrun & _ & Href & Hcal); [reflexivity|].
      exists w'. split; [exact Hrun|]. split; [exact Href|].
      rewrite Hcal. vm_compute. reflexivity.
  - destruct (cancel_event_reference
                (sampleWorld "ana@corp.com" 10 [requestOfAna Pendiente "evt1"]
                   calendarOfAna [false; false; false; true])
                2 (map fst (requestOfAna Pendiente "evt1")) [false; true])
      as [_ Hkeep]; try reflexivity; try lia.
    + left. reflexivity.
    + destruct Hkeep as (w' & Hrun & _ & Href & _).
      * right. left. reflexivity.
      * exists w'. split; [exact Hrun|exact Href].
Defined.

(** C9: the code contradicts the claim.  The manager's decision reads and
    writes both tables without ever taking the script lock, while the
    cancellation of the same request by its owner makes every table
    access under the lock, releases it at the end, and reports a lock
    time-out as "Server busy." (see [siblings_hold_the_lock] for Create,
    Edit and Cancel in general). *)
Theorem apiProcessRequest_takes_no_lock :
  let decided := apiProcessRequest 2 Aprobado
                   (sampleWorld "jefa@corp.com" 10 [requestOfAna Pendiente ""] ∅ []) in
  let cancelled := apiCancelRequest 2
                     (sampleWorld "ana@corp.com" 10 [requestOfAna Pendiente ""] ∅ []) in
  let timedOut := apiCancelRequest 2
                    (sampleWorld "ana@corp.com" 10 [requestOfAna Pendiente ""] ∅ [true]) in
  decided.1 = Ok () /\
  (getCell (solicitudes decided.2) 2 6).1 = VStr Aprobado /\
  unlockedAccesses decided.2 = 18%nat /\
  cancelled.1 = Ok () /\
  unlockedAccesses cancelled.2 = 0%nat /\
  lockHeld cancelled.2 = false /\
  timedOut.1 = Throw "Server busy.".
Proof. vm_compute. repeat split. Qed.

(** The end-to-end scenario of the specification: Ana (allowance 10, used
    0) asks for Monday 2025-03-03 to Friday 2025-03-07, which is 5
    business days, clean and pending; the manager approves; the event
    spans 2025-03-03 to 2025-03-08 (exclusive) and Ana's used days are 5. *)
Example end_to_end_scenario :
  let created := apiCreateRequest (VStr "2025-03-03") (VStr "2025-03-07")
                   (sampleWorld "ana@corp.com" 10 [] ∅ []) in
  let approved := apiProcessRequest 2 Aprobado
                    (sampleWorld "jefa@corp.com" 10
                       (drop 1 (solicitudes created.2)) ∅ []) in
  created.1 = Ok (RowOutcome (SendResult true None) (SendResult true None)) /\
  (getCell (solicitudes created.2) 2 6).1 = VStr Pendiente /\
  (getCell (solicitudes created.2) 2 7).1 = VNum 5 /\
  approved.1 = Ok () /\
  (getCell (solicitudes approved.2) 2 6).1 = VStr Aprobado /\
  map_to_list (calendar approved.2)
  = [("0", Event "Vacations: Ana" (days_from_civil 2025 2 3 * MS_PER_DAY)
                 (days_from_civil 2025 2 8 * MS_PER_DAY))] /\
  (getCell (empleados approved.2) 2 5).1 = VNum 5.
Proof. vm_compute. repeat split. Qed.

(** Row processing that fails part-way: the sixth service call, made
    after the business days are stored, throws.  The request is in the
    table and Create reports success, with no notification sent. *)
Example create_succeeds_when_row_processing_fails :
  let created := apiCreateRequest (VStr "2025-03-05") (VStr "2025-03-06")
                   (sampleWorld "ana@corp.com" 10 [] ∅
                      [false; false; false; false; false; true]) in
  created.1 = Ok (RowOutcome notSent notSent) /\
  (getCell (solicitudes created.2) 2 3).1 = VStr "Ana" /\
  (getCell (solicitudes created.2) 2 7).1 = VNum 2 /\
  outbox created.2 = [].
Proof. vm_compute. repeat split. Qed.


(** ** The further properties, at concrete inputs *)

(** Two whole weeks from Wednesday 2025-03-05 hold ten business days. *)
Lemma countBusinessDays_whole_weeks_witness :
  countBusinessDays_ (noon 2025 3 5) (noon 2025 3 18) = 10.
Proof.
  apply (countBusinessDays_whole_weeks 1741176000000 1742299200000 2).
  reflexivity.
Defined.

(** Monday to Friday, then Saturday to the next Friday, add up to the
    count from the first Monday to the last Friday. *)
Lemma countBusinessDays_splits_witness :
  countBusinessDays_ (noon 2025 3 3) (noon 2025 3 7)
  + countBusinessDays_ (noon 2025 3 8) (noon 2025 3 14)
  = countBusinessDays_ (noon 2025 3 3) (noon 2025 3 14).
Proof.
  destruct (countBusinessDays_splits 1741003200000 1741348800000 1741435200000
              1741953600000) as [Hsum _].
  - vm_compute. discriminate.
  - reflexivity.
  - vm_compute. discriminate.
  - exact Hsum.
Defined.

(** A blank start date counts for nothing, and so does an end date that
    is no date: in both cases the loop makes no turn. *)
Lemma countBusinessDays_without_dates_witness :
  (countBusinessDays_fuel 1 (VStr "") (noon 2025 3 3) = Some 0 /\
   countBusinessDays_ (VStr "") (noon 2025 3 3) = 0) /\
  (countBusinessDays_fuel 1 (noon 2025 3 3) (VDate None) = Some 0 /\
   countBusinessDays_ (noon 2025 3 3) (VDate None) = 0).
Proof.
  split.
  - destruct (countBusinessDays_without_dates (VStr "") (noon 2025 3 3))
      as [Hfuel Hzero].
    + left. reflexivity.
    + split; [apply Hfuel|exact Hzero].
  - destruct (countBusinessDays_without_dates (noon 2025 3 3) (VDate None))
      as [Hfuel Hzero].
    + right. right. right. reflexivity.
    + split; [apply Hfuel|exact Hzero].
Defined.

(** Five creations pass from an empty counter, and fill it. *)
Lemma checkRateLimit_quota_witness :
  let w := sampleWorld "ana@corp.com" 10 [] ∅ [] in
  exists w' : world,
    callTimes 5 (checkRateLimit_ "ana@corp.com" "create_request") w = (Ok (), w') /\
    default 0 (userCache w' !! rateKey "create_request" "ana@corp.com") = 5.
Proof.
  cbv zeta.
  destruct (checkRateLimit_quota "ana@corp.com" "create_request" 5 3600 5 eq_refl
              (sampleWorld "ana@corp.com" 10 [] ∅ [])) as [Hpass _].
  destruct Hpass as (w' & Hrun & Hcount & _).
  - vm_compute. discriminate.
  - exists w'. split; [exact Hrun|]. rewrite Hcount. reflexivity.
Defined.

(** The roster of the sample world, read from the sheet, holds the
    manager. *)
Lemma getManagerEmails_roster_witness :
  let w := sampleWorld "ana@corp.com" 10 [] ∅ [] in
  exists (l : list string) (w' : world),
    getManagerEmails_ w = (Ok l, w') /\ NoDup l /\ "jefa@corp.com" ∈ l /\
    scriptCache w' = Some l.
Proof.
  cbv zeta.
  destruct (getManagerEmails_roster (sampleWorld "ana@corp.com" 10 [] ∅ []))
    as (l & w' & Hrun & Hnd & Hin & Hcache & _).
  - reflexivity.
  - unfold nextCallOk. simpl. discriminate.
  - exists l, w'. split; [exact Hrun|]. split; [exact Hnd|]. split.
    + apply Hin. split; [discriminate|]. split; [vm_compute; reflexivity|].
      exists 2%nat. split; [vm_compute; lia|]. reflexivity.
    + apply Hcache. vm_compute. lia.
Defined.

(** Ana, who is not a manager, cannot decide on her own request. *)
Lemma apiProcessRequest_unauthorized_witness :
  let w := sampleWorld "ana@corp.com" 10 [requestOfAna Pendiente ""] ∅ [] in
  exists w' : world,
    apiProcessRequest 2 Aprobado w
    = (Throw "Unauthorized: Only managers can perform this action.", w') /\
    solicitudes w' = solicitudes w.
Proof.
  cbv zeta.
  destruct (apiProcessRequest_unauthorized 2 Aprobado
              (sampleWorld "ana@corp.com" 10 [requestOfAna Pendiente ""] ∅ []))
    as (msg & w' & Hrun & Hsame & Hmsg).
  - apply (bool_decide_unpack _). vm_compute. exact I.
  - exists w'. rewrite Hmsg in Hrun.
    + split; [exact Hrun|]. apply Hsame.
    + right. unfold nextCallOk. simpl. discriminate.
Defined.

(** A request for 2025-01-20, sent as text and, again, as a date, made on
    2025-02-01, is turned down. *)
Lemma apiCreateRequest_past_date_witness :
  let w := sampleWorld "ana@corp.com" 10 [] ∅ [false; false] in
  (exists w' : world,
     apiCreateRequest (VStr "2025-01-20") (VStr "2025-01-21") w
     = (Throw "Cannot request vacation for past dates.", w') /\
     solicitudes w' = solicitudes w /\ lockHeld w' = false) /\
  (exists w' : world,
     apiCreateRequest (noon 2025 1 20) (noon 2025 1 21) w
     = (Throw "Cannot request vacation for past dates.", w') /\
     solicitudes w' = solicitudes w /\ lockHeld w' = false).
Proof.
  cbv zeta. split.
  - destruct (apiCreateRequest_past_date
                (sampleWorld "ana@corp.com" 10 [] ∅ [false; false])
                (VStr "2025-01-20") (VStr "2025-01-21") [])
      as (w' & Hrun & Hsame & Hlock).
    + vm_compute. reflexivity.
    + reflexivity.
    + left. eexists. split; [vm_compute; reflexivity|]. vm_compute. reflexivity.
    + exists w'. split; [exact Hrun|]. split; [apply Hsame|exact Hlock].
  - destruct (apiCreateRequest_past_date
                (sampleWorld "ana@corp.com" 10 [] ∅ [false; false])
                (noon 2025 1 20) (noon 2025 1 21) [])
      as (w' & Hrun & Hsame & Hlock).
    + vm_compute. reflexivity.
    + reflexivity.
    + left. eexists. split; [vm_compute; reflexivity|]. vm_compute. reflexivity.
    + exists w'. split; [exact Hrun|]. split; [apply Hsame|exact Hlock].
Defined.

(** Ana asks for days inside her Pending request: a duplicate. *)
Lemma apiCreateRequest_duplicate_witness :
  let w := sampleWorld "ana@corp.com" 10 [requestOfAna Pendiente ""] ∅
             [false; false; false] in
  exists w' : world,
    apiCreateRequest (noon 2025 3 5) (noon 2025 3 6) w
    = (Throw "You already have a request for these dates.", w') /\
    solicitudes w' = solicitudes w /\ lockHeld w' = false.
Proof.
  cbv zeta.
  destruct (apiCreateRequest_duplicate
              (sampleWorld "ana@corp.com" 10 [requestOfAna Pendiente ""] ∅
                 [false; false; false])
              (noon 2025 3 5) (noon 2025 3 6) [] 1)
    as (w' & Hrun & Hsame & Hlock).
  - vm_compute. reflexivity.
  - reflexivity.
  - vm_compute. reflexivity.
  - split; [lia|]. split; [lia|].
    exists (map fst (requestOfAna Pendiente "")).
    split; [reflexivity|]. split; [vm_compute; reflexivity|].
    split; vm_compute; reflexivity.
  - exists w'. split; [exact Hrun|]. split; [apply Hsame|exact Hlock].
Defined.

(** The manager rejects Ana's approved request: the event goes, the
    reference is cleared and Ana is told. *)
Lemma apiProcessRequest_rejection_witness :
  let w := sampleWorld "jefa@corp.com" 10 [requestOfAna Aprobado "evt1"]
             calendarOfAna [] in
  exists w' : world,
    apiProcessRequest 2 "Rechazado" w = (Ok (), w') /\
    (getCell (solicitudes w') 2 6).1 = VStr "Rechazado" /\
    (getCell (solicitudes w') 2 8).1 = blank /\
    calendar w' = ∅ /\
    outbox w' = [Mail "ana@corp.com" "Request Rechazado" "Request Rechazado" ""].
Proof.
  cbv zeta.
  destruct (apiProcessRequest_rejection
              (sampleWorld "jefa@corp.com" 10 [requestOfAna Aprobado "evt1"]
                 calendarOfAna []) 2 "Rechazado")
    as (w' & Hrun & Hst & _ & Hev & Hout & _).
  - reflexivity.
  - apply (bool_decide_unpack _). vm_compute. exact I.
  - lia.
  - discriminate.
  - discriminate.
  - exists w'. split; [exact Hrun|]. split; [exact Hst|].
    destruct Hev as [Hcell Hcal]. split; [exact Hcell|].
    split; [rewrite Hcal; vm_compute; reflexivity|]. rewrite Hout. reflexivity.
Defined.


(** The reference sort is an insertion sort: it permutes its rows. *)
Lemma refInsert_perm (col : nat) (r : list cell) (l : list (list cell)) :
  refInsert col r l ≡ₚ r :: l.
Proof.
  induction l as [|x l IH]; cbn [refInsert]; [reflexivity|].
  destruct (refKeyLe _ _); [|reflexivity].
  rewrite IH. apply Permutation_swap.
Qed.

Lemma refSort_perm (col : nat) (l : list (list cell)) : refSort col l ≡ₚ l.
Proof.
  unfold refSort.
  assert (Hgen : forall acc : list (list cell),
            foldl (fun acc0 r => refInsert col r acc0) acc l ≡ₚ acc ++ l).
  { induction l as [|x l IH]; intros acc; cbn [foldl].
    - rewrite app_nil_r. reflexivity.
    - rewrite IH, refInsert_perm. cbn [app]. apply Permutation_middle. }
  apply (Hgen []).
Qed.

(** A later request filed above an earlier one: the sort keeps both rows
    and the header. *)
Lemma sortSolicitudes_keeps_rows_witness :
  let late := plainRow [noon 2025 2 1; VStr "beto@corp.com"; VStr "Beto"; noon 2025 4 7;
                        noon 2025 4 8; VStr Pendiente; VNum 2; VStr ""] in
  let w := sampleWorld "ana@corp.com" 10 [late; requestOfAna Pendiente ""] ∅ [] in
  let w' := (sortSolicitudesByFechaInicio_ w).2 in
  solicitudes w' ≡ₚ solicitudes w /\
  solicitudes w' !! 0%nat = Some hdrSolicitudes /\
  solicitudes w' !! 1%nat = Some (requestOfAna Pendiente "").
Proof.
  cbv zeta.
  destruct (@sortSolicitudes_keeps_rows refHost
              (sampleWorld "ana@corp.com" 10
                 [plainRow [noon 2025 2 1; VStr "beto@corp.com"; VStr "Beto"; noon 2025 4 7;
                            noon 2025 4 8; VStr Pendiente; VNum 2; VStr ""];
                  requestOfAna Pendiente ""] ∅ []) refSort_perm)
    as (Hperm & Hhdr & _).
  split; [exact Hperm|]. split; [rewrite Hhdr; reflexivity|].
  vm_compute. reflexivity.
Defined.

(** A request that ends before it starts is flagged and nothing else. *)
Lemma processRequestRow_invalid_data_witness :
  let backwards := plainRow [noon 2025 2 1; VStr "ana@corp.com"; VStr "Ana"; noon 2025 3 7;
                             noon 2025 3 3; VStr Pendiente; VStr ""; VStr ""] in
  let w := sampleWorld "ana@corp.com" 10 [backwards] ∅ [] in
  exists w' : world,
    processRequestRow_ SHEET_SOLICITUDES 2 w = (Ok (RowOutcome notSent notSent), w') /\
    getCell (solicitudes w') 2 6 = (VStr Pendiente, "Invalid Data") /\
    (getCell (solicitudes w') 2 7).1 = blank /\ outbox w' = [].
Proof.
  cbv zeta.
  destruct (processRequestRow_invalid_data
              (sampleWorld "ana@corp.com" 10
                 [plainRow [noon 2025 2 1; VStr "ana@corp.com"; VStr "Ana"; noon 2025 3 7;
                            noon 2025 3 3; VStr Pendiente; VStr ""; VStr ""]] ∅ []) 2)
    as (w' & Hrun & Hnote & Hst & Hcells & _ & _ & Hout).
  - unfold nextCallOk. simpl. discriminate.
  - lia.
  - vm_compute. reflexivity.
  - exists w'. split; [exact Hrun|]. split; [|split].
    + apply injective_projections; [exact Hst|exact Hnote].
    + rewrite Hcells by (lia || (intros [_ ?]; lia)). reflexivity.
    + exact Hout.
Defined.

(** Beto asks for days in the week Ana, of the same team, is away. *)
Lemma hasTeamOverlap_first_match_witness :
  let w := sampleWorld "beto@corp.com" 10 [requestOfAna Aprobado "evt1"]
             calendarOfAna [] in
  exists w' : world,
    hasTeamOverlapPendingOrApproved_ (VStr "Beto") (noon 2025 3 5) (noon 2025 3 6) (-1) w
    = (Ok (Some (TeamConflict 2 "Ana" Aprobado (VStr "Ventas"))), w') /\
    solicitudes w' = solicitudes w.
Proof.
  cbv zeta.
  destruct (hasTeamOverlap_first_match
              (sampleWorld "beto@corp.com" 10 [requestOfAna Aprobado "evt1"]
                 calendarOfAna [])
              (VStr "Beto") (noon 2025 3 5) (noon 2025 3 6) (-1) eq_refl)
    as (res & w' & Hrun & Hsame & _ & Hres).
  specialize (Hres eq_refl). destruct res as [c|].
  - destruct Hres as (i & row & Hi & _ & Hbefore & ->).
    destruct i as [|i].
    + injection Hi as <-. exists w'. split; [exact Hrun|apply Hsame].
    + exfalso. specialize (Hbefore 0%nat _ ltac:(lia) eq_refl).
      vm_compute in Hbefore. discriminate.
  - exfalso. specialize (Hres 0%nat _ eq_refl). vm_compute in Hres. discriminate.
Defined.

(** Beto's balance, looked up by his e-mail in capitals. *)
Lemma getEmployeeTotals_first_match_witness :
  let w := sampleWorld "beto@corp.com" 10 [] ∅ [] in
  exists (t : totals) (w' : world),
    getEmployeeTotals_ (VStr "BETO@corp.com") w = (Ok t, w') /\
    t = Totals (Some 10) (Some 0) (Some 10) 3.
Proof.
  cbv zeta.
  destruct (getEmployeeTotals_first_match (sampleWorld "beto@corp.com" 10 [] ∅ [])
              (VStr "BETO@corp.com"))
    as (t & w' & Hrun & _ & Hspec).
  - unfold nextCallOk. simpl. discriminate.
  - exists t, w'. split; [exact Hrun|].
    destruct Hspec as [[_ Hnone]|(r & Hr & Hrow & Hm & Hbefore & Ht & Hu & Hrem)].
    + exfalso. specialize (Hnone 3%nat ltac:(vm_compute; lia)).
      vm_compute in Hnone. discriminate.
    + assert (r = 3%nat) as ->.
      { destruct (decide (r = 2%nat)) as [->|Hne].
        - vm_compute in Hm. discriminate.
        - change (getLastRow _) with 3%nat in Hr. lia. }
      destruct t as [tt tu tr trow]. cbn [total usados remaining totals_row] in *.
      rewrite Hrem, Ht, Hu, Hrow. vm_compute. reflexivity.
Defined.

(** Create, on a world whose lock is free, ends with the lock free and
    no table access made without it. *)
Lemma siblings_hold_the_lock_witness :
  let w := sampleWorld "ana@corp.com" 10 [] ∅ [] in
  lockHeld (apiCreateRequest (noon 2025 3 3) (noon 2025 3 7) w).2 = false /\
  unlockedAccesses (apiCreateRequest (noon 2025 3 3) (noon 2025 3 7) w).2 = 0%nat.
Proof.
  cbv zeta.
  destruct (siblings_hold_the_lock (sampleWorld "ana@corp.com" 10 [] ∅ []) eq_refl)
    as (Hcreate & _ & _).
  destruct (Hcreate (noon 2025 3 3) (noon 2025 3 7)) as [Hacc Hlock].
  split; [exact Hlock|exact Hacc].
Defined.

(** Beto cannot cancel Ana's request; Ana cannot cancel it once it is
    approved. *)
Lemma apiCancelRequest_guards_witness :
  (exists w' : world,
     apiCancelRequest 2 (sampleWorld "beto@corp.com" 10 [requestOfAna Pendiente ""] ∅
                           [false; false])
     = (Throw "Request not found or permission denied.", w')) /\
  (exists w' : world,
     apiCancelRequest 2 (sampleWorld "ana@corp.com" 10 [requestOfAna Aprobado "evt1"]
                           calendarOfAna [false; false])
     = (Throw "Cannot cancel request with status: Aprobado", w')).
Proof.
  split.
  - destruct (apiCancelRequest_guards
                (sampleWorld "beto@corp.com" 10 [requestOfAna Pendiente ""] ∅
                   [false; false])
                2 (map fst (requestOfAna Pendiente "")) [])
      as [Hother _]; try reflexivity; try lia.
    destruct Hother as (w' & Hrun & _); [vm_compute; discriminate|].
    exists w'. exact Hrun.
  - destruct (apiCancelRequest_guards
                (sampleWorld "ana@corp.com" 10 [requestOfAna Aprobado "evt1"]
                   calendarOfAna [false; false])
                2 (map fst (requestOfAna Aprobado "evt1")) [])
      as [_ Howner]; try reflexivity; try lia.
    destruct Howner as (w' & Hrun & _);
      [vm_compute; reflexivity|vm_compute; discriminate|vm_compute; discriminate|].
    exists w'. exact Hrun.
Defined.


(** Ana's dashboard lists her request, under its row number. *)
Lemma getDashboardData_own_requests_witness :
  let w := sampleWorld "ana@corp.com" 10 [requestOfAna Pendiente ""] ∅ [] in
  exists (d : dashboard) (w' : world),
    @getDashboardData refHost refDateFormat w = (Ok d, w') /\
    exists q : myRequest, q ∈ db_requests d /\ mr_id q = 2.
Proof.
  cbv zeta.
  destruct (@getDashboardData refHost refDateFormat
              (sampleWorld "ana@corp.com" 10 [requestOfAna Pendiente ""] ∅ []))
    as [[d|e] w'] eqn:Hrun.
  - exists d, w'. split; [reflexivity|].
    destruct (@getDashboardData_own_requests refHost refDateFormat _ _ _ Hrun)
      as (_ & _ & Hall).
    apply (Hall 1%nat (map fst (requestOfAna Pendiente ""))); [lia|reflexivity|].
    vm_compute. reflexivity.
  - exfalso. vm_compute in Hrun. discriminate.
Defined.


(** The text of 2025-03-05, with a time part, is read as its noon. *)
Lemma parseDateToNoon_iso_witness :
  parseDateToNoon_ (VStr "2025-03-05T08:30:00") = noon 2025 3 5.
Proof.
  pose proof (parseDateToNoon_iso 2 0 2 5 0 3 0 5 "T08:30:00"
                ltac:(lia) ltac:(lia) ltac:(lia) ltac:(lia)
                ltac:(lia) ltac:(lia) ltac:(lia) ltac:(lia)) as Hnoon.
  exact Hnoon.
Defined.

(** Ana's request, the only one of the table, is acknowledged to her and
    announced to the manager. *)
Lemma processRequestRow_notifications_witness :
  let w := sampleWorld "ana@corp.com" 10 [requestOfAna Pendiente ""] ∅ [] in
  exists w' : world,
    processRequestRow_ SHEET_SOLICITUDES 2 w
    = (Ok (RowOutcome (SendResult true None) (SendResult true None)), w') /\
    outbox w' = [Mail "ana@corp.com" "Request Received" "Request Received" "";
                 Mail "jefa@corp.com" "[Vacation] New Request - Ana"
                      "New Vacation Request" ""].
Proof.
  cbv zeta.
  destruct (processRequestRow_notifications
              (sampleWorld "ana@corp.com" 10 [requestOfAna Pendiente ""] ∅ []) 2)
    as (out & w' & Hrun & _ & _ & _ & Hclean).
  - reflexivity.
  - lia.
  - vm_compute. reflexivity.
  - destruct Hclean as [Hout Hbox].
    + intros [|i] rowv Hi.
      * vm_compute in Hi. injection Hi as <-. vm_compute. reflexivity.
      * vm_compute in Hi. destruct i; discriminate.
    + intros [|i] rowv Hi.
      * vm_compute in Hi. injection Hi as <-. vm_compute. reflexivity.
      * vm_compute in Hi. destruct i; discriminate.
    + exists w'. rewrite Hout in Hrun. split; [exact Hrun|].
      rewrite Hbox. vm_compute. reflexivity.
Defined.


(** Ana's request for the week of 2025-03-03 is in the table after the
    call. *)
Lemma apiCreateRequest_files_request_witness :
  let w := sampleWorld "ana@corp.com" 10 [] ∅ [] in
  exists (out : rowOutcome) (w' : world),
    apiCreateRequest (noon 2025 3 3) (noon 2025 3 7) w = (Ok out, w') /\
    holdsRequest (VStr "ana@corp.com") (VStr "Ana") (noon 2025 3 3) (noon 2025 3 7)
      (solicitudes w').
Proof.
  cbv zeta.
  destruct (apiCreateRequest (noon 2025 3 3) (noon 2025 3 7)
              (sampleWorld "ana@corp.com" 10 [] ∅ [])) as [[out|e] w'] eqn:Hrun.
  - exists out, w'. split; [reflexivity|].
    destruct (@apiCreateRequest_files_request refHost _ _ _ _ _ refSort_perm Hrun)
      as [Hheld _].
    exact Hheld.
  - exfalso. vm_compute in Hrun. discriminate.
Defined.


(** Ana moves her request to 2025-04-07 and 08: the table holds it with
    the new dates. *)
Lemma apiEditRequest_files_dates_witness :
  let w := sampleWorld "ana@corp.com" 10 [requestOfAna Pendiente ""] ∅ [] in
  exists w' : world,
    apiEditRequest 2 (noon 2025 4 7) (noon 2025 4 8) w = (Ok (), w') /\
    holdsRequest (VStr "ana@corp.com") (VStr "Ana") (noon 2025 4 7) (noon 2025 4 8)
      (solicitudes w').
Proof.
  cbv zeta.
  destruct (apiEditRequest 2 (noon 2025 4 7) (noon 2025 4 8)
              (sampleWorld "ana@corp.com" 10 [requestOfAna Pendiente ""] ∅ []))
    as [[[]|e] w'] eqn:Hrun.
  - exists w'. split; [reflexivity|].
    destruct (@apiEditRequest_files_dates refHost _ _ _ _ _ refSort_perm Hrun)
      as [Hheld _].
    exact Hheld.
  - exfalso. vm_compute in Hrun. discriminate.
Defined.

End Samples.
